(** * pymer4: the models [Lm], [Lm2] and [Lmer]

    A shallow embedding of [pymer4/models.py] (the classes [Lm] and [Lm2]
    of ordinary least squares, and [fit] and [summary] of the mixed
    models [Lmer]) and the properties its specification states about
    them.

    Conventions of the embedding.
    - Floating point values are read as the rationals they denote ([Q]);
      the arithmetic the methods do themselves is exact.
    - A method is a function on a world: the object it mutates, the state
      of numpy's global random generator and the log of what the call
      printed, warned about and dispatched to worker pools.  A raised
      exception keeps the world as the method left it, as in Python.
    - Functions of numpy, scipy, pandas, patsy and joblib, and the helpers
      of [pymer4.utils] and [pymer4.stats] whose text is not part of
      [models.py], are the fields of an environment [Env]; what R returns
      to [Lmer] through rpy2 is read from an environment [REnv]. *)

From Stdlib Require Import ZArith QArith Qround Qabs List String Ascii Bool Lia.
From Stdlib Require Import DecimalString.
From Stdlib Require Lqa.
Import ListNotations.

Local Open Scope Z_scope.

(** ** Python values *)

(** Python's [str(n)] for an integer. *)
Definition str_of_Z (z : Z) : string := NilZero.string_of_int (Z.to_int z).

Infix "+++" := String.append (at level 60, right associativity).

(** The [robust] argument is a [bool] or a [str]. *)
Inductive robust_arg : Type :=
| RBool (b : bool)
| RStr (s : string).

(** [to_corrs] of [Lm2.fit] is a [bool] or a [str] as well. *)
Inductive corrs_arg : Type :=
| TBool (b : bool)
| TStr (s : string).

(** [weights] is [None], a column name, or an array of weights. *)
Inductive weights_arg : Type :=
| WNone
| WCol (name : string)
| WArr (w : list Q).

(** Truth value testing ([if x:]). *)
Definition truthy_str (s : string) : bool := negb (s =? EmptyString)%string.

Definition truthy_robust (r : robust_arg) : bool :=
  match r with
  | RBool b => b
  | RStr s => truthy_str s
  end.

Definition truthy_corrs (r : corrs_arg) : bool :=
  match r with
  | TBool b => b
  | TStr s => truthy_str s
  end.

Definition truthy_int (p : option Z) : bool :=
  match p with
  | Some z => negb (z =? 0)
  | None => false
  end.

(** Exceptions the two classes raise or let through. *)
Inductive exn : Type :=
| ValueError (msg : string)
| TypeError (msg : string)
| KeyError (key : string)
| IndexError (msg : string)
| AttributeError (msg : string)
| NotImplementedError (msg : string)
| RuntimeError (msg : string)
| Raised (callee : string).

Inductive Result (A : Type) : Type :=
| Ok (a : A)
| Raise (e : exn).
Arguments Ok {A} a.
Arguments Raise {A} e.

(** ** Tables *)

(** A table cell: a number, a string or a missing value. *)
Inductive cell : Type :=
| Num (q : Q)
| Str (s : string)
| NaN.

Definition column := list cell.

(** A pandas data frame with the default row index: named columns in
    order. *)
Definition DataFrame := list (string * column).

(** A table of results: a frame and the labels of its rows. *)
Record Table : Type := {
  index : list string;
  cols : DataFrame
}.

Definition cell_eqb (a b : cell) : bool :=
  match a, b with
  | Num p, Num q => Qeq_bool p q
  | Str s, Str t => (s =? t)%string
  | NaN, NaN => true
  | _, _ => false
  end.

Definition isna (c : cell) : bool :=
  match c with NaN => true | _ => false end.

Definition columns (df : DataFrame) : list string := map fst df.

(** [df[name]] *)
Fixpoint get_col (name : string) (df : DataFrame) : option column :=
  match df with
  | [] => None
  | (k, c) :: rest => if (k =? name)%string then Some c else get_col name rest
  end.

(** [name in df.columns] *)
Definition has_col (name : string) (df : DataFrame) : bool :=
  existsb (fun k => (k =? name)%string) (columns df).

(** [df.shape[0]] *)
Definition nrows (df : DataFrame) : nat :=
  match df with
  | [] => 0%nat
  | (_, c) :: _ => List.length c
  end.

(** [df[name] = values]: an existing column is replaced where it stands, a
    new one is added last. *)
Fixpoint set_col (name : string) (v : column) (df : DataFrame) : DataFrame :=
  match df with
  | [] => [(name, v)]
  | (k, c) :: rest =>
      if (k =? name)%string then (k, v) :: rest
      else (k, c) :: set_col name v rest
  end.

(** [df.rename(columns={old: new})] *)
Definition rename_col (old new : string) (df : DataFrame) : DataFrame :=
  map (fun kc => if (fst kc =? old)%string then (new, snd kc) else kc) df.

(** [df.drop(columns=names)] *)
Definition drop_cols (names : list string) (df : DataFrame) : DataFrame :=
  filter (fun kc => negb (existsb (fun n => (n =? fst kc)%string) names)) df.

(** [series.unique()]: the distinct values in order of first appearance. *)
Fixpoint unique (c : column) : column :=
  match c with
  | [] => []
  | x :: rest => x :: filter (fun y => negb (cell_eqb x y)) (unique rest)
  end.

(** [series.nunique()]: the number of distinct values, missing ones apart. *)
Definition nunique (c : column) : nat :=
  List.length (filter (fun x => negb (isna x)) (unique c)).

(** The numbers of a numeric column; [None] when a cell is not numeric. *)
Fixpoint numbers (c : column) : option (list Q) :=
  match c with
  | [] => Some []
  | Num q :: rest =>
      match numbers rest with
      | Some qs => Some (q :: qs)
      | None => None
      end
  | _ :: _ => None
  end.

(** [s.split("~")[0]] and [s.split("~")[-1]] *)
Fixpoint before_tilde (s : string) : string :=
  match s with
  | EmptyString => EmptyString
  | String c rest =>
      if Ascii.eqb c "~"%char then EmptyString else String c (before_tilde rest)
  end.

Fixpoint after_tilde (s : string) : string :=
  match s with
  | EmptyString => EmptyString
  | String c rest =>
      if existsb (Ascii.eqb "~"%char) (list_ascii_of_string rest)
      then after_tilde rest
      else if Ascii.eqb c "~"%char then rest else s
  end.

(** [formula.replace(' ', '')] *)
Fixpoint remove_spaces (s : string) : string :=
  match s with
  | EmptyString => EmptyString
  | String c rest =>
      if Ascii.eqb c " "%char then remove_spaces rest
      else String c (remove_spaces rest)
  end.

Definition nl : string := String (ascii_of_nat 10) EmptyString.
Definition tab : string := String (ascii_of_nat 9) EmptyString.

(** ** Grouping *)

(** The keys of [df.groupby(col)]: the distinct values of the column that
    are not missing.  pandas orders them; the sums taken over groups below
    do not depend on the order. *)
Definition group_keys (keys : column) : column :=
  filter (fun x => negb (isna x)) (unique keys).

(** [groupby(col).ngroups] *)
Definition ngroups (keys : column) : nat := List.length (group_keys keys).

(** The values of the rows whose key is [k]. *)
Definition group_rows (keys : column) (vals : list Q) (k : cell) : list Q :=
  map snd (filter (fun kv => cell_eqb k (fst kv)) (combine keys vals)).

(** [groupby(col)[dv].apply(f)]: one result for each group. *)
Definition group_apply {A : Type} (f : list Q -> A) (keys : column)
  (vals : list Q) : list A :=
  map (fun k => f (group_rows keys vals k)) (group_keys keys).

(** [groupby(col)[dv].transform(f)]: the result of a row's group at every
    row; a row without a key gets a missing value. *)
Definition group_transform (f : list Q -> Q) (keys : column) (vals : list Q)
  : column :=
  map (fun k => if isna k then NaN else Num (f (group_rows keys vals k))) keys.

(** ** Vectors *)

Definition Qsum (xs : list Q) : Q := fold_right Qplus 0%Q xs.

(** An operation on two arrays of one length, element by element; arrays
    of different lengths do not combine. *)
Fixpoint elementwise (f : Q -> Q -> Q) (xs ys : list Q) : option (list Q) :=
  match xs, ys with
  | [], [] => Some []
  | x :: xs', y :: ys' =>
      match elementwise f xs' ys' with
      | Some r => Some (f x y :: r)
      | None => None
      end
  | _, _ => None
  end.

(** Column [j] of a two-dimensional array given by its rows. *)
Definition array_col (rows : list (list Q)) (j : nat) : list Q :=
  map (fun r => nth j r 0%Q) rows.

(** [np.array(rows).shape[1]]: the common length of the rows; there is
    none without rows or when the rows differ in length. *)
Definition shape1 (rows : list (list Q)) : option nat :=
  match rows with
  | [] => None
  | r :: rest =>
      if forallb (fun r' => Nat.eqb (List.length r') (List.length r)) rest
      then Some (List.length r) else None
  end.

(** [[f x for x in xs]] for an [f] that may fail. *)
Fixpoint traverse {A B : Type} (f : A -> option B) (xs : list A)
  : option (list B) :=
  match xs with
  | [] => Some []
  | x :: rest =>
      match f x, traverse f rest with
      | Some y, Some ys => Some (y :: ys)
      | _, _ => None
      end
  end.

(** Rounding to the nearest integer, halves to the even one, and numpy's
    [round(x, 3)]. *)
Definition rint (q : Q) : Z :=
  let f := Qfloor q in
  let r := (q - inject_Z f)%Q in
  match (r ?= 1 # 2)%Q with
  | Lt => f
  | Gt => f + 1
  | Eq => if Z.even f then f else f + 1
  end.

Definition round3 (q : Q) : Q := (inject_Z (rint (q * 1000)) / 1000)%Q.

Definition round_cell (c : cell) : cell :=
  match c with
  | Num q => Num (round3 q)
  | other => other
  end.

(** [table.round(3)] *)
Definition round_table (t : Table) : Table :=
  {| index := index t;
     cols := map (fun kc => (fst kc, map round_cell (snd kc))) (cols t) |}.

(** ** Design matrices and estimates *)

(** The predictor matrix patsy builds: named columns, one row for each
    observation it keeps. *)
Record Design : Type := {
  dm_columns : list string;
  dm_rows : list (list Q)
}.

(** [x.shape[0]] and [x.shape[1]] *)
Definition n_obs (x : Design) : nat := List.length (dm_rows x).
Definition n_coef (x : Design) : nat := List.length (dm_columns x).

(** What [dmatrices] returns: the response of the rows kept, labelled by
    their position in the data, and the predictor matrix. *)
Record Matrices : Type := {
  y_index : list nat;
  y_values : list Q;
  predictors : Design
}.

(** What [_ols] returns with [all_stats=True]: [b, se, t, res]. *)
Record Estimates : Type := {
  est_b : list Q;
  est_se : list Q;
  est_t : list Q;
  est_res : list Q
}.

(** The [cluster] variable of the [fit] methods: [None], the name passed
    in, or the column of the data it was replaced with. *)
Inductive cluster_val : Type :=
| ClNone
| ClName (name : string)
| ClSeries (c : column).

Definition cluster_of_arg (c : option string) : cluster_val :=
  match c with
  | None => ClNone
  | Some s => ClName s
  end.

(** ** The environment

    The library functions and the helpers of [pymer4.utils] that the two
    classes call.  A function that may raise returns [None] when it does. *)
Module Env.

Record t : Type := {
  (** the state of numpy's global generator, and one draw of
      [np.random.randint(np.iinfo(np.int32).max)] *)
  rng : Type;
  random_draw : rng -> Z * rng;
  (** [patsy.dmatrices(formula, data, 1, return_type="dataframe")] *)
  dmatrices : string -> DataFrame -> option Matrices;
  (** [DataFrame.rank()] *)
  df_rank : DataFrame -> DataFrame;
  (** [_ols(x, y, robust, all_stats=True, n_lags, cluster, weights)] *)
  _ols : Design -> list Q -> robust_arg -> Z -> cluster_val ->
         option column -> option Estimates;
  (** [_chunk_boot_ols_coefs(dat, formula, weights, seed)] *)
  _chunk_boot_ols_coefs : DataFrame -> string -> weights_arg -> Z ->
                          option (list Q);
  (** [_chunk_perm_ols(x, y, robust, n_lags, cluster, weights, seed)] *)
  _chunk_perm_ols : Design -> list Q -> robust_arg -> Z -> cluster_val ->
                    weights_arg -> Z -> option (list Q);
  (** [_ols_group(dat, formula, group_col, group, rank)] *)
  _ols_group : DataFrame -> string -> string -> cell -> bool ->
               option (list Q);
  (** [_corr_group(dat, formula, group_col, group, rank, corr_type)] *)
  _corr_group : DataFrame -> string -> string -> cell -> bool -> corrs_arg ->
                option (list Q);
  (** [_permute_sign(data, seed, return_stat)] *)
  _permute_sign : list Q -> Z -> string -> option Q;
  (** [rsquared(y, res, has_constant)] and
      [rsquared_adj(r, nobs, df_res, has_constant)] *)
  rsquared : list Q -> list Q -> bool -> Q;
  rsquared_adj : Q -> nat -> Z -> bool -> Q;
  (** [scipy.stats.t.cdf(x, df)] and [scipy.stats.t.ppf(q, df)] *)
  t_dist_cdf : Q -> Q -> Q;
  t_dist_ppf : Q -> Q -> Q;
  (** [np.percentile(rows, q, axis=0)] *)
  np_percentile : list (list Q) -> Q -> option (list Q);
  (** [np.var(x, ddof=1)], [np.log], [np.pi], [np.arctanh] *)
  np_var : list Q -> Q;
  np_log : Q -> Q;
  np_pi : Q;
  np_arctanh : Q -> Q;
  (** ["%.3f" % x] *)
  format_3f : Q -> string
}.

End Env.

(** ** Helpers of [pymer4.utils] and [pymer4.stats] the specification
    describes *)

(** Modelled from the spec: [pymer4.utils._sig_stars], which [models.py]
    imports and whose text is not in it.  The marker of a p-value by the
    fixed thresholds: three stars below 0.001, two below 0.01, one below
    0.05, a dot below 0.1, nothing otherwise. *)
Definition _sig_stars (p : Q) : string :=
  if Qlt_le_dec p (1 # 1000) then "***"
  else if Qlt_le_dec p (1 # 100) then "**"
  else if Qlt_le_dec p (5 # 100) then "*"
  else if Qlt_le_dec p (1 # 10) then "."
  else EmptyString.

(** Modelled from the spec: the count [pymer4.utils._perm_find], whose
    text is not in [models.py], takes.  The number of statistics of a
    null distribution at least as extreme, in absolute value, as the
    observed one. *)
Definition count_extreme (arr : list Q) (x : Q) : nat :=
  List.length (filter (fun v => Qle_bool (Qabs x) (Qabs v)) arr).

(** Modelled from the spec: [pymer4.utils._perm_find], which [models.py]
    imports and whose text is not in it.  The two-sided empirical p-value
    of an observed statistic: the count of permuted statistics whose
    absolute value is at least the absolute observed one, plus one,
    divided by the number of permutations plus one. *)
Definition _perm_find (arr : list Q) (x : Q) : Q :=
  (inject_Z (Z.of_nat (count_extreme arr x) + 1)
   / inject_Z (Z.of_nat (List.length arr) + 1))%Q.

(** Modelled from the spec: [pymer4.stats._welch_ingredients], which
    [models.py] imports and whose text is not in it.  For one group, with
    [s2] the estimate of its variance and [n] its size: the summand [s2]
    of the numerator and the summand [s2^2 / (n - 1)] of the denominator
    of the Welch-Satterthwaite degrees of freedom. *)
Definition _welch_ingredients (E : Env.t) (x : list Q) : Q * Q :=
  let s2 := Env.np_var E x in
  (s2, (s2 * s2 / inject_Z (Z.of_nat (List.length x) - 1))%Q).

(** ** Worlds and methods *)

(** The pools [Lm.fit] and [Lm2.fit] hand work to. *)
Inductive resample : Type :=
| Bootstrap
| Permutation
| FirstLevel
| SignFlip.

(** What a call does besides changing its object. *)
Inductive event : Type :=
| Warn (w : string)
| Print (s : string)
| Dispatch (what : resample) (n_jobs : Z) (tasks : nat).

Record World (G S : Type) : Type := {
  self : S;
  gen : G;
  log : list event
}.
Arguments self {G S} _.
Arguments gen {G S} _.
Arguments log {G S} _.

Definition M (G S A : Type) : Type := World G S -> Result A * World G S.

Definition ret {G S A : Type} (a : A) : M G S A := fun w => (Ok a, w).

Definition raise {G S A : Type} (e : exn) : M G S A := fun w => (Raise e, w).

Definition bind {G S A B : Type} (m : M G S A) (f : A -> M G S B) : M G S B :=
  fun w =>
    match m w with
    | (Ok a, w1) => f a w1
    | (Raise e, w1) => (Raise e, w1)
    end.

Declare Scope method_scope.
Delimit Scope method_scope with method.
Notation "x <- m ;; k" := (bind m (fun x => k))
  (at level 100, m at next level, right associativity) : method_scope.
Notation "m ;; k" := (bind m (fun _ => k))
  (at level 100, right associativity) : method_scope.
Local Open Scope method_scope.

(** Read the object, change the object. *)
Definition this {G S : Type} : M G S S := fun w => (Ok (self w), w).

Definition update {G S : Type} (f : S -> S) : M G S unit :=
  fun w => (Ok tt, {| self := f (self w); gen := gen w; log := log w |}).

Definition emit {G S : Type} (ev : event) : M G S unit :=
  fun w => (Ok tt, {| self := self w; gen := gen w; log := log w ++ [ev] |}).

(** The value of a library call, or the exception it raised. *)
Definition call {G S A : Type} (callee : string) (r : option A) : M G S A :=
  match r with
  | Some a => ret a
  | None => raise (Raised callee)
  end.

(** Run a method of another object in this world's generator and log. *)
Definition within {G S T A : Type} (obj : T) (m : M G T A)
  : M G S (Result A * T) :=
  fun w =>
    let '(r, w1) := m {| self := obj; gen := gen w; log := log w |} in
    (Ok (r, self w1), {| self := self w; gen := gen w1; log := log w1 |}).

(** [n] draws from the generator. *)
Fixpoint draws (E : Env.t) (n : nat) (g : Env.rng E) : list Z * Env.rng E :=
  match n with
  | O => ([], g)
  | S k =>
      let '(z, g1) := Env.random_draw E g in
      let '(zs, g2) := draws E k g1 in
      (z :: zs, g2)
  end.

(** [np.random.randint(np.iinfo(np.int32).max, size=n)] *)
Definition randint {S : Type} (E : Env.t) (n : Z) : M (Env.rng E) S (list Z) :=
  fun w =>
    if n <? 0 then (Raise (ValueError "negative dimensions are not allowed"), w)
    else
      let '(zs, g) := draws E (Z.to_nat n) (gen w) in
      (Ok zs, {| self := self w; gen := g; log := log w |}).

(** [Parallel(n_jobs=n_jobs, backend="multiprocessing")(delayed(f)(task)
    for task in tasks)]: the results in the order of the tasks.  joblib
    refuses a pool of no workers. *)
Definition parallel {G S T A : Type} (what : resample) (callee : string)
  (n_jobs : Z) (f : T -> option A) (tasks : list T) : M G S (list A) :=
  emit (Dispatch what n_jobs (List.length tasks)) ;;
  if n_jobs =? 0
  then raise (ValueError "n_jobs == 0 in Parallel has no meaning")
  else call callee (traverse f tasks).

(** * Class [Lm] *)

Module Lm.

(** The attributes of an [Lm] object.  [model_obj] and [factors] are
    [None] throughout and left out. *)
Record t : Type := {
  family : string;
  fitted : bool;
  formula : string;
  data : DataFrame;
  AIC : option Q;
  BIC : option Q;
  logLike : option Q;
  warnings : list string;
  resid : option (list Q);
  fits : option (list Q);
  coefs : option Table;
  design_matrix : option Design;
  ci_type : option string;
  se_type : option string;
  sig_type : option string;
  ranked_data : bool;
  estimator : option string;
  rsquared : option Q;
  rsquared_adj : option Q
}.

Definition set_fitted (v : bool) (m : t) : t :=
  {| family := family m; fitted := v; formula := formula m; data := data m;
     AIC := AIC m; BIC := BIC m; logLike := logLike m;
     warnings := warnings m; resid := resid m; fits := fits m;
     coefs := coefs m; design_matrix := design_matrix m;
     ci_type := ci_type m; se_type := se_type m; sig_type := sig_type m;
     ranked_data := ranked_data m; estimator := estimator m;
     rsquared := rsquared m; rsquared_adj := rsquared_adj m |}.

Definition set_data (v : DataFrame) (m : t) : t :=
  {| family := family m; fitted := fitted m; formula := formula m; data := v;
     AIC := AIC m; BIC := BIC m; logLike := logLike m;
     warnings := warnings m; resid := resid m; fits := fits m;
     coefs := coefs m; design_matrix := design_matrix m;
     ci_type := ci_type m; se_type := se_type m; sig_type := sig_type m;
     ranked_data := ranked_data m; estimator := estimator m;
     rsquared := rsquared m; rsquared_adj := rsquared_adj m |}.

(** The fit statistics, set together at the end of [fit]. *)
Definition set_statistics (r ra ll aic bic : Q) (m : t) : t :=
  {| family := family m; fitted := fitted m; formula := formula m;
     data := data m;
     AIC := Some aic; BIC := Some bic; logLike := Some ll;
     warnings := warnings m; resid := resid m; fits := fits m;
     coefs := coefs m; design_matrix := design_matrix m;
     ci_type := ci_type m; se_type := se_type m; sig_type := sig_type m;
     ranked_data := ranked_data m; estimator := estimator m;
     rsquared := Some r; rsquared_adj := Some ra |}.

Definition set_warnings (v : list string) (m : t) : t :=
  {| family := family m; fitted := fitted m; formula := formula m;
     data := data m; AIC := AIC m; BIC := BIC m; logLike := logLike m;
     warnings := v; resid := resid m; fits := fits m;
     coefs := coefs m; design_matrix := design_matrix m;
     ci_type := ci_type m; se_type := se_type m; sig_type := sig_type m;
     ranked_data := ranked_data m; estimator := estimator m;
     rsquared := rsquared m; rsquared_adj := rsquared_adj m |}.

Definition set_resid (v : list Q) (m : t) : t :=
  {| family := family m; fitted := fitted m; formula := formula m;
     data := data m; AIC := AIC m; BIC := BIC m; logLike := logLike m;
     warnings := warnings m; resid := Some v; fits := fits m;
     coefs := coefs m; design_matrix := design_matrix m;
     ci_type := ci_type m; se_type := se_type m; sig_type := sig_type m;
     ranked_data := ranked_data m; estimator := estimator m;
     rsquared := rsquared m; rsquared_adj := rsquared_adj m |}.

Definition set_fits (v : list Q) (m : t) : t :=
  {| family := family m; fitted := fitted m; formula := formula m;
     data := data m; AIC := AIC m; BIC := BIC m; logLike := logLike m;
     warnings := warnings m; resid := resid m; fits := Some v;
     coefs := coefs m; design_matrix := design_matrix m;
     ci_type := ci_type m; se_type := se_type m; sig_type := sig_type m;
     ranked_data := ranked_data m; estimator := estimator m;
     rsquared := rsquared m; rsquared_adj := rsquared_adj m |}.

Definition set_coefs (v : Table) (m : t) : t :=
  {| family := family m; fitted := fitted m; formula := formula m;
     data := data m; AIC := AIC m; BIC := BIC m; logLike := logLike m;
     warnings := warnings m; resid := resid m; fits := fits m;
     coefs := Some v; design_matrix := design_matrix m;
     ci_type := ci_type m; se_type := se_type m; sig_type := sig_type m;
     ranked_data := ranked_data m; estimator := estimator m;
     rsquared := rsquared m; rsquared_adj := rsquared_adj m |}.

Definition set_design_matrix (v : Design) (m : t) : t :=
  {| family := family m; fitted := fitted m; formula := formula m;
     data := data m; AIC := AIC m; BIC := BIC m; logLike := logLike m;
     warnings := warnings m; resid := resid m; fits := fits m;
     coefs := coefs m; design_matrix := Some v;
     ci_type := ci_type m; se_type := se_type m; sig_type := sig_type m;
     ranked_data := ranked_data m; estimator := estimator m;
     rsquared := rsquared m; rsquared_adj := rsquared_adj m |}.

Definition set_ci_type (v : string) (m : t) : t :=
  {| family := family m; fitted := fitted m; formula := formula m;
     data := data m; AIC := AIC m; BIC := BIC m; logLike := logLike m;
     warnings := warnings m; resid := resid m; fits := fits m;
     coefs := coefs m; design_matrix := design_matrix m;
     ci_type := Some v; se_type := se_type m; sig_type := sig_type m;
     ranked_data := ranked_data m; estimator := estimator m;
     rsquared := rsquared m; rsquared_adj := rsquared_adj m |}.

Definition set_se_type (v : string) (m : t) : t :=
  {| family := family m; fitted := fitted m; formula := formula m;
     data := data m; AIC := AIC m; BIC := BIC m; logLike := logLike m;
     warnings := warnings m; resid := resid m; fits := fits m;
     coefs := coefs m; design_matrix := design_matrix m;
     ci_type := ci_type m; se_type := Some v; sig_type := sig_type m;
     ranked_data := ranked_data m; estimator := estimator m;
     rsquared := rsquared m; rsquared_adj := rsquared_adj m |}.

Definition set_sig_type (v : string) (m : t) : t :=
  {| family := family m; fitted := fitted m; formula := formula m;
     data := data m; AIC := AIC m; BIC := BIC m; logLike := logLike m;
     warnings := warnings m; resid := resid m; fits := fits m;
     coefs := coefs m; design_matrix := design_matrix m;
     ci_type := ci_type m; se_type := se_type m; sig_type := Some v;
     ranked_data := ranked_data m; estimator := estimator m;
     rsquared := rsquared m; rsquared_adj := rsquared_adj m |}.

Definition set_ranked_data (v : bool) (m : t) : t :=
  {| family := family m; fitted := fitted m; formula := formula m;
     data := data m; AIC := AIC m; BIC := BIC m; logLike := logLike m;
     warnings := warnings m; resid := resid m; fits := fits m;
     coefs := coefs m; design_matrix := design_matrix m;
     ci_type := ci_type m; se_type := se_type m; sig_type := sig_type m;
     ranked_data := v; estimator := estimator m;
     rsquared := rsquared m; rsquared_adj := rsquared_adj m |}.

Definition set_estimator (v : string) (m : t) : t :=
  {| family := family m; fitted := fitted m; formula := formula m;
     data := data m; AIC := AIC m; BIC := BIC m; logLike := logLike m;
     warnings := warnings m; resid := resid m; fits := fits m;
     coefs := coefs m; design_matrix := design_matrix m;
     ci_type := ci_type m; se_type := se_type m; sig_type := sig_type m;
     ranked_data := ranked_data m; estimator := Some v;
     rsquared := rsquared m; rsquared_adj := rsquared_adj m |}.

(** [Lm(formula, data, family)] *)
Definition init (formula0 : string) (data0 : DataFrame) (family0 : string)
  : Result t :=
  if negb (family0 =? "gaussian")%string
  then Raise (NotImplementedError
    "Currently only linear (family ='gaussian') models supported! ")
  else Ok
    {| family := family0; fitted := false;
       formula := remove_spaces formula0; data := data0;
       AIC := None; BIC := None; logLike := None; warnings := [];
       resid := None; fits := None; coefs := None; design_matrix := None;
       ci_type := None; se_type := None; sig_type := None;
       ranked_data := false; estimator := None;
       rsquared := None; rsquared_adj := None |}.

(** The arguments of [fit]. *)
Record fit_args : Type := {
  robust : robust_arg;
  conf_int : string;
  permute : option Z;
  rank : bool;
  summarize : bool;
  verbose : bool;
  n_boot : Z;
  n_jobs : Z;
  n_lags : Z;
  cluster : option string;
  weights : weights_arg;
  wls_dof_correction : bool
}.

(** The defaults of [fit]'s signature. *)
Definition defaults : fit_args :=
  {| robust := RBool false; conf_int := "standard"; permute := None;
     rank := false; summarize := true; verbose := false; n_boot := 500;
     n_jobs := 1; n_lags := 1; cluster := None; weights := WNone;
     wls_dof_correction := true |}.

(** The same call with another value for [robust]. *)
Definition with_robust (r : robust_arg) (a : fit_args) : fit_args :=
  {| robust := r; conf_int := conf_int a; permute := permute a;
     rank := rank a; summarize := summarize a; verbose := verbose a;
     n_boot := n_boot a; n_jobs := n_jobs a; n_lags := n_lags a;
     cluster := cluster a; weights := weights a;
     wls_dof_correction := wls_dof_correction a |}.

(** The same call with other values for [summarize] and [permute]. *)
Definition with_summarize (b : bool) (a : fit_args) : fit_args :=
  {| robust := robust a; conf_int := conf_int a; permute := permute a;
     rank := rank a; summarize := b; verbose := verbose a;
     n_boot := n_boot a; n_jobs := n_jobs a; n_lags := n_lags a;
     cluster := cluster a; weights := weights a;
     wls_dof_correction := wls_dof_correction a |}.

Definition with_permute (p : option Z) (a : fit_args) : fit_args :=
  {| robust := robust a; conf_int := conf_int a; permute := p;
     rank := rank a; summarize := summarize a; verbose := verbose a;
     n_boot := n_boot a; n_jobs := n_jobs a; n_lags := n_lags a;
     cluster := cluster a; weights := weights a;
     wls_dof_correction := wls_dof_correction a |}.

Section Methods.

Variable E : Env.t.

Local Open Scope string_scope.

Abbreviation Method := (M (Env.rng E) t).

(** [warnings.warn(w)] followed by [self.warnings.append(w)] *)
Definition warn (w : string) : Method unit :=
  emit (Warn w) ;;
  update (fun m => set_warnings (warnings m ++ [w])%list m).

Definition low_permutations : string :=
  "Permutation testing < 500 permutations is not recommended".

Definition unsupported_groups : string :=
  "Welch-Satterthwait DOF correction only supported for 2 groups in the data".

(** Lines 1389-1392: fewer than 500 permutations are warned about. *)
Definition check_permutations (a : fit_args) : Method unit :=
  match permute a with
  | Some p =>
      if negb (p =? 0)%Z && (p <? 500)%Z then warn low_permutations else ret tt
  | None => ret tt
  end.

(** Lines 1393-1405: the estimator [robust=True] stands for, the type of
    the standard errors, and the column of the clusters.  Returns the
    variables [robust] and [cluster] as the rest of [fit] sees them. *)
Definition select_estimator (a : fit_args)
  : Method (robust_arg * cluster_val) :=
  if truthy_robust (robust a) then
    let name :=
      match robust a with
      | RBool _ => "hc1"
      | RStr s => s
      end in
    update (set_se_type ("robust" +++ " (" +++ name +++ ")")) ;;
    match cluster a with
    | Some c =>
        if truthy_str c then
          m <- this ;;
          match get_col c (data m) with
          | None =>
              raise (ValueError
                "cluster identifier must be an existing column in data")
          | Some col => ret (RStr name, ClSeries col)
          end
        else ret (RStr name, ClName c)
    | None => ret (RStr name, ClNone)
    end
  else
    update (set_se_type "non-robust") ;;
    ret (robust a, cluster_of_arg (cluster a)).

(** Lines 1407-1442: what a verbose fit prints first.  [robust'] is a
    string whenever it is true. *)
Definition announce (a : fit_args) (robust' : robust_arg) : Method unit :=
  m <- this ;;
  if (family m =? "gaussian")%string && verbose a then
    let print_rank := if rank a then "rank" else "linear" in
    let print_robust :=
      match robust' with
      | RStr s => if truthy_str s then "robust " +++ s else "non-robust"
      | RBool _ => "non-robust"
      end in
    (if (conf_int a =? "boot")%string then
       emit (Print ("Fitting " +++ print_rank +++ " model with "
                    +++ print_robust +++ " standard errors and " +++ nl
                    +++ str_of_Z (n_boot a)
                    +++ "bootstrapped 95% confidence intervals..." +++ nl))
     else
       emit (Print ("Fitting " +++ print_rank +++ " model with "
                    +++ print_robust +++ " standard errors" +++ nl
                    +++ "and 95% confidence intervals..." +++ nl))) ;;
    match permute a with
    | Some p =>
        if negb (p =? 0)%Z then
          emit (Print ("Using " +++ str_of_Z p
                       +++ " permutations to determine significance..."))
        else ret tt
    | None => ret tt
    end
  else ret tt.

(** Lines 1444-1453: the types of the intervals and of the inference. *)
Definition describe_inference (a : fit_args) : Method unit :=
  update (set_ci_type
    (if (conf_int a =? "boot")%string
     then conf_int a +++ " (" +++ str_of_Z (n_boot a) +++ ")"
     else conf_int a)) ;;
  match permute a with
  | None =>
      if (conf_int a =? "boot")%string
      then update (set_sig_type "bootstrapped")
      else update (set_sig_type "parametric")
  | Some p =>
      if negb (p =? 0)%Z
      then update (set_sig_type
                     ("permutation" +++ " (" +++ str_of_Z p +++ ")"))
      else update (set_sig_type "parametric")
  end.

(** Lines 1455-1461: the data the design matrix is built from. *)
Definition design_data (a : fit_args) : Method DataFrame :=
  update (set_ranked_data (rank a)) ;;
  m <- this ;;
  ret (if rank a then Env.df_rank E (data m) else data m).

(** The column the data are grouped by and the response of the formula,
    for weights given as a column name.  The response is read as numbers:
    a response with missing or other values has no group variances. *)
Definition weight_groups (wname : string) : Method (column * list Q) :=
  m <- this ;;
  match get_col wname (data m) with
  | None =>
      raise (ValueError
        "If weights is a string it must be a column that exists in the data")
  | Some keys =>
      let dv := before_tilde (formula m) in
      match get_col dv (data m) with
      | None => raise (KeyError dv)
      | Some c =>
          match numbers c with
          | None => raise (TypeError dv)
          | Some vals => ret (keys, vals)
          end
      end
  end.

Definition reciprocal (c : cell) : cell :=
  match c with
  | Num v => Num (1 / v)%Q
  | other => other
  end.

(** Lines 1463-1478: the weights handed to [_ols], the groups they come
    from if any, and the name of the estimator. *)
Definition handle_weights (a : fit_args)
  : Method (option column * option (column * list Q)) :=
  r <- match weights a with
       | WCol wname =>
           g <- weight_groups wname ;;
           ret (Some (map reciprocal
                        (group_transform (Env.np_var E) (fst g) (snd g))),
                Some g)
       | WArr w => ret (Some (map Num w), None)
       | WNone => ret (None, None)
       end ;;
  update (set_estimator
            match weights a with
            | WNone => "OLS"
            | _ => "WLS"
            end) ;;
  ret r.

(** Lines 1480-1481 *)
Definition build_design (ddat : DataFrame) : Method Matrices :=
  m <- this ;;
  yx <- call "dmatrices" (Env.dmatrices E (formula m) ddat) ;;
  update (set_design_matrix (predictors yx)) ;;
  ret yx.

(** Lines 1493-1514: the degrees of freedom. *)
Definition degrees_of_freedom (a : fit_args) (cluster' : cluster_val)
  (x : Design) (groups : option (column * list Q)) : Method Q :=
  match cluster' with
  | ClSeries c =>
      ret (inject_Z (Z.of_nat (nunique c) - Z.of_nat (n_coef x)))
  | ClName _ =>
      raise (AttributeError "'str' object has no attribute 'nunique'")
  | ClNone =>
      let df := inject_Z (Z.of_nat (n_obs x) - Z.of_nat (n_coef x)) in
      match groups with
      | Some (keys, vals) =>
          if wls_dof_correction a then
            if negb (Nat.eqb (ngroups keys) 2) then
              warn unsupported_groups ;;
              ret df
            else
              let welch := group_apply (_welch_ingredients E) keys vals in
              ret (Qsum (map fst welch) * Qsum (map fst welch)
                   / Qsum (map snd welch))%Q
          else ret df
      | None => ret df
      end
  end.

(** Line 1516: the parametric p-values. *)
Definition p_values (t_stats : list Q) (df : Q) : list Q :=
  map (fun tj => (2 * (1 - Env.t_dist_cdf E (Qabs tj) df))%Q) t_stats.

(** Lines 1520-1543: the bounds [(ci_l, ci_u)] of the intervals. *)
Definition confidence_intervals (a : fit_args) (est : Estimates) (df : Q)
  : Method (list Q * list Q) :=
  if (conf_int a =? "boot")%string then
    seeds <- randint E (n_boot a) ;;
    m <- this ;;
    boot_betas <- parallel Bootstrap "_chunk_boot_ols_coefs" (n_jobs a)
                    (Env._chunk_boot_ols_coefs E (data m) (formula m)
                       (weights a))
                    seeds ;;
    ci_u <- call "percentile" (Env.np_percentile E boot_betas (975 # 10)) ;;
    ci_l <- call "percentile" (Env.np_percentile E boot_betas (25 # 10)) ;;
    ret (ci_l, ci_u)
  else
    let dfs := repeat df (List.length (est_t est)) in
    let bound q :=
      match elementwise Qmult (map (Env.t_dist_ppf E q) dfs) (est_se est) with
      | Some half => elementwise Qplus (est_b est) half
      | None => None
      end in
    match bound (975 # 1000), bound (25 # 1000) with
    | Some ci_u, Some ci_l => ret (ci_l, ci_u)
    | _, _ =>
        raise (ValueError "operands could not be broadcast together")
    end.

(** Lines 1545-1573: the permutation test.  Returns the columns [df], [p]
    and [sig] it replaces. *)
Definition permutation_test (a : fit_args) (p : Z) (robust' : robust_arg)
  (cluster' : cluster_val) (yx : Matrices) (est : Estimates)
  : Method (list Q * list Q * list string) :=
  let n_jobs' := if truthy_robust robust' then 1 else n_jobs a in
  seeds <- randint E p ;;
  perm_ts <- parallel Permutation "_chunk_perm_ols" n_jobs'
               (Env._chunk_perm_ols E (predictors yx) (y_values yx) robust'
                  (n_lags a) cluster' (weights a))
               seeds ;;
  match shape1 perm_ts with
  | None => raise (IndexError "tuple index out of range")
  | Some k =>
      let ps :=
        map (fun ct => _perm_find (array_col perm_ts (fst ct)) (snd ct))
          (combine (seq 0 k) (est_t est)) in
      ret (repeat (inject_Z p) (List.length ps), ps, map _sig_stars ps)
  end.

Definition equal_lengths (n : nat) (ls : list nat) : bool :=
  forallb (Nat.eqb n) ls.

(** Lines 1575-1598: the table of coefficients. *)
Definition assemble (a : fit_args) (x : Design) (est : Estimates)
  (ci_l ci_u df p : list Q) (sig : list string) : Method Table :=
  if negb (equal_lengths (List.length (est_b est))
             [List.length ci_l; List.length ci_u; List.length (est_se est);
              List.length df; List.length (est_t est); List.length p;
              List.length sig])
  then raise (ValueError "all the input array dimensions must match")
  else if negb (Nat.eqb (List.length (dm_columns x))
                  (List.length (est_b est)))
  then raise (ValueError "Length mismatch")
  else
    let results :=
      [("Estimate", map Num (est_b est));
       ("2.5_ci", map Num ci_l);
       ("97.5_ci", map Num ci_u);
       ("SE", map Num (est_se est));
       ("DF", map Num df);
       ("T-stat", map Num (est_t est));
       ("P-val", map Num p);
       ("Sig", map Str sig)] in
    ret {| index := dm_columns x;
           cols := if truthy_int (permute a)
                   then rename_col "P-val" "Perm-P-val"
                          (rename_col "DF" "Num_perm" results)
                   else results |}.

(** [y.squeeze() - res]: a response of one row is a scalar and is
    subtracted from every residual. *)
Definition fitted_values (yx : Matrices) (res : list Q)
  : option (list Q) :=
  match y_values yx with
  | [y0] => Some (map (fun r => (y0 - r)%Q) res)
  | ys => elementwise Qminus ys res
  end.

(** A series put into a frame of [n] rows: each row gets the value that
    carries its label, or a missing value. *)
Definition align (labels : list nat) (vals : list Q) (n : nat) : column :=
  map (fun i =>
         match find (fun kv => Nat.eqb (fst kv) i) (combine labels vals) with
         | Some kv => Num (snd kv)
         | None => NaN
         end)
      (seq 0 n).

(** [self.data[name] = array]: the array has one value for each row. *)
Definition assign_array (name : string) (vals : list Q) : Method unit :=
  m <- this ;;
  if Nat.eqb (List.length vals) (nrows (data m))
  then update (set_data (set_col name (map Num vals) (data m)))
  else raise (ValueError "Length of values does not match length of index").

(** Lines 1600-1605: the results kept on the object and the two columns
    added to its data. *)
Definition store (results : Table) (yx : Matrices) (res : list Q)
  : Method unit :=
  update (set_coefs results) ;;
  update (set_fitted true) ;;
  update (set_resid res) ;;
  fit_vals <- match fitted_values yx res with
              | Some v => ret v
              | None => raise (ValueError "Lengths must be equal")
              end ;;
  update (set_fits fit_vals) ;;
  match y_values yx with
  | [_] => assign_array "fits" fit_vals
  | _ =>
      update (fun m =>
        set_data (set_col "fits"
                    (align (y_index yx) fit_vals (nrows (data m)))
                    (data m)) m)
  end ;;
  assign_array "residuals" res.

(** Lines 1607-1620: the fit statistics. *)
Definition fit_statistics (yx : Matrices) (res : list Q) : Method unit :=
  let x := predictors yx in
  let center_tss :=
    existsb (fun c => (c =? "Intercept")%string) (dm_columns x) in
  let n := List.length res in
  let r2 := Env.rsquared E (y_values yx) res center_tss in
  let r2_adj :=
    Env.rsquared_adj E r2 n (Z.of_nat n - Z.of_nat (n_coef x)) center_tss in
  let half_obs := (inject_Z (Z.of_nat n) / 2)%Q in
  let ssr := Qsum (map (fun r => r * r)%Q res) in
  let ll := ((- Env.np_log E ssr * half_obs)
             - (1 + Env.np_log E (Env.np_pi E / half_obs)) * half_obs)%Q in
  let k := inject_Z (Z.of_nat (n_coef x)) in
  update (set_statistics r2 r2_adj ll
            (2 * k - 2 * ll)%Q
            (Env.np_log E (inject_Z (Z.of_nat n)) * k - 2 * ll)%Q).

Definition show (q : option Q) : string :=
  match q with
  | Some v => Env.format_3f E v
  | None => "None"
  end.

Definition show_str (s : option string) : string :=
  match s with
  | Some v => v
  | None => "None"
  end.

(** [Lm.summary]: prints the description of the fit and returns the
    coefficients rounded to three decimals. *)
Definition summary : Method Table :=
  m <- this ;;
  if negb (fitted m)
  then raise (RuntimeError "Model must be fit to generate summary!")
  else
    emit (Print ("Formula: " +++ formula m +++ nl)) ;;
    emit (Print ("Family: " +++ family m +++ tab +++ " Estimator: "
                 +++ show_str (estimator m) +++ nl)) ;;
    emit (Print ("Std-errors: " +++ show_str (se_type m) +++ tab
                 +++ "CIs: " +++ show_str (ci_type m) +++ " 95%" +++ tab
                 +++ "Inference: " +++ show_str (sig_type m) +++ " "
                 +++ nl)) ;;
    emit (Print ("Number of observations: "
                 +++ str_of_Z (Z.of_nat (nrows (data m))) +++ tab
                 +++ " R^2: " +++ show (rsquared m) +++ tab
                 +++ " R^2_adj: " +++ show (rsquared_adj m) +++ nl)) ;;
    emit (Print ("Log-likelihood: " +++ show (logLike m) +++ " " +++ tab
                 +++ " AIC: " +++ show (AIC m) +++ tab
                 +++ " BIC: " +++ show (BIC m) +++ nl)) ;;
    emit (Print ("Fixed effects:" +++ nl)) ;;
    match coefs m with
    | Some c => ret (round_table c)
    | None =>
        raise (AttributeError "'NoneType' object has no attribute 'round'")
    end.

(** Lines 1393-1623: [fit] after the check of the number of
    permutations. *)
Definition fit_model (a : fit_args) : Method (option Table) :=
  rc <- select_estimator a ;;
  let robust' := fst rc in
  let cluster' := snd rc in
  announce a robust' ;;
  describe_inference a ;;
  ddat <- design_data a ;;
  wg <- handle_weights a ;;
  yx <- build_design ddat ;;
  let x := predictors yx in
  est <- call "_ols"
           (Env._ols E x (y_values yx) robust' (n_lags a) cluster' (fst wg)) ;;
  df <- degrees_of_freedom a cluster' x (snd wg) ;;
  let p := p_values (est_t est) df in
  ci <- confidence_intervals a est df ;;
  let parametric :=
    (repeat df (List.length (est_t est)), p, map _sig_stars p) in
  inference <-
    match permute a with
    | Some n =>
        if negb (n =? 0)%Z
        then permutation_test a n robust' cluster' yx est
        else ret parametric
    | None => ret parametric
    end ;;
  results <- assemble a x est (fst ci) (snd ci)
               (fst (fst inference)) (snd (fst inference)) (snd inference) ;;
  store results yx (est_res est) ;;
  fit_statistics yx (est_res est) ;;
  if summarize a then
    s <- summary ;;
    ret (Some s)
  else ret None.

(** [Lm.fit]: returns the summary table, or [None] without [summarize]. *)
Definition fit (a : fit_args) : Method (option Table) :=
  check_permutations a ;;
  fit_model a.

End Methods.

End Lm.

(** * Class [Lm2] *)

(** [s.strip()] *)
Definition is_space (c : ascii) : bool :=
  let n := nat_of_ascii c in
  Nat.eqb n 32 || (Nat.leb 9 n && Nat.leb n 13).

Fixpoint lstrip (s : string) : string :=
  match s with
  | EmptyString => EmptyString
  | String c rest => if is_space c then lstrip rest else s
  end.

Fixpoint rstrip (s : string) : string :=
  match s with
  | EmptyString => EmptyString
  | String c rest =>
      match rstrip rest with
      | EmptyString => if is_space c then EmptyString else String c EmptyString
      | kept => String c kept
      end
  end.

Definition strip (s : string) : string := rstrip (lstrip s).

(** [s.split("+")] *)
Fixpoint split_plus (s : string) : list string :=
  match s with
  | EmptyString => [EmptyString]
  | String c rest =>
      if Ascii.eqb c "+"%char then EmptyString :: split_plus rest
      else
        match split_plus rest with
        | [] => [String c EmptyString]
        | piece :: pieces => String c piece :: pieces
        end
  end.

(** [pd.concat(tables, axis=0)] of tables with the columns of the first. *)
Definition concat_tables (tables : list Table) : option Table :=
  match tables with
  | [] => None
  | first :: _ =>
      Some
        {| index := flat_map index tables;
           cols :=
             map (fun name =>
                    (name,
                     flat_map
                       (fun tb =>
                          match get_col name (cols tb) with
                          | Some c => c
                          | None => repeat NaN (List.length (index tb))
                          end)
                       tables))
                 (columns (cols first)) |}
  end.

(** [table[names]]: the named columns in the order asked for. *)
Fixpoint select_cols (names : list string) (df : DataFrame)
  : option DataFrame :=
  match names with
  | [] => Some []
  | n :: rest =>
      match get_col n df, select_cols rest df with
      | Some c, Some r => Some ((n, c) :: r)
      | _, _ => None
      end
  end.

Module Lm2.

(** The first-level estimates kept as [fixef]: one row for each group,
    labelled by the values of the group column once the index is set. *)
Record Fixef : Type := {
  fx_name : option string;
  fx_index : option column;
  fx_columns : list string;
  fx_rows : list (list Q)
}.

(** The attributes of an [Lm2] object.  [model_obj], [factors] and [resid]
    are [None] throughout and left out. *)
Record t : Type := {
  family : string;
  group : string;
  fitted : bool;
  formula : string;
  data : DataFrame;
  AIC : option cell;
  BIC : option cell;
  logLike : option cell;
  rsquared : option cell;
  rsquared_adj : option cell;
  warnings : list string;
  fixef : option Fixef;
  coefs : option Table;
  ci_type : option string;
  se_type : option string;
  sig_type : option string;
  ranked_data : bool;
  iscorrs : corrs_arg
}.

Definition set_se_type (v : string) (m : t) : t :=
  {| family := family m; group := group m; fitted := fitted m;
     formula := formula m; data := data m; AIC := AIC m; BIC := BIC m;
     logLike := logLike m; rsquared := rsquared m;
     rsquared_adj := rsquared_adj m; warnings := warnings m;
     fixef := fixef m; coefs := coefs m; ci_type := ci_type m;
     se_type := Some v; sig_type := sig_type m;
     ranked_data := ranked_data m; iscorrs := iscorrs m |}.

Definition set_ci_type (v : string) (m : t) : t :=
  {| family := family m; group := group m; fitted := fitted m;
     formula := formula m; data := data m; AIC := AIC m; BIC := BIC m;
     logLike := logLike m; rsquared := rsquared m;
     rsquared_adj := rsquared_adj m; warnings := warnings m;
     fixef := fixef m; coefs := coefs m; ci_type := Some v;
     se_type := se_type m; sig_type := sig_type m;
     ranked_data := ranked_data m; iscorrs := iscorrs m |}.

Definition set_sig_type (v : string) (m : t) : t :=
  {| family := family m; group := group m; fitted := fitted m;
     formula := formula m; data := data m; AIC := AIC m; BIC := BIC m;
     logLike := logLike m; rsquared := rsquared m;
     rsquared_adj := rsquared_adj m; warnings := warnings m;
     fixef := fixef m; coefs := coefs m; ci_type := ci_type m;
     se_type := se_type m; sig_type := Some v;
     ranked_data := ranked_data m; iscorrs := iscorrs m |}.

Definition set_ranked_data (v : bool) (m : t) : t :=
  {| family := family m; group := group m; fitted := fitted m;
     formula := formula m; data := data m; AIC := AIC m; BIC := BIC m;
     logLike := logLike m; rsquared := rsquared m;
     rsquared_adj := rsquared_adj m; warnings := warnings m;
     fixef := fixef m; coefs := coefs m; ci_type := ci_type m;
     se_type := se_type m; sig_type := sig_type m;
     ranked_data := v; iscorrs := iscorrs m |}.

Definition set_coefs (v : Table) (m : t) : t :=
  {| family := family m; group := group m; fitted := fitted m;
     formula := formula m; data := data m; AIC := AIC m; BIC := BIC m;
     logLike := logLike m; rsquared := rsquared m;
     rsquared_adj := rsquared_adj m; warnings := warnings m;
     fixef := fixef m; coefs := Some v; ci_type := ci_type m;
     se_type := se_type m; sig_type := sig_type m;
     ranked_data := ranked_data m; iscorrs := iscorrs m |}.

Definition set_fixef (v : Fixef) (m : t) : t :=
  {| family := family m; group := group m; fitted := fitted m;
     formula := formula m; data := data m; AIC := AIC m; BIC := BIC m;
     logLike := logLike m; rsquared := rsquared m;
     rsquared_adj := rsquared_adj m; warnings := warnings m;
     fixef := Some v; coefs := coefs m; ci_type := ci_type m;
     se_type := se_type m; sig_type := sig_type m;
     ranked_data := ranked_data m; iscorrs := iscorrs m |}.

(** Lines 2008-2024: the end of [fit]. *)
Definition set_finished (v : corrs_arg) (m : t) : t :=
  {| family := family m; group := group m; fitted := true;
     formula := formula m; data := data m;
     AIC := Some NaN; BIC := Some NaN; logLike := Some NaN;
     rsquared := Some NaN; rsquared_adj := Some NaN;
     warnings := warnings m; fixef := fixef m; coefs := coefs m;
     ci_type := ci_type m; se_type := se_type m; sig_type := sig_type m;
     ranked_data := ranked_data m; iscorrs := v |}.

(** [Lm2(formula, data, group, family)] with a string for [group]. *)
Definition init (formula0 : string) (data0 : DataFrame) (group0 : string)
  (family0 : string) : Result t :=
  if negb (family0 =? "gaussian")%string
  then Raise (NotImplementedError
    "Currently only linear (family ='gaussian') models supported! ")
  else Ok
    {| family := family0; group := group0; fitted := false;
       formula := remove_spaces formula0; data := data0;
       AIC := None; BIC := None; logLike := None;
       rsquared := None; rsquared_adj := None; warnings := [];
       fixef := None; coefs := None;
       ci_type := None; se_type := None; sig_type := None;
       ranked_data := false; iscorrs := TBool false |}.

(** The arguments of [fit]. *)
Record fit_args : Type := {
  robust : robust_arg;
  conf_int : string;
  permute : option Z;
  perm_on : string;
  rank : bool;
  summarize : bool;
  verbose : bool;
  n_boot : Z;
  n_jobs : Z;
  n_lags : Z;
  to_corrs : corrs_arg;
  ztrans_corrs : bool;
  cluster : option string
}.

Definition defaults : fit_args :=
  {| robust := RBool false; conf_int := "standard"; permute := None;
     perm_on := "t-stat"; rank := false; summarize := true;
     verbose := false; n_boot := 500; n_jobs := 1; n_lags := 1;
     to_corrs := TBool false; ztrans_corrs := true; cluster := None |}.

(** The same call with another value for [robust]. *)
Definition with_robust (r : robust_arg) (a : fit_args) : fit_args :=
  {| robust := r; conf_int := conf_int a; permute := permute a;
     perm_on := perm_on a; rank := rank a; summarize := summarize a;
     verbose := verbose a; n_boot := n_boot a; n_jobs := n_jobs a;
     n_lags := n_lags a; to_corrs := to_corrs a;
     ztrans_corrs := ztrans_corrs a; cluster := cluster a |}.

(** The same call with another value for [cluster]. *)
Definition with_cluster (c : option string) (a : fit_args) : fit_args :=
  {| robust := robust a; conf_int := conf_int a; permute := permute a;
     perm_on := perm_on a; rank := rank a; summarize := summarize a;
     verbose := verbose a; n_boot := n_boot a; n_jobs := n_jobs a;
     n_lags := n_lags a; to_corrs := to_corrs a;
     ztrans_corrs := ztrans_corrs a; cluster := c |}.

Section Methods.

Variable E : Env.t.

Local Open Scope string_scope.

Abbreviation Method := (M (Env.rng E) t).

(** Lines 1860-1872: as in [Lm.fit], except for the estimator that
    [robust=True] stands for. *)
Definition select_estimator (a : fit_args)
  : Method (robust_arg * cluster_val) :=
  if truthy_robust (robust a) then
    let name :=
      match robust a with
      | RBool _ => "hc0"
      | RStr s => s
      end in
    update (set_se_type ("robust" +++ " (" +++ name +++ ")")) ;;
    match cluster a with
    | Some c =>
        if truthy_str c then
          m <- this ;;
          match get_col c (data m) with
          | None =>
              raise (ValueError
                "cluster identifier must be an existing column in data")
          | Some col => ret (RStr name, ClSeries col)
          end
        else ret (RStr name, ClName c)
    | None => ret (RStr name, ClNone)
    end
  else
    update (set_se_type "non-robust") ;;
    ret (robust a, cluster_of_arg (cluster a)).

(** Lines 1873-1888: the types of the intervals and of the inference, and
    the checks of [to_corrs] and [perm_on]. *)
Definition describe_inference (a : fit_args) : Method unit :=
  update (set_ci_type
    (if conf_int a =? "boot"
     then conf_int a +++ " (" +++ str_of_Z (n_boot a) +++ ")"
     else conf_int a)) ;;
  match to_corrs a with
  | TStr s =>
      if negb ((s =? "semi") || (s =? "partial"))
      then raise (ValueError "to_corrs must be 'semi' or 'partial'")
      else ret tt
  | TBool _ => ret tt
  end ;;
  match permute a with
  | None =>
      if conf_int a =? "boot"
      then update (set_sig_type "bootstrapped")
      else update (set_sig_type "parametric")
  | Some p =>
      if negb (p =? 0)%Z then
        if negb ((perm_on a =? "mean") || (perm_on a =? "t-stat"))
        then raise (ValueError "perm_on must be 't-stat' or 'mean'")
        else update (set_sig_type
                       ("permutation" +++ " (" +++ str_of_Z p +++ ")"))
      else update (set_sig_type "parametric")
  end.

(** Lines 1891-1928: one regression, or one set of correlations, for each
    group.  The groups are the first [nunique()] values of [unique()]. *)
Definition first_level (a : fit_args) : Method (list (list Q)) :=
  update (set_ranked_data (rank a)) ;;
  m <- this ;;
  match get_col (group m) (data m) with
  | None => raise (KeyError (group m))
  | Some g =>
      let groups := firstn (nunique g) (unique g) in
      if truthy_corrs (to_corrs a) then
        betas <- parallel FirstLevel "_corr_group" (n_jobs a)
                   (fun grp =>
                      Env._corr_group E (data m) (formula m) (group m) grp
                        (ranked_data m) (to_corrs a))
                   groups ;;
        ret (if ztrans_corrs a
             then map (map (Env.np_arctanh E)) betas
             else betas)
      else
        parallel FirstLevel "_ols_group" (n_jobs a)
          (fun grp =>
             Env._ols_group E (data m) (formula m) (group m) grp
               (ranked_data m))
          groups
  end.

(** The arguments of the intercept-only fit of line 1938. *)
Definition second_level_args (a : fit_args) (robust' : robust_arg)
  : Lm.fit_args :=
  {| Lm.robust := robust'; Lm.conf_int := conf_int a; Lm.permute := None;
     Lm.rank := false; Lm.summarize := false; Lm.verbose := false;
     Lm.n_boot := n_boot a; Lm.n_jobs := n_jobs a; Lm.n_lags := n_lags a;
     Lm.cluster := None; Lm.weights := WNone;
     Lm.wls_dof_correction := true |}.

(** Lines 1936-1961: the body of the loop over the columns of [betas].
    Returns the coefficients of the intercept-only model and, with
    [permute], the p-value of the sign-flip test. *)
Definition second_level (a : fit_args) (robust' : robust_arg)
  (beta : list Q) : Method (Table * option Q) :=
  let df := [("X", map (fun _ => Num 1) beta); ("Y", map Num beta)] in
  lm <- match Lm.init "Y ~ 1" df "gaussian" with
        | Ok lm => ret lm
        | Raise e => raise e
        end ;;
  fit <- within lm (Lm.fit E (second_level_args a robust')) ;;
  match fst fit, Lm.coefs (snd fit) with
  | Raise e, _ => raise e
  | Ok _, None => raise (TypeError "cannot concatenate object of type None")
  | Ok _, Some coefs =>
      match permute a with
      | Some p =>
          if negb (p =? 0)%Z then
            seeds <- randint E p ;;
            perm_est <- parallel SignFlip "_permute_sign" (n_jobs a)
                          (fun seed =>
                             Env._permute_sign E beta seed (perm_on a))
                          seeds ;;
            if perm_on a =? "mean" then
              ret (coefs,
                   Some (_perm_find perm_est
                           (Qsum beta
                            / inject_Z (Z.of_nat (List.length beta)))%Q))
            else
              match get_col "T-stat" (cols coefs) with
              | Some [Num t_obs] =>
                  ret (coefs, Some (_perm_find perm_est t_obs))
              | Some _ =>
                  raise (ValueError "operands could not be broadcast together")
              | None => raise (KeyError "T-stat")
              end
          else ret (coefs, None)
      | None => ret (coefs, None)
      end
  end.

(** A loop that collects what its body returns. *)
Fixpoint for_each {A B : Type} (body : A -> Method B) (xs : list A)
  : Method (list B) :=
  match xs with
  | [] => ret []
  | x :: rest =>
      b <- body x ;;
      bs <- for_each body rest ;;
      ret (b :: bs)
  end.

(** [table[name] = values], one value for each row. *)
Definition assign (name : string) (vals : column) (tb : Table)
  : Method Table :=
  if Nat.eqb (List.length vals) (List.length (index tb))
  then ret {| index := index tb; cols := set_col name vals (cols tb) |}
  else raise (ValueError "Length of values does not match length of index").

(** Lines 1963-1979: the second-level table and the first-level
    estimates. *)
Definition collect (a : fit_args) (x : Design) (betas : list (list Q))
  (tables : list Table) : Method unit :=
  results <- match concat_tables tables with
             | Some r => ret r
             | None => raise (ValueError "No objects to concatenate")
             end ;;
  m <- this ;;
  let ivs := map strip (split_plus (strip (after_tilde (formula m)))) in
  let rows :=
    if truthy_corrs (to_corrs a)
    then map (fun kc => (fst kc, NaN :: snd kc)) (cols results)
    else cols results in
  let n_rows :=
    if truthy_corrs (to_corrs a)
    then S (List.length (index results))
    else List.length (index results) in
  (if Nat.eqb (List.length (dm_columns x)) n_rows
   then update (set_coefs {| index := dm_columns x; cols := rows |})
   else raise (ValueError "Length mismatch")) ;;
  let names := if truthy_corrs (to_corrs a) then ivs else dm_columns x in
  match shape1 betas with
  | Some k =>
      if Nat.eqb k (List.length names)
      then update (set_fixef {| fx_name := None; fx_index := None;
                                fx_columns := names; fx_rows := betas |})
      else raise (ValueError "Shape of passed values does not match")
  | None => raise (ValueError "Shape of passed values does not match")
  end ;;
  match get_col (group m) (data m) with
  | Some g =>
      if Nat.eqb (List.length (unique g)) (List.length betas)
      then update (set_fixef {| fx_name := Some (group m);
                                fx_index := Some (unique g);
                                fx_columns := names; fx_rows := betas |})
      else raise (ValueError "Length mismatch")
  | None => raise (KeyError (group m))
  end.

(** Lines 1980-2007: with [permute], the columns of the parametric test
    give way to those of the permutation test. *)
Definition permuted_columns (a : fit_args) (p : Z) (perm_ps : list Q)
  : Method unit :=
  m <- this ;;
  match coefs m with
  | None => raise (AttributeError "'NoneType' object has no attribute 'drop'")
  | Some tb =>
      let sig := map (fun q => Str (_sig_stars q)) perm_ps in
      let tb0 :=
        if negb (conf_int a =? "boot")
        then {| index := index tb;
                cols := drop_cols ["DF"; "P-val"] (cols tb) |}
        else tb in
      update (set_coefs tb0) ;;
      let n := List.length (index tb0) in
      let lead := if truthy_corrs (to_corrs a) then [NaN] else [] in
      let n_perm :=
        if truthy_corrs (to_corrs a)
        then repeat (Num (inject_Z p)) (n - 1)
        else repeat (Num (inject_Z p)) n in
      tb1 <- assign "Num_perm" (lead ++ n_perm)%list tb0 ;;
      update (set_coefs tb1) ;;
      tb2 <- assign "Sig" (lead ++ sig)%list tb1 ;;
      update (set_coefs tb2) ;;
      tb3 <- assign "Perm-P-val" (lead ++ map Num perm_ps)%list tb2 ;;
      update (set_coefs tb3) ;;
      match select_cols
              ["Estimate"; "2.5_ci"; "97.5_ci"; "SE"; "Num_perm"; "T-stat";
               "Perm-P-val"; "Sig"] (cols tb3) with
      | Some c => update (set_coefs {| index := index tb3; cols := c |})
      | None => raise (KeyError "not in index")
      end
  end.

(** [Lm2.summary] *)
Definition summary : Method Table :=
  m <- this ;;
  if negb (fitted m)
  then raise (RuntimeError "Model must be fitted to generate summary!")
  else
    emit (Print ("Formula: " +++ formula m +++ nl)) ;;
    emit (Print ("Family: " +++ family m +++ nl)) ;;
    emit (Print ("Std-errors: " +++ Lm.show_str (se_type m) +++ tab
                 +++ "CIs: " +++ Lm.show_str (ci_type m) +++ " 95%" +++ tab
                 +++ "Inference: " +++ Lm.show_str (sig_type m) +++ " "
                 +++ nl)) ;;
    n_groups <- match get_col (group m) (data m) with
                | Some g => ret (nunique g)
                | None => raise (KeyError (group m))
                end ;;
    emit (Print ("Number of observations: "
                 +++ str_of_Z (Z.of_nat (nrows (data m))) +++ tab
                 +++ " Groups: {'" +++ group m +++ "': "
                 +++ str_of_Z (Z.of_nat n_groups) +++ "}" +++ nl)) ;;
    emit (Print ("Fixed effects:" +++ nl)) ;;
    match iscorrs m with
    | TStr s =>
        if truthy_str s then
          emit (Print ("Note: "
                       +++ (if s =? "semi" then "semi-partial" else s)
                       +++ " correlations reported"))
        else ret tt
    | TBool b =>
        if b then emit (Print "Note: True correlations reported") else ret tt
    end ;;
    match coefs m with
    | Some c => ret (round_table c)
    | None =>
        raise (AttributeError "'NoneType' object has no attribute 'round'")
    end.

(** [Lm2.fit]: returns the summary table, or [None] without [summarize]. *)
Definition fit (a : fit_args) : Method (option Table) :=
  rc <- select_estimator a ;;
  let robust' := fst rc in
  describe_inference a ;;
  betas <- first_level a ;;
  m <- this ;;
  yx <- call "dmatrices" (Env.dmatrices E (formula m) (data m)) ;;
  k <- match shape1 betas with
       | Some k => ret k
       | None => raise (IndexError "tuple index out of range")
       end ;;
  second <- for_each (fun i => second_level a robust' (array_col betas i))
              (seq 0 k) ;;
  collect a (predictors yx) betas (map fst second) ;;
  match permute a with
  | Some p =>
      if negb (p =? 0)%Z
      then permuted_columns a p
             (flat_map (fun r => match snd r with
                                 | Some q => [q]
                                 | None => []
                                 end) second)
      else ret tt
  | None => ret tt
  end ;;
  update (set_finished (to_corrs a)) ;;
  if summarize a then
    s <- summary ;;
    ret (Some s)
  else ret None.

End Methods.

End Lm2.

(** * [Lm.post_hoc], [Lm.to_corrs] and [Lm.predict]

    The methods of [Lm] that read a model and change nothing: functions
    of the model. *)

Module LmQueries.

Local Open Scope string_scope.

(** [Lm.post_hoc] *)
Definition post_hoc (m : Lm.t) : Result unit :=
  Raise (NotImplementedError
           "Post-hoc tests are not yet implemented for linear models.").

(** The rows of [n] cells each of columns given one by one. *)
Definition frame_rows (n : nat) (cs : list column) : list (list cell) :=
  map (fun i => map (fun c => nth i c NaN) cs) (seq 0 n).

Definition is_str (c : cell) : bool :=
  match c with
  | Str _ => true
  | _ => false
  end.

(** The product of a row and the coefficients: a missing value in either
    makes it missing. *)
Definition dot_row (row coefs : list cell) : cell :=
  match numbers row, numbers coefs with
  | Some xs, Some cs =>
      Num (Qsum (map (fun p => (fst p * snd p)%Q) (combine xs cs)))
  | _, _ => NaN
  end.

(** [np.dot(X, coefs)] for a matrix of [width] columns given by its rows:
    an array with a string in it has no product, and the matrix must have
    as many columns as there are coefficients. *)
Definition np_dot (rows : list (list cell)) (width : nat)
  (coefs : list cell) : Result (list cell) :=
  if existsb is_str coefs || existsb (existsb is_str) rows
  then Raise (TypeError "can't multiply sequence by non-int of type 'float'")
  else if negb (Nat.eqb width (List.length coefs))
  then Raise (ValueError "shapes not aligned")
  else Ok (map (fun row => dot_row row coefs) rows).

(** [Lm.predict(data)], lines 1725-1734. *)
Definition predict (m : Lm.t) (data : DataFrame) : Result (list cell) :=
  match Lm.design_matrix m with
  | None =>
      Raise (AttributeError "'Lm' object has no attribute 'design_matrix'")
  | Some x =>
      let required_cols := tl (dm_columns x) in
      if negb (forallb (fun col => has_col col data) required_cols)
      then Raise (ValueError
                    "Column names do not match all fixed effects model terms!")
      else
        match select_cols required_cols data with
        | None => Raise (KeyError "not in index")
        | Some X =>
            match Lm.coefs m with
            | None =>
                Raise (AttributeError
                         "'NoneType' object has no attribute 'loc'")
            | Some tb =>
                match get_col "Estimate" (cols tb) with
                | None => Raise (KeyError "Estimate")
                | Some coefs =>
                    let rows := frame_rows (nrows data) (map snd X) in
                    match index tb with
                    | [] =>
                        Raise (IndexError
                                 "index 0 is out of bounds for axis 0 with size 0")
                    | first :: _ =>
                        if first =? "Intercept"
                        then np_dot (map (cons (Num 1)) rows)
                               (S (List.length X)) coefs
                        else np_dot rows (List.length X) (tl coefs)
                    end
                end
            end
        end
  end.

(** [[f x for x in xs]] for an [f] that may raise. *)
Fixpoint for_all {A B : Type} (f : A -> Result B) (xs : list A)
  : Result (list B) :=
  match xs with
  | [] => Ok []
  | x :: rest =>
      match f x with
      | Raise e => Raise e
      | Ok y =>
          match for_all f rest with
          | Raise e => Raise e
          | Ok ys => Ok (y :: ys)
          end
      end
  end.

Section Correlations.

Variable E : Env.t.

(** [scipy.stats.pearsonr(x, y)[0]], and
    [_ols(x, y, robust=False, n_lags=1, cluster=None, all_stats=False,
    resid_only=True)], which returns the residuals. *)
Variable pearsonr : list Q -> list Q -> option Q.
Variable _ols_resid : Design -> list Q -> option (list Q).

(** Lines 1677-1706: the body of the loop over the predictors. *)
Definition corr_of (m : Lm.t) (terms : list string) (corr_type : string)
  (c : string) : Result Q :=
  let dv := before_tilde (Lm.formula m) in
  let other_preds := filter (fun e => negb (e =? c)) terms in
  let right_side := String.concat "+" other_preds in
  match Env.dmatrices E (c +++ "~" +++ right_side) (Lm.data m) with
  | None => Raise (Raised "dmatrices")
  | Some px =>
      match _ols_resid (predictors px) (y_values px) with
      | None => Raise (Raised "_ols")
      | Some pred_m_resid =>
          match Env.dmatrices E (dv +++ "~" +++ right_side) (Lm.data m) with
          | None => Raise (Raised "dmatrices")
          | Some yx =>
              match (if corr_type =? "semi" then Some (y_values yx)
                     else _ols_resid (predictors yx) (y_values yx)) with
              | None => Raise (Raised "_ols")
              | Some dv_m_resid =>
                  match pearsonr dv_m_resid pred_m_resid with
                  | None => Raise (Raised "pearsonr")
                  | Some r => Ok r
                  end
              end
          end
      end
  end.

(** [Lm.to_corrs(corr_type, ztrans_corrs)]: the series of the
    correlations, its index and its values. *)
Definition to_corrs (m : Lm.t) (corr_type : string) (ztrans_corrs : bool)
  : Result (list string * list cell) :=
  if negb (Lm.fitted m)
  then Raise (RuntimeError
                "Model must be fit before partial correlations can be computed")
  else if negb ((corr_type =? "semi") || (corr_type =? "partial"))
  then Raise (ValueError "corr_type must be 'semi' or 'partial'")
  else
    match Lm.design_matrix m with
    | None =>
        Raise (AttributeError "'Lm' object has no attribute 'design_matrix'")
    | Some x =>
        let terms := tl (dm_columns x) in
        match for_all (corr_of m terms corr_type) terms with
        | Raise e => Raise e
        | Ok rs =>
            let corrs :=
              NaN :: map (fun r => Num (if ztrans_corrs
                                        then Env.np_arctanh E r else r)) rs in
            match Lm.coefs m with
            | None =>
                Raise (AttributeError
                         "'NoneType' object has no attribute 'index'")
            | Some tb =>
                if Nat.eqb (List.length corrs) (List.length (index tb))
                then Ok (index tb, corrs)
                else Raise (ValueError
                              "Length of values does not match length of index")
            end
        end
    end.

End Correlations.

End LmQueries.

(** * The R side of [Lmer]

    [Lmer] fits its models in R through rpy2.  What R and the helpers of
    [pymer4.utils] return is read from an environment; a call that may
    raise returns [None] when it does. *)

Module REnv.

Record t : Type := {
  (** the state of numpy's global generator, from which pandas samples *)
  rng : Type;
  (** a model fitted in R, as rpy2 hands it to Python *)
  robj : Type;
  (** a data frame as it is handed to R: a pandas frame, or the frame R
      gave back with its factors and contrasts *)
  rdata : Type;
  as_rdata : DataFrame -> rdata;
  (** [series.astype(str)] *)
  astype_str : column -> column;
  (** the R functions [factorize(df, f, lv)], with [ordered], and
      [contrastize(df, f, c)] of [_make_factors] *)
  factorize : rdata -> string -> list string -> bool -> option rdata;
  contrastize : rdata -> string -> list Q -> option rdata;
  (** [to_ranks_by_group(data, group, formula, exclude_cols)] *)
  to_ranks_by_group : DataFrame -> string -> string -> list string ->
                      option DataFrame;
  (** [lmerTest.lmer(formula, data, REML)] and
      [lme4.glmer(formula, data, family, REML)] *)
  lmer : string -> rdata -> bool -> option robj;
  glmer : string -> rdata -> string -> bool -> option robj;
  (** the frame the R function of [_get_ngrps] returns, or the exception
      the call raises *)
  get_ngrps : robj -> Result Table;
  (** of [unclass(summary(model))]: [AICtab[0]], [logLik[0]], and the
      messages and warnings of [optinfo] as lists, empty when R has
      none *)
  AICtab : robj -> Q;
  logLik : robj -> Q;
  optinfo_messages : robj -> list string;
  optinfo_warnings : robj -> list string;
  (** [robjects.r(rstring)(model)] for an R function that returns a table
      and the names of its rows *)
  r_call : string -> robj -> option (DataFrame * list string);
  (** [perm_dat[dv] = perm_dat.groupby(grps)[dv].transform(lambda x:
      x.sample(frac=1))]: the frame with the response shuffled within the
      groups *)
  sample_within : rdata -> list string -> string -> rng ->
                  option (rdata * rng);
  (** [_return_t(model)] *)
  _return_t : robj -> option (list Q);
  (** lines 587-606: the variances and the correlations of the random
      effects, the two frames pandas makes of R's [varcor]; there is no
      second frame without correlations *)
  varcor : robj -> option (Table * option Table);
  (** the R functions [coef(model)], [lapply(ranef(model), uniquify)],
      [model.matrix(model)] and [fitted(model)] *)
  coef : robj -> option (list Table);
  ranef : robj -> option (list Table);
  model_matrix : robj -> option (list (list Q));
  fitted : robj -> option (list Q);
  (** ["%.3f" % x], [str(dict)] and [str(frame)] *)
  format_3f : Q -> string;
  show_grps : list (string * cell) -> string;
  show_frame : Table -> string
}.

End REnv.

(** * Class [Lmer] *)

Module Lmer.

Local Open Scope string_scope.

(** A value of the [factors] dict: the levels of a factor, or its levels
    with their contrasts. *)
Inductive factor_spec : Type :=
| Levels (levels : list string)
| Contrasts (values : list (string * Q)).

Definition factor_dict : Type := list (string * factor_spec).

(** [if factors:] - [None] and the empty dict are false. *)
Definition truthy_factors (f : option factor_dict) : bool :=
  match f with
  | Some (_ :: _) => true
  | _ => false
  end.

(** [fixef] and [ranef] are one frame, or a list of frames when the model
    has several grouping factors. *)
Inductive frames : Type :=
| One (f : Table)
| Many (fs : list Table).

(** [raise Exception(msg)]: carried, with its message, among the
    exceptions that come from outside the classes. *)
Definition Exception (msg : string) : exn := Raised msg.

(** The attributes of an [Lmer] object, for models of R of type [O].
    [_permute], [_conf_int] and [_REML] exist once [fit] has run.  The
    attributes [marginal_estimates], [marginal_contrasts], [factors_prev_]
    and [anova_results], which [fit] does not touch, are left out. *)
Record t (O : Type) : Type := {
  family : string;
  fitted : bool;
  formula : string;
  data : DataFrame;
  grps : option (list (string * cell));
  AIC : option Q;
  logLike : option Q;
  warnings : list string;
  ranef_var : option Table;
  ranef_corr : option Table;
  ranef : option frames;
  fixef : option frames;
  design_matrix : option Design;
  resid : option (list Q);
  coefs : option Table;
  model_obj : option O;
  factors : option factor_dict;
  ranked_data : bool;
  sig_type : option string;
  _permute : option (option Z);
  _conf_int : option string;
  _REML : option bool;
  fits : option (list Q)
}.
Arguments family {O} _.
Arguments fitted {O} _.
Arguments formula {O} _.
Arguments data {O} _.
Arguments grps {O} _.
Arguments AIC {O} _.
Arguments logLike {O} _.
Arguments warnings {O} _.
Arguments ranef_var {O} _.
Arguments ranef_corr {O} _.
Arguments ranef {O} _.
Arguments fixef {O} _.
Arguments design_matrix {O} _.
Arguments resid {O} _.
Arguments coefs {O} _.
Arguments model_obj {O} _.
Arguments factors {O} _.
Arguments ranked_data {O} _.
Arguments sig_type {O} _.
Arguments _permute {O} _.
Arguments _conf_int {O} _.
Arguments _REML {O} _.
Arguments fits {O} _.

(** Lines 298-300: the arguments kept for later calls. *)
Definition set_params {O : Type} (p : option Z) (c : string) (r : bool) (m : t O)
  : t O :=
  {| family := family m; fitted := fitted m; formula := formula m;
     data := data m; grps := grps m; AIC := AIC m; logLike := logLike m;
     warnings := warnings m; ranef_var := ranef_var m;
     ranef_corr := ranef_corr m; ranef := ranef m; fixef := fixef m;
     design_matrix := design_matrix m; resid := resid m; coefs := coefs m;
     model_obj := model_obj m; factors := factors m;
     ranked_data := ranked_data m; sig_type := sig_type m; _permute := Some p;
     _conf_int := Some c; _REML := Some r; fits := fits m |}.

Definition set_factors {O : Type} (v : factor_dict) (m : t O) : t O :=
  {| family := family m; fitted := fitted m; formula := formula m;
     data := data m; grps := grps m; AIC := AIC m; logLike := logLike m;
     warnings := warnings m; ranef_var := ranef_var m;
     ranef_corr := ranef_corr m; ranef := ranef m; fixef := fixef m;
     design_matrix := design_matrix m; resid := resid m; coefs := coefs m;
     model_obj := model_obj m; factors := Some v;
     ranked_data := ranked_data m; sig_type := sig_type m;
     _permute := _permute m; _conf_int := _conf_int m; _REML := _REML m;
     fits := fits m |}.

Definition set_warnings {O : Type} (v : list string) (m : t O) : t O :=
  {| family := family m; fitted := fitted m; formula := formula m;
     data := data m; grps := grps m; AIC := AIC m; logLike := logLike m;
     warnings := v; ranef_var := ranef_var m; ranef_corr := ranef_corr m;
     ranef := ranef m; fixef := fixef m; design_matrix := design_matrix m;
     resid := resid m; coefs := coefs m; model_obj := model_obj m;
     factors := factors m; ranked_data := ranked_data m;
     sig_type := sig_type m; _permute := _permute m; _conf_int := _conf_int m;
     _REML := _REML m; fits := fits m |}.

Definition set_sig_type {O : Type} (v : string) (m : t O) : t O :=
  {| family := family m; fitted := fitted m; formula := formula m;
     data := data m; grps := grps m; AIC := AIC m; logLike := logLike m;
     warnings := warnings m; ranef_var := ranef_var m;
     ranef_corr := ranef_corr m; ranef := ranef m; fixef := fixef m;
     design_matrix := design_matrix m; resid := resid m; coefs := coefs m;
     model_obj := model_obj m; factors := factors m;
     ranked_data := ranked_data m; sig_type := Some v; _permute := _permute m;
     _conf_int := _conf_int m; _REML := _REML m; fits := fits m |}.

Definition set_model_obj {O : Type} (v : O) (m : t O) : t O :=
  {| family := family m; fitted := fitted m; formula := formula m;
     data := data m; grps := grps m; AIC := AIC m; logLike := logLike m;
     warnings := warnings m; ranef_var := ranef_var m;
     ranef_corr := ranef_corr m; ranef := ranef m; fixef := fixef m;
     design_matrix := design_matrix m; resid := resid m; coefs := coefs m;
     model_obj := Some v; factors := factors m; ranked_data := ranked_data m;
     sig_type := sig_type m; _permute := _permute m; _conf_int := _conf_int m;
     _REML := _REML m; fits := fits m |}.

Definition set_grps {O : Type} (v : list (string * cell)) (m : t O) : t O :=
  {| family := family m; fitted := fitted m; formula := formula m;
     data := data m; grps := Some v; AIC := AIC m; logLike := logLike m;
     warnings := warnings m; ranef_var := ranef_var m;
     ranef_corr := ranef_corr m; ranef := ranef m; fixef := fixef m;
     design_matrix := design_matrix m; resid := resid m; coefs := coefs m;
     model_obj := model_obj m; factors := factors m;
     ranked_data := ranked_data m; sig_type := sig_type m;
     _permute := _permute m; _conf_int := _conf_int m; _REML := _REML m;
     fits := fits m |}.

Definition set_statistics {O : Type} (aic : Q) (ll : Q) (m : t O) : t O :=
  {| family := family m; fitted := fitted m; formula := formula m;
     data := data m; grps := grps m; AIC := Some aic; logLike := Some ll;
     warnings := warnings m; ranef_var := ranef_var m;
     ranef_corr := ranef_corr m; ranef := ranef m; fixef := fixef m;
     design_matrix := design_matrix m; resid := resid m; coefs := coefs m;
     model_obj := model_obj m; factors := factors m;
     ranked_data := ranked_data m; sig_type := sig_type m;
     _permute := _permute m; _conf_int := _conf_int m; _REML := _REML m;
     fits := fits m |}.

Definition set_coefs {O : Type} (v : Table) (m : t O) : t O :=
  {| family := family m; fitted := fitted m; formula := formula m;
     data := data m; grps := grps m; AIC := AIC m; logLike := logLike m;
     warnings := warnings m; ranef_var := ranef_var m;
     ranef_corr := ranef_corr m; ranef := ranef m; fixef := fixef m;
     design_matrix := design_matrix m; resid := resid m; coefs := Some v;
     model_obj := model_obj m; factors := factors m;
     ranked_data := ranked_data m; sig_type := sig_type m;
     _permute := _permute m; _conf_int := _conf_int m; _REML := _REML m;
     fits := fits m |}.

Definition set_fitted {O : Type} (v : bool) (m : t O) : t O :=
  {| family := family m; fitted := v; formula := formula m; data := data m;
     grps := grps m; AIC := AIC m; logLike := logLike m;
     warnings := warnings m; ranef_var := ranef_var m;
     ranef_corr := ranef_corr m; ranef := ranef m; fixef := fixef m;
     design_matrix := design_matrix m; resid := resid m; coefs := coefs m;
     model_obj := model_obj m; factors := factors m;
     ranked_data := ranked_data m; sig_type := sig_type m;
     _permute := _permute m; _conf_int := _conf_int m; _REML := _REML m;
     fits := fits m |}.

Definition set_ranef_vars {O : Type} (v : Table) (c : option Table) (m : t O)
  : t O :=
  {| family := family m; fitted := fitted m; formula := formula m;
     data := data m; grps := grps m; AIC := AIC m; logLike := logLike m;
     warnings := warnings m; ranef_var := Some v; ranef_corr := c;
     ranef := ranef m; fixef := fixef m; design_matrix := design_matrix m;
     resid := resid m; coefs := coefs m; model_obj := model_obj m;
     factors := factors m; ranked_data := ranked_data m;
     sig_type := sig_type m; _permute := _permute m; _conf_int := _conf_int m;
     _REML := _REML m; fits := fits m |}.

Definition set_fixef {O : Type} (v : frames) (m : t O) : t O :=
  {| family := family m; fitted := fitted m; formula := formula m;
     data := data m; grps := grps m; AIC := AIC m; logLike := logLike m;
     warnings := warnings m; ranef_var := ranef_var m;
     ranef_corr := ranef_corr m; ranef := ranef m; fixef := Some v;
     design_matrix := design_matrix m; resid := resid m; coefs := coefs m;
     model_obj := model_obj m; factors := factors m;
     ranked_data := ranked_data m; sig_type := sig_type m;
     _permute := _permute m; _conf_int := _conf_int m; _REML := _REML m;
     fits := fits m |}.

Definition set_ranef {O : Type} (v : frames) (m : t O) : t O :=
  {| family := family m; fitted := fitted m; formula := formula m;
     data := data m; grps := grps m; AIC := AIC m; logLike := logLike m;
     warnings := warnings m; ranef_var := ranef_var m;
     ranef_corr := ranef_corr m; ranef := Some v; fixef := fixef m;
     design_matrix := design_matrix m; resid := resid m; coefs := coefs m;
     model_obj := model_obj m; factors := factors m;
     ranked_data := ranked_data m; sig_type := sig_type m;
     _permute := _permute m; _conf_int := _conf_int m; _REML := _REML m;
     fits := fits m |}.

Definition set_design_matrix {O : Type} (v : Design) (m : t O) : t O :=
  {| family := family m; fitted := fitted m; formula := formula m;
     data := data m; grps := grps m; AIC := AIC m; logLike := logLike m;
     warnings := warnings m; ranef_var := ranef_var m;
     ranef_corr := ranef_corr m; ranef := ranef m; fixef := fixef m;
     design_matrix := Some v; resid := resid m; coefs := coefs m;
     model_obj := model_obj m; factors := factors m;
     ranked_data := ranked_data m; sig_type := sig_type m;
     _permute := _permute m; _conf_int := _conf_int m; _REML := _REML m;
     fits := fits m |}.

Definition set_data {O : Type} (v : DataFrame) (m : t O) : t O :=
  {| family := family m; fitted := fitted m; formula := formula m; data := v;
     grps := grps m; AIC := AIC m; logLike := logLike m;
     warnings := warnings m; ranef_var := ranef_var m;
     ranef_corr := ranef_corr m; ranef := ranef m; fixef := fixef m;
     design_matrix := design_matrix m; resid := resid m; coefs := coefs m;
     model_obj := model_obj m; factors := factors m;
     ranked_data := ranked_data m; sig_type := sig_type m;
     _permute := _permute m; _conf_int := _conf_int m; _REML := _REML m;
     fits := fits m |}.

Definition set_fits {O : Type} (v : list Q) (m : t O) : t O :=
  {| family := family m; fitted := fitted m; formula := formula m;
     data := data m; grps := grps m; AIC := AIC m; logLike := logLike m;
     warnings := warnings m; ranef_var := ranef_var m;
     ranef_corr := ranef_corr m; ranef := ranef m; fixef := fixef m;
     design_matrix := design_matrix m; resid := resid m; coefs := coefs m;
     model_obj := model_obj m; factors := factors m;
     ranked_data := ranked_data m; sig_type := sig_type m;
     _permute := _permute m; _conf_int := _conf_int m; _REML := _REML m;
     fits := Some v |}.

Definition implemented_fams : list string :=
  ["gaussian"; "binomial"; "gamma"; "inverse_gaussian"; "poisson"].

(** [Lmer(formula, data, family)] *)
Definition init {O : Type} (formula0 : string) (data0 : DataFrame)
  (family0 : string) : Result (t O) :=
  if negb (existsb (String.eqb family0) implemented_fams)
  then Raise (ValueError
    "Family must be one of: gaussian, binomial, gamma, inverse_gaussian or poisson!")
  else Ok
    {| family := family0; fitted := false; formula := remove_spaces formula0;
       data := data0; grps := None; AIC := None; logLike := None;
       warnings := []; ranef_var := None; ranef_corr := None; ranef := None;
       fixef := None; design_matrix := None; resid := None; coefs := None;
       model_obj := None; factors := None; ranked_data := false;
       sig_type := None; _permute := None; _conf_int := None; _REML := None;
       fits := None |}.

(** The arguments of [fit]. *)
Record fit_args : Type := {
  conf_int : string;
  n_boot : Z;
  arg_factors : option factor_dict;
  permute : option Z;
  ordered : bool;
  summarize : bool;
  verbose : bool;
  REML : bool;
  rank : bool;
  rank_group : string;
  rank_exclude_cols : list string;
  no_warnings : bool
}.

(** The defaults of [fit]'s signature. *)
Definition defaults : fit_args :=
  {| conf_int := "Wald"; n_boot := 500; arg_factors := None;
     permute := None; ordered := false; summarize := true; verbose := false;
     REML := true; rank := false; rank_group := EmptyString;
     rank_exclude_cols := []; no_warnings := false |}.

Definition dq : string := String (ascii_of_nat 34) EmptyString.

(** Lines 397-412: the text of the R function that returns the table of
    the estimates. *)
Definition estimates_source (conf_int : string) (n_boot : Z) : string :=
  nl +++ "                function(model){" +++ nl +++
  "                out.coef <- data.frame(unclass(summary(model))$coefficients)" +++
  nl +++ "                out.ci <- data.frame(confint(model,method='" +++
  conf_int +++ "',nsim=" +++ str_of_Z n_boot +++ "))" +++ nl +++
  "                n <- c(rownames(out.ci))" +++ nl +++
  "                idx <- max(grep('sig',n))" +++ nl +++
  "                out.ci <- out.ci[-seq(1:idx),]" +++ nl +++
  "                out <- cbind(out.coef,out.ci)" +++ nl +++
  "                list(out,rownames(out))" +++ nl +++
  "                }" +++ nl +++ "            ".

(** Lines 470-495: the same for a binomial model, with odds ratios and
    probabilities. *)
Definition odds_source (conf_int : string) (n_boot : Z) : string :=
  nl +++ "                function(model){" +++ nl +++
  "                out.coef <- data.frame(unclass(summary(model))$coefficients)" +++
  nl +++ "                out.ci <- data.frame(confint(model,method='" +++
  conf_int +++ "',nsim=" +++ str_of_Z n_boot +++ "))" +++ nl +++
  "                n <- c(rownames(out.ci))" +++ nl +++
  "                idx <- max(grep('sig',n))" +++ nl +++
  "                out.ci <- out.ci[-seq(1:idx),]" +++ nl +++
  "                out <- cbind(out.coef,out.ci)" +++ nl +++
  "                odds <- exp(out.coef[1])" +++ nl +++
  "                colnames(odds) <- " +++ dq +++ "OR" +++ dq +++ nl +++
  "                probs <- data.frame(sapply(out.coef[1],plogis))" +++
  nl +++ "                colnames(probs) <- " +++ dq +++ "Prob" +++ dq +++
  nl +++ "                odds.ci <- exp(out.ci)" +++ nl +++
  "                colnames(odds.ci) <- c(" +++ dq +++ "OR_2.5_ci" +++ dq +++
  "," +++ dq +++ "OR_97.5_ci" +++ dq +++ ")" +++ nl +++
  "                probs.ci <- data.frame(sapply(out.ci,plogis))" +++ nl +++
  "                colnames(probs.ci) <- c(" +++ dq +++ "Prob_2.5_ci" +++
  dq +++ "," +++ dq +++ "Prob_97.5_ci" +++ dq +++ ")" +++ nl +++
  "                out <- cbind(out,odds,odds.ci,probs,probs.ci)" +++ nl +++
  "                list(out,rownames(out))" +++ nl +++
  "                }" +++ nl +++ "            ".

(** ** Frames *)

(** [df.index = labels] *)
Definition set_index (labels : list string) (df : DataFrame) : Result Table :=
  if Nat.eqb (List.length labels) (nrows df)
  then Ok {| index := labels; cols := df |}
  else Raise (ValueError "Length mismatch").

(** [df.columns = names] *)
Definition set_columns (names : list string) (df : Table) : Result Table :=
  if Nat.eqb (List.length names) (List.length (cols df))
  then Ok {| index := index df;
             cols := map (fun nk => (fst nk, snd (snd nk)))
                       (combine names (cols df)) |}
  else Raise (ValueError "Length mismatch").

(** [df[names]] *)
Definition reorder (names : list string) (df : Table) : Result Table :=
  match select_cols names (cols df) with
  | Some c => Ok {| index := index df; cols := c |}
  | None => Raise (KeyError "not in index")
  end.

(** [df.columns = names] followed by [df = df[order]] *)
Definition renamed (names order : list string) (df : Table) : Result Table :=
  match set_columns names df with
  | Ok d => reorder order d
  | Raise e => Raise e
  end.

Definition is_in (x : string) (xs : list string) : bool :=
  existsb (String.eqb x) xs.

(** [set(xs) != set(ys)] is the negation of this. *)
Definition same_set (xs ys : list string) : bool :=
  forallb (fun x => is_in x ys) xs && forallb (fun y => is_in y xs) ys.

(** Lines 551-556: the p-value of each coefficient from the permuted
    statistics.  A statistic that is not a number does not come back from
    [_perm_find]. *)
Definition perm_pvals (family : string) (perms : list (list Q)) (df : Table)
  : Result (list Q) :=
  let stat :=
    if is_in family ["gaussian"; "gamma"; "inverse_gaussian"]
    then "T-stat" else "Z-stat" in
  LmQueries.for_all
    (fun c =>
       match shape1 perms with
       | None => Raise (IndexError "too many indices for array")
       | Some k =>
           if negb (Nat.ltb c k)
           then Raise (IndexError "index is out of bounds for axis 1")
           else
             match get_col stat (cols df) with
             | None => Raise (KeyError stat)
             | Some col =>
                 match nth_error col c with
                 | Some (Num t) => Ok (_perm_find (array_col perms c) t)
                 | Some _ => Raise (Raised "_perm_find")
                 | None => Raise (IndexError "index out of bounds")
                 end
             end
       end)
    (seq 0 (List.length (index df))).

(** Lines 557-563 *)
Definition permuted_table (p : Z) (pvals : list Q) (df : Table) : Table :=
  let n := List.length (index df) in
  let with_p := set_col "P-val" (map Num pvals) (cols df) in
  let num_perm := repeat (Num (inject_Z p)) n in
  {| index := index df;
     cols :=
       if has_col "DF" with_p
       then rename_col "P-val" "Perm-P-val"
              (rename_col "DF" "Num_perm" (set_col "DF" num_perm with_p))
       else rename_col "P-val" "Perm-P-val"
              (set_col "Num_perm" num_perm with_p) |}.

(** [series.apply(lambda x: _sig_stars(x))] of a column of p-values.  A
    p-value that is not a number does not come back from [_sig_stars]. *)
Definition stars_of (c : column) : Result column :=
  match numbers c with
  | Some ps => Ok (map (fun p => Str (_sig_stars p)) ps)
  | None => Raise (Raised "_sig_stars")
  end.

(** Lines 565-568 *)
Definition mark_significance (df : Table) : Result Table :=
  match get_col "P-val" (cols df) with
  | Some c =>
      match stars_of c with
      | Ok s => Ok {| index := index df; cols := set_col "Sig" s (cols df) |}
      | Raise e => Raise e
      end
  | None =>
      match get_col "Perm-P-val" (cols df) with
      | Some c =>
          match stars_of c with
          | Ok s =>
              Ok {| index := index df; cols := set_col "Sig" s (cols df) |}
          | Raise e => Raise e
          end
      | None => Ok df
      end
  end.

(** ["*" if row["2.5_ci"] * row["97.5_ci"] > 0 else ""] *)
Definition interval_marker (lohi : cell * cell) : Result cell :=
  match lohi with
  | (Str _, _) | (_, Str _) =>
      Raise (TypeError "can't multiply sequence by non-int of type 'str'")
  | (Num lo, Num hi) =>
      Ok (Str (if Qlt_le_dec 0 (lo * hi) then "*" else EmptyString))
  | _ => Ok (Str EmptyString)
  end.

(** Lines 570-577: with bootstrapped intervals and no permutations, the
    p-values give way to a marker read off the intervals. *)
Definition bootstrap_marks (df : Table) : Result Table :=
  if negb (has_col "P-val" (cols df) && has_col "Sig" (cols df))
  then Raise (KeyError "['P-val', 'Sig'] not found in axis")
  else
    let dropped := drop_cols ["P-val"; "Sig"] (cols df) in
    let kept :=
      if has_col "DF" dropped then drop_cols ["DF"] dropped else dropped in
    match get_col "2.5_ci" kept with
    | None => Raise (KeyError "2.5_ci")
    | Some lo =>
        match get_col "97.5_ci" kept with
        | None => Raise (KeyError "97.5_ci")
        | Some hi =>
            match LmQueries.for_all interval_marker (combine lo hi) with
            | Ok marks =>
                Ok {| index := index df; cols := set_col "Sig" marks kept |}
            | Raise e => Raise e
            end
        end
    end.

(** Lines 579-583: [cols[:-4] + ["Num_perm"] + cols[-4:-2] +
    [cols[-1]]] *)
Definition col_order (names : list string) : Result (list string) :=
  let n := List.length names in
  match rev names with
  | [] => Raise (IndexError "list index out of range")
  | last_name :: _ =>
      Ok (firstn (n - 4) names ++ ["Num_perm"]
          ++ skipn (n - 4) (firstn (n - 2) names) ++ [last_name])%list
  end.

Definition order_columns (df : Table) : Result Table :=
  match col_order (columns (cols df)) with
  | Ok names => reorder names df
  | Raise e => Raise e
  end.

(** Lines 551-583: the table of coefficients from the table of the
    estimates and the statistics of the permuted fits. *)
Definition inference_columns (conf_int : string) (permute : option Z)
  (family : string) (perms : list (list Q)) (df : Table) : Result Table :=
  match (match permute with
         | Some p =>
             if negb (p =? 0)%Z then
               match perm_pvals family perms df with
               | Ok pvals => Ok (permuted_table p pvals df)
               | Raise e => Raise e
               end
             else Ok df
         | None => Ok df
         end) with
  | Raise e => Raise e
  | Ok df1 =>
      match mark_significance df1 with
      | Raise e => Raise e
      | Ok df2 =>
          match (match permute with
                 | None => if conf_int =? "boot" then bootstrap_marks df2
                           else Ok df2
                 | Some _ => Ok df2
                 end) with
          | Raise e => Raise e
          | Ok df3 =>
              if truthy_int permute then order_columns df3 else Ok df3
          end
      end
  end.

(** Lines 619-632: the columns of a frame of cluster-level coefficients,
    those of the population coefficients first. *)
Definition corrected_order (idx : list string) (f : Table) : Result Table :=
  reorder (idx ++ filter (fun e => negb (is_in e idx)) (columns (cols f)))%list
    f.

Section Methods.

Variable R : REnv.t.

Abbreviation Method := (M (REnv.rng R) (t (REnv.robj R))).

(** The value of a computation on frames, or the exception it raised. *)
Definition lift {A : Type} (r : Result A) : Method A :=
  match r with
  | Ok a => ret a
  | Raise e => raise e
  end.

(** A call that draws from the generator. *)
Definition draw {A : Type} (callee : string)
  (f : REnv.rng R -> option (A * REnv.rng R)) : Method A :=
  fun w =>
    match f (gen w) with
    | Some (a, g) => (Ok a, {| self := self w; gen := g; log := log w |})
    | None => (Raise (Raised callee), w)
    end.

(** [try: m except AttributeError: raise e] *)
Definition except_attribute_error {A : Type} (m : Method A) (e : exn)
  : Method A :=
  fun w =>
    match m w with
    | (Raise (AttributeError _), w1) => (Raise e, w1)
    | other => other
    end.

(** [warnings.warn(w)] followed by [self.warnings.append(w)] *)
Definition warn (w : string) : Method unit :=
  emit (Warn w) ;;
  update (fun m => set_warnings (warnings m ++ [w])%list m).

(** Lines 147-149 of [_make_factors]: the columns of the factors as
    strings. *)
Fixpoint stringify (keys : list string) (df : DataFrame) : Result DataFrame :=
  match keys with
  | [] => Ok df
  | k :: rest =>
      match get_col k df with
      | None => Raise (KeyError k)
      | Some c => stringify rest (set_col k (REnv.astype_str R c) df)
      end
  end.

(** Lines 153-160 of [_make_factors] *)
Fixpoint factorize_all (fd : factor_dict) (ordered : bool)
  (r_df : REnv.rdata R) : Result (REnv.rdata R) :=
  match fd with
  | [] => Ok r_df
  | (k, Levels v) :: rest =>
      match REnv.factorize R r_df k v ordered with
      | None => Raise (Raised "factorize")
      | Some d => factorize_all rest ordered d
      end
  | (k, Contrasts v) :: rest =>
      match REnv.factorize R r_df k (map fst v) ordered with
      | None => Raise (Raised "factorize")
      | Some d =>
          match REnv.contrastize R d k (map snd v) with
          | None => Raise (Raised "contrastize")
          | Some d' => factorize_all rest ordered d'
          end
      end
  end.

(** [Lmer._make_factors(factor_dict, ordered)] *)
Definition _make_factors (fd : factor_dict) (ordered : bool)
  : Method (REnv.rdata R) :=
  m <- this ;;
  df <- lift (stringify (map fst fd) (data m)) ;;
  lift (factorize_all fd ordered (REnv.as_rdata R df)).

Definition rank_warning : string :=
  "Factors and ranks requested, but factors are not excluded from rank conversion. Are you sure you wanted to do this?".

(** Lines 301-315: the data handed to R. *)
Definition prepare_data (a : fit_args) : Method (REnv.rdata R) :=
  dat <- match arg_factors a with
         | Some (f :: fs) =>
             d <- _make_factors (f :: fs) (ordered a) ;;
             update (set_factors (f :: fs)) ;;
             ret d
         | _ =>
             m <- this ;;
             ret (REnv.as_rdata R (data m))
         end ;;
  if rank a then
    if negb (truthy_str (rank_group a))
    then raise (ValueError "rank_group must be provided if rank is True")
    else
      m <- this ;;
      ranked <- call "to_ranks_by_group"
                  (REnv.to_ranks_by_group R (data m) (rank_group a)
                     (formula m) (rank_exclude_cols a)) ;;
      match arg_factors a with
      | Some (f :: fs) =>
          if negb (same_set (map fst (f :: fs)) (rank_exclude_cols a))
          then warn rank_warning else ret tt
      | _ => ret tt
      end ;;
      ret (REnv.as_rdata R ranked)
  else ret dat.

(** Lines 316-322: the type of the inference. *)
Definition describe_inference (a : fit_args) : Method unit :=
  if conf_int a =? "boot" then update (set_sig_type "bootstrapped")
  else
    match permute a with
    | Some p =>
        if negb (p =? 0)%Z
        then update (set_sig_type
                       ("permutation" +++ " (" +++ str_of_Z p +++ ")"))
        else update (set_sig_type "parametric")
    | None => update (set_sig_type "parametric")
    end.

(** Lines 342-347: the name of the family in R. *)
Definition r_family (family : string) : string :=
  if family =? "inverse_gaussian" then "inverse.gaussian"
  else if family =? "gamma" then "Gamma"
  else family.

(** [lmer.lmer(...)] for a gaussian model, [lmer.glmer(...)] for another. *)
Definition r_fit (family formula : string) (dat : REnv.rdata R)
  (reml : bool) : option (REnv.robj R) :=
  if family =? "gaussian" then REnv.lmer R formula dat reml
  else REnv.glmer R formula dat (r_family family) reml.

(** Lines 323-348: the model is fitted in R.  [format] applies to the last
    literal of the message of a generalized model, which has no place for
    the family. *)
Definition fit_in_r (a : fit_args) (dat : REnv.rdata R)
  : Method (REnv.robj R) :=
  m <- this ;;
  (if verbose a then
     if family m =? "gaussian" then
       emit (Print ("Fitting linear model using lmer with " +++ conf_int a
                    +++ " confidence intervals..." +++ nl))
     else
       emit (Print ("Fitting generalized linear model using glmer (family {}) with "
                    +++ conf_int a +++ " confidence intervals..." +++ nl))
   else ret tt) ;;
  obj <- call (if family m =? "gaussian" then "lmer" else "glmer")
           (r_fit (family m) (formula m) dat (REML a)) ;;
  update (set_model_obj obj) ;;
  ret obj.

(** Lines 350-351 *)
Definition announce_permutations (a : fit_args) : Method unit :=
  match permute a with
  | Some p =>
      if negb (p =? 0)%Z && verbose a
      then emit (Print ("Using " +++ str_of_Z p
                        +++ " permutations to determine significance..."))
      else ret tt
  | None => ret tt
  end.

(** [Lmer._get_ngrps()] *)
Definition _get_ngrps : Method unit :=
  m <- this ;;
  match model_obj m with
  | None => raise (Raised "get_ngrps")
  | Some obj =>
      res <- lift (REnv.get_ngrps R obj) ;;
      match cols res with
      | [(_, c)] => update (set_grps (combine (index res) c))
      | _ =>
          raise (Exception
                   "Appears there's been another rpy2 or lme4 api change.")
      end
  end.

(** Lines 360-366 *)
Definition read_summary (obj : REnv.robj R) : Method unit :=
  except_attribute_error _get_ngrps
    (Exception "You appear to have an old version of rpy2, upgrade to >3.0") ;;
  update (set_statistics (REnv.AICtab R obj) (REnv.logLik R obj)).

(** [for warning in self.warnings: print(warning + " \n")] *)
Fixpoint print_all (ws : list string) : Method unit :=
  match ws with
  | [] => ret tt
  | w :: rest =>
      emit (Print (w +++ " " +++ nl)) ;;
      print_all rest
  end.

(** Lines 368-393: what R said of the fit. *)
Definition store_warnings (a : fit_args) (obj : REnv.robj R) : Method unit :=
  let fit_messages_warnings :=
    (REnv.optinfo_warnings R obj ++ REnv.optinfo_messages R obj)%list in
  match fit_messages_warnings with
  | [] => update (set_warnings [])
  | _ =>
      update (fun m =>
                set_warnings (warnings m ++ fit_messages_warnings)%list m) ;;
      if negb (no_warnings a) then
        m <- this ;;
        print_all (warnings m)
      else ret tt
  end.

Definition choked : string :=
  "MODELING FIT WARNING! Check model.warnings!! P-value computation did not occur because lmerTest choked. Possible issue(s): ranefx have too many parameters or too little variance...".

(** Lines 419-466: the names of the columns of the estimates, by their
    number. *)
Definition name_columns (a : fit_args) (family : string) (df : Table)
  : Method Table :=
  let dfshape := List.length (cols df) in
  if Nat.eqb dfshape 7 then
    lift (renamed
            ["Estimate"; "SE"; "DF"; "T-stat"; "P-val"; "2.5_ci"; "97.5_ci"]
            ["Estimate"; "2.5_ci"; "97.5_ci"; "SE"; "DF"; "T-stat"; "P-val"]
            df)
  else if Nat.eqb dfshape 6 then
    if is_in family ["gamma"; "inverse_gaussian"] then
      lift (renamed
              ["Estimate"; "SE"; "T-stat"; "P-val"; "2.5_ci"; "97.5_ci"]
              ["Estimate"; "2.5_ci"; "97.5_ci"; "SE"; "T-stat"; "P-val"] df)
    else
      lift (renamed
              ["Estimate"; "SE"; "Z-stat"; "P-val"; "2.5_ci"; "97.5_ci"]
              ["Estimate"; "2.5_ci"; "97.5_ci"; "SE"; "Z-stat"; "P-val"] df)
  else if Nat.eqb dfshape 5 && (family =? "gaussian") then
    if negb (truthy_int (permute a)) then
      emit (Warn choked) ;;
      lift (renamed ["Estimate"; "SE"; "T-stat"; "2.5_ci"; "97.5_ci"]
              ["Estimate"; "2.5_ci"; "97.5_ci"; "SE"; "T-stat"] df)
    else ret df
  else ret df.

(** Lines 395-532: the table of the estimates. *)
Definition estimates (a : fit_args) (obj : REnv.robj R) : Method Table :=
  m <- this ;;
  if is_in (family m) ["gaussian"; "gamma"; "inverse_gaussian"; "poisson"]
  then
    res <- call "estimates_func"
             (REnv.r_call R (estimates_source (conf_int a) (n_boot a)) obj) ;;
    df <- lift (set_index (snd res) (fst res)) ;;
    name_columns a (family m) df
  else if family m =? "binomial" then
    res <- call "estimates_func"
             (REnv.r_call R (odds_source (conf_int a) (n_boot a)) obj) ;;
    df <- lift (set_index (snd res) (fst res)) ;;
    lift (renamed
            ["Estimate"; "SE"; "Z-stat"; "P-val"; "2.5_ci"; "97.5_ci"; "OR";
             "OR_2.5_ci"; "OR_97.5_ci"; "Prob"; "Prob_2.5_ci";
             "Prob_97.5_ci"]
            ["Estimate"; "2.5_ci"; "97.5_ci"; "SE"; "OR"; "OR_2.5_ci";
             "OR_97.5_ci"; "Prob"; "Prob_2.5_ci"; "Prob_97.5_ci"; "Z-stat";
             "P-val"] df)
  else raise (Raised "UnboundLocalError").

(** Lines 539-549: the loop of the permuted fits.  Each turn shuffles the
    frame the turn before left. *)
Fixpoint permutations (n : nat) (family formula : string) (reml : bool)
  (grp_vars : list string) (dv_var : string) (perm_dat : REnv.rdata R)
  : Method (list (list Q)) :=
  match n with
  | O => ret []
  | S k =>
      d <- draw "sample" (REnv.sample_within R perm_dat grp_vars dv_var) ;;
      perm_obj <- call (if family =? "gaussian" then "lmer" else "glmer")
                    (r_fit family formula d reml) ;;
      ts <- call "_return_t" (REnv._return_t R perm_obj) ;;
      rest <- permutations k family formula reml grp_vars dv_var d ;;
      ret (ts :: rest)
  end.

(** Lines 534-550 *)
Definition permuted_fits (a : fit_args) (dat : REnv.rdata R)
  : Method (list (list Q)) :=
  match permute a with
  | Some p =>
      if negb (p =? 0)%Z then
        m <- this ;;
        match grps m with
        | None =>
            raise (AttributeError "'NoneType' object has no attribute 'keys'")
        | Some g =>
            permutations (Z.to_nat p) (family m) (formula m) (REML a)
              (map fst g) (strip (before_tilde (formula m))) dat
        end
      else ret []
  | None => ret []
  end.

(** Lines 584-585 *)
Definition store_coefs (df : Table) : Method unit :=
  update (set_coefs df) ;;
  update (set_fitted true).

(** Lines 587-606 *)
Definition random_effects (obj : REnv.robj R) : Method unit :=
  rv <- call "varcor" (REnv.varcor R obj) ;;
  update (set_ranef_vars (fst rv) (snd rv)).

(** Lines 608-633: the cluster-level coefficients. *)
Definition cluster_coefficients (obj : REnv.robj R) : Method unit :=
  fixefs <- call "coef" (REnv.coef R obj) ;;
  m <- this ;;
  match coefs m with
  | None => raise (AttributeError "'NoneType' object has no attribute 'index'")
  | Some tb =>
      match fixefs with
      | [] => raise (IndexError "list index out of range")
      | [f] =>
          update (set_fixef (One f)) ;;
          f' <- lift (corrected_order (index tb) f) ;;
          update (set_fixef (One f'))
      | _ =>
          fs <- lift (LmQueries.for_all (corrected_order (index tb)) fixefs) ;;
          update (set_fixef (Many fs))
      end
  end.

(** Lines 638-654: the cluster-level deviations. *)
Definition cluster_deviations (obj : REnv.robj R) : Method unit :=
  ranefs <- call "ranef" (REnv.ranef R obj) ;;
  match ranefs with
  | [] => raise (IndexError "list index out of range")
  | [r] => update (set_ranef (One r))
  | _ => update (set_ranef (Many ranefs))
  end.

(** Lines 656-662: the design matrix, first as R returns it, then with the
    labels of the coefficients for its columns. *)
Definition store_design (obj : REnv.robj R) : Method unit :=
  mm <- call "model_matrix" (REnv.model_matrix R obj) ;;
  update (set_design_matrix {| dm_columns := []; dm_rows := mm |}) ;;
  m <- this ;;
  match coefs m with
  | None => raise (AttributeError "'NoneType' object has no attribute 'index'")
  | Some tb =>
      if match mm with
         | [] => true
         | _ :: _ =>
             match shape1 mm with
             | Some k => Nat.eqb k (List.length (index tb))
             | None => false
             end
         end
      then update (set_design_matrix
                     {| dm_columns := index tb; dm_rows := mm |})
      else raise (ValueError "Shape of passed values does not match")
  end.

(** Lines 664-675: the column [residuals] of the data, from the attribute
    [resid].  A value of another length is refused by pandas, and the
    method prints a note instead. *)
Definition add_residuals : Method unit :=
  m <- this ;;
  match resid m with
  | None =>
      update (set_data
                (set_col "residuals" (repeat NaN (nrows (data m))) (data m)))
  | Some r =>
      if Nat.eqb (List.length r) (nrows (data m))
      then update (set_data (set_col "residuals" (map Num r) (data m)))
      else emit (Print ("**NOTE**: Column for 'residuals' not created in model.data, but saved in model.resid only. This is because you have rows with NaNs in your data."
                        +++ nl))
  end.

(** Lines 677-689: the fitted values and the column [fits]. *)
Definition add_fits (obj : REnv.robj R) : Method unit :=
  fv <- call "fitted" (REnv.fitted R obj) ;;
  update (set_fits fv) ;;
  m <- this ;;
  if Nat.eqb (List.length fv) (nrows (data m))
  then update (set_data (set_col "fits" (map Num fv) (data m)))
  else emit (Print ("**NOTE** Column for 'fits' not created in model.data, but saved in model.fits only. This is because you have rows with NaNs in your data."
                    +++ nl)).

Definition show (q : option Q) : Method string :=
  match q with
  | Some v => ret (REnv.format_3f R v)
  | None => raise (TypeError "must be real number, not NoneType")
  end.

(** [Lmer.summary] *)
Definition summary : Method Table :=
  m <- this ;;
  if negb (fitted m)
  then raise (RuntimeError "Model must be fitted to generate summary!")
  else
    emit (Print ("Formula: " +++ formula m +++ nl)) ;;
    emit (Print ("Family: " +++ family m +++ tab +++ " Inference: "
                 +++ Lm.show_str (sig_type m) +++ nl)) ;;
    emit (Print ("Number of observations: "
                 +++ str_of_Z (Z.of_nat (nrows (data m))) +++ tab
                 +++ " Groups: "
                 +++ match grps m with
                     | Some g => REnv.show_grps R g
                     | None => "None"
                     end +++ nl)) ;;
    ll <- show (logLike m) ;;
    aic <- show (AIC m) ;;
    emit (Print ("Log-likelihood: " +++ ll +++ " " +++ tab +++ " AIC: "
                 +++ aic +++ nl)) ;;
    emit (Print ("Random effects:" +++ nl)) ;;
    match ranef_var m with
    | None => raise (AttributeError "'NoneType' object has no attribute 'round'")
    | Some rv => emit (Print (REnv.show_frame R (round_table rv) +++ nl))
    end ;;
    match ranef_corr m with
    | Some rc => emit (Print (REnv.show_frame R (round_table rc) +++ nl))
    | None => emit (Print ("No random effect correlations specified" +++ nl))
    end ;;
    emit (Print ("Fixed effects:" +++ nl)) ;;
    match coefs m with
    | Some c => ret (round_table c)
    | None =>
        raise (AttributeError "'NoneType' object has no attribute 'round'")
    end.

(** [Lmer.fit]: returns the summary table, or [None] without
    [summarize]. *)
Definition fit (a : fit_args) : Method (option Table) :=
  update (set_params (permute a) (conf_int a) (REML a)) ;;
  dat <- prepare_data a ;;
  describe_inference a ;;
  obj <- fit_in_r a dat ;;
  announce_permutations a ;;
  read_summary obj ;;
  store_warnings a obj ;;
  df <- estimates a obj ;;
  perms <- permuted_fits a dat ;;
  m <- this ;;
  tb <- lift (inference_columns (conf_int a) (permute a) (family m) perms df) ;;
  store_coefs tb ;;
  random_effects obj ;;
  cluster_coefficients obj ;;
  cluster_deviations obj ;;
  store_design obj ;;
  add_residuals ;;
  add_fits obj ;;
  if summarize a then
    s <- summary ;;
    ret (Some s)
  else ret None.

End Methods.

End Lmer.

(** * A sample environment

    An environment small enough to run the methods in: a generator that
    counts, design matrices for the formulas [y~1] and [y~x], exact least
    squares for one and two coefficients, and stand-ins for the numerical
    routines of scipy and numpy (the standard errors are 1, the resamples
    are rotations of the rows, the percentiles are the extremes). *)

Module Sample.

Local Open Scope string_scope.
Local Open Scope Q_scope.

Definition dot (u v : list Q) : Q :=
  Qsum (map (fun p => fst p * snd p) (combine u v)).

Definition mean (xs : list Q) : Q :=
  Qsum xs / inject_Z (Z.of_nat (List.length xs)).

Definition dmatrices (formula : string) (df : DataFrame) : option Matrices :=
  match get_col (before_tilde formula) df with
  | None => None
  | Some yc =>
      match numbers yc with
      | None => None
      | Some y =>
          let rhs := after_tilde formula in
          if (rhs =? "1")%string then
            Some {| y_index := seq 0 (List.length y); y_values := y;
                    predictors :=
                      {| dm_columns := ["Intercept"];
                         dm_rows := map (fun _ => [1]) y |} |}
          else
            match get_col rhs df with
            | None => None
            | Some xc =>
                match numbers xc with
                | None => None
                | Some x =>
                    Some {| y_index := seq 0 (List.length y); y_values := y;
                            predictors :=
                              {| dm_columns := ["Intercept"; rhs];
                                 dm_rows := map (fun v => [1; v]) x |} |}
                end
            end
      end
  end.

(** The least-squares coefficients of a design of one or two columns. *)
Definition solve (x : Design) (y : list Q) : option (list Q) :=
  match dm_columns x with
  | [_] =>
      let c := array_col (dm_rows x) 0 in
      if Qeq_bool (dot c c) 0 then None else Some [Qred (dot c y / dot c c)]
  | [_; _] =>
      let c1 := array_col (dm_rows x) 0 in
      let c2 := array_col (dm_rows x) 1 in
      let det := dot c1 c1 * dot c2 c2 - dot c1 c2 * dot c1 c2 in
      if Qeq_bool det 0 then None
      else Some [Qred ((dot c2 c2 * dot c1 y - dot c1 c2 * dot c2 y) / det);
                 Qred ((dot c1 c1 * dot c2 y - dot c1 c2 * dot c1 y) / det)]
  | _ => None
  end.

Definition _ols (x : Design) (y : list Q) (robust : robust_arg) (n_lags : Z)
  (cluster : cluster_val) (weights : option column) : option Estimates :=
  match solve x y with
  | None => None
  | Some b =>
      Some {| est_b := b;
              est_se := map (fun _ => 1) b;
              est_t := b;
              est_res :=
                map (fun ry => Qred (snd ry - dot (fst ry) b))
                  (combine (dm_rows x) y) |}
  end.

(** The list rotated by [k] places. *)
Definition rotate {A : Type} (k : nat) (xs : list A) : list A :=
  (skipn (k mod List.length xs) xs ++ firstn (k mod List.length xs) xs)%list.

Definition _chunk_perm_ols (x : Design) (y : list Q) (robust : robust_arg)
  (n_lags : Z) (cluster : cluster_val) (weights : weights_arg) (seed : Z)
  : option (list Q) :=
  match _ols x (rotate (Z.to_nat seed) y) robust n_lags cluster None with
  | Some est => Some (est_t est)
  | None => None
  end.

Definition _chunk_boot_ols_coefs (dat : DataFrame) (formula : string)
  (weights : weights_arg) (seed : Z) : option (list Q) :=
  let resampled :=
    map (fun kc => (fst kc, rotate (Z.to_nat seed) (snd kc))) dat in
  match dmatrices formula resampled with
  | None => None
  | Some yx =>
      match solve (predictors yx) (y_values yx) with
      | Some b => Some (map (fun v => v + inject_Z (seed mod 3) - 1) b)
      | None => None
      end
  end.

Definition rows_of (group_col : string) (g : cell) (dat : DataFrame)
  : DataFrame :=
  match get_col group_col dat with
  | None => dat
  | Some keys =>
      map (fun kc =>
             (fst kc,
              map snd (filter (fun kv => cell_eqb g (fst kv))
                         (combine keys (snd kc)))))
          dat
  end.

Definition _ols_group (dat : DataFrame) (formula group_col : string)
  (g : cell) (ranked : bool) : option (list Q) :=
  match dmatrices formula (rows_of group_col g dat) with
  | None => None
  | Some yx => solve (predictors yx) (y_values yx)
  end.

Definition _corr_group (dat : DataFrame) (formula group_col : string)
  (g : cell) (ranked : bool) (corr_type : corrs_arg) : option (list Q) :=
  match _ols_group dat formula group_col g ranked with
  | Some b => Some (tl b)
  | None => None
  end.

(** The signs of the data flipped by the bits of the seed. *)
Fixpoint flip (bits : Z) (xs : list Q) : list Q :=
  match xs with
  | [] => []
  | x :: rest =>
      (if Z.odd bits then - x else x) :: flip (Z.div2 bits) rest
  end.

Definition _permute_sign (xs : list Q) (seed : Z) (return_stat : string)
  : option Q :=
  Some (Qred (mean (flip seed xs))).

Definition extreme (pick : Q -> Q -> Q) (xs : list Q) : Q :=
  match xs with
  | [] => 0
  | x :: rest => fold_right pick x rest
  end.

Definition np_percentile (rows : list (list Q)) (q : Q) : option (list Q) :=
  match shape1 rows with
  | None => None
  | Some k =>
      Some (map (fun j =>
                   extreme
                     (if Qle_bool q 50
                      then fun a b => if Qle_bool a b then a else b
                      else fun a b => if Qle_bool a b then b else a)
                     (array_col rows j))
              (seq 0 k))
  end.

Definition np_var (xs : list Q) : Q :=
  Qred (Qsum (map (fun v => (v - mean xs) * (v - mean xs)) xs)
        / inject_Z (Z.of_nat (List.length xs) - 1)).

Definition rsquared (y res : list Q) (center : bool) : Q :=
  let base := if center then mean y else 0 in
  Qred (1 - dot res res / Qsum (map (fun v => (v - base) * (v - base)) y)).

Definition rsquared_adj (r : Q) (n : nat) (df : Z) (center : bool) : Q :=
  Qred (1 - (inject_Z (Z.of_nat n) - (if center then 1 else 0))
            / inject_Z df * (1 - r)).

Definition env : Env.t :=
  {| Env.rng := Z;
     Env.random_draw := fun g => (g, (g + 1)%Z);
     Env.dmatrices := dmatrices;
     Env.df_rank := fun df => df;
     Env._ols := _ols;
     Env._chunk_boot_ols_coefs := _chunk_boot_ols_coefs;
     Env._chunk_perm_ols := _chunk_perm_ols;
     Env._ols_group := _ols_group;
     Env._corr_group := _corr_group;
     Env._permute_sign := _permute_sign;
     Env.rsquared := rsquared;
     Env.rsquared_adj := rsquared_adj;
     Env.t_dist_cdf := fun x df => 1 - 1 / (2 * (1 + Qabs x));
     Env.t_dist_ppf := fun q df => if Qle_bool q (1 # 2) then - (2) else 2;
     Env.np_percentile := np_percentile;
     Env.np_var := np_var;
     Env.np_log := fun q => q - 1;
     Env.np_pi := 355 # 113;
     Env.np_arctanh := fun q => q;
     Env.format_3f := fun _ => "0.000" |}.

(** Six observations of a response [Y] and a predictor [X] from three
    sites, two in each; [half] splits them in two blocks. *)
Definition observations : DataFrame :=
  [("Y", [Num 1; Num 2; Num 4; Num 5; Num 9; Num 12]);
   ("X", [Num 0; Num 1; Num 0; Num 1; Num 0; Num 1]);
   ("site", [Str "a"; Str "a"; Str "b"; Str "b"; Str "c"; Str "c"]);
   ("half", [Str "l"; Str "l"; Str "l"; Str "r"; Str "r"; Str "r"])].

Definition new_model (formula : string) : Lm.t :=
  match Lm.init formula observations "gaussian" with
  | Ok m => m
  | Raise _ =>
      {| Lm.family := "gaussian"; Lm.fitted := false; Lm.formula := formula;
         Lm.data := observations; Lm.AIC := None; Lm.BIC := None;
         Lm.logLike := None; Lm.warnings := []; Lm.resid := None;
         Lm.fits := None; Lm.coefs := None; Lm.design_matrix := None;
         Lm.ci_type := None; Lm.se_type := None; Lm.sig_type := None;
         Lm.ranked_data := false; Lm.estimator := None;
         Lm.rsquared := None; Lm.rsquared_adj := None |}
  end.

(** A world with a fresh model, the generator at 1 and nothing logged. *)
Definition world (formula : string) : World Z Lm.t :=
  {| self := new_model formula; gen := 1%Z; log := [] |}.

Definition run (formula : string) (a : Lm.fit_args)
  : Result (option Table) * World Z Lm.t :=
  Lm.fit env a (world formula).

(** [fit(summarize=False)] *)
Definition quiet : Lm.fit_args :=
  {| Lm.robust := RBool false; Lm.conf_int := "standard";
     Lm.permute := None; Lm.rank := false; Lm.summarize := false;
     Lm.verbose := false; Lm.n_boot := 500; Lm.n_jobs := 1; Lm.n_lags := 1;
     Lm.cluster := None; Lm.weights := WNone;
     Lm.wls_dof_correction := true |}.

(** [fit(robust="hc3", permute=3, n_jobs=4, summarize=False)] *)
Definition robust_permuted : Lm.fit_args :=
  {| Lm.robust := RStr "hc3"; Lm.conf_int := "standard";
     Lm.permute := Some 3%Z; Lm.rank := false; Lm.summarize := false;
     Lm.verbose := false; Lm.n_boot := 500; Lm.n_jobs := 4; Lm.n_lags := 1;
     Lm.cluster := None; Lm.weights := WNone;
     Lm.wls_dof_correction := true |}.

(** [fit(conf_int="boot", n_boot=4, summarize=False)] *)
Definition bootstrapped : Lm.fit_args :=
  {| Lm.robust := RBool false; Lm.conf_int := "boot";
     Lm.permute := None; Lm.rank := false; Lm.summarize := false;
     Lm.verbose := false; Lm.n_boot := 4; Lm.n_jobs := 1; Lm.n_lags := 1;
     Lm.cluster := None; Lm.weights := WNone;
     Lm.wls_dof_correction := true |}.

(** [fit(robust="cluster", cluster="half", summarize=False)] *)
Definition clustered : Lm.fit_args :=
  {| Lm.robust := RStr "cluster"; Lm.conf_int := "standard";
     Lm.permute := None; Lm.rank := false; Lm.summarize := false;
     Lm.verbose := false; Lm.n_boot := 500; Lm.n_jobs := 1; Lm.n_lags := 1;
     Lm.cluster := Some "half"; Lm.weights := WNone;
     Lm.wls_dof_correction := true |}.

(** [fit(robust="cluster", cluster="site", summarize=False)] *)
Definition clustered_by_site : Lm.fit_args :=
  {| Lm.robust := RStr "cluster"; Lm.conf_int := "standard";
     Lm.permute := None; Lm.rank := false; Lm.summarize := false;
     Lm.verbose := false; Lm.n_boot := 500; Lm.n_jobs := 1; Lm.n_lags := 1;
     Lm.cluster := Some "site"; Lm.weights := WNone;
     Lm.wls_dof_correction := true |}.

(** [fit(weights="site", summarize=False)]: three groups. *)
Definition weighted_by_site : Lm.fit_args :=
  {| Lm.robust := RBool false; Lm.conf_int := "standard";
     Lm.permute := None; Lm.rank := false; Lm.summarize := false;
     Lm.verbose := false; Lm.n_boot := 500; Lm.n_jobs := 1; Lm.n_lags := 1;
     Lm.cluster := None; Lm.weights := WCol "site";
     Lm.wls_dof_correction := true |}.

(** [fit(weights="half", summarize=False)]: two groups. *)
Definition weighted_by_half : Lm.fit_args :=
  {| Lm.robust := RBool false; Lm.conf_int := "standard";
     Lm.permute := None; Lm.rank := false; Lm.summarize := false;
     Lm.verbose := false; Lm.n_boot := 500; Lm.n_jobs := 1; Lm.n_lags := 1;
     Lm.cluster := None; Lm.weights := WCol "half";
     Lm.wls_dof_correction := true |}.

(** [fit(robust="cluster", cluster="site", weights="site",
    summarize=False)] *)
Definition weighted_and_clustered : Lm.fit_args :=
  {| Lm.robust := RStr "cluster"; Lm.conf_int := "standard";
     Lm.permute := None; Lm.rank := false; Lm.summarize := false;
     Lm.verbose := false; Lm.n_boot := 500; Lm.n_jobs := 1; Lm.n_lags := 1;
     Lm.cluster := Some "site"; Lm.weights := WCol "site";
     Lm.wls_dof_correction := true |}.

(** [fit(robust="cluster", cluster="town", summarize=False)]: the data
    have no column [town]. *)
Definition unknown_cluster : Lm.fit_args :=
  {| Lm.robust := RStr "cluster"; Lm.conf_int := "standard";
     Lm.permute := None; Lm.rank := false; Lm.summarize := false;
     Lm.verbose := false; Lm.n_boot := 500; Lm.n_jobs := 1; Lm.n_lags := 1;
     Lm.cluster := Some "town"; Lm.weights := WNone;
     Lm.wls_dof_correction := true |}.

(** [fit(weights="town", summarize=False)] *)
Definition unknown_weights : Lm.fit_args :=
  {| Lm.robust := RBool false; Lm.conf_int := "standard";
     Lm.permute := None; Lm.rank := false; Lm.summarize := false;
     Lm.verbose := false; Lm.n_boot := 500; Lm.n_jobs := 1; Lm.n_lags := 1;
     Lm.cluster := None; Lm.weights := WCol "town";
     Lm.wls_dof_correction := true |}.

(** [fit(cluster="site", summarize=False)]: a cluster without a robust
    estimator. *)
Definition cluster_only : Lm.fit_args :=
  {| Lm.robust := RBool false; Lm.conf_int := "standard";
     Lm.permute := None; Lm.rank := false; Lm.summarize := false;
     Lm.verbose := false; Lm.n_boot := 500; Lm.n_jobs := 1; Lm.n_lags := 1;
     Lm.cluster := Some "site"; Lm.weights := WNone;
     Lm.wls_dof_correction := true |}.

(** A two-level model of the observations grouped by site. *)
Definition new_model2 (formula : string) : Lm2.t :=
  match Lm2.init formula observations "site" "gaussian" with
  | Ok m => m
  | Raise _ =>
      {| Lm2.family := "gaussian"; Lm2.group := "site"; Lm2.fitted := false;
         Lm2.formula := formula; Lm2.data := observations;
         Lm2.AIC := None; Lm2.BIC := None; Lm2.logLike := None;
         Lm2.rsquared := None; Lm2.rsquared_adj := None;
         Lm2.warnings := []; Lm2.fixef := None; Lm2.coefs := None;
         Lm2.ci_type := None; Lm2.se_type := None; Lm2.sig_type := None;
         Lm2.ranked_data := false; Lm2.iscorrs := TBool false |}
  end.

Definition world2 (formula : string) : World Z Lm2.t :=
  {| self := new_model2 formula; gen := 1%Z; log := [] |}.

(** [fit(summarize=False)] of a two-level model. *)
Definition quiet2 : Lm2.fit_args :=
  {| Lm2.robust := RBool false; Lm2.conf_int := "standard";
     Lm2.permute := None; Lm2.perm_on := "t-stat"; Lm2.rank := false;
     Lm2.summarize := false; Lm2.verbose := false; Lm2.n_boot := 500;
     Lm2.n_jobs := 1; Lm2.n_lags := 1; Lm2.to_corrs := TBool false;
     Lm2.ztrans_corrs := true; Lm2.cluster := None |}.

(** [fit(robust=True, permute=3)] of a two-level model. *)
Definition permuted2 : Lm2.fit_args :=
  {| Lm2.robust := RBool true; Lm2.conf_int := "standard";
     Lm2.permute := Some 3%Z; Lm2.perm_on := "t-stat"; Lm2.rank := false;
     Lm2.summarize := true; Lm2.verbose := false; Lm2.n_boot := 500;
     Lm2.n_jobs := 1; Lm2.n_lags := 1; Lm2.to_corrs := TBool false;
     Lm2.ztrans_corrs := true; Lm2.cluster := None |}.

(** [fit(to_corrs="full", summarize=False)] and
    [fit(permute=3, perm_on="median", summarize=False)] *)
Definition bad_corrs2 : Lm2.fit_args :=
  {| Lm2.robust := RBool false; Lm2.conf_int := "standard";
     Lm2.permute := None; Lm2.perm_on := "t-stat"; Lm2.rank := false;
     Lm2.summarize := false; Lm2.verbose := false; Lm2.n_boot := 500;
     Lm2.n_jobs := 1; Lm2.n_lags := 1; Lm2.to_corrs := TStr "full";
     Lm2.ztrans_corrs := true; Lm2.cluster := None |}.

Definition bad_perm_on2 : Lm2.fit_args :=
  {| Lm2.robust := RBool false; Lm2.conf_int := "standard";
     Lm2.permute := Some 3%Z; Lm2.perm_on := "median"; Lm2.rank := false;
     Lm2.summarize := false; Lm2.verbose := false; Lm2.n_boot := 500;
     Lm2.n_jobs := 1; Lm2.n_lags := 1; Lm2.to_corrs := TBool false;
     Lm2.ztrans_corrs := true; Lm2.cluster := None |}.

(** A model fitted without an intercept on two predictors, and data to
    predict from. *)
Definition no_intercept_model : Lm.t :=
  {| Lm.family := "gaussian"; Lm.fitted := true; Lm.formula := "Y~0+X+Z";
     Lm.data := []; Lm.AIC := None; Lm.BIC := None; Lm.logLike := None;
     Lm.warnings := []; Lm.resid := None; Lm.fits := None;
     Lm.coefs := Some {| index := ["X"; "Z"];
                         cols := [("Estimate", [Num 2; Num 3])] |};
     Lm.design_matrix := Some {| dm_columns := ["X"; "Z"]; dm_rows := [] |};
     Lm.ci_type := None; Lm.se_type := None; Lm.sig_type := None;
     Lm.ranked_data := false; Lm.estimator := None;
     Lm.rsquared := None; Lm.rsquared_adj := None |}.

Definition new_data : DataFrame :=
  [("X", [Num 1; Num 2]); ("Z", [Num 5; Num 7])].

(** An environment whose [dmatrices] reads a formula without a right
    side as one with an intercept only, and stand-ins for [pearsonr] and
    for the residuals of [_ols]. *)
Definition env_corrs : Env.t :=
  {| Env.rng := Z;
     Env.random_draw := fun g => (g, (g + 1)%Z);
     Env.dmatrices :=
       fun f d =>
         dmatrices (if (after_tilde f =? "")%string then f +++ "1" else f) d;
     Env.df_rank := fun df => df;
     Env._ols := _ols;
     Env._chunk_boot_ols_coefs := _chunk_boot_ols_coefs;
     Env._chunk_perm_ols := _chunk_perm_ols;
     Env._ols_group := _ols_group;
     Env._corr_group := _corr_group;
     Env._permute_sign := _permute_sign;
     Env.rsquared := rsquared;
     Env.rsquared_adj := rsquared_adj;
     Env.t_dist_cdf := fun x df => 1 - 1 / (2 * (1 + Qabs x));
     Env.t_dist_ppf := fun q df => if Qle_bool q (1 # 2) then - (2) else 2;
     Env.np_percentile := np_percentile;
     Env.np_var := np_var;
     Env.np_log := fun q => q - 1;
     Env.np_pi := 355 # 113;
     Env.np_arctanh := fun q => q;
     Env.format_3f := fun _ => "0.000" |}.

Definition pearsonr (x y : list Q) : option Q :=
  if Nat.eqb (List.length x) (List.length y) then Some (Qred (dot x y))
  else None.

Definition _ols_resid (x : Design) (y : list Q) : option (list Q) :=
  match _ols x y (RBool false) 1 ClNone None with
  | Some est => Some (est_res est)
  | None => None
  end.

(** The observations with the site of the first one missing, as a
    two-level model. *)
Definition unlabelled : DataFrame :=
  set_col "site" [NaN; Str "a"; Str "b"; Str "b"; Str "c"; Str "c"]
    observations.

Definition unlabelled_world (formula : string) : World Z Lm2.t :=
  {| self :=
       {| Lm2.family := "gaussian"; Lm2.group := "site"; Lm2.fitted := false;
          Lm2.formula := formula; Lm2.data := unlabelled;
          Lm2.AIC := None; Lm2.BIC := None; Lm2.logLike := None;
          Lm2.rsquared := None; Lm2.rsquared_adj := None;
          Lm2.warnings := []; Lm2.fixef := None; Lm2.coefs := None;
          Lm2.ci_type := None; Lm2.se_type := None; Lm2.sig_type := None;
          Lm2.ranked_data := false; Lm2.iscorrs := TBool false |};
     gen := 1%Z; log := [] |}.

(** An R side for [Lmer]: a model is the frame it was fitted to, the
    table of the estimates has the seven columns of lmerTest for a linear
    model and six for another, and R has nothing to say of the fit. *)
Definition r_estimates (generalized : bool) : DataFrame :=
  if generalized then
    [("Estimate", [Num 2; Num 3]); ("Std. Error", [Num 1; Num 1]);
     ("z value", [Num 2; Num 3]);
     ("Pr(>|z|)", [Num (1 # 20); Num (1 # 100)]);
     ("2.5 %", [Num 1; Num (-1)]); ("97.5 %", [Num 4; Num 5])]
  else
    [("Estimate", [Num 2; Num 3]); ("Std. Error", [Num 1; Num 1]);
     ("df", [Num 4; Num 4]); ("t value", [Num 2; Num 3]);
     ("Pr(>|t|)", [Num (1 # 20); Num (1 # 100)]);
     ("2.5 %", [Num 1; Num (-1)]); ("97.5 %", [Num 4; Num 5])].

Definition renv : REnv.t :=
  {| REnv.rng := Z;
     REnv.robj := bool * DataFrame;
     REnv.rdata := DataFrame;
     REnv.as_rdata := fun d => d;
     REnv.astype_str := fun c => c;
     REnv.factorize := fun d _ _ _ => Some d;
     REnv.contrastize := fun d _ _ => Some d;
     REnv.to_ranks_by_group := fun d _ _ _ => Some (Env.df_rank env d);
     REnv.lmer := fun _ d _ => Some (false, d);
     REnv.glmer := fun _ d _ _ => Some (true, d);
     REnv.get_ngrps :=
       fun _ => Ok {| index := ["site"]; cols := [("ngrps", [Num 3])] |};
     REnv.AICtab := fun _ => 10;
     REnv.logLik := fun _ => - (3);
     REnv.optinfo_messages := fun _ => [];
     REnv.optinfo_warnings := fun _ => [];
     REnv.r_call :=
       fun _ obj => Some (r_estimates (fst obj), ["(Intercept)"; "X"]);
     REnv.sample_within := fun d _ _ g => Some (d, (g + 1)%Z);
     REnv._return_t := fun _ => Some [1; 4];
     REnv.varcor :=
       fun _ => Some ({| index := ["site"; "Residual"];
                         cols := [("Name", [Str "(Intercept)"; Str "-"]);
                                  ("Var", [Num 1; Num 2]);
                                  ("Std", [Num 1; Num (3 # 2)])] |}, None);
     REnv.coef :=
       fun _ => Some [{| index := ["a"; "b"; "c"];
                         cols := [("X", [Num 3; Num 3; Num 3]);
                                  ("(Intercept)", [Num 1; Num 2; Num 3])] |}];
     REnv.ranef :=
       fun _ => Some [{| index := ["a"; "b"; "c"];
                         cols := [("(Intercept)",
                                   [Num (-1); Num 0; Num 1])] |}];
     REnv.model_matrix :=
       fun _ => Some [[1; 0]; [1; 1]; [1; 0]; [1; 1]; [1; 0]; [1; 1]];
     REnv.fitted := fun _ => Some [2; 5; 2; 5; 2; 5];
     REnv.format_3f := fun _ => "0.000";
     REnv.show_grps := fun _ => "{'site': 3.0}";
     REnv.show_frame := fun _ => "..." |}.

Definition new_lmer (family : string) : Lmer.t (bool * DataFrame) :=
  match Lmer.init "Y ~ X + (1|site)" observations family with
  | Ok m => m
  | Raise _ =>
      {| Lmer.family := family; Lmer.fitted := false;
         Lmer.formula := "Y~X+(1|site)"; Lmer.data := observations;
         Lmer.grps := None; Lmer.AIC := None; Lmer.logLike := None;
         Lmer.warnings := []; Lmer.ranef_var := None;
         Lmer.ranef_corr := None; Lmer.ranef := None; Lmer.fixef := None;
         Lmer.design_matrix := None; Lmer.resid := None; Lmer.coefs := None;
         Lmer.model_obj := None; Lmer.factors := None;
         Lmer.ranked_data := false; Lmer.sig_type := None;
         Lmer._permute := None; Lmer._conf_int := None; Lmer._REML := None;
         Lmer.fits := None |}
  end.

Definition lmer_world (family : string)
  : World Z (Lmer.t (bool * DataFrame)) :=
  {| self := new_lmer family; gen := 1%Z; log := [] |}.

(** [fit(summarize=False)], [fit(permute=2, summarize=False)],
    [fit(conf_int="boot", summarize=False)], [fit(rank=True,
    summarize=False)] and [fit(rank=True, rank_group="site",
    factors={"site": ["a", "b", "c"]}, summarize=False)] of an [Lmer]
    model. *)
Definition lmer_quiet : Lmer.fit_args :=
  {| Lmer.conf_int := "Wald"; Lmer.n_boot := 500; Lmer.arg_factors := None;
     Lmer.permute := None; Lmer.ordered := false; Lmer.summarize := false;
     Lmer.verbose := false; Lmer.REML := true; Lmer.rank := false;
     Lmer.rank_group := EmptyString; Lmer.rank_exclude_cols := [];
     Lmer.no_warnings := false |}.


Definition lmer_boot : Lmer.fit_args :=
  {| Lmer.conf_int := "boot"; Lmer.n_boot := 500; Lmer.arg_factors := None;
     Lmer.permute := None; Lmer.ordered := false; Lmer.summarize := false;
     Lmer.verbose := false; Lmer.REML := true; Lmer.rank := false;
     Lmer.rank_group := EmptyString; Lmer.rank_exclude_cols := [];
     Lmer.no_warnings := false |}.

Definition lmer_rank_only : Lmer.fit_args :=
  {| Lmer.conf_int := "Wald"; Lmer.n_boot := 500; Lmer.arg_factors := None;
     Lmer.permute := None; Lmer.ordered := false; Lmer.summarize := false;
     Lmer.verbose := false; Lmer.REML := true; Lmer.rank := true;
     Lmer.rank_group := EmptyString; Lmer.rank_exclude_cols := [];
     Lmer.no_warnings := false |}.

Definition lmer_ranked_factors : Lmer.fit_args :=
  {| Lmer.conf_int := "Wald"; Lmer.n_boot := 500;
     Lmer.arg_factors := Some [("site", Lmer.Levels ["a"; "b"; "c"])];
     Lmer.permute := None; Lmer.ordered := false; Lmer.summarize := false;
     Lmer.verbose := false; Lmer.REML := true; Lmer.rank := true;
     Lmer.rank_group := "site"; Lmer.rank_exclude_cols := [];
     Lmer.no_warnings := false |}.

End Sample.

(** * Vocabulary of the statements *)

(** A relation between the world before and the world after holds for
    every run of a method, whatever the run returns or raises. *)
Definition always {G S A : Type} (R : World G S -> World G S -> Prop)
  (m : M G S A) : Prop :=
  forall w, R w (snd (m w)).

(** The run leaves a property of the object in place. *)
Definition keeps {G S : Type} (P : S -> Prop) (w w' : World G S) : Prop :=
  P (self w) -> P (self w').

(** The run adds events to the log, all of them in [P]. *)
Definition logs {G S : Type} (P : event -> Prop) (w w' : World G S) : Prop :=
  exists evs, log w' = log w ++ evs /\ Forall P evs.

(** The run adds to the log and to the warnings of an [Lm] object. *)
Definition grows {G : Type} (w w' : World G Lm.t) : Prop :=
  (exists evs, log w' = log w ++ evs)
  /\ (exists ws, Lm.warnings (self w') = Lm.warnings (self w) ++ ws).

(** Any event at all. *)
Definition anything (ev : event) : Prop := True.

(** The warnings of the object start with [base]. *)
Definition from_warnings (base : list string) (m : Lm.t) : Prop :=
  exists ws, Lm.warnings m = base ++ ws.

(** The empirical p-value of the observed statistic [snd jt] of
    coefficient [fst jt], in the words of the specification: the count of
    the permuted statistics of the coefficient whose absolute value is at
    least the absolute observed one, plus one, over the number of
    permutations plus one. *)
Definition empirical_p (perm_ts : list (list Q)) (p : Z) (jt : nat * Q) : Q :=
  (inject_Z
     (Z.of_nat (count_extreme (array_col perm_ts (fst jt)) (snd jt)) + 1)
   / inject_Z (p + 1))%Q.

(** A dispatch of permutations goes to one worker. *)
Definition single_worker (ev : event) : Prop :=
  forall j n, ev = Dispatch Permutation j n -> j = 1.

(** The column [name] of the coefficients of a fitted model. *)
Definition reported (name : string) (m : Lm.t) : option column :=
  match Lm.coefs m with
  | Some tb => get_col name (cols tb)
  | None => None
  end.

(** The names of the columns of the coefficients of a fitted model. *)
Definition reported_columns (m : Lm.t) : list string :=
  match Lm.coefs m with
  | Some tb => columns (cols tb)
  | None => []
  end.

(** The Welch-Satterthwaite degrees of freedom of groups with variances
    [s2] and sizes [n], in the words of the specification: the square of
    the sum of the [s2] over the sum of the [s2^2 / (n - 1)]. *)
Definition welch_satterthwaite (groups : list (Q * nat)) : Q :=
  (Qsum (map fst groups) ^ 2
   / Qsum (map (fun g => fst g ^ 2 / (inject_Z (Z.of_nat (snd g)) - 1))
        groups))%Q.

(** The columns of the table of a fit without permutations. *)
Definition parametric_columns : list string :=
  ["Estimate"; "2.5_ci"; "97.5_ci"; "SE"; "DF"; "T-stat"; "P-val";
   "Sig"]%string.

(** C2 as the specification states it, for one call: the degrees of
    freedom reported are the number of clusters minus the number of
    coefficients, and that number is at least 1. *)
Definition C2_as_stated (E : Env.t) (a : Lm.fit_args)
  (w : World (Env.rng E) Lm.t) : Prop :=
  forall r cn col,
    fst (Lm.fit E a w) = Ok r ->
    Lm.robust a = RStr "cluster" ->
    Lm.cluster a = Some cn ->
    get_col cn (Lm.data (self w)) = Some col ->
    exists x,
      Lm.design_matrix (self (snd (Lm.fit E a w))) = Some x
      /\ reported "DF" (self (snd (Lm.fit E a w)))
         = Some (repeat
                   (Num (inject_Z (Z.of_nat (nunique col)
                                   - Z.of_nat (n_coef x))))
                   (n_coef x))
      /\ (1 <= inject_Z (Z.of_nat (nunique col) - Z.of_nat (n_coef x)))%Q.


(** The variance and the size of each group of the response. *)
Definition welch_groups (E : Env.t) (keys : column) (vals : list Q)
  : list (Q * nat) :=
  map (fun k => (Env.np_var E (group_rows keys vals k),
                 List.length (group_rows keys vals k)))
    (group_keys keys).

(** C5 as the specification states it for more than two groups, for one
    call: the fit warns, keeps the warning, and reports the degrees of
    freedom [n - p]. *)
Definition C5_as_stated (E : Env.t) (a : Lm.fit_args)
  (w : World (Env.rng E) Lm.t) : Prop :=
  forall r name keys,
    fst (Lm.fit E a w) = Ok r ->
    Lm.weights a = WCol name ->
    Lm.wls_dof_correction a = true ->
    get_col name (Lm.data (self w)) = Some keys ->
    (2 < ngroups keys)%nat ->
    (exists evs,
       log (snd (Lm.fit E a w)) = log w ++ evs
       /\ In (Warn Lm.unsupported_groups) evs)
    /\ (exists ws,
          Lm.warnings (self (snd (Lm.fit E a w)))
          = Lm.warnings (self w) ++ ws
          /\ In Lm.unsupported_groups ws)
    /\ exists x,
         Lm.design_matrix (self (snd (Lm.fit E a w))) = Some x
         /\ (truthy_int (Lm.permute a) = false ->
             reported "DF" (self (snd (Lm.fit E a w)))
             = Some (repeat
                       (Num (inject_Z (Z.of_nat (n_obs x)
                                       - Z.of_nat (n_coef x))))
                       (n_coef x))).

(** The run leaves the random generator as it was. *)
Definition same_gen {G S : Type} (w w' : World G S) : Prop := gen w' = gen w.

(** An event that is not a print. *)
Definition silent (ev : event) : Prop := forall s, ev <> Print s.

(** The warnings of the object start with [base], and what follows are
    warnings of [Lm.fit]. *)
Definition fit_warnings_from (base : list string) (m : Lm.t) : Prop :=
  exists ws,
    Lm.warnings m = base ++ ws
    /\ Forall (fun w => w = Lm.low_permutations
                        \/ w = Lm.unsupported_groups) ws.

(** The name of the standard errors [Lm.fit] records for [robust]. *)
Definition se_label (r : robust_arg) : string :=
  if truthy_robust r then
    "robust (" +++ match r with
                   | RBool _ => "hc1"%string
                   | RStr s => s
                   end +++ ")"
  else "non-robust".

(** What [fit] has not touched before it stores its results. *)
Definition untouched (m0 m : Lm.t) : Prop :=
  Lm.fitted m = Lm.fitted m0
  /\ Lm.coefs m = Lm.coefs m0
  /\ Lm.data m = Lm.data m0
  /\ Lm.resid m = Lm.resid m0
  /\ Lm.fits m = Lm.fits m0.

(** The names [Lm.fit] records for the intervals, the inference and the
    estimator of a call. *)
Definition ci_label (a : Lm.fit_args) : string :=
  if (Lm.conf_int a =? "boot")%string
  then "boot (" +++ str_of_Z (Lm.n_boot a) +++ ")"
  else Lm.conf_int a.

Definition sig_label (a : Lm.fit_args) : string :=
  match Lm.permute a with
  | Some p =>
      if negb (p =? 0)
      then "permutation (" +++ str_of_Z p +++ ")"
      else "parametric"%string
  | None =>
      if (Lm.conf_int a =? "boot")%string
      then "bootstrapped"%string
      else "parametric"%string
  end.

Definition estimator_label (a : Lm.fit_args) : string :=
  match Lm.weights a with
  | WNone => "OLS"%string
  | _ => "WLS"%string
  end.

(** The columns of the table of a fit with permutations. *)
Definition permutation_columns : list string :=
  ["Estimate"; "2.5_ci"; "97.5_ci"; "SE"; "Num_perm"; "T-stat";
   "Perm-P-val"; "Sig"]%string.

(** A bound of the parametric interval of a coefficient [b] with standard
    error [se]: the quantile [q] of Student's t with [df] degrees of
    freedom, times the standard error, added to the estimate. *)
Definition t_bound (E : Env.t) (q df : Q) (bs : Q * Q) : Q :=
  (fst bs + Env.t_dist_ppf E q df * snd bs)%Q.

(** A cell of a table rounded to three decimals, beside the cell it comes
    from: a number is a multiple of a thousandth at most half a thousandth
    away, a text or a missing value is as it was. *)
Definition rounded (c c' : cell) : Prop :=
  match c, c' with
  | Num q, Num q' =>
      (Qabs (q' - q) <= 1 # 2000)%Q
      /\ exists k : Z, q' = (inject_Z k / 1000)%Q
  | Str s, Str s' => s = s'
  | NaN, NaN => True
  | _, _ => False
  end.

(** An event that is not a warning. *)
Definition no_warning (ev : event) : Prop := forall s, ev <> Warn s.

(** An event that is not the warning of [Lm.fit] about the number of
    groups of the weights. *)
Definition not_unsupported (ev : event) : Prop :=
  ev <> Warn Lm.unsupported_groups.

(** What [Lm2.fit] never touches. *)
Definition same_inputs (m0 m : Lm2.t) : Prop :=
  Lm2.data m = Lm2.data m0
  /\ Lm2.formula m = Lm2.formula m0
  /\ Lm2.group m = Lm2.group m0
  /\ Lm2.family m = Lm2.family m0
  /\ Lm2.warnings m = Lm2.warnings m0.

(** The name [Lmer.fit] records for the inference of a call. *)
Definition lmer_sig_label (a : Lmer.fit_args) : string :=
  if (Lmer.conf_int a =? "boot")%string then "bootstrapped"%string
  else
    match Lmer.permute a with
    | Some p =>
        if negb (p =? 0)
        then "permutation (" +++ str_of_Z p +++ ")"
        else "parametric"%string
    | None => "parametric"%string
    end.

(** What [Lmer.fit] reads of the model and never writes before it adds
    the columns of the residuals and of the fitted values. *)
Definition lmer_inputs {O : Type} (m0 m : Lmer.t O) : Prop :=
  Lmer.family m = Lmer.family m0
  /\ Lmer.formula m = Lmer.formula m0
  /\ Lmer.resid m = Lmer.resid m0
  /\ Lmer.data m = Lmer.data m0.

(** The warning [Lmer.fit] adds to the warnings of the model before it
    fits: ranks were asked for together with factors that are not the
    columns excluded from the ranking. *)
Definition lmer_rank_warnings (a : Lmer.fit_args) : list string :=
  match Lmer.arg_factors a with
  | Some (f :: fs) =>
      if Lmer.rank a
         && negb (Lmer.same_set (map fst (f :: fs)) (Lmer.rank_exclude_cols a))
      then [Lmer.rank_warning]
      else []
  | _ => []
  end.

(** * Methods in general *)

Section MethodLemmas.

Context {G S : Type}.

Lemma bind_ok {A B : Type} (m : M G S A) (f : A -> M G S B) w b w' :
  bind m f w = (Ok b, w') ->
  exists a w1, m w = (Ok a, w1) /\ f a w1 = (Ok b, w').
Proof.
  unfold bind. destruct (m w) as [[a | e] w1]; [eauto | discriminate].
Qed.

Lemma bind_end {A B : Type} (m : M G S A) (f : A -> M G S B) w :
  snd (bind m f w)
  = match m w with
    | (Ok a, w1) => snd (f a w1)
    | (Raise _, w1) => w1
    end.
Proof.
  unfold bind. destruct (m w) as [[a | e] w1]; reflexivity.
Qed.

Lemma call_ok {A : Type} (callee : string) (r : option A) (w : World G S)
  a w' :
  call callee r w = (Ok a, w') -> r = Some a /\ w' = w.
Proof.
  destruct r; cbn; intros H; inversion H; auto.
Qed.

Section Preorder.

Variable R : World G S -> World G S -> Prop.
Hypothesis R_refl : forall w, R w w.
Hypothesis R_trans : forall w1 w2 w3, R w1 w2 -> R w2 w3 -> R w1 w3.

Lemma always_ret {A : Type} (a : A) : always R (ret a).
Proof. intros w. apply R_refl. Qed.

Lemma always_raise {A : Type} (e : exn) : always R (@raise G S A e).
Proof. intros w. apply R_refl. Qed.

Lemma always_this : always R this.
Proof. intros w. apply R_refl. Qed.

Lemma always_call {A : Type} (callee : string) (r : option A) :
  always R (call callee r).
Proof. destruct r; intros w; apply R_refl. Qed.

(** Sequencing, with what is known of the value passed on. *)
Lemma always_bind_with {A B : Type} (Q : A -> Prop) (m : M G S A)
  (f : A -> M G S B) :
  (forall w a w1, m w = (Ok a, w1) -> Q a) ->
  always R m ->
  (forall a, Q a -> always R (f a)) ->
  always R (bind m f).
Proof.
  intros HQ Hm Hf w. rewrite bind_end.
  specialize (Hm w). specialize (HQ w).
  destruct (m w) as [[a | e] w1]; cbn in *.
  - eapply R_trans; [exact Hm |]. apply Hf. eapply HQ. reflexivity.
  - exact Hm.
Qed.

Lemma always_bind {A B : Type} (m : M G S A) (f : A -> M G S B) :
  always R m -> (forall a, always R (f a)) -> always R (bind m f).
Proof.
  intros Hm Hf. apply (always_bind_with (fun _ => True)); auto.
Qed.

End Preorder.

Lemma keeps_refl (P : S -> Prop) (w : World G S) : keeps P w w.
Proof. intros H. exact H. Qed.

Lemma keeps_trans (P : S -> Prop) (w1 w2 w3 : World G S) :
  keeps P w1 w2 -> keeps P w2 w3 -> keeps P w1 w3.
Proof. unfold keeps. auto. Qed.

Lemma logs_refl (P : event -> Prop) (w : World G S) : logs P w w.
Proof. exists []. split; [symmetry; apply app_nil_r | constructor]. Qed.

Lemma logs_trans (P : event -> Prop) (w1 w2 w3 : World G S) :
  logs P w1 w2 -> logs P w2 w3 -> logs P w1 w3.
Proof.
  intros (e1 & H1 & F1) (e2 & H2 & F2). exists (e1 ++ e2). split.
  - rewrite H2, H1. symmetry. apply app_assoc.
  - apply Forall_app. split; assumption.
Qed.

Lemma keeps_update (P : S -> Prop) (f : S -> S) :
  (forall s, P s -> P (f s)) -> always (keeps P) (@update G S f).
Proof. intros H w Hw. cbn. apply H, Hw. Qed.

Lemma keeps_emit (P : S -> Prop) (ev : event) :
  always (keeps P) (@emit G S ev).
Proof. intros w H. exact H. Qed.

Lemma keeps_parallel {T A : Type} (P : S -> Prop) what callee n_jobs
  (f : T -> option A) tasks :
  always (keeps P) (@parallel G S T A what callee n_jobs f tasks).
Proof.
  unfold parallel.
  apply (always_bind _ (keeps_trans P)).
  - apply keeps_emit.
  - intros _. destruct (n_jobs =? 0).
    + apply always_raise, keeps_refl.
    + apply always_call, keeps_refl.
Qed.

Lemma keeps_within {T A : Type} (P : S -> Prop) (obj : T) (m : M G T A) :
  always (keeps P) (@within G S T A obj m).
Proof.
  intros w. unfold within.
  destruct (m _) as [r w1]. intros H. exact H.
Qed.

Lemma logs_update (P : event -> Prop) (f : S -> S) :
  always (logs P) (@update G S f).
Proof.
  intros w. exists []. split; [cbn; symmetry; apply app_nil_r | constructor].
Qed.

Lemma logs_emit (P : event -> Prop) (ev : event) :
  P ev -> always (logs P) (@emit G S ev).
Proof.
  intros H w. exists [ev]. split; [reflexivity | auto].
Qed.

Lemma logs_parallel {T A : Type} (P : event -> Prop) what callee n_jobs
  (f : T -> option A) tasks :
  P (Dispatch what n_jobs (List.length tasks)) ->
  always (logs P) (@parallel G S T A what callee n_jobs f tasks).
Proof.
  intros H. unfold parallel.
  apply (always_bind _ (logs_trans P)).
  - apply logs_emit, H.
  - intros _. destruct (n_jobs =? 0).
    + apply always_raise, logs_refl.
    + apply always_call, logs_refl.
Qed.

End MethodLemmas.

Lemma keeps_randint {S : Type} (E : Env.t) (P : S -> Prop) (n : Z) :
  always (keeps P) (@randint S E n).
Proof.
  intros w. unfold randint. destruct (n <? 0).
  - apply keeps_refl.
  - destruct (draws E (Z.to_nat n) (gen w)). intros H. exact H.
Qed.

Lemma logs_randint {S : Type} (E : Env.t) (P : event -> Prop) (n : Z) :
  always (logs P) (@randint S E n).
Proof.
  intros w. unfold randint. destruct (n <? 0).
  - apply logs_refl.
  - destruct (draws E (Z.to_nat n) (gen w)). cbn. exists [].
    split; [symmetry; apply app_nil_r | constructor].
Qed.

(** What a method sets up in every run stays in place when the rest of
    the method keeps it. *)
Lemma set_then_kept {G S A B : Type} (P : S -> Prop) (m : M G S A)
  (f : A -> M G S B) :
  (forall w, P (self (snd (m w)))) ->
  (forall a, always (keeps P) (f a)) ->
  forall w, P (self (snd (bind m f w))).
Proof.
  intros Hm Hf w. rewrite bind_end. specialize (Hm w).
  destruct (m w) as [[a | e] w1]; cbn in *.
  - apply (Hf a w1), Hm.
  - exact Hm.
Qed.

(** One step through a method for a property its updates keep. *)
Ltac keeps_step P :=
  first
    [ apply (always_bind _ (keeps_trans P)); [| intros ?]
    | apply always_ret, keeps_refl
    | apply always_raise, keeps_refl
    | apply always_this, keeps_refl
    | apply always_call, keeps_refl
    | apply keeps_emit
    | apply keeps_parallel
    | apply keeps_within
    | apply keeps_randint
    | apply keeps_update; cbn; solve [auto]
    | match goal with
      | |- always _ (match ?x with _ => _ end) => destruct x
      end ].

Ltac keeps_all P := repeat keeps_step P.

(** * [Lm2.fit] and [Lm.fit] name different estimators for [robust=True] *)

Section RobustDefault.

Variable E : Env.t.

Lemma Lm2_for_each_keeps {A B : Type} (P : Lm2.t -> Prop)
  (body : A -> M (Env.rng E) Lm2.t B) (xs : list A) :
  (forall x, always (keeps P) (body x)) ->
  always (keeps P) (Lm2.for_each E body xs).
Proof.
  intros H. induction xs as [| x rest IH]; cbn.
  - apply always_ret, keeps_refl.
  - keeps_all P; auto.
Qed.

Lemma Lm2_select_estimator_true (a : Lm2.fit_args) w :
  Lm2.robust a = RBool true ->
  Lm2.se_type (self (snd (Lm2.select_estimator E a w)))
  = Some "robust (hc0)"%string.
Proof.
  intros H. unfold Lm2.select_estimator. rewrite H. cbn.
  destruct (Lm2.cluster a) as [c |]; cbn; [| reflexivity].
  destruct (truthy_str c); cbn; [| reflexivity].
  destruct (get_col c _); reflexivity.
Qed.

Lemma Lm2_select_estimator_value (a : Lm2.fit_args) w r c w' :
  Lm2.robust a = RBool true ->
  Lm2.select_estimator E a w = (Ok (r, c), w') ->
  r = RStr "hc0".
Proof.
  intros H. unfold Lm2.select_estimator. rewrite H. cbn.
  destruct (Lm2.cluster a) as [c0 |]; cbn.
  - destruct (truthy_str c0); cbn.
    + destruct (get_col c0 _); cbn; intros Heq; inversion Heq; reflexivity.
    + intros Heq; inversion Heq; reflexivity.
  - intros Heq; inversion Heq; reflexivity.
Qed.

Lemma Lm2_fit_se_type (a : Lm2.fit_args) w :
  Lm2.robust a = RBool true ->
  Lm2.se_type (self (snd (Lm2.fit E a w))) = Some "robust (hc0)"%string.
Proof.
  intros H. revert w. unfold Lm2.fit.
  set (P := fun m => Lm2.se_type m = Some "robust (hc0)"%string).
  apply (set_then_kept P).
  - intros w. apply Lm2_select_estimator_true, H.
  - intros rc.
    unfold Lm2.describe_inference, Lm2.first_level, Lm2.collect,
      Lm2.permuted_columns, Lm2.summary, Lm2.assign.
    keeps_all P.
    all: try (apply Lm2_for_each_keeps; intros i;
              unfold Lm2.second_level; keeps_all P).
Qed.

Lemma Lm_select_estimator_true (a : Lm.fit_args) w :
  Lm.robust a = RBool true ->
  Lm.se_type (self (snd (Lm.select_estimator E a w)))
  = Some "robust (hc1)"%string.
Proof.
  intros H. unfold Lm.select_estimator. rewrite H. cbn.
  destruct (Lm.cluster a) as [c |]; cbn; [| reflexivity].
  destruct (truthy_str c); cbn; [| reflexivity].
  destruct (get_col c _); reflexivity.
Qed.

Lemma Lm_fit_se_type (a : Lm.fit_args) w :
  Lm.robust a = RBool true ->
  Lm.se_type (self (snd (Lm.fit E a w))) = Some "robust (hc1)"%string.
Proof.
  intros H. unfold Lm.fit. rewrite bind_end.
  destruct (Lm.check_permutations E a w) as [[[] | e] w1] eqn:Hc.
  - revert w1 Hc. intros w1 _. revert w1. unfold Lm.fit_model.
    set (P := fun m => Lm.se_type m = Some "robust (hc1)"%string).
    apply (set_then_kept P).
    + intros w1. apply Lm_select_estimator_true, H.
    + intros rc.
      unfold Lm.announce, Lm.describe_inference, Lm.design_data,
        Lm.handle_weights, Lm.weight_groups, Lm.build_design,
        Lm.degrees_of_freedom, Lm.confidence_intervals,
        Lm.permutation_test, Lm.assemble, Lm.store, Lm.assign_array,
        Lm.fit_statistics, Lm.summary, Lm.warn.
      keeps_all P.
  - exfalso. revert Hc. unfold Lm.check_permutations, Lm.warn.
    destruct (Lm.permute a) as [p |]; [| discriminate].
    destruct (negb (p =? 0) && (p <? 500))%bool; discriminate.
Qed.

End RobustDefault.

(** Unfold the operations of methods. *)
Ltac run := unfold bind, this, update, emit, ret, raise; cbn.

(** Split a run that returned at its first step. *)
Ltac step H a w Ha :=
  apply bind_ok in H; destruct H as (a & w & Ha & H); cbv beta zeta in H.

(** * The steps of [Lm.fit] *)

Section LmSteps.

Variable E : Env.t.

Abbreviation W := (World (Env.rng E) Lm.t).

(** The check of the permutations never raises. *)
Lemma check_permutations_run (a : Lm.fit_args) (w : W) :
  Lm.check_permutations E a w
  = (Ok tt,
     if truthy_int (Lm.permute a)
        && match Lm.permute a with
           | Some p => (p <? 500)%Z
           | None => false
           end
     then {| self := Lm.set_warnings
                       (Lm.warnings (self w) ++ [Lm.low_permutations])
                       (self w);
             gen := gen w;
             log := log w ++ [Warn Lm.low_permutations] |}
     else w).
Proof.
  unfold Lm.check_permutations. destruct (Lm.permute a) as [p |]; cbn.
  - destruct (negb (p =? 0)%Z); cbn; [| reflexivity].
    destruct (p <? 500)%Z; reflexivity.
  - reflexivity.
Qed.

Lemma select_estimator_ok (a : Lm.fit_args) (w w1 : W) r c :
  Lm.select_estimator E a w = (Ok (r, c), w1) ->
  (exists s, self w1 = Lm.set_se_type s (self w)) /\ log w1 = log w.
Proof.
  unfold Lm.select_estimator.
  destruct (truthy_robust (Lm.robust a)); cbn.
  - destruct (Lm.cluster a) as [cn |]; cbn.
    + destruct (truthy_str cn); cbn.
      * destruct (get_col cn _); cbn; intros H; inversion H; subst; cbn; eauto.
      * intros H; inversion H; subst; cbn; eauto.
    + intros H; inversion H; subst; cbn; eauto.
  - intros H; inversion H; subst; cbn; eauto.
Qed.

(** A robust fit goes on with the name of an estimator. *)
Lemma select_estimator_robust (a : Lm.fit_args) (w w1 : W) rc :
  truthy_robust (Lm.robust a) = true ->
  Lm.select_estimator E a w = (Ok rc, w1) ->
  truthy_robust (fst rc) = true.
Proof.
  intros Hr. unfold Lm.select_estimator. rewrite Hr. cbn.
  assert (Hname : truthy_robust
                    (RStr match Lm.robust a with
                          | RBool _ => "hc1"%string
                          | RStr s => s
                          end) = true).
  { destruct (Lm.robust a) as [b | s]; [reflexivity | exact Hr]. }
  destruct (Lm.cluster a) as [cn |]; cbn.
  - destruct (truthy_str cn); cbn.
    + destruct (get_col cn _); cbn; intros H; inversion H; subst; exact Hname.
    + intros H; inversion H; subst; exact Hname.
  - intros H; inversion H; subst; exact Hname.
Qed.

Lemma select_estimator_no_cluster (a : Lm.fit_args) (w w1 : W) r c :
  Lm.cluster a = None ->
  Lm.select_estimator E a w = (Ok (r, c), w1) ->
  c = ClNone.
Proof.
  intros Hc. unfold Lm.select_estimator. rewrite Hc.
  destruct (truthy_robust (Lm.robust a)); cbn;
    intros H; inversion H; reflexivity.
Qed.

Lemma announce_run (a : Lm.fit_args) (r : robust_arg) (w : W) :
  exists evs,
    Lm.announce E a r w
    = (Ok tt, {| self := self w; gen := gen w; log := log w ++ evs |}).
Proof.
  unfold Lm.announce, bind, this, emit, ret. cbn.
  destruct ((Lm.family (self w) =? "gaussian")%string && Lm.verbose a).
  - destruct (Lm.conf_int a =? "boot")%string; cbn;
      (destruct (Lm.permute a) as [p |]; cbn;
       [destruct (negb (p =? 0)%Z); cbn |]);
      eexists; try reflexivity.
    all: rewrite <- app_assoc; reflexivity.
  - exists []. rewrite app_nil_r. destruct w; reflexivity.
Qed.

Lemma describe_inference_run (a : Lm.fit_args) (w : W) :
  exists c s,
    Lm.describe_inference E a w
    = (Ok tt, {| self := Lm.set_sig_type s (Lm.set_ci_type c (self w));
                 gen := gen w; log := log w |}).
Proof.
  unfold Lm.describe_inference, bind, update. cbn.
  destruct (Lm.permute a) as [p |]; cbn.
  - destruct (negb (p =? 0)%Z); cbn; eauto.
  - destruct (Lm.conf_int a =? "boot")%string; cbn; eauto.
Qed.

Lemma design_data_run (a : Lm.fit_args) (w : W) :
  Lm.design_data E a w
  = (Ok (if Lm.rank a then Env.df_rank E (Lm.data (self w))
         else Lm.data (self w)),
     {| self := Lm.set_ranked_data (Lm.rank a) (self w);
        gen := gen w; log := log w |}).
Proof. reflexivity. Qed.

Lemma handle_weights_ok (a : Lm.fit_args) (w w1 : W) wg :
  Lm.handle_weights E a w = (Ok wg, w1) ->
  (exists e, self w1 = Lm.set_estimator e (self w))
  /\ log w1 = log w
  /\ match Lm.weights a with
     | WCol name =>
         exists keys c vals,
           get_col name (Lm.data (self w)) = Some keys
           /\ get_col (before_tilde (Lm.formula (self w))) (Lm.data (self w))
              = Some c
           /\ numbers c = Some vals
           /\ snd wg = Some (keys, vals)
     | _ => snd wg = None
     end.
Proof.
  unfold Lm.handle_weights, Lm.weight_groups. run.
  destruct (Lm.weights a) as [| name | arr]; cbn.
  - intros H; inversion H; subst; cbn. repeat split; eauto.
  - destruct (get_col name _) as [keys |] eqn:Hk; cbn; [| discriminate].
    destruct (get_col (before_tilde _) _) as [c |] eqn:Hc; cbn;
      [| discriminate].
    destruct (numbers c) as [vals |] eqn:Hv; cbn; [| discriminate].
    intros H; inversion H; subst; cbn.
    split; [eauto |]. split; [reflexivity |].
    exists keys, c, vals. repeat split; assumption || reflexivity.
  - intros H; inversion H; subst; cbn. repeat split; eauto.
Qed.

Lemma build_design_ok (ddat : DataFrame) (w w1 : W) yx :
  Lm.build_design E ddat w = (Ok yx, w1) ->
  Env.dmatrices E (Lm.formula (self w)) ddat = Some yx
  /\ self w1 = Lm.set_design_matrix (predictors yx) (self w)
  /\ log w1 = log w.
Proof.
  unfold Lm.build_design. run.
  destruct (Env.dmatrices E _ ddat) as [m |]; cbn; [| discriminate].
  intros H; inversion H; subst; cbn; auto.
Qed.

(** The degrees of freedom, case by case. *)
Lemma degrees_of_freedom_cluster (a : Lm.fit_args) (c : column)
  (x : Design) groups (w : W) :
  Lm.degrees_of_freedom E a (ClSeries c) x groups w
  = (Ok (inject_Z (Z.of_nat (nunique c) - Z.of_nat (n_coef x))), w).
Proof. reflexivity. Qed.

Lemma degrees_of_freedom_many_groups (a : Lm.fit_args) (x : Design)
  keys vals (w : W) :
  Lm.wls_dof_correction a = true ->
  ngroups keys <> 2%nat ->
  Lm.degrees_of_freedom E a ClNone x (Some (keys, vals)) w
  = (Ok (inject_Z (Z.of_nat (n_obs x) - Z.of_nat (n_coef x))),
     {| self := Lm.set_warnings
                  (Lm.warnings (self w) ++ [Lm.unsupported_groups]) (self w);
        gen := gen w;
        log := log w ++ [Warn Lm.unsupported_groups] |}).
Proof.
  intros Hc Hn. unfold Lm.degrees_of_freedom. rewrite Hc.
  apply Nat.eqb_neq in Hn. rewrite Hn. reflexivity.
Qed.

Lemma degrees_of_freedom_two_groups (a : Lm.fit_args) (x : Design)
  keys vals (w : W) :
  Lm.wls_dof_correction a = true ->
  ngroups keys = 2%nat ->
  Lm.degrees_of_freedom E a ClNone x (Some (keys, vals)) w
  = (Ok (let welch := group_apply (_welch_ingredients E) keys vals in
         Qsum (map fst welch) * Qsum (map fst welch)
         / Qsum (map snd welch))%Q,
     w).
Proof.
  intros Hc Hn. unfold Lm.degrees_of_freedom. rewrite Hc, Hn. reflexivity.
Qed.

(** Whatever the case, the step at most adds its warning. *)
Lemma degrees_of_freedom_ok (a : Lm.fit_args) cl (x : Design) groups
  (w w1 : W) df :
  Lm.degrees_of_freedom E a cl x groups w = (Ok df, w1) ->
  w1 = w
  \/ w1 = {| self := Lm.set_warnings
                       (Lm.warnings (self w) ++ [Lm.unsupported_groups])
                       (self w);
             gen := gen w;
             log := log w ++ [Warn Lm.unsupported_groups] |}.
Proof.
  unfold Lm.degrees_of_freedom, Lm.warn. run.
  destruct cl as [| name | c]; cbn; try discriminate.
  - destruct groups as [[keys vals] |]; cbn.
    + destruct (Lm.wls_dof_correction a); cbn.
      * destruct (negb (ngroups keys =? 2)%nat); cbn;
          intros H; inversion H; auto.
      * intros H; inversion H; auto.
    + intros H; inversion H; auto.
  - intros H; inversion H; auto.
Qed.

Lemma parallel_ok {T A : Type} what callee n_jobs (f : T -> option A)
  tasks (w w1 : W) r :
  parallel what callee n_jobs f tasks w = (Ok r, w1) ->
  traverse f tasks = Some r
  /\ self w1 = self w
  /\ gen w1 = gen w
  /\ log w1 = log w ++ [Dispatch what n_jobs (List.length tasks)].
Proof.
  unfold parallel. run. destruct (n_jobs =? 0)%Z; cbn; [discriminate |].
  destruct (traverse f tasks); cbn; [| discriminate].
  intros H; inversion H; subst; cbn. auto.
Qed.

Lemma draws_length (n : nat) (g : Env.rng E) :
  List.length (fst (draws E n g)) = n.
Proof.
  revert g. induction n as [| n IH]; intros g; cbn; [reflexivity |].
  destruct (Env.random_draw E g) as [z g1].
  specialize (IH g1). destruct (draws E n g1) as [zs g2]. cbn in *.
  rewrite IH. reflexivity.
Qed.

Lemma randint_ok (n : Z) (w w1 : W) seeds :
  randint E n w = (Ok seeds, w1) ->
  List.length seeds = Z.to_nat n
  /\ (0 <= n)%Z
  /\ self w1 = self w
  /\ log w1 = log w.
Proof.
  unfold randint. destruct (n <? 0)%Z eqn:Hn; [discriminate |].
  pose proof (draws_length (Z.to_nat n) (gen w)) as Hl.
  destruct (draws E (Z.to_nat n) (gen w)) as [zs g]. cbn in Hl.
  intros H; inversion H; subst; cbn.
  apply Z.ltb_ge in Hn. auto.
Qed.

Lemma confidence_intervals_ok (a : Lm.fit_args) est df (w w1 : W) ci :
  Lm.confidence_intervals E a est df w = (Ok ci, w1) ->
  self w1 = self w /\ exists evs, log w1 = log w ++ evs.
Proof.
  unfold Lm.confidence_intervals.
  destruct (Lm.conf_int a =? "boot")%string.
  - intros H.
    apply bind_ok in H. destruct H as (seeds & wa & Hs & H).
    apply randint_ok in Hs. destruct Hs as (_ & _ & Hself & Hlog).
    apply bind_ok in H. destruct H as (m & wb & Hm & H).
    inversion Hm; subst wb m; clear Hm.
    apply bind_ok in H. destruct H as (betas & wc & Hp & H).
    apply parallel_ok in Hp. destruct Hp as (_ & Hself' & _ & Hlog').
    apply bind_ok in H. destruct H as (u & wd & Hu & H).
    apply call_ok in Hu. destruct Hu as (_ & ->).
    apply bind_ok in H. destruct H as (l & we & Hl & H).
    apply call_ok in Hl. destruct Hl as (_ & ->).
    inversion H; subst. split.
    + congruence.
    + eexists. rewrite Hlog', Hlog. reflexivity.
  - destruct (match elementwise Qmult _ _ with Some _ => _ | None => _ end);
      [| discriminate].
    destruct (match elementwise Qmult _ _ with Some _ => _ | None => _ end);
      [| discriminate].
    intros H; inversion H; subst. split; [reflexivity |].
    exists []. symmetry. apply app_nil_r.
Qed.

(** The permutation test: the seeds, the statistics of the permuted
    fits, and what is made of them. *)
Lemma permutation_test_ok (a : Lm.fit_args) (p : Z) robust' cluster' yx est
  (w w1 : W) dfs ps sig :
  Lm.permutation_test E a p robust' cluster' yx est w
  = (Ok (dfs, ps, sig), w1) ->
  exists seeds perm_ts k,
    List.length seeds = Z.to_nat p
    /\ (0 <= p)%Z
    /\ traverse (Env._chunk_perm_ols E (predictors yx) (y_values yx) robust'
                   (Lm.n_lags a) cluster' (Lm.weights a)) seeds
       = Some perm_ts
    /\ shape1 perm_ts = Some k
    /\ ps = map (fun ct => _perm_find (array_col perm_ts (fst ct)) (snd ct))
              (combine (seq 0 k) (est_t est))
    /\ dfs = repeat (inject_Z p) (List.length ps)
    /\ sig = map _sig_stars ps
    /\ self w1 = self w
    /\ log w1
       = log w ++ [Dispatch Permutation
                     (if truthy_robust robust' then 1 else Lm.n_jobs a)
                     (List.length seeds)].
Proof.
  unfold Lm.permutation_test. intros H.
  apply bind_ok in H. destruct H as (seeds & wa & Hs & H).
  apply randint_ok in Hs. destruct Hs as (Hlen & Hp & Hself & Hlog).
  apply bind_ok in H. destruct H as (perm_ts & wb & Hpar & H).
  apply parallel_ok in Hpar. destruct Hpar as (Ht & Hself' & _ & Hlog').
  destruct (shape1 perm_ts) as [k |] eqn:Hk; [| discriminate].
  inversion H; subst.
  exists seeds, perm_ts, k. repeat split; auto; congruence.
Qed.

Lemma traverse_length {A B : Type} (f : A -> option B) (xs : list A) ys :
  traverse f xs = Some ys -> List.length ys = List.length xs.
Proof.
  revert ys. induction xs as [| x rest IH]; cbn; intros ys H.
  - inversion H. reflexivity.
  - destruct (f x); [| discriminate].
    destruct (traverse f rest) as [r |]; [| discriminate].
    inversion H. cbn. rewrite (IH r eq_refl). reflexivity.
Qed.

Lemma equal_lengths_all (n : nat) (ls : list nat) :
  Lm.equal_lengths n ls = true -> Forall (fun k => k = n) ls.
Proof.
  unfold Lm.equal_lengths. intros H. apply Forall_forall. intros k Hk.
  rewrite forallb_forall in H. specialize (H k Hk).
  apply Nat.eqb_eq in H. auto.
Qed.

(** The table [assemble] returns, column by column. *)
Lemma assemble_ok (a : Lm.fit_args) (x : Design) est ci_l ci_u dfs ps sig
  (w w1 : W) results :
  Lm.assemble E a x est ci_l ci_u dfs ps sig w = (Ok results, w1) ->
  w1 = w
  /\ index results = dm_columns x
  /\ List.length (est_t est) = n_coef x
  /\ List.length dfs = n_coef x
  /\ List.length ps = n_coef x
  /\ get_col "Estimate" (cols results) = Some (map Num (est_b est))
  /\ get_col "2.5_ci" (cols results) = Some (map Num ci_l)
  /\ get_col "97.5_ci" (cols results) = Some (map Num ci_u)
  /\ get_col "SE" (cols results) = Some (map Num (est_se est))
  /\ get_col "T-stat" (cols results) = Some (map Num (est_t est))
  /\ get_col "Sig" (cols results) = Some (map Str sig)
  /\ (if truthy_int (Lm.permute a)
      then columns (cols results)
           = ["Estimate"; "2.5_ci"; "97.5_ci"; "SE"; "Num_perm"; "T-stat";
              "Perm-P-val"; "Sig"]%string
           /\ get_col "Num_perm" (cols results) = Some (map Num dfs)
           /\ get_col "Perm-P-val" (cols results) = Some (map Num ps)
           /\ get_col "DF" (cols results) = None
           /\ get_col "P-val" (cols results) = None
      else columns (cols results)
           = ["Estimate"; "2.5_ci"; "97.5_ci"; "SE"; "DF"; "T-stat";
              "P-val"; "Sig"]%string
           /\ get_col "DF" (cols results) = Some (map Num dfs)
           /\ get_col "P-val" (cols results) = Some (map Num ps)).
Proof.
  unfold Lm.assemble.
  destruct (Lm.equal_lengths _ _) eqn:Hl; cbn; [| discriminate].
  destruct (Nat.eqb _ _) eqn:Hx; cbn; [| discriminate].
  apply Nat.eqb_eq in Hx.
  apply equal_lengths_all in Hl.
  repeat match goal with
         | H : Forall _ (_ :: _) |- _ => inversion H; subst; clear H
         end.
  unfold n_coef.
  intros H; inversion H; subst; cbn.
  destruct (truthy_int (Lm.permute a)); cbn; repeat split; congruence.
Qed.

Lemma elementwise_length (f : Q -> Q -> Q) (xs ys r : list Q) :
  elementwise f xs ys = Some r ->
  List.length r = List.length xs /\ List.length ys = List.length xs.
Proof.
  revert ys r. induction xs as [| x xs IH]; intros [| y ys] r; cbn;
    try discriminate.
  - intros H; inversion H; auto.
  - destruct (elementwise f xs ys) as [r' |] eqn:Hr; [| discriminate].
    intros H; inversion H; subst. destruct (IH ys r' Hr) as [H1 H2].
    cbn. auto.
Qed.

Lemma nrows_set_col (name : string) (v : column) (df : DataFrame) :
  List.length v = nrows df -> nrows (set_col name v df) = nrows df.
Proof.
  destruct df as [| [k c] rest]; cbn; intros H; [exact H |].
  destruct (k =? name)%string; cbn; [exact H | reflexivity].
Qed.

Lemma length_align (labels : list nat) (vals : list Q) (n : nat) :
  List.length (Lm.align labels vals n) = n.
Proof. unfold Lm.align. rewrite length_map. apply length_seq. Qed.

(** What [store] leaves on the object. *)
Lemma store_ok (results : Table) (yx : Matrices) (res : list Q) (w w1 : W) :
  Lm.store E results yx res w = (Ok tt, w1) ->
  exists fv,
    Lm.fitted_values yx res = Some fv
    /\ Lm.coefs (self w1) = Some results
    /\ Lm.fitted (self w1) = true
    /\ Lm.resid (self w1) = Some res
    /\ Lm.fits (self w1) = Some fv
    /\ Lm.data (self w1)
       = set_col "residuals" (map Num res)
           (set_col "fits"
              match y_values yx with
              | [_] => map Num fv
              | _ => Lm.align (y_index yx) fv (nrows (Lm.data (self w)))
              end
              (Lm.data (self w)))
    /\ Lm.warnings (self w1) = Lm.warnings (self w)
    /\ Lm.design_matrix (self w1) = Lm.design_matrix (self w)
    /\ Lm.se_type (self w1) = Lm.se_type (self w)
    /\ log w1 = log w
    /\ List.length res = nrows (Lm.data (self w)).
Proof.
  unfold Lm.store, Lm.assign_array. run.
  destruct (Lm.fitted_values yx res) as [fv |] eqn:Hfv; cbn; [| discriminate].
  destruct (y_values yx) as [| y0 [| y1 ys]] eqn:Hy; cbn.
  - destruct (Nat.eqb _ _) eqn:Hn; cbn; [| discriminate].
    intros H; inversion H; subst; cbn. exists fv. repeat split.
    apply Nat.eqb_eq in Hn. rewrite Hn. apply nrows_set_col, length_align.
  - destruct (Nat.eqb (List.length fv) _) eqn:Hf; cbn; [| discriminate].
    destruct (Nat.eqb (List.length res) _) eqn:Hn; cbn; [| discriminate].
    intros H; inversion H; subst; cbn. exists fv. repeat split.
    apply Nat.eqb_eq in Hn, Hf. rewrite Hn. apply nrows_set_col.
    rewrite length_map. exact Hf.
  - destruct (Nat.eqb _ _) eqn:Hn; cbn; [| discriminate].
    intros H; inversion H; subst; cbn. exists fv. repeat split.
    apply Nat.eqb_eq in Hn. rewrite Hn. apply nrows_set_col, length_align.
Qed.

Lemma fit_statistics_run (yx : Matrices) (res : list Q) (w : W) :
  exists r ra ll aic bic,
    Lm.fit_statistics E yx res w
    = (Ok tt, {| self := Lm.set_statistics r ra ll aic bic (self w);
                 gen := gen w; log := log w |}).
Proof. do 5 eexists. reflexivity. Qed.

Lemma summary_ok (w w1 : W) (s : Table) :
  Lm.summary E w = (Ok s, w1) ->
  self w1 = self w
  /\ (exists evs, log w1 = log w ++ evs)
  /\ exists tb, Lm.coefs (self w) = Some tb /\ s = round_table tb.
Proof.
  unfold Lm.summary. run.
  destruct (negb (Lm.fitted (self w))); cbn; [discriminate |].
  destruct (Lm.coefs (self w)) as [tb |]; cbn; [| discriminate].
  intros H; inversion H; subst; cbn. split; [reflexivity |]. split.
  - eexists. rewrite <- !app_assoc. reflexivity.
  - exists tb. auto.
Qed.

(** A fit that returns went through every step.  The lemma names what
    the steps passed on and says what the object holds at the end. *)
Lemma fit_model_ok (a : Lm.fit_args) (w w' : W) r :
  Lm.fit_model E a w = (Ok r, w') ->
  exists robust' cluster' wa groups wts yx est wb df wc ci wd dfs ps sig we
         results fv,
    Lm.select_estimator E a w = (Ok (robust', cluster'), wa)
    /\ match Lm.weights a with
       | WCol name =>
           exists keys c vals,
             get_col name (Lm.data (self w)) = Some keys
             /\ get_col (before_tilde (Lm.formula (self w)))
                  (Lm.data (self w)) = Some c
             /\ numbers c = Some vals
             /\ groups = Some (keys, vals)
       | _ => groups = None
       end
    /\ Env.dmatrices E (Lm.formula (self w))
         (if Lm.rank a then Env.df_rank E (Lm.data (self w))
          else Lm.data (self w)) = Some yx
    /\ Env._ols E (predictors yx) (y_values yx) robust' (Lm.n_lags a)
         cluster' wts = Some est
    /\ Lm.data (self wb) = Lm.data (self w)
    /\ Lm.warnings (self wb) = Lm.warnings (self w)
    /\ (exists pre, log wb = log w ++ pre)
    /\ Lm.degrees_of_freedom E a cluster' (predictors yx) groups wb
       = (Ok df, wc)
    /\ Lm.confidence_intervals E a est df wc = (Ok ci, wd)
    /\ (exists mid, log wd = log wc ++ mid)
    /\ (exists evs, log we = log wd ++ evs)
    /\ match Lm.permute a with
       | Some n =>
           if negb (n =? 0)%Z
           then Lm.permutation_test E a n robust' cluster' yx est wd
                = (Ok (dfs, ps, sig), we)
           else we = wd
                /\ dfs = repeat df (List.length (est_t est))
                /\ ps = Lm.p_values E (est_t est) df
                /\ sig = map _sig_stars ps
       | None =>
           we = wd
           /\ dfs = repeat df (List.length (est_t est))
           /\ ps = Lm.p_values E (est_t est) df
           /\ sig = map _sig_stars ps
       end
    /\ Lm.assemble E a (predictors yx) est (fst ci) (snd ci) dfs ps sig we
       = (Ok results, we)
    /\ Lm.fitted_values yx (est_res est) = Some fv
    /\ Lm.coefs (self w') = Some results
    /\ Lm.resid (self w') = Some (est_res est)
    /\ Lm.fits (self w') = Some fv
    /\ Lm.design_matrix (self w') = Some (predictors yx)
    /\ Lm.data (self w')
       = set_col "residuals" (map Num (est_res est))
           (set_col "fits"
              match y_values yx with
              | [_] => map Num fv
              | _ => Lm.align (y_index yx) fv (nrows (Lm.data (self w)))
              end
              (Lm.data (self w)))
    /\ Lm.warnings (self w') = Lm.warnings (self wc)
    /\ (exists post, log w' = log we ++ post)
    /\ List.length (est_res est) = nrows (Lm.data (self w))
    /\ r = if Lm.summarize a then Some (round_table results) else None.
Proof.
  intros H. unfold Lm.fit_model in H.
  step H rc wa Hsel. destruct rc as [robust' cluster']. cbn [fst snd] in H.
  destruct (select_estimator_ok _ _ _ _ _ Hsel) as ((se & Hse) & Hlog_a).
  step H u1 w1 Hann. destruct (announce_run a robust' wa) as (evs & Hann').
  rewrite Hann' in Hann. inversion Hann; subst u1 w1; clear Hann Hann'.
  step H u2 w2 Hdesc.
  destruct (describe_inference_run a
              {| self := self wa; gen := gen wa; log := log wa ++ evs |})
    as (ct & st & Hdesc').
  rewrite Hdesc' in Hdesc. inversion Hdesc; subst u2 w2; clear Hdesc Hdesc'.
  cbn [self gen log] in H.
  step H ddat w3 Hdd. rewrite design_data_run in Hdd.
  inversion Hdd; subst ddat w3; clear Hdd. cbn [self gen log] in H.
  step H wg w4 Hw. apply handle_weights_ok in Hw.
  destruct Hw as ((en & Hen) & Hlog4 & Hgroups). cbn [self log] in *.
  step H yx w5 Hbd. apply build_design_ok in Hbd.
  destruct Hbd as (Hdm & Hself5 & Hlog5).
  step H est w6 Hols. apply call_ok in Hols. destruct Hols as (Hols & ->).
  step H df wc Hdof.
  step H ci wd Hci.
  destruct (confidence_intervals_ok _ _ _ _ _ _ Hci) as (Hself_d & Hmid).
  step H inference we Hinf. destruct inference as [[dfs ps] sig].
  cbn [fst snd] in H.
  step H results w7 Hasm.
  destruct (assemble_ok _ _ _ _ _ _ _ _ _ _ _ Hasm) as (-> & _).
  step H u3 w8 Hst. destruct u3.
  destruct (store_ok _ _ _ _ _ Hst)
    as (fv & Hfv & Hco & _ & Hre & Hfi & Hda & Hwa & Hde & _ & Hlog8 & Hnr).
  step H u4 w9 Hfs.
  destruct (fit_statistics_run yx (est_res est) w8)
    as (s1 & s2 & s3 & s4 & s5 & Hfs').
  rewrite Hfs' in Hfs. inversion Hfs; subst u4 w9; clear Hfs Hfs'.
  assert (Hself_e : self we = self wd /\ exists evs, log we = log wd ++ evs).
  { assert (Hnil : forall v : W, exists evs, log v = log v ++ evs).
    { intros v. exists []. symmetry. apply app_nil_r. }
    destruct (Lm.permute a) as [n |].
    - destruct (negb (n =? 0)%Z).
      + apply permutation_test_ok in Hinf.
        destruct Hinf as (? & ? & ? & _ & _ & _ & _ & _ & _ & _ & Hs & Hl).
        split; [exact Hs | eauto].
      + inversion Hinf; auto.
    - inversion Hinf; auto. }
  destruct Hself_e as (Hself_e & Hperm).
  assert (Hdata_c : Lm.data (self wc) = Lm.data (self w5)
                    /\ Lm.design_matrix (self wc)
                       = Lm.design_matrix (self w5)).
  { destruct (degrees_of_freedom_ok _ _ _ _ _ _ _ Hdof) as [-> | ->];
      cbn; auto. }
  destruct Hdata_c as (Hdata_c & Hdes_c).
  assert (Hfinal :
            self w' = Lm.set_statistics s1 s2 s3 s4 s5 (self w8)
            /\ (exists post, log w' = log w8 ++ post)
            /\ r = if Lm.summarize a then Some (round_table results)
                   else None).
  { destruct (Lm.summarize a).
    - step H tb w10 Hsum. apply summary_ok in Hsum.
      destruct Hsum as (Hs & (post & Hpost) & tb0 & Htb & ->).
      inversion H; subst. cbn in *. rewrite Hs. split; [reflexivity |].
      split; [eauto |]. rewrite Hco in Htb. inversion Htb. reflexivity.
    - inversion H; subst. cbn. split; [reflexivity |]. split; [| reflexivity].
      exists []. symmetry. apply app_nil_r. }
  destruct Hfinal as (Hself' & (post & Hpost) & Hr).
  exists robust', cluster', wa, (snd wg), (fst wg), yx, est, w5, df, wc, ci,
    wd, dfs, ps, sig, we, results, fv.
  rewrite Hse in *. cbn [Lm.data Lm.formula Lm.set_se_type Lm.set_ci_type
    Lm.set_sig_type Lm.set_ranked_data] in *.
  assert (Hd5 : Lm.data (self w5) = Lm.data (self w)).
  { rewrite Hself5, Hen. reflexivity. }
  assert (Hw5 : Lm.warnings (self w5) = Lm.warnings (self w)).
  { rewrite Hself5, Hen. reflexivity. }
  assert (Hde5 : Lm.design_matrix (self w5) = Some (predictors yx)).
  { rewrite Hself5. reflexivity. }
  split; [exact Hsel |]. split; [exact Hgroups |].
  split; [rewrite Hen in Hdm; exact Hdm |].
  split; [exact Hols |]. split; [exact Hd5 |]. split; [exact Hw5 |].
  split.
  { exists evs. rewrite Hlog5, Hlog4. cbn. rewrite Hlog_a. reflexivity. }
  split; [exact Hdof |]. split; [exact Hci |].
  split; [exact Hmid |]. split; [exact Hperm |].
  split.
  { destruct (Lm.permute a) as [n |].
    - destruct (negb (n =? 0)%Z); [exact Hinf |].
      inversion Hinf; subst. auto.
    - inversion Hinf; subst. auto. }
  split; [exact Hasm |]. split; [exact Hfv |].
  rewrite Hself'. cbn.
  split; [exact Hco |]. split; [exact Hre |]. split; [exact Hfi |].
  split; [rewrite Hde, Hself_e, Hself_d, Hdes_c; exact Hde5 |].
  split.
  { rewrite Hda, Hself_e, Hself_d, Hdata_c, Hd5. reflexivity. }
  split; [rewrite Hwa, Hself_e, Hself_d; reflexivity |].
  split; [exists post; rewrite Hpost, Hlog8; reflexivity |].
  split; [| exact Hr].
  rewrite Hnr, Hself_e, Hself_d, Hdata_c, Hd5. reflexivity.
Qed.

End LmSteps.

(** * One worker for the permutations of a robust fit *)

Section SingleWorker.

Variable E : Env.t.

Lemma not_a_permutation (ev : event) :
  (forall j n, ev <> Dispatch Permutation j n) -> single_worker ev.
Proof. intros H j n Hev. destruct (H j n Hev). Qed.

Ltac logs_step :=
  first
    [ apply (always_bind _ (logs_trans single_worker)); [| intros ?]
    | apply always_ret, logs_refl
    | apply always_raise, logs_refl
    | apply always_this, logs_refl
    | apply always_call, logs_refl
    | apply logs_update
    | apply logs_randint
    | apply logs_emit, not_a_permutation; discriminate
    | apply logs_parallel, not_a_permutation; discriminate
    | match goal with
      | |- always _ (match ?x with _ => _ end) => destruct x
      end ].

Lemma permutation_test_single_worker (a : Lm.fit_args) (p : Z) r c yx est :
  truthy_robust r = true ->
  always (logs single_worker) (Lm.permutation_test E a p r c yx est).
Proof.
  intros Hr. unfold Lm.permutation_test. rewrite Hr.
  apply (always_bind _ (logs_trans single_worker)).
  - apply logs_randint.
  - intros seeds. apply (always_bind _ (logs_trans single_worker)).
    + apply logs_parallel. intros j n Hev. inversion Hev. reflexivity.
    + intros perm_ts. repeat logs_step.
Qed.

Lemma fit_single_worker (a : Lm.fit_args) :
  truthy_robust (Lm.robust a) = true ->
  always (logs single_worker) (Lm.fit E a).
Proof.
  intros Hr. unfold Lm.fit.
  apply (always_bind _ (logs_trans single_worker)).
  { unfold Lm.check_permutations, Lm.warn. repeat logs_step. }
  intros _. unfold Lm.fit_model.
  apply (always_bind_with _ (logs_trans single_worker)
           (fun rc => truthy_robust (fst rc) = true)).
  - intros w rc w1 Hsel. eapply select_estimator_robust; eauto.
  - unfold Lm.select_estimator. repeat logs_step.
  - intros rc Hrc. cbv zeta.
    unfold Lm.announce, Lm.describe_inference, Lm.design_data,
      Lm.handle_weights, Lm.weight_groups, Lm.build_design,
      Lm.degrees_of_freedom, Lm.confidence_intervals, Lm.assemble,
      Lm.store, Lm.assign_array, Lm.fit_statistics, Lm.summary, Lm.warn.
    repeat first [ apply permutation_test_single_worker; exact Hrc
                 | logs_step ].
Qed.

End SingleWorker.

(** * [Lm.fit] only adds to the log and to the warnings *)

Section Growth.

Variable E : Env.t.

Lemma from_warnings_append (base : list string) (w : string) (m : Lm.t) :
  from_warnings base m ->
  from_warnings base (Lm.set_warnings (Lm.warnings m ++ [w]) m).
Proof.
  intros (ws & H). exists (ws ++ [w]). cbn. rewrite H.
  symmetry. apply app_assoc.
Qed.

Ltac any_logs_step :=
  first
    [ apply (always_bind _ (logs_trans anything)); [| intros ?]
    | apply always_ret, logs_refl
    | apply always_raise, logs_refl
    | apply always_this, logs_refl
    | apply always_call, logs_refl
    | apply logs_update
    | apply logs_randint
    | apply logs_emit; exact I
    | apply logs_parallel; exact I
    | match goal with
      | |- always _ (match ?x with _ => _ end) => destruct x
      end ].

Ltac unfold_fit_model :=
  unfold Lm.fit_model, Lm.select_estimator, Lm.announce,
    Lm.describe_inference, Lm.design_data, Lm.handle_weights,
    Lm.weight_groups, Lm.build_design, Lm.degrees_of_freedom,
    Lm.confidence_intervals, Lm.permutation_test, Lm.assemble, Lm.store,
    Lm.assign_array, Lm.fit_statistics, Lm.summary, Lm.warn;
  cbv zeta.

Lemma fit_model_logs (a : Lm.fit_args) :
  always (logs anything) (Lm.fit_model E a).
Proof. unfold_fit_model. repeat any_logs_step. Qed.

Lemma fit_model_warnings (a : Lm.fit_args) (base : list string) :
  always (keeps (from_warnings base)) (Lm.fit_model E a).
Proof.
  unfold_fit_model.
  repeat first
    [ apply keeps_update; intros m Hm; apply from_warnings_append, Hm
    | keeps_step (from_warnings base) ].
Qed.

Lemma fit_model_grows (a : Lm.fit_args) : always grows (Lm.fit_model E a).
Proof.
  intros w. split.
  - destruct (fit_model_logs a w) as (evs & H & _). eauto.
  - apply (fit_model_warnings a (Lm.warnings (self w)) w).
    exists []. symmetry. apply app_nil_r.
Qed.

Lemma fit_unfold (a : Lm.fit_args) (w : World (Env.rng E) Lm.t) :
  Lm.fit E a w = Lm.fit_model E a (snd (Lm.check_permutations E a w)).
Proof.
  unfold Lm.fit, bind. rewrite check_permutations_run. reflexivity.
Qed.

End Growth.

(** * Fits with a permutation test *)

Lemma combine_seq_all {A : Type} (s k : nat) (t : list A) :
  List.length (combine (seq s k) t) = List.length t ->
  combine (seq s k) t = combine (seq s (List.length t)) t.
Proof.
  revert s k. induction t as [| x t IH]; intros s k H.
  - destruct (seq s k); reflexivity.
  - destruct k as [| k]; cbn in H; [discriminate |].
    cbn. f_equal. apply IH. injection H as H. exact H.
Qed.

Lemma map_repeat {A B : Type} (f : A -> B) (x : A) (n : nat) :
  map f (repeat x n) = repeat (f x) n.
Proof. induction n as [| n IH]; cbn; [| rewrite IH]; reflexivity. Qed.

Section Permuted.

Variable E : Env.t.

Lemma check_permutations_log (a : Lm.fit_args)
  (w : World (Env.rng E) Lm.t) :
  Lm.data (self (snd (Lm.check_permutations E a w))) = Lm.data (self w)
  /\ Lm.formula (self (snd (Lm.check_permutations E a w)))
     = Lm.formula (self w)
  /\ (exists evs, log (snd (Lm.check_permutations E a w)) = log w ++ evs)
  /\ exists ws,
       Lm.warnings (self (snd (Lm.check_permutations E a w)))
       = Lm.warnings (self w) ++ ws.
Proof.
  rewrite check_permutations_run. cbn.
  destruct (truthy_int (Lm.permute a) && _)%bool; cbn.
  - repeat split; eauto.
  - repeat split; exists []; symmetry; apply app_nil_r.
Qed.

Lemma degrees_of_freedom_log (a : Lm.fit_args) cl (x : Design) groups
  (w w1 : World (Env.rng E) Lm.t) df :
  Lm.degrees_of_freedom E a cl x groups w = (Ok df, w1) ->
  (exists evs, log w1 = log w ++ evs)
  /\ exists ws, Lm.warnings (self w1) = Lm.warnings (self w) ++ ws.
Proof.
  intros H. destruct (degrees_of_freedom_ok _ _ _ _ _ _ _ _ H) as [-> | ->].
  - split; exists []; symmetry; apply app_nil_r.
  - cbn. eauto.
Qed.

(** A fit with permutations that returns: the permuted fits, one for
    each of [p] seeds, their dispatch, and the columns of the table. *)
Lemma fit_permuted (a : Lm.fit_args) (w w' : World (Env.rng E) Lm.t) r p :
  Lm.fit E a w = (Ok r, w') ->
  Lm.permute a = Some p ->
  p <> 0 ->
  exists x t perm_ts seeds y rb cl pre post,
    Lm.design_matrix (self w') = Some x
    /\ 0 <= p
    /\ List.length seeds = Z.to_nat p
    /\ traverse (Env._chunk_perm_ols E x y rb (Lm.n_lags a) cl (Lm.weights a))
         seeds = Some perm_ts
    /\ (truthy_robust (Lm.robust a) = true -> truthy_robust rb = true)
    /\ log w'
       = log w ++ pre
         ++ Dispatch Permutation
              (if truthy_robust rb then 1 else Lm.n_jobs a) (Z.to_nat p)
            :: post
    /\ List.length t = n_coef x
    /\ reported "T-stat" (self w') = Some (map Num t)
    /\ reported "Num_perm" (self w')
       = Some (repeat (Num (inject_Z p)) (n_coef x))
    /\ reported "Perm-P-val" (self w')
       = Some (map Num
                 (map (fun jt =>
                         _perm_find (array_col perm_ts (fst jt)) (snd jt))
                    (combine (seq 0 (n_coef x)) t)))
    /\ reported "DF" (self w') = None
    /\ reported "P-val" (self w') = None.
Proof.
  intros H Hp Hp0. rewrite fit_unfold in H.
  destruct (check_permutations_log a w) as (_ & _ & (ce & Hce) & _).
  apply fit_model_ok in H.
  destruct H as (rb & cl & wa & groups & wts & yx & est & wb & df & wc & ci
                 & wd & dfs & ps & sig & we & results & fv & Hsel & _ & _ & _
                 & _ & _ & (pre & Hpre) & Hdof & _ & (mid & Hmid) & _ & Hinf
                 & Hasm & _ & Hco & _ & _ & Hde & _ & _ & (post & Hpost) & _).
  rewrite Hp in Hinf.
  assert (Hnz : negb (p =? 0) = true).
  { apply negb_true_iff, Z.eqb_neq, Hp0. }
  rewrite Hnz in Hinf.
  apply permutation_test_ok in Hinf.
  destruct Hinf as (seeds & perm_ts & k & Hlen & Hpos & Htr & Hk & Hps & Hdfs
                    & _ & _ & Hlog).
  destruct (degrees_of_freedom_log _ _ _ _ _ _ _ Hdof) as ((de & Hde') & _).
  apply assemble_ok in Hasm.
  destruct Hasm as (_ & _ & Ht & Hldf & Hlps & _ & _ & _ & _ & Htc & _ & Hperm).
  assert (Htruthy : truthy_int (Lm.permute a) = true).
  { rewrite Hp. exact Hnz. }
  rewrite Htruthy in Hperm.
  destruct Hperm as (_ & Hnp & Hpp & Hdf & Hpv).
  exists (predictors yx), (est_t est), perm_ts, seeds, (y_values yx), rb, cl,
    (ce ++ pre ++ de ++ mid), post.
  unfold reported. rewrite Hco.
  split; [exact Hde |]. split; [exact Hpos |]. split; [exact Hlen |].
  split; [exact Htr |].
  split.
  { intros Hr. apply (select_estimator_robust E a _ _ _ Hr Hsel). }
  split.
  { rewrite Hpost, Hlog, Hmid, Hde', Hpre, Hce, Hlen.
    rewrite <- !app_assoc. reflexivity. }
  split; [exact Ht |]. split; [exact Htc |].
  split.
  { rewrite Hnp, Hdfs, Hlps, map_repeat. reflexivity. }
  split.
  { rewrite Hpp. f_equal. f_equal. rewrite Hps.
    rewrite <- Ht. apply (f_equal (map _)).
    apply combine_seq_all.
    rewrite Hps, length_map in Hlps. rewrite Hlps, Ht. reflexivity. }
  split; assumption.
Qed.

End Permuted.

(** * The properties of the specification *)

(** The two calls go on with the same estimator and cluster, and set the
    same type of standard errors. *)
Lemma select_estimator_true_is_hc1 (E : Env.t) (a : Lm.fit_args)
  (w : World (Env.rng E) Lm.t) :
  Lm.select_estimator E (Lm.with_robust (RBool true) a) w
  = Lm.select_estimator E (Lm.with_robust (RStr "hc1") a) w.
Proof.
  unfold Lm.select_estimator. cbn.
  destruct (Lm.cluster a) as [c |]; reflexivity.
Qed.

(** C4.  [Lm.fit] called with [robust=True] and called with
    [robust="hc1"], on the same model, with the same other arguments and
    the same state of the random generator, return the same value and
    leave the same world: the same table of coefficients, the same
    residuals, the same log, and the same type of standard errors,
    ["robust (hc1)"]. *)
Theorem C4_robust_true_is_hc1 (E : Env.t) (a : Lm.fit_args)
  (w : World (Env.rng E) Lm.t) :
  Lm.fit E (Lm.with_robust (RBool true) a) w
  = Lm.fit E (Lm.with_robust (RStr "hc1") a) w
  /\ Lm.se_type (self (snd (Lm.fit E (Lm.with_robust (RStr "hc1") a) w)))
     = Some "robust (hc1)"%string.
Proof.
  assert (Hfit : Lm.fit E (Lm.with_robust (RBool true) a) w
                 = Lm.fit E (Lm.with_robust (RStr "hc1") a) w).
  { rewrite !fit_unfold.
    change (Lm.check_permutations E (Lm.with_robust (RBool true) a) w)
      with (Lm.check_permutations E (Lm.with_robust (RStr "hc1") a) w).
    generalize (snd (Lm.check_permutations E
                       (Lm.with_robust (RStr "hc1") a) w)).
    intros w0. unfold Lm.fit_model, bind.
    rewrite select_estimator_true_is_hc1. reflexivity. }
  split; [exact Hfit |].
  rewrite <- Hfit. apply Lm_fit_se_type. reflexivity.
Qed.

(** C10.  After [Lm2.fit] with [robust=True], however the call ends, the
    type of standard errors of the model is ["robust (hc0)"], and the
    estimator the rest of the method goes on with is ["hc0"]; after
    [Lm.fit] with [robust=True] the type is ["robust (hc1)"]. *)
Theorem C10_lm2_robust_true_is_hc0 (E : Env.t)
  (a2 : Lm2.fit_args) (w2 : World (Env.rng E) Lm2.t)
  (a1 : Lm.fit_args) (w1 : World (Env.rng E) Lm.t) :
  Lm2.se_type (self (snd (Lm2.fit E (Lm2.with_robust (RBool true) a2) w2)))
  = Some "robust (hc0)"%string
  /\ match fst (Lm2.select_estimator E (Lm2.with_robust (RBool true) a2) w2)
     with
     | Ok (r, _) => r = RStr "hc0"
     | Raise _ => True
     end
  /\ Lm.se_type (self (snd (Lm.fit E (Lm.with_robust (RBool true) a1) w1)))
     = Some "robust (hc1)"%string.
Proof.
  split; [| split].
  - apply Lm2_fit_se_type. reflexivity.
  - destruct (Lm2.select_estimator E _ w2) as [[[r c] | e] w'] eqn:H; cbn;
      [| exact I].
    eapply Lm2_select_estimator_value; [| exact H]. reflexivity.
  - apply Lm_fit_se_type. reflexivity.
Qed.

Lemma ratio_bounds (a b : Z) :
  0 < a <= b -> (0 < inject_Z a / inject_Z b /\ inject_Z a / inject_Z b <= 1)%Q.
Proof.
  intros [Ha Hab].
  assert (Hb : (0 < inject_Z b)%Q).
  { change 0%Q with (inject_Z 0). rewrite <- Zlt_Qlt. lia. }
  split.
  - apply Qlt_shift_div_l; [exact Hb |].
    rewrite Qmult_0_l. change 0%Q with (inject_Z 0).
    rewrite <- Zlt_Qlt. exact Ha.
  - apply Qle_shift_div_r; [exact Hb |].
    rewrite Qmult_1_l. rewrite <- Zle_Qle. exact Hab.
Qed.

Lemma count_extreme_le (arr : list Q) (x : Q) :
  (count_extreme arr x <= List.length arr)%nat.
Proof. unfold count_extreme. apply filter_length_le. Qed.

Lemma perm_find_empirical (perm_ts : list (list Q)) (p : Z) (jt : nat * Q) :
  0 <= p ->
  List.length perm_ts = Z.to_nat p ->
  _perm_find (array_col perm_ts (fst jt)) (snd jt) = empirical_p perm_ts p jt.
Proof.
  intros Hp Hl. unfold _perm_find, empirical_p, array_col.
  rewrite length_map, Hl, Z2Nat.id by exact Hp. reflexivity.
Qed.

Lemma empirical_p_bounds (perm_ts : list (list Q)) (p : Z) (jt : nat * Q) :
  0 <= p ->
  List.length perm_ts = Z.to_nat p ->
  (0 < empirical_p perm_ts p jt /\ empirical_p perm_ts p jt <= 1)%Q.
Proof.
  intros Hp Hl. unfold empirical_p. apply ratio_bounds.
  pose proof (count_extreme_le (array_col perm_ts (fst jt)) (snd jt)) as H.
  unfold array_col in H at 2. rewrite length_map, Hl in H. lia.
Qed.

(** C3.  After a fit with [permute=p], [p] positive, that returns, the
    column [Perm-P-val] holds for each coefficient the number of the [p]
    permuted fits whose statistic for that coefficient is at least as
    large in absolute value as the observed one in column [T-stat], plus
    one, divided by [p + 1]; each of these values is above 0 and at most
    1.  The permuted statistics are those [_chunk_perm_ols] returned for
    the [p] seeds drawn. *)
Theorem C3_empirical_p_values (E : Env.t) (a : Lm.fit_args)
  (w : World (Env.rng E) Lm.t) (r : option Table) (p : Z) :
  fst (Lm.fit E a w) = Ok r ->
  Lm.permute a = Some p ->
  0 < p ->
  exists x y rb cl seeds perm_ts t,
    List.length seeds = Z.to_nat p
    /\ traverse (Env._chunk_perm_ols E x y rb (Lm.n_lags a) cl (Lm.weights a))
         seeds = Some perm_ts
    /\ List.length perm_ts = Z.to_nat p
    /\ reported "T-stat" (self (snd (Lm.fit E a w))) = Some (map Num t)
    /\ reported "Perm-P-val" (self (snd (Lm.fit E a w)))
       = Some (map (fun jt => Num (empirical_p perm_ts p jt))
                 (combine (seq 0 (List.length t)) t))
    /\ Forall (fun jt => (0 < empirical_p perm_ts p jt
                          /\ empirical_p perm_ts p jt <= 1)%Q)
         (combine (seq 0 (List.length t)) t).
Proof.
  intros Hok Hp Hpos.
  destruct (Lm.fit E a w) as [res w'] eqn:Hfit. cbn in Hok. subst res. cbn.
  assert (Hp0 : p <> 0) by lia.
  destruct (fit_permuted E a w w' r p Hfit Hp Hp0)
    as (x & t & perm_ts & seeds & y & rb & cl & pre & post & _ & Hge & Hlen
        & Htr & _ & _ & Ht & Htc & _ & Hpp & _).
  assert (Hl : List.length perm_ts = Z.to_nat p).
  { rewrite (traverse_length _ _ _ Htr). exact Hlen. }
  exists x, y, rb, cl, seeds, perm_ts, t.
  split; [exact Hlen |]. split; [exact Htr |]. split; [exact Hl |].
  split; [exact Htc |]. split.
  - rewrite Hpp, Ht, map_map. f_equal. apply map_ext. intros jt.
    rewrite (perm_find_empirical perm_ts p jt Hge Hl). reflexivity.
  - apply Forall_forall. intros jt _. apply empirical_p_bounds; assumption.
Qed.

Lemma C3_empirical_p_values_witness :
  fst (Sample.run "Y ~ X" Sample.robust_permuted) = Ok None
  /\ exists x y rb cl seeds perm_ts t,
       List.length seeds = Z.to_nat 3
       /\ traverse (Env._chunk_perm_ols Sample.env x y rb
                      (Lm.n_lags Sample.robust_permuted) cl
                      (Lm.weights Sample.robust_permuted))
            seeds = Some perm_ts
       /\ List.length perm_ts = Z.to_nat 3
       /\ reported "T-stat"
            (self (snd (Lm.fit Sample.env Sample.robust_permuted
                          (Sample.world "Y ~ X"))))
          = Some (map Num t)
       /\ reported "Perm-P-val"
            (self (snd (Lm.fit Sample.env Sample.robust_permuted
                          (Sample.world "Y ~ X"))))
          = Some (map (fun jt => Num (empirical_p perm_ts 3 jt))
                    (combine (seq 0 (List.length t)) t))
       /\ Forall (fun jt => (0 < empirical_p perm_ts 3 jt
                             /\ empirical_p perm_ts 3 jt <= 1)%Q)
            (combine (seq 0 (List.length t)) t).
Proof.
  split; [vm_compute; reflexivity |].
  apply (C3_empirical_p_values Sample.env Sample.robust_permuted
           (Sample.world "Y ~ X") None 3);
    [vm_compute; reflexivity | reflexivity | lia].
Defined.

(** * Fits without a permutation test *)

Section Parametric.

Variable E : Env.t.

Lemma columns_round_table (tb : Table) :
  columns (cols (round_table tb)) = columns (cols tb).
Proof.
  unfold columns, round_table. cbn. rewrite map_map. reflexivity.
Qed.

(** The table of a fit without permutations. *)
Lemma parametric_table (a : Lm.fit_args) (x : Design) est ci_l ci_u dfs ps
  sig df rb cl yx (we wd : World (Env.rng E) Lm.t) results :
  truthy_int (Lm.permute a) = false ->
  match Lm.permute a with
  | Some n =>
      if negb (n =? 0)%Z
      then Lm.permutation_test E a n rb cl yx est wd = (Ok (dfs, ps, sig), we)
      else we = wd
           /\ dfs = repeat df (List.length (est_t est))
           /\ ps = Lm.p_values E (est_t est) df
           /\ sig = map _sig_stars ps
  | None =>
      we = wd
      /\ dfs = repeat df (List.length (est_t est))
      /\ ps = Lm.p_values E (est_t est) df
      /\ sig = map _sig_stars ps
  end ->
  Lm.assemble E a x est ci_l ci_u dfs ps sig we = (Ok results, we) ->
  List.length (est_t est) = n_coef x
  /\ columns (cols results) = parametric_columns
  /\ get_col "T-stat" (cols results) = Some (map Num (est_t est))
  /\ get_col "DF" (cols results) = Some (repeat (Num df) (n_coef x))
  /\ get_col "P-val" (cols results)
     = Some (map Num (Lm.p_values E (est_t est) df))
  /\ get_col "Sig" (cols results)
     = Some (map (fun p => Str (_sig_stars p))
               (Lm.p_values E (est_t est) df))
  /\ get_col "2.5_ci" (cols results) = Some (map Num ci_l)
  /\ get_col "97.5_ci" (cols results) = Some (map Num ci_u).
Proof.
  intros Hp Hinf Hasm.
  assert (Hpar : dfs = repeat df (List.length (est_t est))
                 /\ ps = Lm.p_values E (est_t est) df
                 /\ sig = map _sig_stars ps).
  { destruct (Lm.permute a) as [n |]; cbn in Hp.
    - rewrite Hp in Hinf. tauto.
    - tauto. }
  destruct Hpar as (-> & -> & ->).
  apply assemble_ok in Hasm.
  destruct Hasm as (_ & _ & Ht & _ & _ & _ & Hl & Hu & _ & Htc & Hsig & Hcols).
  rewrite Hp in Hcols. destruct Hcols as (Hc & Hdf & Hpv).
  rewrite map_repeat, Ht in Hdf. rewrite map_map in Hsig.
  repeat split; assumption.
Qed.

End Parametric.

Section ClusterLemmas.

Variable E : Env.t.

Lemma select_estimator_cluster_cases (a : Lm.fit_args)
  (w w1 : World (Env.rng E) Lm.t) r c cn :
  truthy_robust (Lm.robust a) = true ->
  Lm.cluster a = Some cn ->
  Lm.select_estimator E a w = (Ok (r, c), w1) ->
  (exists col, get_col cn (Lm.data (self w)) = Some col /\ c = ClSeries col)
  \/ c = ClName cn.
Proof.
  intros Hr Hc. unfold Lm.select_estimator. rewrite Hr, Hc. run.
  destruct (truthy_str cn); cbn.
  - destruct (get_col cn _) as [col |]; cbn; [| discriminate].
    intros H; inversion H; subst. left. eauto.
  - intros H; inversion H; subst. right. reflexivity.
Qed.

End ClusterLemmas.

(** C2 (amended).  After a fit with [robust="cluster"] and the name of a
    column of the data for [cluster] that returns: without a permutation
    test, the column [DF] holds for every coefficient the number of
    distinct values of the cluster column minus the number of columns of
    the design matrix; with a permutation test, there is no column [DF].
    The difference is not checked against 1. *)
Theorem C2_cluster_degrees_of_freedom (E : Env.t) (a : Lm.fit_args)
  (w : World (Env.rng E) Lm.t) (r : option Table) (cn : string)
  (col : column) :
  fst (Lm.fit E a w) = Ok r ->
  Lm.robust a = RStr "cluster" ->
  Lm.cluster a = Some cn ->
  get_col cn (Lm.data (self w)) = Some col ->
  exists x,
    Lm.design_matrix (self (snd (Lm.fit E a w))) = Some x
    /\ if truthy_int (Lm.permute a)
       then reported "DF" (self (snd (Lm.fit E a w))) = None
       else reported "DF" (self (snd (Lm.fit E a w)))
            = Some (repeat
                      (Num (inject_Z (Z.of_nat (nunique col)
                                      - Z.of_nat (n_coef x))))
                      (n_coef x)).
Proof.
  intros Hok Hr Hc Hcol.
  destruct (Lm.fit E a w) as [res w'] eqn:Hfit. cbn in Hok. subst res. cbn.
  destruct (truthy_int (Lm.permute a)) eqn:Hp.
  - destruct (Lm.permute a) as [p |] eqn:Hperm; cbn in Hp; [| discriminate].
    assert (Hp0 : p <> 0).
    { apply negb_true_iff, Z.eqb_neq in Hp. exact Hp. }
    destruct (fit_permuted E a w w' r p Hfit Hperm Hp0)
      as (x & t & perm_ts & seeds & y & rb & cl & pre & post & Hde & _ & _
          & _ & _ & _ & _ & _ & _ & _ & Hdf & _).
    exists x. auto.
  - rewrite fit_unfold in Hfit.
    destruct (check_permutations_log E a w) as (Hdata & _).
    apply fit_model_ok in Hfit.
    destruct Hfit as (rb & cl & wa & groups & wts & yx & est & wb & df & wc
                      & ci & wd & dfs & ps & sig & we & results & fv & Hsel
                      & _ & _ & _ & _ & _ & _ & Hdof & _ & _ & _ & Hinf
                      & Hasm & _ & Hco & _ & _ & Hde & _).
    assert (Htr : truthy_robust (Lm.robust a) = true).
    { rewrite Hr. reflexivity. }
    destruct (select_estimator_cluster_cases E a _ _ _ _ cn Htr Hc Hsel)
      as [(col' & Hcol' & ->) | ->].
    + rewrite Hdata, Hcol in Hcol'. inversion Hcol'; subst col'.
      rewrite degrees_of_freedom_cluster in Hdof. inversion Hdof; subst.
      destruct (parametric_table E a _ _ _ _ _ _ _ _ _ _ _ _ _ _ Hp Hinf Hasm)
        as (_ & _ & _ & Hdf & _).
      exists (predictors yx). unfold reported. rewrite Hco. auto.
    + discriminate Hdof.
Qed.

Lemma C2_cluster_degrees_of_freedom_witness :
  exists x,
    Lm.design_matrix
      (self (snd (Lm.fit Sample.env Sample.clustered_by_site
                    (Sample.world "Y ~ X")))) = Some x
    /\ if truthy_int (Lm.permute Sample.clustered_by_site)
       then reported "DF"
              (self (snd (Lm.fit Sample.env Sample.clustered_by_site
                            (Sample.world "Y ~ X")))) = None
       else reported "DF"
              (self (snd (Lm.fit Sample.env Sample.clustered_by_site
                            (Sample.world "Y ~ X"))))
            = Some (repeat
                      (Num (inject_Z
                              (Z.of_nat
                                 (nunique [Str "a"; Str "a"; Str "b";
                                           Str "b"; Str "c"; Str "c"])
                               - Z.of_nat (n_coef x))))
                      (n_coef x)).
Proof.
  apply (C2_cluster_degrees_of_freedom Sample.env Sample.clustered_by_site
           (Sample.world "Y ~ X") None "site");
    [vm_compute; reflexivity | reflexivity | reflexivity | reflexivity].
Defined.

(** With two clusters and two coefficients the fit returns and reports
    zero degrees of freedom. *)
Lemma C2_counterexample :
  ~ C2_as_stated Sample.env Sample.clustered (Sample.world "Y ~ X").
Proof.
  intros H.
  destruct (H None "half"%string
              [Str "l"; Str "l"; Str "l"; Str "r"; Str "r"; Str "r"])
    as (x & Hx & _ & Hd).
  - vm_compute. reflexivity.
  - reflexivity.
  - reflexivity.
  - reflexivity.
  - vm_compute in Hx. inversion Hx; subst x. vm_compute in Hd.
    apply Hd. reflexivity.
Qed.

Example clustered_reports_zero :
  fst (Sample.run "Y ~ X" Sample.clustered) = Ok None
  /\ reported "DF" (self (snd (Sample.run "Y ~ X" Sample.clustered)))
     = Some [Num 0; Num 0].
Proof. split; vm_compute; reflexivity. Qed.

(** * Bootstrapped intervals without permutations *)

Section Bootstrapped.

Variable E : Env.t.

(** The inference of such a fit is recorded as bootstrapped. *)
Lemma fit_model_sig_type_boot (a : Lm.fit_args)
  (w w' : World (Env.rng E) Lm.t) r :
  Lm.conf_int a = "boot"%string ->
  Lm.permute a = None ->
  Lm.fit_model E a w = (Ok r, w') ->
  Lm.sig_type (self w') = Some "bootstrapped"%string.
Proof.
  intros Hc Hp H. unfold Lm.fit_model in H.
  step H rc wa Hsel. step H u1 w1 Hann. step H u2 w2 Hdesc.
  assert (Hset : Lm.sig_type (self w2) = Some "bootstrapped"%string).
  { revert Hdesc. unfold Lm.describe_inference. rewrite Hc, Hp. run.
    intros Hd; inversion Hd; reflexivity. }
  set (P := fun m => Lm.sig_type m = Some "bootstrapped"%string).
  match type of H with
  | ?m w2 = _ => assert (Hk : always (keeps P) m)
  end.
  { unfold Lm.design_data, Lm.handle_weights, Lm.weight_groups,
      Lm.build_design, Lm.degrees_of_freedom, Lm.confidence_intervals,
      Lm.permutation_test, Lm.assemble, Lm.store, Lm.assign_array,
      Lm.fit_statistics, Lm.summary, Lm.warn.
    keeps_all P. }
  specialize (Hk w2 Hset). rewrite H in Hk. exact Hk.
Qed.

End Bootstrapped.

(** C1 (what [Lm.fit] does).  After a fit with [conf_int="boot"] and
    without [permute] that returns, the inference of the model is
    recorded as bootstrapped, yet the table, the returned one as well,
    has the columns [DF] and [P-val] of the parametric test, and the
    marker of each coefficient is the one of its parametric p-value, by
    the thresholds of [_sig_stars]; the bounds of the interval play no
    part in it. *)
Theorem C1_boot_fit_keeps_parametric_columns (E : Env.t) (a : Lm.fit_args)
  (w : World (Env.rng E) Lm.t) (r : option Table) :
  fst (Lm.fit E a w) = Ok r ->
  Lm.conf_int a = "boot"%string ->
  Lm.permute a = None ->
  Lm.sig_type (self (snd (Lm.fit E a w))) = Some "bootstrapped"%string
  /\ reported_columns (self (snd (Lm.fit E a w))) = parametric_columns
  /\ (forall tb, r = Some tb -> columns (cols tb) = parametric_columns)
  /\ exists t df,
       reported "T-stat" (self (snd (Lm.fit E a w))) = Some (map Num t)
       /\ reported "DF" (self (snd (Lm.fit E a w)))
          = Some (repeat (Num df) (List.length t))
       /\ reported "P-val" (self (snd (Lm.fit E a w)))
          = Some (map Num (Lm.p_values E t df))
       /\ reported "Sig" (self (snd (Lm.fit E a w)))
          = Some (map (fun p => Str (_sig_stars p)) (Lm.p_values E t df)).
Proof.
  intros Hok Hc Hp.
  destruct (Lm.fit E a w) as [res w'] eqn:Hfit. cbn in Hok. subst res. cbn.
  rewrite fit_unfold in Hfit.
  split; [exact (fit_model_sig_type_boot E a _ _ _ Hc Hp Hfit) |].
  apply fit_model_ok in Hfit.
  destruct Hfit as (rb & cl & wa & groups & wts & yx & est & wb & df & wc
                    & ci & wd & dfs & ps & sig & we & results & fv & _
                    & _ & _ & _ & _ & _ & _ & _ & _ & _ & _ & Hinf
                    & Hasm & _ & Hco & _ & _ & _ & _ & _ & _ & _ & Hr).
  assert (Hfalse : truthy_int (Lm.permute a) = false).
  { rewrite Hp. reflexivity. }
  destruct (parametric_table E a _ _ _ _ _ _ _ _ _ _ _ _ _ _ Hfalse Hinf Hasm)
    as (Hlen & Hcols & Htc & Hdf & Hpv & Hsig & _).
  unfold reported, reported_columns. rewrite Hco.
  split; [exact Hcols |]. split.
  - intros tb Htb. rewrite Hr in Htb. destruct (Lm.summarize a).
    + inversion Htb; subst tb. rewrite columns_round_table. exact Hcols.
    + discriminate Htb.
  - exists (est_t est), df. rewrite Hlen. auto.
Qed.

Lemma C1_boot_fit_keeps_parametric_columns_witness :
  Lm.sig_type (self (snd (Lm.fit Sample.env Sample.bootstrapped
                            (Sample.world "Y ~ 1"))))
  = Some "bootstrapped"%string
  /\ reported_columns (self (snd (Lm.fit Sample.env Sample.bootstrapped
                                    (Sample.world "Y ~ 1"))))
     = parametric_columns
  /\ (forall tb, None = Some tb -> columns (cols tb) = parametric_columns)
  /\ exists t df,
       reported "T-stat" (self (snd (Lm.fit Sample.env Sample.bootstrapped
                                       (Sample.world "Y ~ 1"))))
       = Some (map Num t)
       /\ reported "DF" (self (snd (Lm.fit Sample.env Sample.bootstrapped
                                      (Sample.world "Y ~ 1"))))
          = Some (repeat (Num df) (List.length t))
       /\ reported "P-val" (self (snd (Lm.fit Sample.env Sample.bootstrapped
                                         (Sample.world "Y ~ 1"))))
          = Some (map Num (Lm.p_values Sample.env t df))
       /\ reported "Sig" (self (snd (Lm.fit Sample.env Sample.bootstrapped
                                       (Sample.world "Y ~ 1"))))
          = Some (map (fun p => Str (_sig_stars p))
                    (Lm.p_values Sample.env t df)).
Proof.
  apply (C1_boot_fit_keeps_parametric_columns Sample.env Sample.bootstrapped
           (Sample.world "Y ~ 1") None);
    [vm_compute; reflexivity | reflexivity | reflexivity].
Defined.

(** In the sample environment the bootstrapped interval of the intercept
    lies above zero and the marker, taken from the parametric p-value,
    is empty. *)
Example boot_marker_not_from_interval :
  let m := self (snd (Sample.run "Y ~ 1" Sample.bootstrapped)) in
  reported "2.5_ci" m = Some [Num (9 # 2)]
  /\ reported "97.5_ci" m = Some [Num (13 # 2)]
  /\ reported "Sig" m = Some [Str EmptyString]
  /\ reported_columns m = parametric_columns.
Proof. repeat split; vm_compute; reflexivity. Qed.

(** * The columns [fit] adds to the data *)

Lemma get_col_set_col_same (name : string) (v : column) (df : DataFrame) :
  get_col name (set_col name v df) = Some v.
Proof.
  induction df as [| [k c] rest IH]; cbn.
  - rewrite String.eqb_refl. reflexivity.
  - destruct (k =? name)%string eqn:Hk; cbn; rewrite Hk; auto.
Qed.

Lemma get_col_set_col_other (name other : string) (v : column)
  (df : DataFrame) :
  other <> name ->
  get_col other (set_col name v df) = get_col other df.
Proof.
  intros Hne. induction df as [| [k c] rest IH]; cbn.
  - apply String.eqb_neq in Hne. rewrite String.eqb_sym, Hne. reflexivity.
  - destruct (k =? name)%string eqn:Hk; cbn.
    + apply String.eqb_eq in Hk. subst k.
      apply String.eqb_neq in Hne. rewrite String.eqb_sym, Hne. reflexivity.
    + destruct (k =? other)%string; auto.
Qed.


Lemma elementwise_map (f : Q -> Q -> Q) (xs ys r : list Q) :
  elementwise f xs ys = Some r ->
  r = map (fun p => f (fst p) (snd p)) (combine xs ys).
Proof.
  revert ys r. induction xs as [| x xs IH]; intros [| y ys] r; cbn;
    try discriminate.
  - intros H; inversion H; reflexivity.
  - destruct (elementwise f xs ys) as [r' |] eqn:Hr; [| discriminate].
    intros H; inversion H; subst. rewrite (IH ys r' Hr). reflexivity.
Qed.

Lemma combine_repeat_l {A B : Type} (x : A) (ys : list B) :
  combine (repeat x (List.length ys)) ys = map (fun y => (x, y)) ys.
Proof. induction ys as [| y ys IH]; cbn; [| rewrite IH]; reflexivity. Qed.




(** * Weights from a column of groups *)

Lemma Qsum_map_ext {A : Type} (f g : A -> Q) (l : list A) :
  (forall x, (f x == g x)%Q) -> (Qsum (map f l) == Qsum (map g l))%Q.
Proof.
  intros H. induction l as [| x l IH]; cbn; [reflexivity |].
  rewrite (H x), IH. reflexivity.
Qed.

(** The degrees of freedom [fit] computes for two groups are those of
    Welch and Satterthwaite. *)
Lemma welch_degrees_of_freedom (E : Env.t) (keys : column) (vals : list Q) :
  (let welch := group_apply (_welch_ingredients E) keys vals in
   Qsum (map fst welch) * Qsum (map fst welch) / Qsum (map snd welch)
   == welch_satterthwaite (welch_groups E keys vals))%Q.
Proof.
  cbv zeta. unfold welch_satterthwaite, welch_groups, group_apply.
  rewrite !map_map. cbn [fst snd].
  apply Qdiv_comp.
  - unfold _welch_ingredients. cbn [fst]. reflexivity.
  - apply Qsum_map_ext. intros k. unfold _welch_ingredients. cbn [snd].
    apply Qdiv_comp; [reflexivity |].
    unfold Qeq. cbn. lia.
Qed.

Section ClusteredWeights.

Variable E : Env.t.

Lemma low_permutations_not_unsupported :
  not_unsupported (Warn Lm.low_permutations).
Proof. intros H. inversion H. Qed.

Ltac quiet_step :=
  first
    [ apply (always_bind _ (logs_trans not_unsupported)); [| intros ?]
    | apply always_ret, logs_refl
    | apply always_raise, logs_refl
    | apply always_this, logs_refl
    | apply always_call, logs_refl
    | apply logs_update
    | apply logs_randint
    | apply logs_emit, low_permutations_not_unsupported
    | apply logs_emit; intros Hev; discriminate Hev
    | apply logs_parallel; intros Hev; discriminate Hev
    | match goal with
      | |- always _ (match ?x with _ => _ end) => destruct x
      end ].

(** With a [cluster] argument the rest of [fit] never sees [None] for
    the cluster. *)
Lemma select_estimator_keeps_cluster (a : Lm.fit_args) (cn : string)
  (w w1 : World (Env.rng E) Lm.t) rc :
  Lm.cluster a = Some cn ->
  Lm.select_estimator E a w = (Ok rc, w1) ->
  snd rc <> ClNone.
Proof.
  intros Hc. unfold Lm.select_estimator. rewrite Hc.
  destruct (truthy_robust (Lm.robust a)); run.
  - destruct (truthy_str cn); cbn.
    + destruct (get_col cn _); cbn; intros H; inversion H; discriminate.
    + intros H; inversion H; discriminate.
  - intros H; inversion H; discriminate.
Qed.

(** The branch of the clusters has no warning. *)
Lemma degrees_of_freedom_clustered (a : Lm.fit_args) (cl : cluster_val)
  (x : Design) groups :
  cl <> ClNone ->
  always (logs not_unsupported) (Lm.degrees_of_freedom E a cl x groups).
Proof.
  intros Hcl. destruct cl as [| cname | c]; [contradiction | |]; cbn.
  - apply always_raise, logs_refl.
  - apply always_ret, logs_refl.
Qed.

(** However a fit with a [cluster] argument ends, it has not warned about
    the number of groups of the weights. *)
Lemma fit_clustered_quiet (a : Lm.fit_args) (cn : string) :
  Lm.cluster a = Some cn ->
  always (logs not_unsupported) (Lm.fit E a).
Proof.
  intros Hc. unfold Lm.fit.
  apply (always_bind _ (logs_trans not_unsupported)).
  { unfold Lm.check_permutations, Lm.warn. repeat quiet_step. }
  intros _. unfold Lm.fit_model.
  apply (always_bind_with _ (logs_trans not_unsupported)
           (fun rc => snd rc <> ClNone)).
  - intros w rc w1 Hsel. eapply select_estimator_keeps_cluster; eauto.
  - unfold Lm.select_estimator. repeat quiet_step.
  - intros rc Hrc. cbv zeta.
    unfold Lm.announce, Lm.describe_inference, Lm.design_data,
      Lm.handle_weights, Lm.weight_groups, Lm.build_design,
      Lm.confidence_intervals, Lm.permutation_test, Lm.assemble,
      Lm.store, Lm.assign_array, Lm.fit_statistics, Lm.summary.
    repeat first [ apply degrees_of_freedom_clustered; exact Hrc
                 | quiet_step ].
Qed.

(** The check of the permutations adds at most its own warning. *)
Lemma check_permutations_warnings (a : Lm.fit_args)
  (w : World (Env.rng E) Lm.t) :
  exists ws,
    Lm.warnings (self (snd (Lm.check_permutations E a w)))
    = Lm.warnings (self w) ++ ws
    /\ ~ In Lm.unsupported_groups ws.
Proof.
  rewrite check_permutations_run. cbn [snd].
  destruct (truthy_int (Lm.permute a) && _)%bool; cbn.
  - exists [Lm.low_permutations]. split; [reflexivity |].
    intros [H | []]. inversion H.
  - exists []. split; [symmetry; apply app_nil_r | intros []].
Qed.

End ClusteredWeights.

(** C5 (amended).  After a fit with a column name for [weights] and
    [wls_dof_correction=True] that returns, the intervals are computed
    with degrees of freedom, reported in column [DF] when there is no
    permutation test, that are:
    - without a [cluster] argument, [n - p] when the column of the
      weights has another number of groups than two, and then the fit has
      warned and kept the warning; the degrees of freedom of Welch and
      Satterthwaite when it has two;
    - with [robust="cluster"] and a [cluster] argument, the number of
      distinct values of the cluster column minus [p], whatever the
      number of groups of the weights; the fit has then neither issued
      nor kept the warning about the groups. *)
Theorem C5_welch_or_fallback (E : Env.t) (a : Lm.fit_args)
  (w : World (Env.rng E) Lm.t) (r : option Table) (name : string) :
  fst (Lm.fit E a w) = Ok r ->
  Lm.weights a = WCol name ->
  Lm.wls_dof_correction a = true ->
  exists keys vals x df est w1 ci w2,
    get_col name (Lm.data (self w)) = Some keys
    /\ (exists c,
          get_col (before_tilde (Lm.formula (self w))) (Lm.data (self w))
          = Some c
          /\ numbers c = Some vals)
    /\ Lm.design_matrix (self (snd (Lm.fit E a w))) = Some x
    /\ Lm.confidence_intervals E a est df w1 = (Ok ci, w2)
    /\ reported "2.5_ci" (self (snd (Lm.fit E a w)))
       = Some (map Num (fst ci))
    /\ reported "97.5_ci" (self (snd (Lm.fit E a w)))
       = Some (map Num (snd ci))
    /\ (truthy_int (Lm.permute a) = false ->
        reported "DF" (self (snd (Lm.fit E a w)))
        = Some (repeat (Num df) (n_coef x)))
    /\ (Lm.cluster a = None ->
        (ngroups keys <> 2%nat ->
         df = inject_Z (Z.of_nat (n_obs x) - Z.of_nat (n_coef x))
         /\ (exists pre post,
               log (snd (Lm.fit E a w))
               = log w ++ pre ++ Warn Lm.unsupported_groups :: post)
         /\ exists pre,
              Lm.warnings (self (snd (Lm.fit E a w)))
              = Lm.warnings (self w) ++ pre ++ [Lm.unsupported_groups])
        /\ (ngroups keys = 2%nat ->
            (df == welch_satterthwaite (welch_groups E keys vals))%Q))
    /\ (forall cn,
          Lm.robust a = RStr "cluster" ->
          Lm.cluster a = Some cn ->
          exists col,
            get_col cn (Lm.data (self w)) = Some col
            /\ df = inject_Z (Z.of_nat (nunique col) - Z.of_nat (n_coef x))
            /\ (exists evs,
                  log (snd (Lm.fit E a w)) = log w ++ evs
                  /\ ~ In (Warn Lm.unsupported_groups) evs)
            /\ exists ws,
                 Lm.warnings (self (snd (Lm.fit E a w)))
                 = Lm.warnings (self w) ++ ws
                 /\ ~ In Lm.unsupported_groups ws).
Proof.
  intros Hok Hw Hc.
  assert (Hquiet : forall cn, Lm.cluster a = Some cn ->
                              logs not_unsupported w (snd (Lm.fit E a w))).
  { intros cn Hcn. apply (fit_clustered_quiet E a cn Hcn). }
  destruct (Lm.fit E a w) as [res0 w'] eqn:Hfit. cbn in Hok. subst res0.
  cbn [snd] in *.
  rewrite fit_unfold in Hfit.
  destruct (check_permutations_log E a w)
    as (Hdata & Hform & (ce & Hce) & (ws0 & Hws0)).
  destruct (check_permutations_warnings E a w) as (ws1 & Hws1 & Hnot1).
  apply fit_model_ok in Hfit.
  destruct Hfit as (rb & cl & wa & groups & wts & yx & est & wb & df & wc
                    & ci & wd & dfs & ps & sig & we & results & fv & Hsel
                    & Hgroups & _ & _ & _ & Hwb & (pre & Hpre) & Hdof & Hci
                    & (mid & Hmid) & (pe & Hpe) & Hinf & Hasm & _ & Hco & _
                    & _ & Hde & _ & Hwarn & (post & Hpost) & _).
  rewrite Hw in Hgroups. rewrite Hdata, Hform in Hgroups.
  destruct Hgroups as (keys & c & vals & Hk & Hdv & Hv & ->).
  exists keys, vals, (predictors yx), df, est, wc, ci, wd.
  unfold reported. rewrite Hco.
  pose proof (assemble_ok E _ _ _ _ _ _ _ _ _ _ _ Hasm)
    as (_ & _ & _ & _ & _ & _ & Hl & Hu & _).
  split; [exact Hk |]. split; [eauto |]. split; [exact Hde |].
  split; [exact Hci |]. split; [exact Hl |]. split; [exact Hu |].
  split.
  { intros Hp.
    destruct (parametric_table E a _ _ _ _ _ _ _ _ _ _ _ _ _ _ Hp Hinf Hasm)
      as (_ & _ & _ & Hdf & _).
    exact Hdf. }
  split.
  - intros Hcl.
    apply (select_estimator_no_cluster E a _ _ _ _ Hcl) in Hsel. subst cl.
    split.
    + intros Hn.
      rewrite (degrees_of_freedom_many_groups E a _ _ _ _ Hc Hn) in Hdof.
      inversion Hdof; subst df wc; clear Hdof. cbn in *.
      split; [reflexivity |]. split.
      * exists (ce ++ pre), (mid ++ pe ++ post).
        rewrite Hpost, Hpe, Hmid, Hpre, Hce. rewrite <- !app_assoc.
        reflexivity.
      * exists ws0. rewrite Hwarn, Hwb, Hws0. rewrite <- app_assoc.
        reflexivity.
    + intros Hn.
      rewrite (degrees_of_freedom_two_groups E a _ _ _ _ Hc Hn) in Hdof.
      inversion Hdof; subst df wc; clear Hdof.
      apply welch_degrees_of_freedom.
  - intros cn Hrob Hcn.
    assert (Htr : truthy_robust (Lm.robust a) = true)
      by (rewrite Hrob; reflexivity).
    destruct (select_estimator_cluster_cases E a _ _ _ _ cn Htr Hcn Hsel)
      as [(col & Hcol & ->) | ->]; [| discriminate Hdof].
    rewrite degrees_of_freedom_cluster in Hdof.
    inversion Hdof; subst df wc; clear Hdof.
    rewrite Hdata in Hcol.
    exists col. split; [exact Hcol |]. split; [reflexivity |]. split.
    + destruct (Hquiet cn Hcn) as (evs & Hlog & Hall).
      exists evs. split; [exact Hlog |].
      intros Hin. rewrite Forall_forall in Hall.
      apply (Hall _ Hin). reflexivity.
    + exists ws1. rewrite Hwarn, Hwb. split; assumption.
Qed.

Lemma C5_welch_or_fallback_witness :
  (exists keys vals x df est w1 ci w2,
     get_col "site" (Lm.data (self (Sample.world "Y ~ 1"))) = Some keys
     /\ (exists c,
           get_col (before_tilde (Lm.formula (self (Sample.world "Y ~ 1"))))
             (Lm.data (self (Sample.world "Y ~ 1"))) = Some c
           /\ numbers c = Some vals)
     /\ Lm.design_matrix
          (self (snd (Lm.fit Sample.env Sample.weighted_by_site
                        (Sample.world "Y ~ 1")))) = Some x
     /\ Lm.confidence_intervals Sample.env Sample.weighted_by_site est df w1
        = (Ok ci, w2)
     /\ reported "2.5_ci"
          (self (snd (Lm.fit Sample.env Sample.weighted_by_site
                        (Sample.world "Y ~ 1"))))
        = Some (map Num (fst ci))
     /\ reported "97.5_ci"
          (self (snd (Lm.fit Sample.env Sample.weighted_by_site
                        (Sample.world "Y ~ 1"))))
        = Some (map Num (snd ci))
     /\ (truthy_int (Lm.permute Sample.weighted_by_site) = false ->
         reported "DF"
           (self (snd (Lm.fit Sample.env Sample.weighted_by_site
                         (Sample.world "Y ~ 1"))))
         = Some (repeat (Num df) (n_coef x)))
     /\ (Lm.cluster Sample.weighted_by_site = None ->
         (ngroups keys <> 2%nat ->
          df = inject_Z (Z.of_nat (n_obs x) - Z.of_nat (n_coef x))
          /\ (exists pre post,
                log (snd (Lm.fit Sample.env Sample.weighted_by_site
                            (Sample.world "Y ~ 1")))
                = log (Sample.world "Y ~ 1") ++ pre
                  ++ Warn Lm.unsupported_groups :: post)
          /\ exists pre,
               Lm.warnings
                 (self (snd (Lm.fit Sample.env Sample.weighted_by_site
                               (Sample.world "Y ~ 1"))))
               = Lm.warnings (self (Sample.world "Y ~ 1")) ++ pre
                 ++ [Lm.unsupported_groups])
         /\ (ngroups keys = 2%nat ->
             (df == welch_satterthwaite (welch_groups Sample.env keys vals))%Q))
     /\ (forall cn,
           Lm.robust Sample.weighted_by_site = RStr "cluster" ->
           Lm.cluster Sample.weighted_by_site = Some cn ->
           exists col,
             get_col cn (Lm.data (self (Sample.world "Y ~ 1"))) = Some col
             /\ df = inject_Z (Z.of_nat (nunique col) - Z.of_nat (n_coef x))
             /\ (exists evs,
                   log (snd (Lm.fit Sample.env Sample.weighted_by_site
                               (Sample.world "Y ~ 1")))
                   = log (Sample.world "Y ~ 1") ++ evs
                   /\ ~ In (Warn Lm.unsupported_groups) evs)
             /\ exists ws,
                  Lm.warnings
                    (self (snd (Lm.fit Sample.env Sample.weighted_by_site
                                  (Sample.world "Y ~ 1"))))
                  = Lm.warnings (self (Sample.world "Y ~ 1")) ++ ws
                  /\ ~ In Lm.unsupported_groups ws))
  /\ (exists keys vals x df est w1 ci w2,
        get_col "site" (Lm.data (self (Sample.world "Y ~ 1"))) = Some keys
        /\ (exists c,
              get_col
                (before_tilde (Lm.formula (self (Sample.world "Y ~ 1"))))
                (Lm.data (self (Sample.world "Y ~ 1"))) = Some c
              /\ numbers c = Some vals)
        /\ Lm.design_matrix
             (self (snd (Lm.fit Sample.env Sample.weighted_and_clustered
                           (Sample.world "Y ~ 1")))) = Some x
        /\ Lm.confidence_intervals Sample.env Sample.weighted_and_clustered
             est df w1 = (Ok ci, w2)
        /\ reported "2.5_ci"
             (self (snd (Lm.fit Sample.env Sample.weighted_and_clustered
                           (Sample.world "Y ~ 1"))))
           = Some (map Num (fst ci))
        /\ reported "97.5_ci"
             (self (snd (Lm.fit Sample.env Sample.weighted_and_clustered
                           (Sample.world "Y ~ 1"))))
           = Some (map Num (snd ci))
        /\ (truthy_int (Lm.permute Sample.weighted_and_clustered) = false ->
            reported "DF"
              (self (snd (Lm.fit Sample.env Sample.weighted_and_clustered
                            (Sample.world "Y ~ 1"))))
            = Some (repeat (Num df) (n_coef x)))
        /\ (Lm.cluster Sample.weighted_and_clustered = None ->
            (ngroups keys <> 2%nat ->
             df = inject_Z (Z.of_nat (n_obs x) - Z.of_nat (n_coef x))
             /\ (exists pre post,
                   log (snd (Lm.fit Sample.env Sample.weighted_and_clustered
                               (Sample.world "Y ~ 1")))
                   = log (Sample.world "Y ~ 1") ++ pre
                     ++ Warn Lm.unsupported_groups :: post)
             /\ exists pre,
                  Lm.warnings
                    (self (snd (Lm.fit Sample.env
                                  Sample.weighted_and_clustered
                                  (Sample.world "Y ~ 1"))))
                  = Lm.warnings (self (Sample.world "Y ~ 1")) ++ pre
                    ++ [Lm.unsupported_groups])
            /\ (ngroups keys = 2%nat ->
                (df == welch_satterthwaite
                         (welch_groups Sample.env keys vals))%Q))
        /\ (forall cn,
              Lm.robust Sample.weighted_and_clustered = RStr "cluster" ->
              Lm.cluster Sample.weighted_and_clustered = Some cn ->
              exists col,
                get_col cn (Lm.data (self (Sample.world "Y ~ 1"))) = Some col
                /\ df = inject_Z (Z.of_nat (nunique col)
                                  - Z.of_nat (n_coef x))
                /\ (exists evs,
                      log (snd (Lm.fit Sample.env
                                  Sample.weighted_and_clustered
                                  (Sample.world "Y ~ 1")))
                      = log (Sample.world "Y ~ 1") ++ evs
                      /\ ~ In (Warn Lm.unsupported_groups) evs)
                /\ exists ws,
                     Lm.warnings
                       (self (snd (Lm.fit Sample.env
                                     Sample.weighted_and_clustered
                                     (Sample.world "Y ~ 1"))))
                     = Lm.warnings (self (Sample.world "Y ~ 1")) ++ ws
                     /\ ~ In Lm.unsupported_groups ws)).
Proof.
  split.
  - apply (C5_welch_or_fallback Sample.env Sample.weighted_by_site
             (Sample.world "Y ~ 1") None "site");
      [vm_compute; reflexivity | reflexivity | reflexivity].
  - apply (C5_welch_or_fallback Sample.env Sample.weighted_and_clustered
             (Sample.world "Y ~ 1") None "site");
      [vm_compute; reflexivity | reflexivity | reflexivity].
Defined.

(** With [robust="cluster"] and the sites as clusters the fit neither
    warns nor reports [n - p], although the weights come from three
    groups: the three sites give 3 - 1 degrees of freedom. *)
Lemma C5_counterexample :
  ~ C5_as_stated Sample.env Sample.weighted_and_clustered
      (Sample.world "Y ~ 1").
Proof.
  intros H.
  destruct (H None "site"%string
              [Str "a"; Str "a"; Str "b"; Str "b"; Str "c"; Str "c"])
    as ((evs & Hlog & Hin) & _).
  - vm_compute. reflexivity.
  - reflexivity.
  - reflexivity.
  - reflexivity.
  - vm_compute. lia.
  - vm_compute in Hlog. subst evs. destruct Hin.
Qed.

Example weighted_and_clustered_run :
  let w' := snd (Sample.run "Y ~ 1" Sample.weighted_and_clustered) in
  fst (Sample.run "Y ~ 1" Sample.weighted_and_clustered) = Ok None
  /\ log w' = []
  /\ Lm.warnings (self w') = []
  /\ reported "DF" (self w') = Some [Num 2].
Proof. repeat split; vm_compute; reflexivity. Qed.

Example weighted_by_site_run :
  let w' := snd (Sample.run "Y ~ 1" Sample.weighted_by_site) in
  fst (Sample.run "Y ~ 1" Sample.weighted_by_site) = Ok None
  /\ log w' = [Warn Lm.unsupported_groups]
  /\ Lm.warnings (self w') = [Lm.unsupported_groups]
  /\ reported "DF" (self w') = Some [Num 5].
Proof. repeat split; vm_compute; reflexivity. Qed.

(** With two groups the sample reports the degrees of freedom of Welch
    and Satterthwaite for the variances 7/3 and 37/3 of three values
    each, and does not warn. *)
Example weighted_by_half_run :
  let w' := snd (Sample.run "Y ~ 1" Sample.weighted_by_half) in
  fst (Sample.run "Y ~ 1" Sample.weighted_by_half) = Ok None
  /\ log w' = []
  /\ reported "DF" (self w') = Some [Num (5645376 # 2067444)]
  /\ (5645376 # 2067444
      == welch_satterthwaite [(7 # 3, 3%nat); (37 # 3, 3%nat)])%Q.
Proof. repeat split; vm_compute; reflexivity. Qed.


Example quiet_run_data :
  Lm.data (self (snd (Sample.run "Y ~ X" Sample.quiet)))
  = Sample.observations
    ++ [("fits"%string,
         [Num (14 # 3); Num (19 # 3); Num (14 # 3); Num (19 # 3);
          Num (14 # 3); Num (19 # 3)]);
        ("residuals"%string,
         [Num (-11 # 3); Num (-13 # 3); Num (-2 # 3); Num (-4 # 3);
          Num (13 # 3); Num (17 # 3)])].
Proof. vm_compute. reflexivity. Qed.

(** * Further properties of [Lm.fit]

    What follows is read off the code of the methods alone. *)

Section Sequencing.

Context {G S : Type}.

Lemma bind_raise {A B : Type} (e : exn) (f : A -> M G S B) :
  bind (raise e) f = raise e.
Proof. reflexivity. Qed.

(** A run that raises at once stands still. *)
Lemma always_bind_raise (R : World G S -> World G S -> Prop) {A B : Type}
  (e : exn) (f : A -> M G S B) :
  (forall w, R w w) -> always R (bind (raise e) f).
Proof. intros H w. apply H. Qed.

(** Sequencing is associative, one step at a time. *)
Lemma bind_bind_run {A B C : Type} (m : M G S A) (kx : A -> M G S C)
  (ky : A -> M G S B) (g : B -> M G S C) :
  (forall a w, kx a w = bind (ky a) g w) ->
  forall w, bind m kx w = bind (bind m ky) g w.
Proof.
  intros H w. unfold bind. destruct (m w) as [[a | e] w1].
  - apply H.
  - reflexivity.
Qed.

Lemma same_gen_refl (w : World G S) : same_gen w w.
Proof. reflexivity. Qed.

Lemma same_gen_trans (w1 w2 w3 : World G S) :
  same_gen w1 w2 -> same_gen w2 w3 -> same_gen w1 w3.
Proof. unfold same_gen. congruence. Qed.

Lemma same_gen_update (f : S -> S) : always same_gen (@update G S f).
Proof. intros w. reflexivity. Qed.

Lemma same_gen_emit (ev : event) : always same_gen (@emit G S ev).
Proof. intros w. reflexivity. Qed.

Lemma same_gen_parallel {T A : Type} what callee n_jobs (f : T -> option A)
  tasks :
  always same_gen (@parallel G S T A what callee n_jobs f tasks).
Proof.
  unfold parallel. apply (always_bind _ same_gen_trans).
  - apply same_gen_emit.
  - intros _. destruct (n_jobs =? 0).
    + apply always_raise, same_gen_refl.
    + apply always_call, same_gen_refl.
Qed.

End Sequencing.

(** One step through a method that draws nothing. *)
Ltac same_gen_step :=
  first
    [ apply (always_bind _ same_gen_trans); [| intros ?]
    | apply always_ret, same_gen_refl
    | apply always_raise, same_gen_refl
    | apply always_this, same_gen_refl
    | apply always_call, same_gen_refl
    | apply same_gen_update
    | apply same_gen_emit
    | apply same_gen_parallel
    | match goal with
      | |- always _ (match ?x with _ => _ end) =>
          destruct x eqn:?; try discriminate
      end ].

(** One step through a method that prints nothing. *)
Ltac silent_step :=
  first
    [ apply (always_bind _ (logs_trans silent)); [| intros ?]
    | apply always_ret, logs_refl
    | apply always_raise, logs_refl
    | apply always_this, logs_refl
    | apply always_call, logs_refl
    | apply logs_update
    | apply logs_randint
    | apply logs_emit; intros ?; discriminate
    | apply logs_parallel; intros ?; discriminate
    | match goal with
      | |- always _ (match ?x with _ => _ end) =>
          destruct x eqn:?; try discriminate
      end ].

Ltac unfold_fit :=
  unfold Lm.fit, Lm.check_permutations, Lm.fit_model, Lm.select_estimator,
    Lm.announce, Lm.describe_inference, Lm.design_data, Lm.handle_weights,
    Lm.weight_groups, Lm.build_design, Lm.degrees_of_freedom,
    Lm.confidence_intervals, Lm.permutation_test, Lm.assemble, Lm.store,
    Lm.assign_array, Lm.fit_statistics, Lm.summary, Lm.warn;
  cbv zeta.

Section FitInGeneral.

Variable E : Env.t.

Lemma fit_warnings_from_refl (m : Lm.t) :
  fit_warnings_from (Lm.warnings m) m.
Proof.
  exists []. split; [symmetry; apply app_nil_r | constructor].
Qed.

Lemma fit_warnings_from_append (base : list string) (w : string)
  (m : Lm.t) :
  w = Lm.low_permutations \/ w = Lm.unsupported_groups ->
  fit_warnings_from base m ->
  fit_warnings_from base (Lm.set_warnings (Lm.warnings m ++ [w]) m).
Proof.
  intros Hw (ws & H & F). exists (ws ++ [w]). cbn. split.
  - rewrite H. symmetry. apply app_assoc.
  - apply Forall_app. split; [exact F |]. constructor; [exact Hw | constructor].
Qed.

Lemma fit_same_gen (a : Lm.fit_args) :
  (Lm.conf_int a =? "boot")%string = false ->
  truthy_int (Lm.permute a) = false ->
  always same_gen (Lm.fit E a).
Proof.
  intros Hc Hp. unfold_fit. rewrite Hc.
  destruct (Lm.permute a) as [p |]; cbn in Hp; [rewrite Hp |]; cbn [andb].
  all: repeat same_gen_step.
Qed.

Lemma fit_silent (a : Lm.fit_args) :
  Lm.verbose a = false ->
  Lm.summarize a = false ->
  always (logs silent) (Lm.fit E a).
Proof.
  intros Hv Hs. unfold_fit. rewrite Hv, Hs.
  repeat first [ rewrite andb_false_r | silent_step ].
Qed.

Lemma fit_keeps_warnings (a : Lm.fit_args) (base : list string)
  (f fam : string) :
  always (keeps (fun m => fit_warnings_from base m
                          /\ Lm.formula m = f /\ Lm.family m = fam))
    (Lm.fit E a).
Proof.
  unfold_fit.
  repeat first
    [ apply keeps_update; cbn; intros m (Hm & Hf & Hfam);
      (split; [| split; assumption]);
      first [ exact Hm
            | apply fit_warnings_from_append; [auto | exact Hm] ]
    | keeps_step (fun m => fit_warnings_from base m
                           /\ Lm.formula m = f /\ Lm.family m = fam) ].
Qed.

End FitInGeneral.

(** X1.  [Lm.fit] with [summarize=True] is [Lm.fit] with
    [summarize=False] followed by [Lm.summary]: the two runs return the
    same value, or raise the same exception, and leave the same object,
    generator and log. *)
Theorem fit_summarize_is_fit_then_summary (E : Env.t) (a : Lm.fit_args)
  (w : World (Env.rng E) Lm.t) :
  Lm.fit E (Lm.with_summarize true a) w
  = bind (Lm.fit E (Lm.with_summarize false a))
      (fun _ => bind (Lm.summary E) (fun s => ret (Some s))) w.
Proof.
  unfold Lm.fit, Lm.fit_model.
  repeat (apply bind_bind_run; intros; cbv beta zeta).
  reflexivity.
Qed.

(** X2.  Without bootstrapped intervals, [Lm.fit] with [permute=0] is
    [Lm.fit] with [permute=None]: same result, same object, same generator,
    same log. *)
Theorem fit_zero_permutations_is_parametric (E : Env.t) (a : Lm.fit_args)
  (w : World (Env.rng E) Lm.t) :
  (Lm.conf_int a =? "boot")%string = false ->
  Lm.fit E (Lm.with_permute (Some 0) a) w
  = Lm.fit E (Lm.with_permute None a) w.
Proof.
  intros Hc.
  unfold Lm.fit, Lm.check_permutations, Lm.fit_model, Lm.announce,
    Lm.describe_inference, Lm.assemble.
  cbn [Lm.permute Lm.conf_int Lm.with_permute].
  rewrite Hc. reflexivity.
Qed.

Lemma fit_zero_permutations_is_parametric_witness :
  Lm.fit Sample.env (Lm.with_permute (Some 0) Sample.quiet)
    (Sample.world "Y ~ X")
  = Lm.fit Sample.env (Lm.with_permute None Sample.quiet)
      (Sample.world "Y ~ X").
Proof.
  apply (fit_zero_permutations_is_parametric Sample.env Sample.quiet
           (Sample.world "Y ~ X")).
  reflexivity.
Defined.

(** X3.  A fit without bootstrapped intervals and without permutations
    draws no random number: however it ends, the generator is as it was. *)
Theorem fit_without_resampling_keeps_generator (E : Env.t)
  (a : Lm.fit_args) (w : World (Env.rng E) Lm.t) :
  (Lm.conf_int a =? "boot")%string = false ->
  truthy_int (Lm.permute a) = false ->
  gen (snd (Lm.fit E a w)) = gen w.
Proof.
  intros Hc Hp. apply (fit_same_gen E a Hc Hp w).
Qed.

Lemma fit_without_resampling_keeps_generator_witness :
  gen (snd (Lm.fit Sample.env Sample.quiet (Sample.world "Y ~ X")))
  = gen (Sample.world "Y ~ X").
Proof.
  apply (fit_without_resampling_keeps_generator Sample.env Sample.quiet
           (Sample.world "Y ~ X")); reflexivity.
Defined.

(** X4.  With [verbose=False] and [summarize=False], [Lm.fit] prints
    nothing, however it ends: what it adds to the log are warnings and
    dispatches of work. *)
Theorem fit_quiet_prints_nothing (E : Env.t) (a : Lm.fit_args)
  (w : World (Env.rng E) Lm.t) :
  Lm.verbose a = false ->
  Lm.summarize a = false ->
  exists evs,
    log (snd (Lm.fit E a w)) = log w ++ evs
    /\ Forall (fun ev => forall s, ev <> Print s) evs.
Proof.
  intros Hv Hs. apply (fit_silent E a Hv Hs w).
Qed.

Lemma fit_quiet_prints_nothing_witness :
  exists evs,
    log (snd (Lm.fit Sample.env Sample.robust_permuted
                (Sample.world "Y ~ X")))
    = log (Sample.world "Y ~ X") ++ evs
    /\ Forall (fun ev => forall s, ev <> Print s) evs.
Proof.
  apply (fit_quiet_prints_nothing Sample.env Sample.robust_permuted
           (Sample.world "Y ~ X")); reflexivity.
Defined.

(** X5.  However [Lm.fit] ends, it leaves the formula and the family of
    the model alone, and the warnings of the model are the earlier ones
    followed by warnings about few permutations or about the groups of the
    Welch-Satterthwaite correction: it stores no other warning and drops
    none. *)
Theorem fit_keeps_formula_and_extends_warnings (E : Env.t)
  (a : Lm.fit_args) (w : World (Env.rng E) Lm.t) :
  Lm.formula (self (snd (Lm.fit E a w))) = Lm.formula (self w)
  /\ Lm.family (self (snd (Lm.fit E a w))) = Lm.family (self w)
  /\ exists ws,
       Lm.warnings (self (snd (Lm.fit E a w))) = Lm.warnings (self w) ++ ws
       /\ Forall (fun s => s = Lm.low_permutations
                           \/ s = Lm.unsupported_groups) ws.
Proof.
  destruct (fit_keeps_warnings E a (Lm.warnings (self w))
              (Lm.formula (self w)) (Lm.family (self w)) w)
    as (Hw & Hf & Hfam).
  - split; [apply fit_warnings_from_refl | split; reflexivity].
  - split; [exact Hf |]. split; [exact Hfam | exact Hw].
Qed.

(** * Calls of [Lm.fit] that raise *)

Section FitErrors.

Variable E : Env.t.

(** The check of the permutations touches the warnings and the log
    only. *)
Lemma check_permutations_frame (a : Lm.fit_args)
  (w : World (Env.rng E) Lm.t) :
  Lm.data (self (snd (Lm.check_permutations E a w))) = Lm.data (self w)
  /\ Lm.fitted (self (snd (Lm.check_permutations E a w)))
     = Lm.fitted (self w)
  /\ Lm.coefs (self (snd (Lm.check_permutations E a w))) = Lm.coefs (self w)
  /\ Lm.design_matrix (self (snd (Lm.check_permutations E a w)))
     = Lm.design_matrix (self w)
  /\ Lm.estimator (self (snd (Lm.check_permutations E a w)))
     = Lm.estimator (self w)
  /\ Lm.resid (self (snd (Lm.check_permutations E a w))) = Lm.resid (self w)
  /\ Lm.fits (self (snd (Lm.check_permutations E a w))) = Lm.fits (self w)
  /\ gen (snd (Lm.check_permutations E a w)) = gen w
  /\ exists evs,
       log (snd (Lm.check_permutations E a w)) = log w ++ evs
       /\ Forall (fun ev => ev = Warn Lm.low_permutations) evs.
Proof.
  rewrite check_permutations_run. cbn [snd].
  destruct (truthy_int (Lm.permute a) && _)%bool; cbn; repeat split.
  - exists [Warn Lm.low_permutations]. split; [reflexivity |].
    constructor; [reflexivity | constructor].
  - exists []. split; [symmetry; apply app_nil_r | constructor].
Qed.

Lemma select_estimator_unknown_cluster (a : Lm.fit_args)
  (w : World (Env.rng E) Lm.t) (c : string) :
  truthy_robust (Lm.robust a) = true ->
  Lm.cluster a = Some c ->
  truthy_str c = true ->
  get_col c (Lm.data (self w)) = None ->
  Lm.select_estimator E a w
  = (Raise (ValueError
              "cluster identifier must be an existing column in data"),
     {| self := Lm.set_se_type (se_label (Lm.robust a)) (self w);
        gen := gen w; log := log w |}).
Proof.
  intros Hr Hc Ht Hg. unfold Lm.select_estimator, se_label.
  rewrite Hr, Hc, Ht. run. rewrite Hg. reflexivity.
Qed.

Lemma select_estimator_no_cluster_run (a : Lm.fit_args)
  (w : World (Env.rng E) Lm.t) :
  Lm.cluster a = None ->
  exists r,
    Lm.select_estimator E a w
    = (Ok (r, ClNone),
       {| self := Lm.set_se_type (se_label (Lm.robust a)) (self w);
          gen := gen w; log := log w |}).
Proof.
  intros Hc. unfold Lm.select_estimator, se_label. rewrite Hc.
  destruct (truthy_robust (Lm.robust a)); eexists; reflexivity.
Qed.

Lemma select_estimator_not_robust (a : Lm.fit_args)
  (w w1 : World (Env.rng E) Lm.t) rc :
  truthy_robust (Lm.robust a) = false ->
  Lm.select_estimator E a w = (Ok rc, w1) ->
  snd rc = cluster_of_arg (Lm.cluster a).
Proof.
  intros Hr. unfold Lm.select_estimator. rewrite Hr. run.
  intros H; inversion H; reflexivity.
Qed.

Lemma fit_stops_at_cluster_name (a : Lm.fit_args) (c : string) (m0 : Lm.t) :
  truthy_robust (Lm.robust a) = false ->
  Lm.cluster a = Some c ->
  always (keeps (untouched m0)) (Lm.fit E a).
Proof.
  intros Hr Hc. unfold Lm.fit.
  apply (always_bind _ (keeps_trans (untouched m0))).
  { unfold Lm.check_permutations, Lm.warn. keeps_all (untouched m0). }
  intros _. unfold Lm.fit_model.
  apply (always_bind_with _ (keeps_trans (untouched m0))
           (fun rc => snd rc = ClName c)).
  - intros w rc w1 Hsel.
    rewrite (select_estimator_not_robust a w w1 rc Hr Hsel), Hc.
    reflexivity.
  - unfold Lm.select_estimator. keeps_all (untouched m0).
  - intros rc Hrc. cbv zeta. rewrite Hrc.
    unfold Lm.announce, Lm.describe_inference, Lm.design_data,
      Lm.handle_weights, Lm.weight_groups, Lm.build_design,
      Lm.degrees_of_freedom.
    cbv iota beta.
    repeat first
      [ apply (always_bind_raise (keeps (untouched m0)));
        intros ?; apply keeps_refl
      | keeps_step (untouched m0) ].
Qed.

End FitErrors.

(** X6.  [Lm.fit] with a robust estimator and a [cluster] that names no
    column of the data raises the ValueError of line 1397.  By then it has
    recorded the type of the standard errors and, at most, warned about
    few permutations; the model is otherwise as it was: not a coefficient,
    a residual or a column of the data has changed, and nothing was
    drawn. *)
Theorem fit_unknown_cluster_raises (E : Env.t) (a : Lm.fit_args)
  (w : World (Env.rng E) Lm.t) (c : string) :
  truthy_robust (Lm.robust a) = true ->
  Lm.cluster a = Some c ->
  truthy_str c = true ->
  get_col c (Lm.data (self w)) = None ->
  fst (Lm.fit E a w)
  = Raise (ValueError "cluster identifier must be an existing column in data")
  /\ Lm.se_type (self (snd (Lm.fit E a w)))
     = Some (se_label (Lm.robust a))
  /\ Lm.fitted (self (snd (Lm.fit E a w))) = Lm.fitted (self w)
  /\ Lm.coefs (self (snd (Lm.fit E a w))) = Lm.coefs (self w)
  /\ Lm.data (self (snd (Lm.fit E a w))) = Lm.data (self w)
  /\ Lm.design_matrix (self (snd (Lm.fit E a w)))
     = Lm.design_matrix (self w)
  /\ gen (snd (Lm.fit E a w)) = gen w
  /\ exists evs,
       log (snd (Lm.fit E a w)) = log w ++ evs
       /\ Forall (fun ev => ev = Warn Lm.low_permutations) evs.
Proof.
  intros Hr Hc Ht Hg. rewrite fit_unfold.
  destruct (check_permutations_frame E a w)
    as (Hd & Hf & Hco & Hde & _ & _ & _ & Hgen & Hlog).
  remember (snd (Lm.check_permutations E a w)) as w0 eqn:Hw0. clear Hw0.
  rewrite <- Hd in Hg.
  unfold Lm.fit_model, bind.
  rewrite (select_estimator_unknown_cluster E a w0 c Hr Hc Ht Hg).
  cbn. repeat split; assumption.
Qed.

Lemma fit_unknown_cluster_raises_witness :
  fst (Lm.fit Sample.env Sample.unknown_cluster (Sample.world "Y ~ X"))
  = Raise (ValueError "cluster identifier must be an existing column in data").
Proof.
  apply (fit_unknown_cluster_raises Sample.env Sample.unknown_cluster
           (Sample.world "Y ~ X") "town"); reflexivity.
Defined.

(** X7.  [Lm.fit] with [weights] the name of no column of the data, and
    no [cluster], raises the ValueError of line 1465, before the design
    matrix is built: the model keeps its coefficients, residuals, data,
    design matrix and estimator as they were. *)
Theorem fit_unknown_weights_raises (E : Env.t) (a : Lm.fit_args)
  (w : World (Env.rng E) Lm.t) (name : string) :
  Lm.cluster a = None ->
  Lm.weights a = WCol name ->
  get_col name (Lm.data (self w)) = None ->
  fst (Lm.fit E a w)
  = Raise (ValueError
             "If weights is a string it must be a column that exists in the data")
  /\ Lm.fitted (self (snd (Lm.fit E a w))) = Lm.fitted (self w)
  /\ Lm.coefs (self (snd (Lm.fit E a w))) = Lm.coefs (self w)
  /\ Lm.data (self (snd (Lm.fit E a w))) = Lm.data (self w)
  /\ Lm.design_matrix (self (snd (Lm.fit E a w)))
     = Lm.design_matrix (self w)
  /\ Lm.estimator (self (snd (Lm.fit E a w))) = Lm.estimator (self w)
  /\ gen (snd (Lm.fit E a w)) = gen w.
Proof.
  intros Hc Hw Hg. rewrite fit_unfold.
  destruct (check_permutations_frame E a w)
    as (Hd & Hf & Hco & Hde & Hes & _ & _ & Hgen & _).
  remember (snd (Lm.check_permutations E a w)) as w0 eqn:Hw0. clear Hw0.
  rewrite <- Hd in Hg.
  unfold Lm.fit_model, bind.
  destruct (select_estimator_no_cluster_run E a w0 Hc) as (r & Hsel).
  rewrite Hsel. cbn [fst snd].
  match goal with
  | |- context [Lm.announce E a ?r0 ?w1] =>
      destruct (announce_run E a r0 w1) as (evs & Hann); rewrite Hann
  end.
  match goal with
  | |- context [Lm.describe_inference E a ?w1] =>
      destruct (describe_inference_run E a w1) as (ci & sg & Hdes);
      rewrite Hdes
  end.
  rewrite design_data_run.
  unfold Lm.handle_weights, Lm.weight_groups. rewrite Hw. run.
  rewrite Hg. cbn. repeat split; assumption.
Qed.

Lemma fit_unknown_weights_raises_witness :
  fst (Lm.fit Sample.env Sample.unknown_weights (Sample.world "Y ~ X"))
  = Raise (ValueError
             "If weights is a string it must be a column that exists in the data").
Proof.
  apply (fit_unknown_weights_raises Sample.env Sample.unknown_weights
           (Sample.world "Y ~ X") "town"); reflexivity.
Defined.

(** X8.  [Lm.fit] with a [cluster] and without a robust estimator never
    returns: the name of the cluster is not replaced by its column (lines
    1393-1405), and line 1497 asks the name for [nunique()].  The call
    raises before anything is stored: the model is as unfitted as it was,
    with the coefficients, residuals, fitted values and data it had. *)
Theorem fit_cluster_without_robust_raises (E : Env.t) (a : Lm.fit_args)
  (w : World (Env.rng E) Lm.t) (c : string) :
  truthy_robust (Lm.robust a) = false ->
  Lm.cluster a = Some c ->
  (exists e, fst (Lm.fit E a w) = Raise e)
  /\ Lm.fitted (self (snd (Lm.fit E a w))) = Lm.fitted (self w)
  /\ Lm.coefs (self (snd (Lm.fit E a w))) = Lm.coefs (self w)
  /\ Lm.data (self (snd (Lm.fit E a w))) = Lm.data (self w)
  /\ Lm.resid (self (snd (Lm.fit E a w))) = Lm.resid (self w)
  /\ Lm.fits (self (snd (Lm.fit E a w))) = Lm.fits (self w).
Proof.
  intros Hr Hc. split.
  - destruct (Lm.fit E a w) as [[r | e] w'] eqn:Hfit; [| cbn; eauto].
    exfalso. rewrite fit_unfold in Hfit. apply fit_model_ok in Hfit.
    destruct Hfit as (rb & cl & wa & groups & wts & yx & est & wb & df & wc
                      & ci & wd & dfs & ps & sig & we & results & fv & Hsel
                      & _ & _ & _ & _ & _ & _ & Hdof & _).
    pose proof (select_estimator_not_robust E a _ _ _ Hr Hsel) as Hcl.
    rewrite Hc in Hcl. cbn in Hcl. subst cl. discriminate Hdof.
  - apply (fit_stops_at_cluster_name E a c (self w) Hr Hc w).
    repeat split.
Qed.

Lemma fit_cluster_without_robust_raises_witness :
  (exists e,
     fst (Lm.fit Sample.env Sample.cluster_only (Sample.world "Y ~ X"))
     = Raise e)
  /\ Lm.fitted (self (snd (Lm.fit Sample.env Sample.cluster_only
                             (Sample.world "Y ~ X"))))
     = Lm.fitted (self (Sample.world "Y ~ X"))
  /\ Lm.coefs (self (snd (Lm.fit Sample.env Sample.cluster_only
                            (Sample.world "Y ~ X"))))
     = Lm.coefs (self (Sample.world "Y ~ X"))
  /\ Lm.data (self (snd (Lm.fit Sample.env Sample.cluster_only
                           (Sample.world "Y ~ X"))))
     = Lm.data (self (Sample.world "Y ~ X"))
  /\ Lm.resid (self (snd (Lm.fit Sample.env Sample.cluster_only
                            (Sample.world "Y ~ X"))))
     = Lm.resid (self (Sample.world "Y ~ X"))
  /\ Lm.fits (self (snd (Lm.fit Sample.env Sample.cluster_only
                           (Sample.world "Y ~ X"))))
     = Lm.fits (self (Sample.world "Y ~ X")).
Proof.
  apply (fit_cluster_without_robust_raises Sample.env Sample.cluster_only
           (Sample.world "Y ~ X") "site"); reflexivity.
Defined.

(** * Fits that return *)

Lemma combine_map_r {A B C : Type} (f : B -> C) (xs : list A) (ys : list B) :
  combine xs (map f ys) = map (fun p => (fst p, f (snd p))) (combine xs ys).
Proof.
  revert ys. induction xs as [| x xs IH]; intros [| y ys]; cbn;
    try reflexivity.
  rewrite IH. reflexivity.
Qed.

Section FitReturns.

Variable E : Env.t.

Lemma select_estimator_frame (a : Lm.fit_args)
  (w w1 : World (Env.rng E) Lm.t) rc :
  Lm.select_estimator E a w = (Ok rc, w1) ->
  w1 = {| self := Lm.set_se_type (se_label (Lm.robust a)) (self w);
          gen := gen w; log := log w |}.
Proof.
  unfold Lm.select_estimator, se_label.
  destruct (truthy_robust (Lm.robust a)); run.
  - destruct (Lm.cluster a) as [cn |]; cbn.
    + destruct (truthy_str cn); cbn.
      * destruct (get_col cn _); cbn; intros H; inversion H; reflexivity.
      * intros H; inversion H; reflexivity.
    + intros H; inversion H; reflexivity.
  - intros H; inversion H; reflexivity.
Qed.

Lemma describe_inference_labels (a : Lm.fit_args)
  (w : World (Env.rng E) Lm.t) :
  Lm.describe_inference E a w
  = (Ok tt,
     {| self := Lm.set_sig_type (sig_label a)
                  (Lm.set_ci_type (ci_label a) (self w));
        gen := gen w; log := log w |}).
Proof.
  unfold Lm.describe_inference, sig_label, ci_label. run.
  destruct (Lm.conf_int a =? "boot")%string eqn:Hc.
  - apply String.eqb_eq in Hc. rewrite Hc.
    destruct (Lm.permute a) as [p |]; cbn; [| reflexivity].
    destruct (negb (p =? 0)); reflexivity.
  - destruct (Lm.permute a) as [p |]; cbn; [| reflexivity].
    destruct (negb (p =? 0)); reflexivity.
Qed.

Lemma handle_weights_frame (a : Lm.fit_args)
  (w w1 : World (Env.rng E) Lm.t) wg :
  Lm.handle_weights E a w = (Ok wg, w1) ->
  w1 = {| self := Lm.set_estimator (estimator_label a) (self w);
          gen := gen w; log := log w |}.
Proof.
  unfold Lm.handle_weights, Lm.weight_groups, estimator_label. run.
  destruct (Lm.weights a) as [| name | arr]; cbn.
  - intros H; inversion H; reflexivity.
  - destruct (get_col name _) as [keys |]; cbn; [| discriminate].
    destruct (get_col (before_tilde _) _) as [c |]; cbn; [| discriminate].
    destruct (numbers c) as [vals |]; cbn; [| discriminate].
    intros H; inversion H; reflexivity.
  - intros H; inversion H; reflexivity.
Qed.

Lemma build_design_frame (ddat : DataFrame)
  (w w1 : World (Env.rng E) Lm.t) yx :
  Lm.build_design E ddat w = (Ok yx, w1) ->
  w1 = {| self := Lm.set_design_matrix (predictors yx) (self w);
          gen := gen w; log := log w |}.
Proof.
  unfold Lm.build_design. run.
  destruct (Env.dmatrices E _ ddat) as [m |]; cbn; [| discriminate].
  intros H; inversion H; reflexivity.
Qed.

Lemma randint_run (n : Z) (w w1 : World (Env.rng E) Lm.t) seeds :
  randint E n w = (Ok seeds, w1) ->
  seeds = fst (draws E (Z.to_nat n) (gen w))
  /\ gen w1 = snd (draws E (Z.to_nat n) (gen w)).
Proof.
  unfold randint. destruct (n <? 0)%Z; [discriminate |].
  destruct (draws E (Z.to_nat n) (gen w)) as [zs g].
  intros H; inversion H; subst; cbn. auto.
Qed.

Lemma parallel_workers {T A : Type} what callee n_jobs (f : T -> option A)
  tasks (w w1 : World (Env.rng E) Lm.t) r :
  parallel what callee n_jobs f tasks w = (Ok r, w1) -> n_jobs <> 0.
Proof.
  unfold parallel. run. destruct (n_jobs =? 0)%Z eqn:Hn; [discriminate |].
  intros _. apply Z.eqb_neq, Hn.
Qed.

(** The bootstrapped intervals: the seeds, the coefficients of the
    resampled fits, and their percentiles. *)
Lemma confidence_intervals_boot (a : Lm.fit_args) est df
  (w w1 : World (Env.rng E) Lm.t) ci :
  (Lm.conf_int a =? "boot")%string = true ->
  Lm.confidence_intervals E a est df w = (Ok ci, w1) ->
  exists betas,
    (0 <= Lm.n_boot a)%Z
    /\ Lm.n_jobs a <> 0
    /\ traverse (Env._chunk_boot_ols_coefs E (Lm.data (self w))
                   (Lm.formula (self w)) (Lm.weights a))
         (fst (draws E (Z.to_nat (Lm.n_boot a)) (gen w)))
       = Some betas
    /\ Env.np_percentile E betas (25 # 10) = Some (fst ci)
    /\ Env.np_percentile E betas (975 # 10) = Some (snd ci)
    /\ log w1
       = log w ++ [Dispatch Bootstrap (Lm.n_jobs a)
                     (Z.to_nat (Lm.n_boot a))].
Proof.
  intros Hc. unfold Lm.confidence_intervals. rewrite Hc. intros H.
  step H seeds wa Hs.
  destruct (randint_ok E _ _ _ _ Hs) as (Hlen & Hpos & Hself & Hlog).
  destruct (randint_run _ _ _ _ Hs) as (Hseeds & _).
  step H m wb Hm. inversion Hm; subst wb m; clear Hm.
  step H betas wc Hp.
  pose proof (parallel_workers _ _ _ _ _ _ _ _ Hp) as Hjobs.
  apply parallel_ok in Hp. destruct Hp as (Htr & _ & _ & Hlog').
  step H u wd Hu. apply call_ok in Hu. destruct Hu as (Hu & ->).
  step H l we Hl. apply call_ok in Hl. destruct Hl as (Hl & ->).
  inversion H; subst. cbn [fst snd].
  exists betas. rewrite Hself in Htr. rewrite Hlen, Hlog in Hlog'.
  repeat split; assumption.
Qed.

(** Both bounds of the parametric intervals. *)
Lemma standard_bound (f : Q -> Q) (df : Q) (n : nat) (b se half r : list Q) :
  elementwise Qmult (map f (repeat df n)) se = Some half ->
  elementwise Qplus b half = Some r ->
  r = map (fun bs => (fst bs + f df * snd bs)%Q) (combine b se)
  /\ List.length se = n
  /\ List.length b = n.
Proof.
  intros Hh Hr.
  destruct (elementwise_length _ _ _ _ Hh) as (Hlh & Hls).
  rewrite length_map, repeat_length in Hlh, Hls.
  destruct (elementwise_length _ _ _ _ Hr) as (_ & Hlb).
  apply elementwise_map in Hh. apply elementwise_map in Hr.
  rewrite map_repeat, <- Hls, combine_repeat_l, map_map in Hh. cbn in Hh.
  subst half. rewrite combine_map_r, map_map in Hr. cbn in Hr.
  split; [exact Hr |]. split; [exact Hls |].
  rewrite length_map in Hlb. congruence.
Qed.

Lemma confidence_intervals_standard (a : Lm.fit_args) est df
  (w w1 : World (Env.rng E) Lm.t) ci :
  (Lm.conf_int a =? "boot")%string = false ->
  Lm.confidence_intervals E a est df w = (Ok ci, w1) ->
  w1 = w
  /\ fst ci = map (t_bound E (25 # 1000) df) (combine (est_b est) (est_se est))
  /\ snd ci = map (t_bound E (975 # 1000) df)
                (combine (est_b est) (est_se est))
  /\ List.length (est_se est) = List.length (est_t est)
  /\ List.length (est_b est) = List.length (est_t est).
Proof.
  intros Hc. unfold Lm.confidence_intervals. rewrite Hc. cbv zeta beta.
  destruct (elementwise Qmult (map (Env.t_dist_ppf E (975 # 1000)) _) _)
    as [hu |] eqn:Hu; [| discriminate].
  destruct (elementwise Qplus _ hu) as [u |] eqn:Hu'; [| discriminate].
  destruct (elementwise Qmult (map (Env.t_dist_ppf E (25 # 1000)) _) _)
    as [hl |] eqn:Hl; [| discriminate].
  destruct (elementwise Qplus _ hl) as [l |] eqn:Hl'; [| discriminate].
  intros H; inversion H; subst. cbn [fst snd].
  destruct (standard_bound _ _ _ _ _ _ _ Hu Hu') as (-> & Hse & Hb).
  destruct (standard_bound _ _ _ _ _ _ _ Hl Hl') as (-> & _ & _).
  repeat split; assumption.
Qed.

Lemma assemble_shape (a : Lm.fit_args) (x : Design) est ci_l ci_u dfs ps sig
  (w w1 : World (Env.rng E) Lm.t) results :
  Lm.assemble E a x est ci_l ci_u dfs ps sig w = (Ok results, w1) ->
  Forall (fun kc => List.length (snd kc) = n_coef x) (cols results).
Proof.
  unfold Lm.assemble.
  destruct (Lm.equal_lengths _ _) eqn:Hl; cbn; [| discriminate].
  destruct (Nat.eqb _ _) eqn:Hx; cbn; [| discriminate].
  apply Nat.eqb_eq in Hx.
  apply equal_lengths_all in Hl.
  repeat match goal with
         | H : Forall _ (_ :: _) |- _ => inversion H; subst; clear H
         end.
  unfold n_coef.
  intros H; inversion H; subst; cbn.
  destruct (truthy_int (Lm.permute a)); cbn;
    repeat constructor; cbn; rewrite length_map; congruence.
Qed.

(** A fit that returns: the world the intervals are computed in, the
    table, and what the object says of the fit at the end. *)
Lemma fit_model_returns (a : Lm.fit_args) (w w' : World (Env.rng E) Lm.t)
  r :
  Lm.fit_model E a w = (Ok r, w') ->
  exists rb cl yx est df wc ci wd dfs ps sig we results,
    Lm.formula (self wc) = Lm.formula (self w)
    /\ Lm.data (self wc) = Lm.data (self w)
    /\ gen wc = gen w
    /\ (exists pre, log wc = log w ++ pre)
    /\ Lm.confidence_intervals E a est df wc = (Ok ci, wd)
    /\ (exists evs, log we = log wd ++ evs)
    /\ match Lm.permute a with
       | Some n =>
           if negb (n =? 0)%Z
           then Lm.permutation_test E a n rb cl yx est wd
                = (Ok (dfs, ps, sig), we)
           else we = wd
                /\ dfs = repeat df (List.length (est_t est))
                /\ ps = Lm.p_values E (est_t est) df
                /\ sig = map _sig_stars ps
       | None =>
           we = wd
           /\ dfs = repeat df (List.length (est_t est))
           /\ ps = Lm.p_values E (est_t est) df
           /\ sig = map _sig_stars ps
       end
    /\ Lm.assemble E a (predictors yx) est (fst ci) (snd ci) dfs ps sig we
       = (Ok results, we)
    /\ (exists post, log w' = log we ++ post)
    /\ Lm.coefs (self w') = Some results
    /\ Lm.design_matrix (self w') = Some (predictors yx)
    /\ Lm.fitted (self w') = true
    /\ Lm.se_type (self w') = Some (se_label (Lm.robust a))
    /\ Lm.ci_type (self w') = Some (ci_label a)
    /\ Lm.sig_type (self w') = Some (sig_label a)
    /\ Lm.ranked_data (self w') = Lm.rank a
    /\ Lm.estimator (self w') = Some (estimator_label a)
    /\ r = if Lm.summarize a then Some (round_table results) else None.
Proof.
  intros H. unfold Lm.fit_model in H.
  step H rc wa Hsel. destruct rc as [rb cl]. cbn [fst snd] in H.
  apply select_estimator_frame in Hsel. subst wa.
  step H u1 w1 Hann.
  match type of Hann with
  | Lm.announce _ _ _ ?w0 = _ =>
      destruct (announce_run E a rb w0) as (evs & Hann')
  end.
  rewrite Hann' in Hann. inversion Hann; subst u1 w1; clear Hann Hann'.
  step H u2 w2 Hdesc. rewrite describe_inference_labels in Hdesc.
  inversion Hdesc; subst u2 w2; clear Hdesc.
  step H ddat w3 Hdd. rewrite design_data_run in Hdd.
  inversion Hdd; subst ddat w3; clear Hdd.
  step H wg w4 Hw. apply handle_weights_frame in Hw. subst w4.
  step H yx w5 Hbd. apply build_design_frame in Hbd. subst w5.
  step H est w6 Hols. apply call_ok in Hols. destruct Hols as (_ & ->).
  step H df wc Hdof.
  step H ci wd Hci.
  destruct (confidence_intervals_ok E _ _ _ _ _ _ Hci) as (Hself_d & _).
  step H inference we Hinf. destruct inference as [[dfs ps] sig].
  cbn [fst snd] in H.
  step H results w7 Hasm.
  destruct (assemble_ok E _ _ _ _ _ _ _ _ _ _ _ Hasm) as (-> & _).
  assert (Hself_e : self we = self wd /\ exists evs, log we = log wd ++ evs).
  { assert (Hnil : forall v : World (Env.rng E) Lm.t,
               exists evs, log v = log v ++ evs).
    { intros v. exists []. symmetry. apply app_nil_r. }
    destruct (Lm.permute a) as [n |].
    - destruct (negb (n =? 0)%Z).
      + apply permutation_test_ok in Hinf.
        destruct Hinf as (? & ? & ? & _ & _ & _ & _ & _ & _ & _ & Hs & Hl).
        split; [exact Hs | eauto].
      + inversion Hinf; auto.
    - inversion Hinf; auto. }
  destruct Hself_e as (Hself_e & Hperm).
  set (P := fun m : Lm.t =>
              Lm.se_type m = Some (se_label (Lm.robust a))
              /\ Lm.ci_type m = Some (ci_label a)
              /\ Lm.sig_type m = Some (sig_label a)
              /\ Lm.ranked_data m = Lm.rank a
              /\ Lm.estimator m = Some (estimator_label a)
              /\ Lm.design_matrix m = Some (predictors yx)).
  assert (Hc : Lm.formula (self wc) = Lm.formula (self w)
               /\ Lm.data (self wc) = Lm.data (self w)
               /\ gen wc = gen w
               /\ (exists pre, log wc = log w ++ pre)
               /\ P (self wc)).
  { destruct (degrees_of_freedom_ok E _ _ _ _ _ _ _ Hdof) as [-> | ->];
      cbn; (repeat split; try reflexivity).
    - exists evs. reflexivity.
    - exists (evs ++ [Warn Lm.unsupported_groups]).
      symmetry. apply app_assoc. }
  destruct Hc as (Hform & Hdata & Hgen & Hpre & HP).
  assert (Hlabels : P (self w')).
  { match type of H with
    | ?m _ = _ =>
        assert (Hm : always (keeps P) m)
          by (unfold Lm.store, Lm.assign_array, Lm.fit_statistics,
                Lm.summary; keeps_all P)
    end.
    specialize (Hm we). rewrite H in Hm. apply Hm.
    rewrite Hself_e, Hself_d. exact HP. }
  destruct Hlabels as (Hse & Hci_t & Hsig & Hrank & Hest & Hdes).
  step H u3 w8 Hst. destruct u3.
  destruct (store_ok E _ _ _ _ _ Hst)
    as (fv & _ & Hco & Hfit & _ & _ & _ & _ & _ & _ & Hlog8 & _).
  step H u4 w9 Hfs.
  destruct (fit_statistics_run E yx (est_res est) w8)
    as (s1 & s2 & s3 & s4 & s5 & Hfs').
  rewrite Hfs' in Hfs. inversion Hfs; subst u4 w9; clear Hfs Hfs'.
  assert (Hfinal :
            self w' = Lm.set_statistics s1 s2 s3 s4 s5 (self w8)
            /\ (exists post, log w' = log w8 ++ post)
            /\ r = if Lm.summarize a then Some (round_table results)
                   else None).
  { destruct (Lm.summarize a).
    - step H tb w10 Hsum. apply summary_ok in Hsum.
      destruct Hsum as (Hs & (post & Hpost) & tb0 & Htb & ->).
      inversion H; subst. cbn in *. rewrite Hs. split; [reflexivity |].
      split; [eauto |]. rewrite Hco in Htb. inversion Htb. reflexivity.
    - inversion H; subst. cbn. split; [reflexivity |]. split; [| reflexivity].
      exists []. symmetry. apply app_nil_r. }
  destruct Hfinal as (Hself' & (post & Hpost) & Hr).
  exists rb, cl, yx, est, df, wc, ci, wd, dfs, ps, sig, we, results.
  split; [exact Hform |]. split; [exact Hdata |]. split; [exact Hgen |].
  split; [exact Hpre |]. split; [exact Hci |]. split; [exact Hperm |].
  split.
  { destruct (Lm.permute a) as [n |].
    - destruct (negb (n =? 0)%Z); [exact Hinf |].
      inversion Hinf; subst. auto.
    - inversion Hinf; subst. auto. }
  split; [exact Hasm |].
  split; [exists post; rewrite Hpost, Hlog8; reflexivity |].
  split; [rewrite Hself'; exact Hco |].
  split; [exact Hdes |].
  split; [rewrite Hself'; exact Hfit |].
  repeat split; assumption.
Qed.

End FitReturns.

(** * Permutation tests that run *)

Section PermutedReturns.

Variable E : Env.t.

(** The permutation test draws its seeds and dispatches the permuted fits
    before any of them can fail: what it leaves of the generator and of
    the log does not depend on how it ends.  A negative number of
    permutations is refused by the generator. *)
Lemma permutation_test_leaves (a : Lm.fit_args) (p : Z) rb cl yx est
  (w : World (Env.rng E) Lm.t) :
  gen (snd (Lm.permutation_test E a p rb cl yx est w))
  = (if p <? 0 then gen w else snd (draws E (Z.to_nat p) (gen w)))
  /\ log (snd (Lm.permutation_test E a p rb cl yx est w))
     = log w ++ (if p <? 0 then []
                 else [Dispatch Permutation
                         (if truthy_robust rb then 1 else Lm.n_jobs a)
                         (Z.to_nat p)]).
Proof.
  unfold Lm.permutation_test, randint, parallel. run.
  destruct (p <? 0); cbn.
  - split; [reflexivity | symmetry; apply app_nil_r].
  - pose proof (draws_length E (Z.to_nat p) (gen w)) as Hlen.
    destruct (draws E (Z.to_nat p) (gen w)) as [zs g]. cbn in *.
    rewrite Hlen.
    destruct ((if truthy_robust rb then 1 else Lm.n_jobs a) =? 0); cbn;
      [split; reflexivity |].
    destruct (traverse _ zs) as [perm_ts |]; cbn; [| split; reflexivity].
    destruct (shape1 perm_ts); cbn; split; reflexivity.
Qed.

(** A permutation test that returns: the seeds are the next draws of the
    generator, and each gets a permuted fit. *)
Lemma permutation_test_run (a : Lm.fit_args) (p : Z) rb cl yx est
  (w w1 : World (Env.rng E) Lm.t) dfs ps sig :
  Lm.permutation_test E a p rb cl yx est w = (Ok (dfs, ps, sig), w1) ->
  exists seeds perm_ts k,
    0 <= p
    /\ draws E (Z.to_nat p) (gen w) = (seeds, gen w1)
    /\ List.length seeds = Z.to_nat p
    /\ traverse (Env._chunk_perm_ols E (predictors yx) (y_values yx) rb
                   (Lm.n_lags a) cl (Lm.weights a)) seeds
       = Some perm_ts
    /\ shape1 perm_ts = Some k
    /\ ps = map (fun ct => _perm_find (array_col perm_ts (fst ct)) (snd ct))
              (combine (seq 0 k) (est_t est))
    /\ dfs = repeat (inject_Z p) (List.length ps)
    /\ log w1
       = log w ++ [Dispatch Permutation
                     (if truthy_robust rb then 1 else Lm.n_jobs a)
                     (Z.to_nat p)].
Proof.
  unfold Lm.permutation_test. intros H.
  step H seeds wa Hs.
  destruct (randint_ok E _ _ _ _ Hs) as (Hlen & Hp & _ & Hlog).
  destruct (randint_run E _ _ _ _ Hs) as (Hseeds & Hgen).
  step H perm_ts wb Hpar.
  apply parallel_ok in Hpar. destruct Hpar as (Ht & _ & Hgen' & Hlog').
  destruct (shape1 perm_ts) as [k |] eqn:Hk; [| discriminate].
  inversion H; subst w1 dfs ps sig; clear H.
  exists seeds, perm_ts, k.
  split; [exact Hp |].
  split.
  { rewrite Hgen', Hgen, Hseeds.
    destruct (draws E (Z.to_nat p) (gen w)); reflexivity. }
  split; [exact Hlen |]. split; [exact Ht |]. split; [exact Hk |].
  split; [reflexivity |]. split; [reflexivity |].
  rewrite Hlog', Hlog, Hlen. reflexivity.
Qed.

(** What the intervals leave of the generator. *)
Lemma confidence_intervals_gen (a : Lm.fit_args) est df
  (w w1 : World (Env.rng E) Lm.t) ci :
  Lm.confidence_intervals E a est df w = (Ok ci, w1) ->
  gen w1 = if (Lm.conf_int a =? "boot")%string
           then snd (draws E (Z.to_nat (Lm.n_boot a)) (gen w))
           else gen w.
Proof.
  destruct (Lm.conf_int a =? "boot")%string eqn:Hc; intros H.
  - unfold Lm.confidence_intervals in H. rewrite Hc in H.
    step H seeds wa Hs. destruct (randint_run E _ _ _ _ Hs) as (_ & Hg).
    step H m wb Hm. inversion Hm; subst wb m; clear Hm.
    step H betas wc Hp. apply parallel_ok in Hp.
    destruct Hp as (_ & _ & Hg' & _).
    step H u wd Hu. apply call_ok in Hu. destruct Hu as (_ & ->).
    step H l we Hl. apply call_ok in Hl. destruct Hl as (_ & ->).
    inversion H; subst. congruence.
  - destruct (confidence_intervals_standard E a est df w w1 ci Hc H)
      as (-> & _).
    reflexivity.
Qed.

(** A fit with a permutation test that returns, from the world the check
    of the number of permutations left: the seeds and the generator, the
    permuted fits, their dispatch and the columns of the table. *)
Lemma fit_model_permuted (a : Lm.fit_args)
  (w w' : World (Env.rng E) Lm.t) r p :
  Lm.fit_model E a w = (Ok r, w') ->
  Lm.permute a = Some p ->
  p <> 0 ->
  exists x y rb cl t seeds perm_ts pre post,
    0 <= p
    /\ Lm.design_matrix (self w') = Some x
    /\ (truthy_robust (Lm.robust a) = true -> truthy_robust rb = true)
    /\ draws E (Z.to_nat p)
         (if (Lm.conf_int a =? "boot")%string
          then snd (draws E (Z.to_nat (Lm.n_boot a)) (gen w))
          else gen w)
       = (seeds, gen w')
    /\ List.length seeds = Z.to_nat p
    /\ traverse (Env._chunk_perm_ols E x y rb (Lm.n_lags a) cl (Lm.weights a))
         seeds = Some perm_ts
    /\ log w'
       = log w ++ pre
         ++ Dispatch Permutation
              (if truthy_robust rb then 1 else Lm.n_jobs a) (Z.to_nat p)
            :: post
    /\ List.length t = n_coef x
    /\ reported "T-stat" (self w') = Some (map Num t)
    /\ reported "Num_perm" (self w')
       = Some (repeat (Num (inject_Z p)) (n_coef x))
    /\ reported "Perm-P-val" (self w')
       = Some (map Num
                 (map (fun jt =>
                         _perm_find (array_col perm_ts (fst jt)) (snd jt))
                    (combine (seq 0 (n_coef x)) t)))
    /\ reported "DF" (self w') = None
    /\ reported "P-val" (self w') = None.
Proof.
  intros H Hp Hp0. unfold Lm.fit_model in H.
  step H rc wa Hsel. destruct rc as [rb cl]. cbn [fst snd] in H.
  pose proof Hsel as Hsel0.
  apply select_estimator_frame in Hsel. subst wa.
  step H u1 w1 Hann.
  match type of Hann with
  | Lm.announce _ _ _ ?w0 = _ =>
      destruct (announce_run E a rb w0) as (evs & Hann')
  end.
  rewrite Hann' in Hann. inversion Hann; subst u1 w1; clear Hann Hann'.
  step H u2 w2 Hdesc. rewrite describe_inference_labels in Hdesc.
  inversion Hdesc; subst u2 w2; clear Hdesc.
  step H ddat w3 Hdd. rewrite design_data_run in Hdd.
  inversion Hdd; subst ddat w3; clear Hdd.
  step H wg w4 Hw. apply handle_weights_frame in Hw. subst w4.
  step H yx w5 Hbd. apply build_design_frame in Hbd. subst w5.
  step H est w6 Hols. apply call_ok in Hols. destruct Hols as (_ & ->).
  step H df wc Hdof.
  assert (Hc : gen wc = gen w
               /\ (exists pre, log wc = log w ++ pre)
               /\ Lm.design_matrix (self wc) = Some (predictors yx)).
  { destruct (degrees_of_freedom_ok E _ _ _ _ _ _ _ Hdof) as [-> | ->];
      cbn; (repeat split; try reflexivity).
    - exists evs. reflexivity.
    - exists (evs ++ [Warn Lm.unsupported_groups]).
      symmetry. apply app_assoc. }
  destruct Hc as (Hgen_c & (pre & Hpre) & Hdes_c).
  step H ci wd Hci.
  destruct (confidence_intervals_ok E _ _ _ _ _ _ Hci)
    as (Hself_d & (mid & Hmid)).
  pose proof (confidence_intervals_gen _ _ _ _ _ _ Hci) as Hgen_d.
  rewrite Hgen_c in Hgen_d.
  step H inference we Hinf. destruct inference as [[dfs ps] sig].
  cbn [fst snd] in H.
  rewrite Hp in Hinf.
  assert (Hnz : negb (p =? 0) = true).
  { apply negb_true_iff, Z.eqb_neq, Hp0. }
  rewrite Hnz in Hinf.
  pose proof (permutation_test_ok E _ _ _ _ _ _ _ _ _ _ _ Hinf)
    as (_ & _ & _ & _ & _ & _ & _ & _ & _ & _ & Hself_e & _).
  apply permutation_test_run in Hinf.
  destruct Hinf as (seeds & perm_ts & k & Hpos & Hdraw & Hlen & Htr & Hk
                    & Hps & Hdfs & Hlog_e).
  step H results w7 Hasm.
  destruct (assemble_ok E _ _ _ _ _ _ _ _ _ _ _ Hasm)
    as (-> & _ & Ht & Hldf & Hlps & _ & _ & _ & _ & Htc & _ & Hperm).
  assert (Htruthy : truthy_int (Lm.permute a) = true).
  { rewrite Hp. exact Hnz. }
  rewrite Htruthy in Hperm.
  destruct Hperm as (_ & Hnp & Hpp & Hdf & Hpv).
  assert (Hgen : gen w' = gen we).
  { match type of H with
    | ?m _ = _ =>
        assert (Hm : always same_gen m)
          by (unfold Lm.store, Lm.assign_array, Lm.fit_statistics,
                Lm.summary; repeat same_gen_step)
    end.
    specialize (Hm we). rewrite H in Hm. exact Hm. }
  set (P := fun m : Lm.t => Lm.design_matrix m = Some (predictors yx)).
  assert (Hdes : P (self w')).
  { match type of H with
    | ?m _ = _ =>
        assert (Hm : always (keeps P) m)
          by (unfold Lm.store, Lm.assign_array, Lm.fit_statistics,
                Lm.summary; keeps_all P)
    end.
    specialize (Hm we). rewrite H in Hm. apply Hm.
    unfold P. rewrite Hself_e, Hself_d. exact Hdes_c. }
  step H u3 w8 Hst. destruct u3.
  destruct (store_ok E _ _ _ _ _ Hst)
    as (fv & _ & Hco & _ & _ & _ & _ & _ & _ & _ & Hlog8 & _).
  step H u4 w9 Hfs.
  destruct (fit_statistics_run E yx (est_res est) w8)
    as (s1 & s2 & s3 & s4 & s5 & Hfs').
  rewrite Hfs' in Hfs. inversion Hfs; subst u4 w9; clear Hfs Hfs'.
  assert (Hfinal : Lm.coefs (self w') = Some results
                   /\ exists post, log w' = log w8 ++ post).
  { destruct (Lm.summarize a).
    - step H tb w10 Hsum. apply summary_ok in Hsum.
      destruct Hsum as (Hs & (post & Hpost) & _).
      inversion H; subst. cbn in *. rewrite Hs. split; [exact Hco | eauto].
    - inversion H; subst. cbn. split; [exact Hco |].
      exists []. symmetry. apply app_nil_r. }
  destruct Hfinal as (Hco' & (post & Hpost)).
  exists (predictors yx), (y_values yx), rb, cl, (est_t est), seeds, perm_ts,
    (pre ++ mid), post.
  unfold reported. rewrite Hco'.
  split; [exact Hpos |]. split; [exact Hdes |].
  split.
  { intros Hr. apply (select_estimator_robust E a _ _ _ Hr Hsel0). }
  split; [rewrite Hgen, <- Hgen_d; exact Hdraw |].
  split; [exact Hlen |]. split; [exact Htr |].
  split.
  { rewrite Hpost, Hlog8, Hlog_e, Hmid, Hpre.
    rewrite <- !app_assoc. reflexivity. }
  split; [exact Ht |]. split; [exact Htc |].
  split.
  { rewrite Hnp, Hdfs, Hlps, map_repeat. reflexivity. }
  split.
  { rewrite Hpp. f_equal. f_equal. rewrite Hps.
    rewrite <- Ht. apply (f_equal (map _)).
    apply combine_seq_all.
    rewrite Hps, length_map in Hlps. rewrite Hlps, Ht. reflexivity. }
  split; assumption.
Qed.

End PermutedReturns.

(** C6.  In a fit with a robust estimator ([robust] true) and
    [permute=p], [p] not zero, whatever [n_jobs] is:
    - however the call ends, every pool of permutations it has dispatched
      has one worker;
    - whatever estimator the choice of the estimator passes on, the
      permutation test run with it adds to the log the dispatch of one
      pool of one worker and [p] tasks, and nothing else, however the
      permuted fits end ([numpy] refuses to draw a negative number of
      seeds, and nothing is dispatched then);
    - when the call returns, it has drawn [p] seeds, run a permuted fit
      with the robust estimator for each, and dispatched them to a pool
      of one worker. *)
Theorem C6_robust_permutations_single_worker (E : Env.t) (a : Lm.fit_args)
  (w : World (Env.rng E) Lm.t) (p : Z) :
  truthy_robust (Lm.robust a) = true ->
  Lm.permute a = Some p ->
  p <> 0 ->
  (exists evs,
     log (snd (Lm.fit E a w)) = log w ++ evs /\ Forall single_worker evs)
  /\ (forall w0 rc w1 cl yx est w2,
        Lm.select_estimator E a w0 = (Ok rc, w1) ->
        log (snd (Lm.permutation_test E a p (fst rc) cl yx est w2))
        = log w2 ++ (if p <? 0 then []
                     else [Dispatch Permutation 1 (Z.to_nat p)]))
  /\ forall r,
       fst (Lm.fit E a w) = Ok r ->
       exists x y rb cl seeds perm_ts pre post,
         truthy_robust rb = true
         /\ List.length seeds = Z.to_nat p
         /\ traverse (Env._chunk_perm_ols E x y rb (Lm.n_lags a) cl
                        (Lm.weights a)) seeds
            = Some perm_ts
         /\ log (snd (Lm.fit E a w))
            = log w ++ pre ++ Dispatch Permutation 1 (Z.to_nat p) :: post.
Proof.
  intros Hr Hp Hp0. split; [| split].
  - destruct (fit_single_worker E a Hr w) as (evs & Hlog & Hall). eauto.
  - intros w0 rc w1 cl yx est w2 Hsel.
    destruct (permutation_test_leaves E a p (fst rc) cl yx est w2)
      as (_ & Hlog).
    rewrite (select_estimator_robust E a _ _ _ Hr Hsel) in Hlog.
    exact Hlog.
  - intros r Hok.
    destruct (Lm.fit E a w) as [res w'] eqn:Hfit. cbn in *. subst res.
    rewrite fit_unfold in Hfit.
    destruct (check_permutations_log E a w) as (_ & _ & (ce & Hce) & _).
    destruct (fit_model_permuted E a _ w' r p Hfit Hp Hp0)
      as (x & y & rb & cl & t & seeds & perm_ts & pre & post & _ & _ & Hrb
          & _ & Hlen & Htr & Hlog & _).
    exists x, y, rb, cl, seeds, perm_ts, (ce ++ pre), post.
    split; [exact (Hrb Hr) |]. split; [exact Hlen |]. split; [exact Htr |].
    rewrite Hlog, Hce, (Hrb Hr), <- !app_assoc. reflexivity.
Qed.

Lemma C6_robust_permutations_single_worker_witness :
  fst (Lm.fit Sample.env Sample.robust_permuted (Sample.world "Y ~ X"))
  = Ok None
  /\ Lm.n_jobs Sample.robust_permuted = 4
  /\ exists x y rb cl seeds perm_ts pre post,
       truthy_robust rb = true
       /\ List.length seeds = Z.to_nat 3
       /\ traverse (Env._chunk_perm_ols Sample.env x y rb
                      (Lm.n_lags Sample.robust_permuted) cl
                      (Lm.weights Sample.robust_permuted)) seeds
          = Some perm_ts
       /\ log (snd (Lm.fit Sample.env Sample.robust_permuted
                      (Sample.world "Y ~ X")))
          = log (Sample.world "Y ~ X") ++ pre
            ++ Dispatch Permutation 1 (Z.to_nat 3) :: post.
Proof.
  split; [vm_compute; reflexivity |]. split; [reflexivity |].
  destruct (C6_robust_permutations_single_worker Sample.env
              Sample.robust_permuted (Sample.world "Y ~ X") 3)
    as (_ & _ & Hret); [reflexivity | reflexivity | discriminate |].
  apply (Hret None). vm_compute. reflexivity.
Defined.

(** C8.  A fit with [permute=p], [0 < p < 500], first warns that so few
    permutations are not recommended and appends the warning to the
    warnings of the model, then goes on as the rest of [fit] does from
    there: the warning is the first event the call adds to the log and
    the first warning it adds to the model, however the call ends.  The
    permutation test it comes to draws [p] seeds from the generator and
    dispatches [p] permuted fits, however these end.  When the call
    returns, the seeds are the [p] draws that follow those of the
    bootstrap, if any, each seed got a permuted fit, the dispatch follows
    the warning in the log, and the table holds [p] in column [Num_perm]
    and in column [Perm-P-val] the p-values found among the statistics of
    the [p] permuted fits, in place of the columns [DF] and [P-val]. *)
Theorem C8_few_permutations_warn_and_proceed (E : Env.t) (a : Lm.fit_args)
  (w : World (Env.rng E) Lm.t) (p : Z) :
  Lm.permute a = Some p ->
  0 < p < 500 ->
  Lm.fit E a w
  = Lm.fit_model E a
      {| self := Lm.set_warnings
                   (Lm.warnings (self w) ++ [Lm.low_permutations]) (self w);
         gen := gen w;
         log := log w ++ [Warn Lm.low_permutations] |}
  /\ (exists evs,
        log (snd (Lm.fit E a w)) = log w ++ Warn Lm.low_permutations :: evs)
  /\ (exists ws,
        Lm.warnings (self (snd (Lm.fit E a w)))
        = Lm.warnings (self w) ++ Lm.low_permutations :: ws)
  /\ (forall rb cl yx est w0,
        gen (snd (Lm.permutation_test E a p rb cl yx est w0))
        = snd (draws E (Z.to_nat p) (gen w0))
        /\ log (snd (Lm.permutation_test E a p rb cl yx est w0))
           = log w0 ++ [Dispatch Permutation
                          (if truthy_robust rb then 1 else Lm.n_jobs a)
                          (Z.to_nat p)])
  /\ forall r,
       fst (Lm.fit E a w) = Ok r ->
       exists x y rb cl t seeds perm_ts pre post,
         Lm.design_matrix (self (snd (Lm.fit E a w))) = Some x
         /\ draws E (Z.to_nat p)
              (if (Lm.conf_int a =? "boot")%string
               then snd (draws E (Z.to_nat (Lm.n_boot a)) (gen w))
               else gen w)
            = (seeds, gen (snd (Lm.fit E a w)))
         /\ List.length seeds = Z.to_nat p
         /\ traverse (Env._chunk_perm_ols E x y rb (Lm.n_lags a) cl
                        (Lm.weights a)) seeds
            = Some perm_ts
         /\ List.length perm_ts = Z.to_nat p
         /\ log (snd (Lm.fit E a w))
            = log w ++ Warn Lm.low_permutations :: pre
              ++ Dispatch Permutation
                   (if truthy_robust rb then 1 else Lm.n_jobs a)
                   (Z.to_nat p)
                 :: post
         /\ reported "T-stat" (self (snd (Lm.fit E a w))) = Some (map Num t)
         /\ reported "Num_perm" (self (snd (Lm.fit E a w)))
            = Some (repeat (Num (inject_Z p)) (n_coef x))
         /\ reported "Perm-P-val" (self (snd (Lm.fit E a w)))
            = Some (map Num
                      (map (fun jt =>
                              _perm_find (array_col perm_ts (fst jt))
                                (snd jt))
                         (combine (seq 0 (n_coef x)) t)))
         /\ reported "DF" (self (snd (Lm.fit E a w))) = None
         /\ reported "P-val" (self (snd (Lm.fit E a w))) = None.
Proof.
  intros Hp Hrange.
  assert (Hfit : Lm.fit E a w
                 = Lm.fit_model E a
                     {| self := Lm.set_warnings
                                  (Lm.warnings (self w)
                                   ++ [Lm.low_permutations]) (self w);
                        gen := gen w;
                        log := log w ++ [Warn Lm.low_permutations] |}).
  { rewrite fit_unfold, check_permutations_run, Hp. cbn.
    replace (p =? 0) with false by (symmetry; apply Z.eqb_neq; lia).
    replace (p <? 500) with true by (symmetry; apply Z.ltb_lt; lia).
    reflexivity. }
  split; [exact Hfit |].
  pose proof (fit_model_grows E a
                {| self := Lm.set_warnings
                             (Lm.warnings (self w)
                              ++ [Lm.low_permutations]) (self w);
                   gen := gen w;
                   log := log w ++ [Warn Lm.low_permutations] |})
    as ((evs & Hevs) & (ws & Hws)).
  rewrite <- Hfit in Hevs, Hws. cbn in Hevs, Hws.
  split; [exists evs; rewrite Hevs, <- app_assoc; reflexivity |].
  split; [exists ws; rewrite Hws, <- app_assoc; reflexivity |].
  split.
  { intros rb cl yx est w0.
    destruct (permutation_test_leaves E a p rb cl yx est w0) as (Hg & Hl).
    replace (p <? 0) with false in Hg, Hl
      by (symmetry; apply Z.ltb_ge; lia).
    split; assumption. }
  intros r Hok. clear Hevs Hws.
  destruct (Lm.fit E a w) as [res w'] eqn:Hrun. cbn in *. subst res.
  assert (Hp0 : p <> 0) by lia.
  symmetry in Hfit.
  destruct (fit_model_permuted E a _ w' r p Hfit Hp Hp0)
    as (x & y & rb & cl & t & seeds & perm_ts & pre & post & _ & Hde & _
        & Hdraw & Hlen & Htr & Hlog & _ & Htc & Hnp & Hpp & Hdf & Hpv).
  cbn [gen log] in Hdraw, Hlog.
  exists x, y, rb, cl, t, seeds, perm_ts, pre, post.
  split; [exact Hde |]. split; [exact Hdraw |]. split; [exact Hlen |].
  split; [exact Htr |].
  split; [rewrite (traverse_length _ _ _ Htr); exact Hlen |].
  split; [rewrite Hlog, <- app_assoc; reflexivity |].
  repeat split; assumption.
Qed.

Lemma C8_few_permutations_warn_and_proceed_witness :
  fst (Lm.fit Sample.env Sample.robust_permuted (Sample.world "Y ~ X"))
  = Ok None
  /\ (exists ws,
        Lm.warnings (self (snd (Lm.fit Sample.env Sample.robust_permuted
                                  (Sample.world "Y ~ X"))))
        = Lm.warnings (self (Sample.world "Y ~ X"))
          ++ Lm.low_permutations :: ws)
  /\ exists x y rb cl t seeds perm_ts pre post,
       Lm.design_matrix
         (self (snd (Lm.fit Sample.env Sample.robust_permuted
                       (Sample.world "Y ~ X")))) = Some x
       /\ draws Sample.env (Z.to_nat 3)
            (if (Lm.conf_int Sample.robust_permuted =? "boot")%string
             then snd (draws Sample.env
                         (Z.to_nat (Lm.n_boot Sample.robust_permuted))
                         (gen (Sample.world "Y ~ X")))
             else gen (Sample.world "Y ~ X"))
          = (seeds,
             gen (snd (Lm.fit Sample.env Sample.robust_permuted
                         (Sample.world "Y ~ X"))))
       /\ List.length seeds = Z.to_nat 3
       /\ traverse (Env._chunk_perm_ols Sample.env x y rb
                      (Lm.n_lags Sample.robust_permuted) cl
                      (Lm.weights Sample.robust_permuted)) seeds
          = Some perm_ts
       /\ List.length perm_ts = Z.to_nat 3
       /\ log (snd (Lm.fit Sample.env Sample.robust_permuted
                      (Sample.world "Y ~ X")))
          = log (Sample.world "Y ~ X") ++ Warn Lm.low_permutations :: pre
            ++ Dispatch Permutation
                 (if truthy_robust rb then 1
                  else Lm.n_jobs Sample.robust_permuted)
                 (Z.to_nat 3)
               :: post
       /\ reported "T-stat"
            (self (snd (Lm.fit Sample.env Sample.robust_permuted
                          (Sample.world "Y ~ X"))))
          = Some (map Num t)
       /\ reported "Num_perm"
            (self (snd (Lm.fit Sample.env Sample.robust_permuted
                          (Sample.world "Y ~ X"))))
          = Some (repeat (Num (inject_Z 3)) (n_coef x))
       /\ reported "Perm-P-val"
            (self (snd (Lm.fit Sample.env Sample.robust_permuted
                          (Sample.world "Y ~ X"))))
          = Some (map Num
                    (map (fun jt =>
                            _perm_find (array_col perm_ts (fst jt))
                              (snd jt))
                       (combine (seq 0 (n_coef x)) t)))
       /\ reported "DF"
            (self (snd (Lm.fit Sample.env Sample.robust_permuted
                          (Sample.world "Y ~ X")))) = None
       /\ reported "P-val"
            (self (snd (Lm.fit Sample.env Sample.robust_permuted
                          (Sample.world "Y ~ X")))) = None.
Proof.
  split; [vm_compute; reflexivity |].
  destruct (C8_few_permutations_warn_and_proceed Sample.env
              Sample.robust_permuted (Sample.world "Y ~ X") 3)
    as (_ & _ & Hws & _ & Hret); [reflexivity | lia |].
  split; [exact Hws |].
  apply (Hret None). vm_compute. reflexivity.
Defined.

(** X9.  A fit that returns has marked the model as fitted and recorded
    how it was made: the type of the standard errors ([non-robust], or
    [robust] with the name of the estimator, [hc1] for [robust=True]), of
    the intervals (the value of [conf_int], followed by the number of
    resamples for [boot]), of the inference ([permutation] with the number
    of permutations, else [bootstrapped] for [conf_int="boot"] without
    [permute], else [parametric]), whether the data were ranked, and the
    estimator ([OLS] without weights, [WLS] with). *)
Theorem fit_records_its_settings (E : Env.t) (a : Lm.fit_args)
  (w : World (Env.rng E) Lm.t) (r : option Table) :
  fst (Lm.fit E a w) = Ok r ->
  Lm.fitted (self (snd (Lm.fit E a w))) = true
  /\ Lm.se_type (self (snd (Lm.fit E a w))) = Some (se_label (Lm.robust a))
  /\ Lm.ci_type (self (snd (Lm.fit E a w))) = Some (ci_label a)
  /\ Lm.sig_type (self (snd (Lm.fit E a w))) = Some (sig_label a)
  /\ Lm.ranked_data (self (snd (Lm.fit E a w))) = Lm.rank a
  /\ Lm.estimator (self (snd (Lm.fit E a w))) = Some (estimator_label a).
Proof.
  intros Hok.
  destruct (Lm.fit E a w) as [res w'] eqn:Hfit. cbn in Hok. subst res. cbn.
  rewrite fit_unfold in Hfit. apply fit_model_returns in Hfit.
  destruct Hfit as (rb & cl & yx & est & df & wc & ci & wd & dfs & ps & sig
                    & we & results & _ & _ & _ & _ & _ & _ & _ & _ & _ & _
                    & _ & Hfitted & Hse & Hci & Hsig & Hrank & Hest & _).
  repeat split; assumption.
Qed.

Lemma fit_records_its_settings_witness :
  Lm.fitted (self (snd (Lm.fit Sample.env Sample.robust_permuted
                          (Sample.world "Y ~ X")))) = true
  /\ Lm.se_type (self (snd (Lm.fit Sample.env Sample.robust_permuted
                              (Sample.world "Y ~ X"))))
     = Some (se_label (Lm.robust Sample.robust_permuted))
  /\ Lm.ci_type (self (snd (Lm.fit Sample.env Sample.robust_permuted
                              (Sample.world "Y ~ X"))))
     = Some (ci_label Sample.robust_permuted)
  /\ Lm.sig_type (self (snd (Lm.fit Sample.env Sample.robust_permuted
                               (Sample.world "Y ~ X"))))
     = Some (sig_label Sample.robust_permuted)
  /\ Lm.ranked_data (self (snd (Lm.fit Sample.env Sample.robust_permuted
                                  (Sample.world "Y ~ X"))))
     = Lm.rank Sample.robust_permuted
  /\ Lm.estimator (self (snd (Lm.fit Sample.env Sample.robust_permuted
                                (Sample.world "Y ~ X"))))
     = Some (estimator_label Sample.robust_permuted).
Proof.
  apply (fit_records_its_settings Sample.env Sample.robust_permuted
           (Sample.world "Y ~ X") None).
  vm_compute. reflexivity.
Defined.

(** X10.  The table of a fit that returns has one row for each column
    of the design matrix, labelled by that column, and eight columns: those
    of the parametric test, or with [permute] those of the permutation
    test; every column has a cell for every coefficient.  The model keeps
    the table as computed; what [fit] returns is [None] without
    [summarize], and with it the table rounded to three decimals. *)
Theorem fit_table_shape (E : Env.t) (a : Lm.fit_args)
  (w : World (Env.rng E) Lm.t) (r : option Table) :
  fst (Lm.fit E a w) = Ok r ->
  exists x tb,
    Lm.design_matrix (self (snd (Lm.fit E a w))) = Some x
    /\ Lm.coefs (self (snd (Lm.fit E a w))) = Some tb
    /\ index tb = dm_columns x
    /\ columns (cols tb)
       = (if truthy_int (Lm.permute a)
          then permutation_columns else parametric_columns)
    /\ Forall (fun kc => List.length (snd kc) = n_coef x) (cols tb)
    /\ r = if Lm.summarize a then Some (round_table tb) else None.
Proof.
  intros Hok.
  destruct (Lm.fit E a w) as [res w'] eqn:Hfit. cbn in Hok. subst res. cbn.
  rewrite fit_unfold in Hfit. apply fit_model_returns in Hfit.
  destruct Hfit as (rb & cl & yx & est & df & wc & ci & wd & dfs & ps & sig
                    & we & results & _ & _ & _ & _ & _ & _ & _ & Hasm & _
                    & Hco & Hde & _ & _ & _ & _ & _ & _ & Hr).
  exists (predictors yx), results.
  pose proof (assemble_shape E _ _ _ _ _ _ _ _ _ _ _ Hasm) as Hshape.
  apply assemble_ok in Hasm.
  destruct Hasm as (_ & Hidx & _ & _ & _ & _ & _ & _ & _ & _ & _ & Hcols).
  repeat split; try assumption.
  destruct (truthy_int (Lm.permute a)); apply Hcols.
Qed.

Lemma fit_table_shape_witness :
  exists x tb,
    Lm.design_matrix (self (snd (Lm.fit Sample.env Sample.robust_permuted
                                   (Sample.world "Y ~ X")))) = Some x
    /\ Lm.coefs (self (snd (Lm.fit Sample.env Sample.robust_permuted
                              (Sample.world "Y ~ X")))) = Some tb
    /\ index tb = dm_columns x
    /\ columns (cols tb)
       = (if truthy_int (Lm.permute Sample.robust_permuted)
          then permutation_columns else parametric_columns)
    /\ Forall (fun kc => List.length (snd kc) = n_coef x) (cols tb)
    /\ None = if Lm.summarize Sample.robust_permuted
              then Some (round_table tb) else None.
Proof.
  apply (fit_table_shape Sample.env Sample.robust_permuted
           (Sample.world "Y ~ X") None).
  vm_compute. reflexivity.
Defined.

(** X11.  With [conf_int] anything but ["boot"], the bounds [2.5_ci] and
    [97.5_ci] a returning fit reports are, for each coefficient, the
    estimate plus the standard error times the quantile 0.025, or 0.975,
    of Student's t with the degrees of freedom of the fit - the same
    degrees for every coefficient, and those the column [DF] holds when
    there is no permutation test. *)
Theorem fit_standard_intervals (E : Env.t) (a : Lm.fit_args)
  (w : World (Env.rng E) Lm.t) (r : option Table) :
  (Lm.conf_int a =? "boot")%string = false ->
  fst (Lm.fit E a w) = Ok r ->
  exists b se df,
    List.length se = List.length b
    /\ reported "Estimate" (self (snd (Lm.fit E a w))) = Some (map Num b)
    /\ reported "SE" (self (snd (Lm.fit E a w))) = Some (map Num se)
    /\ reported "2.5_ci" (self (snd (Lm.fit E a w)))
       = Some (map (fun bs => Num (t_bound E (25 # 1000) df bs))
                 (combine b se))
    /\ reported "97.5_ci" (self (snd (Lm.fit E a w)))
       = Some (map (fun bs => Num (t_bound E (975 # 1000) df bs))
                 (combine b se))
    /\ (truthy_int (Lm.permute a) = false ->
        reported "DF" (self (snd (Lm.fit E a w)))
        = Some (repeat (Num df) (List.length b))).
Proof.
  intros Hc Hok.
  destruct (Lm.fit E a w) as [res w'] eqn:Hfit. cbn in Hok. subst res. cbn.
  rewrite fit_unfold in Hfit. apply fit_model_returns in Hfit.
  destruct Hfit as (rb & cl & yx & est & df & wc & ci & wd & dfs & ps & sig
                    & we & results & _ & _ & _ & _ & Hci & _ & Hinf & Hasm
                    & _ & Hco & _).
  apply (confidence_intervals_standard E _ _ _ _ _ _ Hc) in Hci.
  destruct Hci as (_ & Hlo & Hhi & Hlse & Hlb).
  apply assemble_ok in Hasm.
  destruct Hasm as (_ & _ & _ & _ & _ & Hb & Hl & Hu & Hse & _ & _ & Hcols).
  exists (est_b est), (est_se est), df.
  unfold reported. rewrite Hco.
  rewrite Hlo, map_map in Hl. rewrite Hhi, map_map in Hu.
  split; [congruence |]. split; [exact Hb |]. split; [exact Hse |].
  split; [exact Hl |]. split; [exact Hu |].
  intros Hp. rewrite Hp in Hcols. destruct Hcols as (_ & Hdf & _).
  rewrite Hdf, Hlb.
  assert (Hdfs : dfs = repeat df (List.length (est_t est))).
  { destruct (Lm.permute a) as [n |]; cbn in Hp.
    - rewrite Hp in Hinf. tauto.
    - tauto. }
  rewrite Hdfs, map_repeat. reflexivity.
Qed.

Lemma fit_standard_intervals_witness :
  exists b se df,
    List.length se = List.length b
    /\ reported "Estimate"
         (self (snd (Lm.fit Sample.env Sample.quiet (Sample.world "Y ~ X"))))
       = Some (map Num b)
    /\ reported "SE"
         (self (snd (Lm.fit Sample.env Sample.quiet (Sample.world "Y ~ X"))))
       = Some (map Num se)
    /\ reported "2.5_ci"
         (self (snd (Lm.fit Sample.env Sample.quiet (Sample.world "Y ~ X"))))
       = Some (map (fun bs => Num (t_bound Sample.env (25 # 1000) df bs))
                 (combine b se))
    /\ reported "97.5_ci"
         (self (snd (Lm.fit Sample.env Sample.quiet (Sample.world "Y ~ X"))))
       = Some (map (fun bs => Num (t_bound Sample.env (975 # 1000) df bs))
                 (combine b se))
    /\ (truthy_int (Lm.permute Sample.quiet) = false ->
        reported "DF"
          (self (snd (Lm.fit Sample.env Sample.quiet
                        (Sample.world "Y ~ X"))))
        = Some (repeat (Num df) (List.length b))).
Proof.
  apply (fit_standard_intervals Sample.env Sample.quiet
           (Sample.world "Y ~ X") None).
  - reflexivity.
  - vm_compute. reflexivity.
Defined.

(** X12.  With [conf_int="boot"], a fit that returns has drawn [n_boot]
    seeds, the next [n_boot] draws of the generator, and handed one
    bootstrap fit for each seed to a pool of [n_jobs] workers - the
    [n_jobs] of the call also when the estimator is robust.  The
    bootstrap fits are given the data of the model as they are, also with
    [rank=True], the formula and the [weights] argument.  The bounds
    reported are the percentiles 2.5 and 97.5 of their coefficients. *)
Theorem fit_bootstrap_intervals (E : Env.t) (a : Lm.fit_args)
  (w : World (Env.rng E) Lm.t) (r : option Table) :
  (Lm.conf_int a =? "boot")%string = true ->
  fst (Lm.fit E a w) = Ok r ->
  exists betas lo hi pre post,
    0 <= Lm.n_boot a
    /\ Lm.n_jobs a <> 0
    /\ traverse (Env._chunk_boot_ols_coefs E (Lm.data (self w))
                   (Lm.formula (self w)) (Lm.weights a))
         (fst (draws E (Z.to_nat (Lm.n_boot a)) (gen w)))
       = Some betas
    /\ Env.np_percentile E betas (25 # 10) = Some lo
    /\ Env.np_percentile E betas (975 # 10) = Some hi
    /\ reported "2.5_ci" (self (snd (Lm.fit E a w))) = Some (map Num lo)
    /\ reported "97.5_ci" (self (snd (Lm.fit E a w))) = Some (map Num hi)
    /\ log (snd (Lm.fit E a w))
       = log w ++ pre
         ++ Dispatch Bootstrap (Lm.n_jobs a) (Z.to_nat (Lm.n_boot a))
            :: post.
Proof.
  intros Hc Hok.
  destruct (Lm.fit E a w) as [res w'] eqn:Hfit. cbn in Hok. subst res. cbn.
  rewrite fit_unfold in Hfit.
  destruct (check_permutations_log E a w)
    as (Hd0 & Hf0 & (ce & Hce) & _).
  destruct (check_permutations_frame E a w)
    as (_ & _ & _ & _ & _ & _ & _ & Hg0 & _).
  apply fit_model_returns in Hfit.
  destruct Hfit as (rb & cl & yx & est & df & wc & ci & wd & dfs & ps & sig
                    & we & results & Hform & Hdata & Hgen & (pre & Hpre)
                    & Hci & (evs & Hevs) & _ & Hasm & (post & Hpost) & Hco
                    & _).
  apply (confidence_intervals_boot E _ _ _ _ _ _ Hc) in Hci.
  destruct Hci as (betas & Hpos & Hjobs & Htr & Hlo & Hhi & Hlog).
  apply assemble_ok in Hasm.
  destruct Hasm as (_ & _ & _ & _ & _ & _ & Hl & Hu & _).
  exists betas, (fst ci), (snd ci), (ce ++ pre), (evs ++ post).
  unfold reported. rewrite Hco.
  rewrite Hform, Hdata, Hgen, Hf0, Hd0, Hg0 in Htr.
  repeat split; try assumption.
  rewrite Hpost, Hevs, Hlog, Hpre, Hce. rewrite <- !app_assoc. reflexivity.
Qed.

Lemma fit_bootstrap_intervals_witness :
  exists betas lo hi pre post,
    0 <= Lm.n_boot Sample.bootstrapped
    /\ Lm.n_jobs Sample.bootstrapped <> 0
    /\ traverse
         (Env._chunk_boot_ols_coefs Sample.env
            (Lm.data (self (Sample.world "Y ~ 1")))
            (Lm.formula (self (Sample.world "Y ~ 1")))
            (Lm.weights Sample.bootstrapped))
         (fst (draws Sample.env (Z.to_nat (Lm.n_boot Sample.bootstrapped))
                 (gen (Sample.world "Y ~ 1"))))
       = Some betas
    /\ Env.np_percentile Sample.env betas (25 # 10) = Some lo
    /\ Env.np_percentile Sample.env betas (975 # 10) = Some hi
    /\ reported "2.5_ci"
         (self (snd (Lm.fit Sample.env Sample.bootstrapped
                       (Sample.world "Y ~ 1")))) = Some (map Num lo)
    /\ reported "97.5_ci"
         (self (snd (Lm.fit Sample.env Sample.bootstrapped
                       (Sample.world "Y ~ 1")))) = Some (map Num hi)
    /\ log (snd (Lm.fit Sample.env Sample.bootstrapped
                   (Sample.world "Y ~ 1")))
       = log (Sample.world "Y ~ 1") ++ pre
         ++ Dispatch Bootstrap (Lm.n_jobs Sample.bootstrapped)
              (Z.to_nat (Lm.n_boot Sample.bootstrapped))
            :: post.
Proof.
  apply (fit_bootstrap_intervals Sample.env Sample.bootstrapped
           (Sample.world "Y ~ 1") None).
  - reflexivity.
  - vm_compute. reflexivity.
Defined.

(** * [Lm.summary] and [Lm.__init__] *)

Lemma rint_close (q : Q) : (Qabs (inject_Z (rint q) - q) <= 1 # 2)%Q.
Proof.
  unfold rint.
  pose proof (Qfloor_le q) as Hlo.
  pose proof (Qlt_floor q) as Hhi.
  rewrite inject_Z_plus in Hhi. change (inject_Z 1) with 1%Q in Hhi.
  destruct (q - inject_Z (Qfloor q) ?= 1 # 2)%Q eqn:Hc.
  - apply Qeq_alt in Hc.
    destruct (Z.even (Qfloor q)).
    + apply Qabs_Qle_condition. split; Lqa.lra.
    + rewrite inject_Z_plus. change (inject_Z 1) with 1%Q.
      apply Qabs_Qle_condition. split; Lqa.lra.
  - apply Qlt_alt in Hc. apply Qabs_Qle_condition. split; Lqa.lra.
  - apply Qgt_alt in Hc. rewrite inject_Z_plus.
    change (inject_Z 1) with 1%Q.
    apply Qabs_Qle_condition. split; Lqa.lra.
Qed.

Lemma round3_close (q : Q) : (Qabs (round3 q - q) <= 1 # 2000)%Q.
Proof.
  unfold round3.
  pose proof (rint_close (q * 1000)) as H.
  apply Qabs_Qle_condition in H. destruct H as (H1 & H2).
  generalize dependent (inject_Z (rint (q * 1000))). intros z H1 H2.
  unfold Qdiv. change (/ 1000)%Q with (1 # 1000)%Q.
  apply Qabs_Qle_condition. split; Lqa.lra.
Qed.

Lemma round_cell_rounded (c : cell) : rounded c (round_cell c).
Proof.
  destruct c as [q | s |]; cbn; auto.
  split; [apply round3_close |].
  exists (rint (q * 1000)). reflexivity.
Qed.

Lemma Forall2_map_r {A B : Type} (R : A -> B -> Prop) (f : A -> B)
  (l : list A) :
  (forall x, R x (f x)) -> Forall2 R l (map f l).
Proof.
  intros H. induction l as [| x l IH]; cbn; constructor; auto.
Qed.

Lemma remove_spaces_filter (s : string) :
  list_ascii_of_string (remove_spaces s)
  = filter (fun c => negb (Ascii.eqb c " "%char)) (list_ascii_of_string s).
Proof.
  induction s as [| c s IH]; cbn; [reflexivity |].
  destruct (Ascii.eqb c " "%char); cbn; rewrite IH; reflexivity.
Qed.

(** X13.  [Lm.summary] that returns has left the model and the generator
    as they were and printed only.  The table it returns is the table of
    coefficients of the model rounded to three decimals: the same rows
    and columns, every number a multiple of a thousandth at most half a
    thousandth from the coefficient, texts and missing values as they
    are. *)
Theorem summary_returns_rounded_coefficients (E : Env.t)
  (w : World (Env.rng E) Lm.t) (s : Table) :
  fst (Lm.summary E w) = Ok s ->
  self (snd (Lm.summary E w)) = self w
  /\ gen (snd (Lm.summary E w)) = gen w
  /\ (exists evs,
        log (snd (Lm.summary E w)) = log w ++ evs
        /\ Forall (fun ev => exists text, ev = Print text) evs)
  /\ Lm.fitted (self w) = true
  /\ exists tb,
       Lm.coefs (self w) = Some tb
       /\ index s = index tb
       /\ columns (cols s) = columns (cols tb)
       /\ Forall2 (fun kc kc' =>
                     fst kc' = fst kc /\ Forall2 rounded (snd kc) (snd kc'))
            (cols tb) (cols s).
Proof.
  unfold Lm.summary. run.
  destruct (Lm.fitted (self w)); cbn; [| discriminate].
  destruct (Lm.coefs (self w)) as [tb |]; cbn; [| discriminate].
  intros H; inversion H; subst s; clear H.
  split; [reflexivity |]. split; [reflexivity |]. split.
  { eexists. rewrite <- !app_assoc. split; [reflexivity |].
    repeat constructor; eexists; reflexivity. }
  split; [reflexivity |].
  exists tb. split; [reflexivity |]. split; [reflexivity |].
  split; [apply columns_round_table |].
  unfold round_table. cbn.
  apply Forall2_map_r. intros kc. cbn. split; [reflexivity |].
  apply Forall2_map_r, round_cell_rounded.
Qed.

Lemma summary_returns_rounded_coefficients_witness :
  Lm.fitted (self (snd (Lm.fit Sample.env Sample.quiet
                          (Sample.world "Y ~ X")))) = true.
Proof.
  apply (summary_returns_rounded_coefficients Sample.env
           (snd (Lm.fit Sample.env Sample.quiet (Sample.world "Y ~ X")))
           (round_table
              match Lm.coefs (self (snd (Lm.fit Sample.env Sample.quiet
                                           (Sample.world "Y ~ X")))) with
              | Some tb => tb
              | None => {| index := []; cols := [] |}
              end)).
  vm_compute. reflexivity.
Defined.

(** X14.  [Lm(formula, data, family)] accepts the family [gaussian]
    only.  The model it builds is not fitted, has no coefficients and no
    warnings, holds the data, and its formula is the one passed with every
    space removed and nothing else changed.  [summary] of such a model
    raises the RuntimeError of line 1632 and prints nothing. *)
Theorem init_builds_unfitted_model (E : Env.t) (formula0 : string)
  (data0 : DataFrame) (family0 : string) (m : Lm.t) :
  Lm.init formula0 data0 family0 = Ok m ->
  family0 = "gaussian"%string
  /\ Lm.fitted m = false
  /\ Lm.coefs m = None
  /\ Lm.warnings m = []
  /\ Lm.data m = data0
  /\ list_ascii_of_string (Lm.formula m)
     = filter (fun c => negb (Ascii.eqb c " "%char))
         (list_ascii_of_string formula0)
  /\ forall (g : Env.rng E) (l : list event),
       Lm.summary E {| self := m; gen := g; log := l |}
       = (Raise (RuntimeError "Model must be fit to generate summary!"),
          {| self := m; gen := g; log := l |}).
Proof.
  unfold Lm.init.
  destruct (family0 =? "gaussian")%string eqn:Hf; cbn; [| discriminate].
  intros H; inversion H; subst m; clear H. cbn.
  apply String.eqb_eq in Hf.
  split; [exact Hf |]. do 4 (split; [reflexivity |]).
  split; [apply remove_spaces_filter |].
  intros g l. reflexivity.
Qed.

Lemma init_builds_unfitted_model_witness :
  Lm.fitted (Sample.new_model "Y ~ X") = false.
Proof.
  apply (init_builds_unfitted_model Sample.env "Y ~ X" Sample.observations
           "gaussian" (Sample.new_model "Y ~ X")).
  reflexivity.
Defined.

(** * Properties of [Lm2.fit] *)

Section MoreSequencing.

Context {G S : Type}.

Lemma bind_eq_run {A1 A2 B : Type} (m1 : M G S A1) (m2 : M G S A2)
  (k1 : A1 -> M G S B) (k2 : A2 -> M G S B) w x1 x2 w1 :
  m1 w = (Ok x1, w1) ->
  m2 w = (Ok x2, w1) ->
  k1 x1 w1 = k2 x2 w1 ->
  bind m1 k1 w = bind m2 k2 w.
Proof. intros H1 H2 Hk. unfold bind. rewrite H1, H2. exact Hk. Qed.

Lemma keeps_run {A : Type} (P : S -> Prop) (m : M G S A) w a w1 :
  always (keeps P) m -> m w = (Ok a, w1) -> P (self w) -> P (self w1).
Proof. intros H Hm. specialize (H w). rewrite Hm in H. exact H. Qed.

Lemma logs_within {T A : Type} (P : event -> Prop) (obj : T)
  (m : M G T A) :
  always (logs P) m -> always (logs P) (@within G S T A obj m).
Proof.
  intros H w. unfold within.
  specialize (H {| self := obj; gen := gen w; log := log w |}).
  destruct (m _) as [r w1]. exact H.
Qed.

Lemma update_ok (f : S -> S) (w w1 : World G S) u :
  update f w = (Ok u, w1) ->
  w1 = {| self := f (self w); gen := gen w; log := log w |}.
Proof. intros H; inversion H; reflexivity. Qed.

End MoreSequencing.

(** One step through a method that warns of nothing. *)
Ltac no_warning_step :=
  first
    [ apply (always_bind _ (logs_trans no_warning)); [| intros ?]
    | apply always_ret, logs_refl
    | apply always_raise, logs_refl
    | apply always_this, logs_refl
    | apply always_call, logs_refl
    | apply logs_update
    | apply logs_randint
    | apply logs_emit; intros ?; discriminate
    | apply logs_parallel; intros ?; discriminate
    | match goal with
      | |- always _ (match ?x with _ => _ end) => destruct x
      end ].

Lemma NoDup_unique (c : column) : NoDup (unique c).
Proof.
  induction c as [| x rest IH]; cbn; constructor.
  - intros Hin. apply filter_In in Hin. destruct Hin as (_ & Hx).
    assert (Hrefl : cell_eqb x x = true).
    { destruct x as [q | s |]; cbn.
      - apply Qeq_bool_iff. reflexivity.
      - apply String.eqb_refl.
      - reflexivity. }
    rewrite Hrefl in Hx. discriminate.
  - apply NoDup_filter, IH.
Qed.

Lemma unique_missing (c : column) : In NaN c -> In NaN (unique c).
Proof.
  induction c as [| x rest IH]; cbn; [tauto |].
  intros [-> | Hin]; [left; reflexivity |].
  destruct x as [q | s |]; [right | right | left; reflexivity];
    apply filter_In; split; auto.
Qed.

Lemma unique_subset (c : column) (x : cell) : In x (unique c) -> In x c.
Proof.
  revert x. induction c as [| y rest IH]; cbn; [tauto |].
  intros x [-> | Hin]; [left; reflexivity |].
  right. apply IH. apply filter_In in Hin. tauto.
Qed.

Lemma isna_missing (x : cell) : isna x = true <-> x = NaN.
Proof. destruct x; cbn; split; congruence. Qed.

Lemma count_present (l : column) :
  NoDup l ->
  List.length (filter (fun x => negb (isna x)) l)
  = if existsb isna l then pred (List.length l) else List.length l.
Proof.
  induction l as [| x l IH]; cbn; [reflexivity |].
  intros Hnd. inversion Hnd as [| ? ? Hx Hl]; subst.
  specialize (IH Hl).
  destruct (isna x) eqn:Hna; cbn.
  - apply isna_missing in Hna. subst x.
    assert (Hnone : existsb isna l = false).
    { destruct (existsb isna l) eqn:He; [| reflexivity].
      apply existsb_exists in He. destruct He as (y & Hy & Hyna).
      apply isna_missing in Hyna. subst y. contradiction. }
    rewrite Hnone in IH. exact IH.
  - rewrite IH. destruct (existsb isna l) eqn:He; [| reflexivity].
    apply existsb_exists in He. destruct He as (y & Hy & _).
    destruct l; [contradiction | reflexivity].
Qed.

Lemma existsb_isna_unique (c : column) :
  existsb isna (unique c) = existsb isna c.
Proof.
  destruct (existsb isna c) eqn:He.
  - apply existsb_exists in He. destruct He as (y & Hy & Hna).
    apply isna_missing in Hna. subst y.
    apply existsb_exists. exists NaN. split; [| reflexivity].
    apply unique_missing, Hy.
  - destruct (existsb isna (unique c)) eqn:Hu; [| reflexivity].
    apply existsb_exists in Hu. destruct Hu as (y & Hy & Hna).
    apply unique_subset in Hy.
    assert (Hc : existsb isna c = true).
    { apply existsb_exists. eauto. }
    congruence.
Qed.

(** The groups of the first level: every distinct label, or with a
    missing label all but the last. *)
Lemma first_level_groups (g : column) :
  firstn (nunique g) (unique g)
  = if existsb isna g then removelast (unique g) else unique g.
Proof.
  unfold nunique. rewrite (count_present _ (NoDup_unique g)).
  rewrite existsb_isna_unique.
  destruct (existsb isna g).
  - symmetry. apply removelast_firstn_len.
  - apply firstn_all.
Qed.

Lemma select_cols_columns (names : list string) (df c : DataFrame) :
  select_cols names df = Some c -> columns c = names.
Proof.
  revert c. induction names as [| n rest IH]; cbn; intros c H.
  - inversion H. reflexivity.
  - destruct (get_col n df); [| discriminate].
    destruct (select_cols rest df) as [r |]; [| discriminate].
    inversion H. unfold columns. cbn. f_equal. apply (IH r eq_refl).
Qed.

Section Lm2Properties.

Variable E : Env.t.

Lemma Lm2_for_each_logs {A B : Type} (P : event -> Prop)
  (body : A -> M (Env.rng E) Lm2.t B) (xs : list A) :
  (forall x, always (logs P) (body x)) ->
  always (logs P) (Lm2.for_each E body xs).
Proof.
  intros H. induction xs as [| x rest IH]; cbn.
  - apply always_ret, logs_refl.
  - apply (always_bind _ (logs_trans P)); [apply H | intros b].
    apply (always_bind _ (logs_trans P)); [apply IH | intros bs].
    apply always_ret, logs_refl.
Qed.

(** A fit without permutations and without weights warns of nothing. *)
Lemma Lm_fit_no_warning (a : Lm.fit_args) :
  Lm.permute a = None ->
  Lm.weights a = WNone ->
  always (logs no_warning) (Lm.fit E a).
Proof.
  intros Hp Hw. unfold Lm.fit.
  apply (always_bind _ (logs_trans no_warning)).
  { unfold Lm.check_permutations. rewrite Hp. apply always_ret, logs_refl. }
  intros _. unfold Lm.fit_model.
  apply (always_bind _ (logs_trans no_warning));
    [unfold Lm.select_estimator; repeat no_warning_step
    | intros rc; cbv zeta].
  apply (always_bind _ (logs_trans no_warning));
    [unfold Lm.announce; repeat no_warning_step | intros _].
  apply (always_bind _ (logs_trans no_warning));
    [unfold Lm.describe_inference; repeat no_warning_step | intros _].
  apply (always_bind _ (logs_trans no_warning));
    [unfold Lm.design_data; repeat no_warning_step | intros ddat].
  apply (always_bind_with _ (logs_trans no_warning)
           (fun wg => snd wg = None)).
  - intros w0 wg w1 Hwg. apply handle_weights_ok in Hwg.
    rewrite Hw in Hwg. apply Hwg.
  - unfold Lm.handle_weights, Lm.weight_groups. repeat no_warning_step.
  - intros wg Hwg. rewrite Hwg, Hp.
    unfold Lm.build_design, Lm.degrees_of_freedom, Lm.confidence_intervals,
      Lm.assemble, Lm.store, Lm.assign_array, Lm.fit_statistics, Lm.summary.
    repeat no_warning_step.
Qed.

Lemma Lm2_fit_no_warning (a : Lm2.fit_args) :
  always (logs no_warning) (Lm2.fit E a).
Proof.
  unfold Lm2.fit, Lm2.select_estimator, Lm2.describe_inference,
    Lm2.first_level, Lm2.collect, Lm2.permuted_columns, Lm2.summary,
    Lm2.assign.
  repeat first
    [ apply Lm2_for_each_logs; intros i; unfold Lm2.second_level
    | apply logs_within, Lm_fit_no_warning; reflexivity
    | no_warning_step ].
Qed.

Lemma Lm2_fit_same_inputs (a : Lm2.fit_args) (m0 : Lm2.t) :
  always (keeps (same_inputs m0)) (Lm2.fit E a).
Proof.
  unfold Lm2.fit, Lm2.select_estimator, Lm2.describe_inference,
    Lm2.first_level, Lm2.collect, Lm2.permuted_columns, Lm2.summary,
    Lm2.assign.
  keeps_all (same_inputs m0).
  all: try (apply Lm2_for_each_keeps; intros i;
            unfold Lm2.second_level; keeps_all (same_inputs m0)).
Qed.

Lemma Lm2_select_estimator_cluster (a : Lm2.fit_args)
  (w : World (Env.rng E) Lm2.t) (c : string) (col : column) :
  get_col c (Lm2.data (self w)) = Some col ->
  exists r c1 c2 w1,
    Lm2.select_estimator E (Lm2.with_cluster (Some c) a) w = (Ok (r, c1), w1)
    /\ Lm2.select_estimator E (Lm2.with_cluster None a) w
       = (Ok (r, c2), w1).
Proof.
  intros Hg. unfold Lm2.select_estimator.
  cbn [Lm2.robust Lm2.cluster Lm2.with_cluster].
  destruct (truthy_robust (Lm2.robust a)); run.
  - destruct (truthy_str c); cbn.
    + rewrite Hg. do 4 eexists. split; reflexivity.
    + do 4 eexists. split; reflexivity.
  - do 4 eexists. split; reflexivity.
Qed.

Lemma Lm2_select_estimator_no_cluster (a : Lm2.fit_args)
  (w : World (Env.rng E) Lm2.t) :
  Lm2.cluster a = None ->
  exists r s,
    Lm2.select_estimator E a w
    = (Ok (r, ClNone),
       {| self := Lm2.set_se_type s (self w); gen := gen w; log := log w |}).
Proof.
  intros Hc. unfold Lm2.select_estimator. rewrite Hc.
  destruct (truthy_robust (Lm2.robust a)); do 2 eexists; reflexivity.
Qed.

Lemma Lm2_assign_ok (name : string) (vals : column) (tb tb' : Table)
  (w w1 : World (Env.rng E) Lm2.t) :
  Lm2.assign E name vals tb w = (Ok tb', w1) ->
  w1 = w /\ index tb' = index tb.
Proof.
  unfold Lm2.assign. destruct (Nat.eqb _ _); [| discriminate].
  intros H; inversion H; subst. auto.
Qed.

Lemma Lm2_collect_ok (a : Lm2.fit_args) (x : Design) betas tables
  (w w1 : World (Env.rng E) Lm2.t) u :
  Lm2.collect E a x betas tables w = (Ok u, w1) ->
  exists tb, Lm2.coefs (self w1) = Some tb /\ index tb = dm_columns x.
Proof.
  unfold Lm2.collect. intros H.
  step H results wa Hres.
  assert (wa = w) as ->.
  { destruct (concat_tables tables); inversion Hres; reflexivity. }
  step H m wb Hm. inversion Hm; subst wb m; clear Hm.
  step H u1 wc Hco.
  destruct (Nat.eqb _ _) in Hco; [| discriminate].
  apply update_ok in Hco. subst wc.
  set (P := fun m : Lm2.t =>
              exists tb, Lm2.coefs m = Some tb /\ index tb = dm_columns x).
  match type of H with
  | ?m _ = _ => assert (Hk : always (keeps P) m) by keeps_all P
  end.
  apply (keeps_run P _ _ _ _ Hk H). cbn.
  eexists. split; reflexivity.
Qed.

Lemma Lm2_permuted_columns_ok (a : Lm2.fit_args) (p : Z) (ps : list Q)
  (w w1 : World (Env.rng E) Lm2.t) u (tb0 : Table) :
  Lm2.coefs (self w) = Some tb0 ->
  Lm2.permuted_columns E a p ps w = (Ok u, w1) ->
  exists tb,
    Lm2.coefs (self w1) = Some tb
    /\ index tb = index tb0
    /\ columns (cols tb) = permutation_columns.
Proof.
  intros Hco. unfold Lm2.permuted_columns. intros H.
  step H m wa Hm. inversion Hm; subst wa m; clear Hm.
  rewrite Hco in H. cbv beta iota zeta in H.
  step H u0 wb Hu. apply update_ok in Hu. subst wb.
  step H tb1 wc H1. apply Lm2_assign_ok in H1. destruct H1 as (-> & Hi1).
  step H u1 wd Hu1. apply update_ok in Hu1. subst wd.
  step H tb2 we H2. apply Lm2_assign_ok in H2. destruct H2 as (-> & Hi2).
  step H u2 wf Hu2. apply update_ok in Hu2. subst wf.
  step H tb3 wg H3. apply Lm2_assign_ok in H3. destruct H3 as (-> & Hi3).
  step H u3 wh Hu3. apply update_ok in Hu3. subst wh.
  destruct (select_cols _ (cols tb3)) as [c |] eqn:Hsel; [| discriminate].
  apply update_ok in H. subst w1. cbn.
  exists {| index := index tb3; cols := c |}.
  split; [reflexivity |]. split.
  - cbn. rewrite Hi3, Hi2, Hi1. destruct (negb _); reflexivity.
  - cbn. apply select_cols_columns in Hsel. exact Hsel.
Qed.

Lemma Lm2_summary_ok (w w1 : World (Env.rng E) Lm2.t) (s : Table) :
  Lm2.summary E w = (Ok s, w1) ->
  self w1 = self w
  /\ exists tb, Lm2.coefs (self w) = Some tb /\ s = round_table tb.
Proof.
  unfold Lm2.summary. intros H.
  step H m wa Hm. inversion Hm; subst wa m; clear Hm.
  destruct (negb (Lm2.fitted (self w))); [discriminate |].
  set (P := fun m : Lm2.t => m = self w).
  assert (Hs : self w1 = self w).
  { match type of H with
    | ?m _ = _ => assert (Hk : always (keeps P) m) by keeps_all P
    end.
    apply (keeps_run P _ _ _ _ Hk H). reflexivity. }
  split; [exact Hs |].
  repeat (let u := fresh "u" in
          let v := fresh "v" in
          let Hv := fresh "Hv" in
          step H u v Hv).
  destruct (Lm2.coefs (self w)) as [tb |]; [| discriminate].
  inversion H. eauto.
Qed.

(** A fit of a two-level model that returns. *)
Lemma Lm2_fit_ok (a : Lm2.fit_args) (w w' : World (Env.rng E) Lm2.t) r :
  Lm2.fit E a w = (Ok r, w') ->
  exists m yx tb,
    same_inputs (self w) m
    /\ Env.dmatrices E (Lm2.formula m) (Lm2.data m) = Some yx
    /\ self w' = Lm2.set_finished (Lm2.to_corrs a) m
    /\ Lm2.coefs m = Some tb
    /\ index tb = dm_columns (predictors yx)
    /\ (truthy_int (Lm2.permute a) = true ->
        columns (cols tb) = permutation_columns)
    /\ r = if Lm2.summarize a then Some (round_table tb) else None.
Proof.
  intros H.
  unfold Lm2.fit in H.
  set (P := same_inputs (self w)).
  assert (HP : P (self w)) by (repeat split).
  step H rc w1 Hsel.
  assert (HP1 : P (self w1)).
  { refine (keeps_run P _ _ _ _ _ Hsel HP).
    unfold Lm2.select_estimator. keeps_all P. }
  step H u1 w2 Hdes.
  assert (HP2 : P (self w2)).
  { refine (keeps_run P _ _ _ _ _ Hdes HP1).
    unfold Lm2.describe_inference. keeps_all P. }
  step H betas w3 Hfl.
  assert (HP3 : P (self w3)).
  { refine (keeps_run P _ _ _ _ _ Hfl HP2).
    unfold Lm2.first_level. keeps_all P. }
  step H m w4 Hm. inversion Hm; subst w4 m; clear Hm.
  step H yx w5 Hdm. apply call_ok in Hdm. destruct Hdm as (Hdm & ->).
  step H k w6 Hk.
  assert (w6 = w3) as ->.
  { destruct (shape1 betas); inversion Hk; reflexivity. }
  step H second w7 Hsec.
  assert (HP7 : P (self w7)).
  { refine (keeps_run P _ _ _ _ _ Hsec HP3).
    apply Lm2_for_each_keeps. intros i. unfold Lm2.second_level.
    keeps_all P. }
  step H u2 w8 Hcol.
  assert (HP8 : P (self w8)).
  { refine (keeps_run P _ _ _ _ _ Hcol HP7).
    unfold Lm2.collect. keeps_all P. }
  apply Lm2_collect_ok in Hcol. destruct Hcol as (tb8 & Hco8 & Hi8).
  step H u3 w9 Hperm.
  assert (HP9 : P (self w9)).
  { refine (keeps_run P _ _ _ _ _ Hperm HP8).
    unfold Lm2.permuted_columns, Lm2.assign. keeps_all P. }
  assert (Htb : exists tb,
             Lm2.coefs (self w9) = Some tb
             /\ index tb = dm_columns (predictors yx)
             /\ (truthy_int (Lm2.permute a) = true ->
                 columns (cols tb) = permutation_columns)).
  { destruct (Lm2.permute a) as [p |]; cbn [truthy_int].
    - destruct (negb (p =? 0)%Z).
      + destruct (Lm2_permuted_columns_ok _ _ _ _ _ _ _ Hco8 Hperm)
          as (tb & Hco & Hi & Hc).
        exists tb. split; [exact Hco |]. split; [congruence | auto].
      + inversion Hperm; subst. exists tb8.
        split; [exact Hco8 |]. split; [exact Hi8 | discriminate].
    - inversion Hperm; subst. exists tb8.
      split; [exact Hco8 |]. split; [exact Hi8 | discriminate]. }
  destruct Htb as (tb & Hco & Hi & Hcols).
  step H u4 w10 Hfin. apply update_ok in Hfin. subst w10.
  destruct HP3 as (Hd3 & Hf3 & _).
  exists (self w9), yx, tb.
  split; [exact HP9 |].
  split.
  { destruct HP9 as (Hd9 & Hf9 & _). rewrite Hd9, Hf9, <- Hd3, <- Hf3.
    exact Hdm. }
  assert (Hend : self w' = Lm2.set_finished (Lm2.to_corrs a) (self w9)
                 /\ r = if Lm2.summarize a then Some (round_table tb)
                        else None).
  { destruct (Lm2.summarize a).
    - step H s w11 Hs. apply Lm2_summary_ok in Hs.
      destruct Hs as (Hself & tb' & Htb' & ->).
      inversion H; subst. split; [exact Hself |].
      cbn in Htb'. rewrite Hco in Htb'. inversion Htb'. reflexivity.
    - inversion H; subst. split; reflexivity. }
  destruct Hend as (Hself & Hr).
  repeat split; assumption.
Qed.

End Lm2Properties.

Lemma parallel_run {G S T A : Type} what callee n_jobs (f : T -> option A)
  tasks (w w1 : World G S) r :
  parallel what callee n_jobs f tasks w = (Ok r, w1) ->
  traverse f tasks = Some r
  /\ self w1 = self w
  /\ gen w1 = gen w
  /\ log w1 = log w ++ [Dispatch what n_jobs (List.length tasks)].
Proof.
  unfold parallel. run. destruct (n_jobs =? 0)%Z; cbn; [discriminate |].
  destruct (traverse f tasks); cbn; [| discriminate].
  intros H; inversion H; subst; cbn. auto.
Qed.

(** X15.  [Lm2.fit] checks its [cluster] argument and makes no other use
    of it: with a [cluster] that names a column of the data, the call
    runs exactly as without [cluster] - same result, same model, same
    generator, same log.  The second-level fits are not given the
    cluster (lines 1938-1946). *)
Theorem Lm2_fit_ignores_cluster (E : Env.t) (a : Lm2.fit_args)
  (w : World (Env.rng E) Lm2.t) (c : string) (col : column) :
  get_col c (Lm2.data (self w)) = Some col ->
  Lm2.fit E (Lm2.with_cluster (Some c) a) w
  = Lm2.fit E (Lm2.with_cluster None a) w.
Proof.
  intros Hg.
  destruct (Lm2_select_estimator_cluster E a w c col Hg)
    as (r & c1 & c2 & w1 & H1 & H2).
  unfold Lm2.fit. apply (bind_eq_run _ _ _ _ _ _ _ _ H1 H2).
  reflexivity.
Qed.

Lemma Lm2_fit_ignores_cluster_witness :
  Lm2.fit Sample.env (Lm2.with_cluster (Some "half"%string) Sample.permuted2)
    (Sample.world2 "Y ~ X")
  = Lm2.fit Sample.env (Lm2.with_cluster None Sample.permuted2)
      (Sample.world2 "Y ~ X").
Proof.
  apply (Lm2_fit_ignores_cluster Sample.env Sample.permuted2
           (Sample.world2 "Y ~ X") "half"
           [Str "l"; Str "l"; Str "l"; Str "r"; Str "r"; Str "r"]).
  reflexivity.
Defined.

(** X16.  However [Lm2.fit] ends, the data, the formula, the group, the
    family and the warnings of the model are as they were - unlike
    [Lm.fit], it adds no column to the data - and it has warned of
    nothing, also with fewer than 500 permutations. *)
Theorem Lm2_fit_keeps_inputs_and_never_warns (E : Env.t)
  (a : Lm2.fit_args) (w : World (Env.rng E) Lm2.t) :
  Lm2.data (self (snd (Lm2.fit E a w))) = Lm2.data (self w)
  /\ Lm2.formula (self (snd (Lm2.fit E a w))) = Lm2.formula (self w)
  /\ Lm2.group (self (snd (Lm2.fit E a w))) = Lm2.group (self w)
  /\ Lm2.family (self (snd (Lm2.fit E a w))) = Lm2.family (self w)
  /\ Lm2.warnings (self (snd (Lm2.fit E a w))) = Lm2.warnings (self w)
  /\ exists evs,
       log (snd (Lm2.fit E a w)) = log w ++ evs
       /\ Forall (fun ev => forall s, ev <> Warn s) evs.
Proof.
  destruct (Lm2_fit_same_inputs E a (self w) w) as (H1 & H2 & H3 & H4 & H5).
  { repeat split. }
  repeat (split; [assumption |]).
  apply (Lm2_fit_no_warning E a w).
Qed.

(** X17.  After an [Lm2.fit] that returns, the model is fitted, its fit
    statistics ([AIC], [BIC], [logLike], [rsquared], [rsquared_adj]) are
    all missing values, and [iscorrs] holds the [to_corrs] of the call.
    Its table of coefficients has one row for each column of the design
    matrix patsy builds from the formula and the data, labelled by that
    column; with [permute] its columns are those of the permutation test.
    The call returns [None] without [summarize], and with it the table
    rounded to three decimals. *)
Theorem Lm2_fit_returns (E : Env.t) (a : Lm2.fit_args)
  (w : World (Env.rng E) Lm2.t) (r : option Table) :
  fst (Lm2.fit E a w) = Ok r ->
  Lm2.fitted (self (snd (Lm2.fit E a w))) = true
  /\ Lm2.AIC (self (snd (Lm2.fit E a w))) = Some NaN
  /\ Lm2.BIC (self (snd (Lm2.fit E a w))) = Some NaN
  /\ Lm2.logLike (self (snd (Lm2.fit E a w))) = Some NaN
  /\ Lm2.rsquared (self (snd (Lm2.fit E a w))) = Some NaN
  /\ Lm2.rsquared_adj (self (snd (Lm2.fit E a w))) = Some NaN
  /\ Lm2.iscorrs (self (snd (Lm2.fit E a w))) = Lm2.to_corrs a
  /\ exists yx tb,
       Env.dmatrices E (Lm2.formula (self w)) (Lm2.data (self w)) = Some yx
       /\ Lm2.coefs (self (snd (Lm2.fit E a w))) = Some tb
       /\ index tb = dm_columns (predictors yx)
       /\ (truthy_int (Lm2.permute a) = true ->
           columns (cols tb) = permutation_columns)
       /\ r = if Lm2.summarize a then Some (round_table tb) else None.
Proof.
  intros Hok.
  destruct (Lm2.fit E a w) as [res w'] eqn:Hfit. cbn in Hok. subst res. cbn.
  apply Lm2_fit_ok in Hfit.
  destruct Hfit as (m & yx & tb & (Hd & Hf & _) & Hdm & Hself & Hco & Hi
                    & Hcols & Hr).
  rewrite Hself. cbn. do 7 (split; [reflexivity |]).
  exists yx, tb. rewrite <- Hd, <- Hf. repeat split; assumption.
Qed.

Lemma Lm2_fit_returns_witness :
  Lm2.fitted (self (snd (Lm2.fit Sample.env Sample.quiet2
                           (Sample.world2 "Y ~ X")))) = true.
Proof.
  apply (Lm2_fit_returns Sample.env Sample.quiet2 (Sample.world2 "Y ~ X")
           None).
  vm_compute. reflexivity.
Defined.

(** X18.  The first level of [Lm2.fit] without correlations runs one
    regression for each of the first [nunique()] labels of [unique()] of
    the group column, in a pool of [n_jobs] workers, on the data, the
    formula and the [rank] of the call.  Without a missing label these are
    all the distinct labels.  With one, [unique()] counts it and
    [nunique()] does not: the last label in order of first appearance gets
    no regression, and when the missing label is not that last one, a
    regression is run for the missing label. *)
Theorem Lm2_first_level_groups (E : Env.t) (a : Lm2.fit_args)
  (w : World (Env.rng E) Lm2.t) (g : column) (betas : list (list Q)) :
  get_col (Lm2.group (self w)) (Lm2.data (self w)) = Some g ->
  truthy_corrs (Lm2.to_corrs a) = false ->
  fst (Lm2.first_level E a w) = Ok betas ->
  traverse (fun grp =>
              Env._ols_group E (Lm2.data (self w)) (Lm2.formula (self w))
                (Lm2.group (self w)) grp (Lm2.rank a))
    (if existsb isna g then removelast (unique g) else unique g)
  = Some betas
  /\ log (snd (Lm2.first_level E a w))
     = log w
       ++ [Dispatch FirstLevel (Lm2.n_jobs a)
             (List.length
                (if existsb isna g then removelast (unique g)
                 else unique g))]
  /\ (existsb isna g = true ->
      last (unique g) NaN <> NaN ->
      In NaN (removelast (unique g))
      /\ ~ In (last (unique g) NaN) (removelast (unique g))).
Proof.
  intros Hg Hc Hok.
  destruct (Lm2.first_level E a w) as [res w'] eqn:H.
  cbn in Hok. subst res. cbn [snd].
  unfold Lm2.first_level in H.
  step H u wa Hu. apply update_ok in Hu. subst wa.
  step H m wb Hm. inversion Hm; subst wb m; clear Hm.
  cbn [self Lm2.set_ranked_data Lm2.group Lm2.data Lm2.formula
       Lm2.ranked_data] in H.
  rewrite Hg, Hc, first_level_groups in H.
  apply parallel_run in H. destruct H as (Htr & _ & _ & Hlog).
  split; [exact Htr |]. split; [exact Hlog |].
  intros Hna Hlast.
  assert (Hin : In NaN (unique g)).
  { apply unique_missing. apply existsb_exists in Hna.
    destruct Hna as (y & Hy & Hyna). apply isna_missing in Hyna.
    subst y. exact Hy. }
  assert (Hne : unique g <> []).
  { intros Hnil. rewrite Hnil in Hin. contradiction. }
  pose proof (app_removelast_last NaN Hne) as Hsplit.
  pose proof (NoDup_unique g) as Hnd. rewrite Hsplit in Hnd, Hin.
  split.
  - apply in_app_or in Hin. destruct Hin as [Hin | [Hin | []]];
      [exact Hin | congruence].
  - apply NoDup_remove_2 in Hnd. rewrite app_nil_r in Hnd. exact Hnd.
Qed.

Lemma Lm2_first_level_groups_witness :
  traverse (fun grp =>
              Env._ols_group Sample.env
                (Lm2.data (self (Sample.unlabelled_world "Y~1")))
                (Lm2.formula (self (Sample.unlabelled_world "Y~1")))
                (Lm2.group (self (Sample.unlabelled_world "Y~1"))) grp
                (Lm2.rank Sample.quiet2))
    (if existsb isna [NaN; Str "a"; Str "b"; Str "b"; Str "c"; Str "c"]
     then removelast
            (unique [NaN; Str "a"; Str "b"; Str "b"; Str "c"; Str "c"])
     else unique [NaN; Str "a"; Str "b"; Str "b"; Str "c"; Str "c"])
  = Some [[1%Q]; [2%Q]; [9 # 2]].
Proof.
  apply (Lm2_first_level_groups Sample.env Sample.quiet2
           (Sample.unlabelled_world "Y~1")
           [NaN; Str "a"; Str "b"; Str "b"; Str "c"; Str "c"]
           [[1%Q]; [2%Q]; [9 # 2]]);
    reflexivity.
Defined.

(** X19.  [Lm2.fit] with a string other than ["semi"] and ["partial"]
    for [to_corrs] (and no [cluster]) raises the ValueError of line 1877
    before any regression is run: nothing is dispatched or drawn, and the
    model is as unfitted as it was. *)
Theorem Lm2_fit_rejects_to_corrs (E : Env.t) (a : Lm2.fit_args)
  (w : World (Env.rng E) Lm2.t) (s : string) :
  Lm2.cluster a = None ->
  Lm2.to_corrs a = TStr s ->
  ((s =? "semi") || (s =? "partial"))%string%bool = false ->
  fst (Lm2.fit E a w)
  = Raise (ValueError "to_corrs must be 'semi' or 'partial'")
  /\ log (snd (Lm2.fit E a w)) = log w
  /\ gen (snd (Lm2.fit E a w)) = gen w
  /\ Lm2.fitted (self (snd (Lm2.fit E a w))) = Lm2.fitted (self w)
  /\ Lm2.coefs (self (snd (Lm2.fit E a w))) = Lm2.coefs (self w)
  /\ Lm2.fixef (self (snd (Lm2.fit E a w))) = Lm2.fixef (self w)
  /\ Lm2.sig_type (self (snd (Lm2.fit E a w))) = Lm2.sig_type (self w).
Proof.
  intros Hc Ht Hs.
  destruct (Lm2_select_estimator_no_cluster E a w Hc) as (r & se & Hsel).
  unfold Lm2.fit, bind. rewrite Hsel. cbn [fst snd].
  unfold Lm2.describe_inference. rewrite Ht. run. rewrite Hs. cbn.
  repeat split.
Qed.

Lemma Lm2_fit_rejects_to_corrs_witness :
  fst (Lm2.fit Sample.env Sample.bad_corrs2 (Sample.world2 "Y ~ X"))
  = Raise (ValueError "to_corrs must be 'semi' or 'partial'").
Proof.
  apply (Lm2_fit_rejects_to_corrs Sample.env Sample.bad_corrs2
           (Sample.world2 "Y ~ X") "full"); reflexivity.
Defined.

(** X20.  [Lm2.fit] with a non-zero [permute] and a [perm_on] other than
    ["mean"] and ["t-stat"] (an acceptable [to_corrs], no [cluster])
    raises the ValueError of line 1884 before any regression is run:
    nothing is dispatched or drawn, the type of the inference is not
    recorded, and the model is as unfitted as it was. *)
Theorem Lm2_fit_rejects_perm_on (E : Env.t) (a : Lm2.fit_args)
  (w : World (Env.rng E) Lm2.t) (p : Z) :
  Lm2.cluster a = None ->
  match Lm2.to_corrs a with
  | TStr s => ((s =? "semi") || (s =? "partial"))%string%bool
  | TBool _ => true
  end = true ->
  Lm2.permute a = Some p ->
  p <> 0 ->
  ((Lm2.perm_on a =? "mean") || (Lm2.perm_on a =? "t-stat"))%string%bool
  = false ->
  fst (Lm2.fit E a w) = Raise (ValueError "perm_on must be 't-stat' or 'mean'")
  /\ log (snd (Lm2.fit E a w)) = log w
  /\ gen (snd (Lm2.fit E a w)) = gen w
  /\ Lm2.fitted (self (snd (Lm2.fit E a w))) = Lm2.fitted (self w)
  /\ Lm2.coefs (self (snd (Lm2.fit E a w))) = Lm2.coefs (self w)
  /\ Lm2.fixef (self (snd (Lm2.fit E a w))) = Lm2.fixef (self w)
  /\ Lm2.sig_type (self (snd (Lm2.fit E a w))) = Lm2.sig_type (self w).
Proof.
  intros Hc Ht Hp Hp0 Hon.
  destruct (Lm2_select_estimator_no_cluster E a w Hc) as (r & se & Hsel).
  unfold Lm2.fit, bind. rewrite Hsel. cbn [fst snd].
  unfold Lm2.describe_inference. rewrite Hp.
  assert (Hnz : negb (p =? 0) = true).
  { apply negb_true_iff, Z.eqb_neq, Hp0. }
  rewrite Hnz, Hon. run.
  destruct (Lm2.to_corrs a) as [b | s]; cbn.
  - repeat split.
  - rewrite Ht. cbn. repeat split.
Qed.

Lemma Lm2_fit_rejects_perm_on_witness :
  fst (Lm2.fit Sample.env Sample.bad_perm_on2 (Sample.world2 "Y ~ X"))
  = Raise (ValueError "perm_on must be 't-stat' or 'mean'").
Proof.
  apply (Lm2_fit_rejects_perm_on Sample.env Sample.bad_perm_on2
           (Sample.world2 "Y ~ X") 3); try reflexivity.
  discriminate.
Defined.

(** * [Lm.predict] and [Lm.to_corrs] *)

Lemma has_col_set_col_other (name other : string) (v : column)
  (df : DataFrame) :
  other <> name ->
  has_col other (set_col name v df) = has_col other df.
Proof.
  intros Hne. unfold has_col, columns.
  induction df as [| [k c] rest IH]; cbn.
  - apply String.eqb_neq in Hne. rewrite String.eqb_sym, Hne. reflexivity.
  - destruct (k =? name)%string; cbn; [reflexivity |].
    rewrite IH. reflexivity.
Qed.

Lemma select_cols_set_col_other (names : list string) (name : string)
  (v : column) (df : DataFrame) :
  ~ In name names ->
  select_cols names (set_col name v df) = select_cols names df.
Proof.
  induction names as [| n rest IH]; cbn; [reflexivity |].
  intros Hnot. rewrite get_col_set_col_other by tauto.
  rewrite IH by tauto. reflexivity.
Qed.

Lemma forallb_has_col_set_col_other (names : list string) (name : string)
  (v : column) (df : DataFrame) :
  ~ In name names ->
  forallb (fun col => has_col col (set_col name v df)) names
  = forallb (fun col => has_col col df) names.
Proof.
  induction names as [| n rest IH]; cbn; [reflexivity |].
  intros Hnot. rewrite has_col_set_col_other by tauto.
  rewrite IH by tauto. reflexivity.
Qed.

Lemma np_dot_length (rows : list (list cell)) (width : nat)
  (coefs preds : list cell) :
  LmQueries.np_dot rows width coefs = Ok preds ->
  List.length preds = List.length rows.
Proof.
  unfold LmQueries.np_dot.
  destruct (_ || _)%bool; [discriminate |].
  destruct (negb _); [discriminate |].
  intros H; inversion H. apply length_map.
Qed.

Lemma for_all_length {A B : Type} (f : A -> Result B) (xs : list A)
  (ys : list B) :
  LmQueries.for_all f xs = Ok ys -> List.length ys = List.length xs.
Proof.
  revert ys. induction xs as [| x rest IH]; cbn; intros ys H.
  - inversion H. reflexivity.
  - destruct (f x); [| discriminate].
    destruct (LmQueries.for_all f rest) as [r |]; [| discriminate].
    inversion H. cbn. rewrite (IH r eq_refl). reflexivity.
Qed.

(** X21.  [Lm.predict] of a model with a design matrix asks the data for
    every column of the design matrix but the first.  When one of them is
    missing it raises the ValueError of line 1727, whatever else the model
    and the data hold; when it returns, all of them are there, the model
    has coefficients, and there is one prediction for each row of the
    data. *)
Theorem predict_checks_columns (m : Lm.t) (data : DataFrame) (x : Design) :
  Lm.design_matrix m = Some x ->
  (forallb (fun col => has_col col data) (tl (dm_columns x)) = false ->
   LmQueries.predict m data
   = Raise (ValueError
              "Column names do not match all fixed effects model terms!"))
  /\ forall preds,
       LmQueries.predict m data = Ok preds ->
       forallb (fun col => has_col col data) (tl (dm_columns x)) = true
       /\ (exists tb, Lm.coefs m = Some tb)
       /\ List.length preds = nrows data.
Proof.
  intros Hd. unfold LmQueries.predict. rewrite Hd. cbv zeta. split.
  - intros Hmiss. rewrite Hmiss. reflexivity.
  - intros preds.
    destruct (forallb _ _); cbn [negb]; [| discriminate].
    destruct (select_cols _ data) as [X |]; [| discriminate].
    destruct (Lm.coefs m) as [tb |]; [| discriminate].
    destruct (get_col "Estimate" (cols tb)) as [coefs |]; [| discriminate].
    destruct (index tb) as [| first others]; [discriminate |].
    intros H. split; [reflexivity |]. split; [eauto |].
    destruct (first =? "Intercept")%string;
      apply np_dot_length in H; rewrite H;
      unfold LmQueries.frame_rows; rewrite ?length_map; apply length_seq.
Qed.

Lemma predict_checks_columns_witness :
  List.length [Num (57 # 9); Num (72 # 9)] = nrows Sample.new_data.
Proof.
  refine (proj2 (proj2
    (proj2 (predict_checks_columns
              (self (snd (Lm.fit Sample.env Sample.quiet
                            (Sample.world "Y ~ X"))))
              Sample.new_data
              {| dm_columns := ["Intercept"; "X"]%string;
                 dm_rows := [[1; 0]; [1; 1]; [1; 0]; [1; 1]; [1; 0]; [1; 1]]%Q
              |} _) [Num (57 # 9); Num (72 # 9)] _))).
  - vm_compute. reflexivity.
  - vm_compute. reflexivity.
Defined.

(** X22.  For a model fitted without an intercept, [Lm.predict] leaves
    out the first term of the model: it drops the first column of the
    design matrix from the columns it reads (line 1725) and the first
    coefficient from the product (line 1733).  Whatever the data hold in
    the column of that term, the predictions are the same. *)
Theorem predict_without_intercept_ignores_first_term (m : Lm.t)
  (data : DataFrame) (x : Design) (tb : Table) (d0 : string)
  (rest : list string) (v : column) :
  Lm.design_matrix m = Some x ->
  dm_columns x = d0 :: rest ->
  ~ In d0 rest ->
  Lm.coefs m = Some tb ->
  index tb = dm_columns x ->
  d0 <> "Intercept"%string ->
  List.length v = nrows data ->
  LmQueries.predict m (set_col d0 v data) = LmQueries.predict m data.
Proof.
  intros Hd Hcols Hnot Hco Hi Hne Hlen.
  unfold LmQueries.predict. rewrite Hd, Hco, Hi, Hcols. cbn [tl].
  rewrite forallb_has_col_set_col_other by exact Hnot.
  rewrite select_cols_set_col_other by exact Hnot.
  rewrite (nrows_set_col _ _ _ Hlen). reflexivity.
Qed.

Lemma predict_without_intercept_ignores_first_term_witness :
  LmQueries.predict Sample.no_intercept_model
    (set_col "X" [Num 100; Num 200] Sample.new_data)
  = LmQueries.predict Sample.no_intercept_model Sample.new_data.
Proof.
  apply (predict_without_intercept_ignores_first_term
           Sample.no_intercept_model Sample.new_data
           {| dm_columns := ["X"; "Z"]%string; dm_rows := [] |}
           {| index := ["X"; "Z"]%string;
              cols := [("Estimate"%string, [Num 2; Num 3])] |}
           "X" ["Z"%string] [Num 100; Num 200]);
    try reflexivity.
  - intros [H | []]. discriminate H.
  - discriminate.
Defined.

(** X23.  [Lm.to_corrs] that returns was asked for ["semi"] or
    ["partial"] correlations of a fitted model.  The series it returns is
    labelled like the table of coefficients and has a value for each
    column of the design matrix: the first is missing - also when the
    first column is not an intercept - and the others are numbers, one for
    each further column. *)
Theorem to_corrs_returns (E : Env.t) (pearsonr : list Q -> list Q -> option Q)
  (_ols_resid : Design -> list Q -> option (list Q)) (m : Lm.t)
  (corr_type : string) (ztrans_corrs : bool) (idx : list string)
  (vals : list cell) :
  LmQueries.to_corrs E pearsonr _ols_resid m corr_type ztrans_corrs
  = Ok (idx, vals) ->
  Lm.fitted m = true
  /\ (corr_type = "semi"%string \/ corr_type = "partial"%string)
  /\ exists x tb rs,
       Lm.design_matrix m = Some x
       /\ Lm.coefs m = Some tb
       /\ idx = index tb
       /\ vals = NaN :: map Num rs
       /\ List.length rs = List.length (tl (dm_columns x))
       /\ List.length vals = List.length idx.
Proof.
  unfold LmQueries.to_corrs.
  destruct (Lm.fitted m); cbn [negb]; [| discriminate].
  destruct ((corr_type =? "semi") || (corr_type =? "partial"))%string%bool
    eqn:Hct; cbn [negb]; [| discriminate].
  destruct (Lm.design_matrix m) as [x |]; [| discriminate].
  cbv zeta.
  destruct (LmQueries.for_all _ _) as [rs |] eqn:Hrs; [| discriminate].
  destruct (Lm.coefs m) as [tb |]; [| discriminate].
  destruct (Nat.eqb _ _) eqn:Hlen; [| discriminate].
  intros H; inversion H; subst idx vals; clear H.
  split; [reflexivity |]. split.
  { apply orb_true_iff in Hct.
    destruct Hct as [Hs | Hp]; [left | right]; apply String.eqb_eq;
      assumption. }
  exists x, tb,
    (map (fun r => if ztrans_corrs then Env.np_arctanh E r else r) rs).
  split; [reflexivity |]. split; [reflexivity |]. split; [reflexivity |].
  split; [rewrite map_map; reflexivity |].
  split.
  - rewrite length_map. apply (for_all_length _ _ _ Hrs).
  - apply Nat.eqb_eq in Hlen. exact Hlen.
Qed.

Lemma to_corrs_returns_witness :
  Lm.fitted
    (self (snd (Lm.fit Sample.env_corrs Sample.quiet
                  {| self := Sample.new_model "Y ~ X"; gen := 1;
                     log := [] |}))) = true.
Proof.
  apply (to_corrs_returns Sample.env_corrs Sample.pearsonr Sample._ols_resid
           (self (snd (Lm.fit Sample.env_corrs Sample.quiet
                         {| self := Sample.new_model "Y ~ X"; gen := 1;
                            log := [] |})))
           "partial" true ["Intercept"; "X"]%string [NaN; Num (5 # 2)]).
  vm_compute. reflexivity.
Defined.

(** * Properties of [Lmer.fit] *)

Create HintDb lmer.
#[global] Hint Unfold Lmer.fit Lmer.prepare_data Lmer._make_factors
  Lmer.describe_inference Lmer.fit_in_r Lmer.announce_permutations
  Lmer.read_summary Lmer._get_ngrps Lmer.store_warnings Lmer.estimates
  Lmer.name_columns Lmer.permuted_fits Lmer.store_coefs Lmer.random_effects
  Lmer.cluster_coefficients Lmer.cluster_deviations Lmer.store_design
  Lmer.add_residuals Lmer.add_fits Lmer.summary Lmer.show Lmer.warn : lmer.

Section LmerSteps.

Variable R : REnv.t.

Lemma lift_ok {A : Type} (r : Result A)
  (w w1 : World (REnv.rng R) (Lmer.t (REnv.robj R))) (a : A) :
  Lmer.lift R r w = (Ok a, w1) -> r = Ok a /\ w1 = w.
Proof.
  destruct r as [x | e]; cbn; intros H; inversion H; auto.
Qed.

Lemma keeps_lift {A : Type} (P : Lmer.t (REnv.robj R) -> Prop)
  (r : Result A) :
  always (keeps P) (Lmer.lift R r).
Proof.
  destruct r; [apply always_ret | apply always_raise]; apply keeps_refl.
Qed.

Lemma keeps_draw {A : Type} (P : Lmer.t (REnv.robj R) -> Prop)
  (callee : string) (f : REnv.rng R -> option (A * REnv.rng R)) :
  always (keeps P) (Lmer.draw R callee f).
Proof.
  intros w. unfold Lmer.draw. destruct (f (gen w)) as [[x g] |];
    intros H; exact H.
Qed.

Lemma keeps_except {A : Type} (P : Lmer.t (REnv.robj R) -> Prop)
  (m : M (REnv.rng R) (Lmer.t (REnv.robj R)) A) (e : exn) :
  always (keeps P) m ->
  always (keeps P) (Lmer.except_attribute_error R m e).
Proof.
  intros H w. specialize (H w). unfold Lmer.except_attribute_error.
  destruct (m w) as [[x | []] w1]; exact H.
Qed.

Lemma keeps_print_all (P : Lmer.t (REnv.robj R) -> Prop)
  (ws : list string) :
  always (keeps P) (Lmer.print_all R ws).
Proof.
  induction ws as [| x rest IH]; cbn.
  - apply always_ret, keeps_refl.
  - apply (always_bind _ (keeps_trans P)); [apply keeps_emit | intros _].
    exact IH.
Qed.

Lemma keeps_permutations (P : Lmer.t (REnv.robj R) -> Prop) (n : nat)
  (family formula : string) (reml : bool) (grp_vars : list string)
  (dv_var : string) (perm_dat : REnv.rdata R) :
  always (keeps P)
    (Lmer.permutations R n family formula reml grp_vars dv_var perm_dat).
Proof.
  revert perm_dat. induction n as [| n IH]; intros perm_dat; cbn.
  - apply always_ret, keeps_refl.
  - apply (always_bind _ (keeps_trans P)); [apply keeps_draw | intros d].
    apply (always_bind _ (keeps_trans P));
      [apply always_call, keeps_refl | intros obj].
    apply (always_bind _ (keeps_trans P));
      [apply always_call, keeps_refl | intros ts].
    apply (always_bind _ (keeps_trans P)); [apply IH | intros rest].
    apply always_ret, keeps_refl.
Qed.

End LmerSteps.

(** One step through a method of [Lmer] for a property its updates
    keep. *)
Ltac lmer_keeps_step P :=
  first
    [ apply keeps_lift
    | apply keeps_draw
    | apply keeps_print_all
    | apply keeps_permutations
    | apply keeps_except
    | keeps_step P ].

Ltac lmer_keeps P := repeat autounfold with lmer; repeat lmer_keeps_step P.

(** A property the step [Hstep] keeps holds after it: [Hnew]. *)
Ltac carry P Hstep HP Hnew :=
  match type of Hstep with
  | ?m ?w0 = (Ok ?x, ?w1) =>
      assert (Hnew : P (self w1))
        by (apply (keeps_run P m w0 x w1);
            [lmer_keeps P | exact Hstep | exact HP])
  end.

Section LmerReturns.

Variable R : REnv.t.

Lemma Lmer_describe_inference_run (a : Lmer.fit_args)
  (w : World (REnv.rng R) (Lmer.t (REnv.robj R))) :
  Lmer.describe_inference R a w
  = (Ok tt, {| self := Lmer.set_sig_type (lmer_sig_label a) (self w);
               gen := gen w; log := log w |}).
Proof.
  unfold Lmer.describe_inference, lmer_sig_label.
  destruct (Lmer.conf_int a =? "boot")%string; [reflexivity |].
  destruct (Lmer.permute a) as [p |]; [| reflexivity].
  destruct (negb (p =? 0)); reflexivity.
Qed.

Lemma Lmer_warn_run (s : string)
  (w : World (REnv.rng R) (Lmer.t (REnv.robj R))) :
  Lmer.warn R s w
  = (Ok tt, {| self := Lmer.set_warnings (Lmer.warnings (self w) ++ [s])
                         (self w);
               gen := gen w; log := log w ++ [Warn s] |}).
Proof. reflexivity. Qed.

(** The data handed to R, and what preparing them leaves on the
    object. *)
Lemma Lmer_prepare_data_ok (a : Lmer.fit_args)
  (w w1 : World (REnv.rng R) (Lmer.t (REnv.robj R))) dat :
  Lmer.prepare_data R a w = (Ok dat, w1) ->
  lmer_inputs (self w) (self w1)
  /\ Lmer.sig_type (self w1) = Lmer.sig_type (self w)
  /\ Lmer._permute (self w1) = Lmer._permute (self w)
  /\ Lmer._conf_int (self w1) = Lmer._conf_int (self w)
  /\ Lmer._REML (self w1) = Lmer._REML (self w)
  /\ (exists pre,
        Lmer.warnings (self w1) = Lmer.warnings (self w) ++ pre
        /\ (pre = [] \/ pre = [Lmer.rank_warning]))
  /\ (Lmer.truthy_factors (Lmer.arg_factors a) = true ->
      Lmer.factors (self w1) = Lmer.arg_factors a)
  /\ (Lmer.rank a = true ->
      exists ranked,
        REnv.to_ranks_by_group R (Lmer.data (self w)) (Lmer.rank_group a)
          (Lmer.formula (self w)) (Lmer.rank_exclude_cols a) = Some ranked
        /\ dat = REnv.as_rdata R ranked).
Proof.
  intros H. unfold Lmer.prepare_data in H.
  step H dat0 wa Hd.
  set (P := fun m : Lmer.t (REnv.robj R) =>
              lmer_inputs (self w) m
              /\ Lmer.sig_type m = Lmer.sig_type (self w)
              /\ Lmer._permute m = Lmer._permute (self w)
              /\ Lmer._conf_int m = Lmer._conf_int (self w)
              /\ Lmer._REML m = Lmer._REML (self w)
              /\ Lmer.warnings m = Lmer.warnings (self w)).
  assert (HP : P (self w)) by (repeat split).
  carry P Hd HP HPa.
  assert (Hfac : Lmer.truthy_factors (Lmer.arg_factors a) = true ->
                 Lmer.factors (self wa) = Lmer.arg_factors a).
  { destruct (Lmer.arg_factors a) as [[| f fs] |]; cbn; try discriminate.
    intros _.
    step Hd d wb Hmk. step Hd u wc Hu. apply update_ok in Hu. subst wc.
    inversion Hd; subst. reflexivity. }
  clear Hd.
  destruct HPa as (Hin & Hsig & Hp & Hc & Hr & Hw).
  destruct (Lmer.rank a) eqn:Hrank.
  - destruct (negb (truthy_str (Lmer.rank_group a))); [discriminate |].
    step H m wb Hm. inversion Hm; subst wb m; clear Hm.
    step H ranked wc Hrk. apply call_ok in Hrk. destruct Hrk as (Hrk & ->).
    step H u wd Hwarn.
    inversion H; subst dat w1; clear H.
    destruct Hin as (Hfam & Hform & Hres & Hdat).
    rewrite Hdat, Hform in Hrk.
    assert (Hend : self wd = self wa
                   \/ self wd
                      = Lmer.set_warnings
                          (Lmer.warnings (self wa) ++ [Lmer.rank_warning])
                          (self wa)).
    { destruct (Lmer.arg_factors a) as [[| f fs] |].
      - inversion Hwarn; auto.
      - destruct (negb (Lmer.same_set _ _)).
        + rewrite Lmer_warn_run in Hwarn. inversion Hwarn; subst. auto.
        + inversion Hwarn; auto.
      - inversion Hwarn; auto. }
    destruct Hend as [-> | ->]; cbn.
    + repeat split; try assumption.
      * exists []. rewrite app_nil_r. auto.
      * intros _. eauto.
    + repeat split; try assumption.
      * exists [Lmer.rank_warning]. rewrite Hw. auto.
      * intros _. eauto.
  - inversion H; subst dat0 w1; clear H.
    repeat split; try apply Hin; try assumption.
    + exists []. rewrite app_nil_r. auto.
    + discriminate.
Qed.

Lemma Lmer_fit_in_r_ok (a : Lmer.fit_args) (dat : REnv.rdata R)
  (w w1 : World (REnv.rng R) (Lmer.t (REnv.robj R))) obj :
  Lmer.fit_in_r R a dat w = (Ok obj, w1) ->
  Lmer.r_fit R (Lmer.family (self w)) (Lmer.formula (self w)) dat
    (Lmer.REML a) = Some obj
  /\ self w1 = Lmer.set_model_obj obj (self w).
Proof.
  intros H. unfold Lmer.fit_in_r in H.
  step H m wa Hm. inversion Hm; subst wa m; clear Hm.
  step H u wb Hu.
  assert (Hs : self wb = self w).
  { destruct (Lmer.verbose a); [| inversion Hu; reflexivity].
    destruct (Lmer.family (self w) =? "gaussian")%string;
      inversion Hu; reflexivity. }
  step H o wc Ho. apply call_ok in Ho. destruct Ho as (Ho & ->).
  step H u1 wd Hu1. apply update_ok in Hu1. subst wd.
  inversion H; subst. cbn. rewrite Hs. auto.
Qed.

Lemma Lmer_store_warnings_ok (a : Lmer.fit_args) (obj : REnv.robj R)
  (w w1 : World (REnv.rng R) (Lmer.t (REnv.robj R))) u :
  Lmer.store_warnings R a obj w = (Ok u, w1) ->
  Lmer.warnings (self w1)
  = match REnv.optinfo_warnings R obj ++ REnv.optinfo_messages R obj with
    | [] => []
    | ws => Lmer.warnings (self w) ++ ws
    end.
Proof.
  unfold Lmer.store_warnings. cbv zeta.
  destruct (REnv.optinfo_warnings R obj ++ REnv.optinfo_messages R obj)
    as [| x ws]; intros H.
  - apply update_ok in H. subst w1. reflexivity.
  - step H u0 wa Hu. apply update_ok in Hu. subst wa.
    set (P := fun m : Lmer.t (REnv.robj R) =>
                Lmer.warnings m = Lmer.warnings (self w) ++ x :: ws).
    match type of H with
    | ?m ?w0 = _ =>
        assert (Hk : always (keeps P) m) by lmer_keeps P;
        apply (keeps_run P _ _ _ _ Hk H)
    end.
    reflexivity.
Qed.

Lemma Lmer_add_residuals_ok
  (w w1 : World (REnv.rng R) (Lmer.t (REnv.robj R))) u :
  Lmer.add_residuals R w = (Ok u, w1) ->
  Lmer.resid (self w1) = Lmer.resid (self w)
  /\ nrows (Lmer.data (self w1)) = nrows (Lmer.data (self w))
  /\ (Lmer.resid (self w) = None ->
      Lmer.data (self w1)
      = set_col "residuals" (repeat NaN (nrows (Lmer.data (self w))))
          (Lmer.data (self w))).
Proof.
  unfold Lmer.add_residuals. intros H.
  step H m wa Hm. inversion Hm; subst wa m; clear Hm.
  destruct (Lmer.resid (self w)) as [r |] eqn:Hr.
  - destruct (Nat.eqb _ _) eqn:Hn.
    + apply update_ok in H. subst w1. cbn.
      split; [exact Hr |]. split; [| discriminate].
      apply Nat.eqb_eq in Hn. apply nrows_set_col.
      rewrite length_map. exact Hn.
    + inversion H; subst. cbn. split; [exact Hr |].
      split; [reflexivity | discriminate].
  - apply update_ok in H. subst w1. cbn.
    split; [exact Hr |]. split; [| reflexivity].
    apply nrows_set_col, repeat_length.
Qed.

Lemma Lmer_add_fits_ok (obj : REnv.robj R)
  (w w1 : World (REnv.rng R) (Lmer.t (REnv.robj R))) u :
  Lmer.add_fits R obj w = (Ok u, w1) ->
  exists fv,
    REnv.fitted R obj = Some fv
    /\ Lmer.fits (self w1) = Some fv
    /\ Lmer.resid (self w1) = Lmer.resid (self w)
    /\ Lmer.data (self w1)
       = if Nat.eqb (List.length fv) (nrows (Lmer.data (self w)))
         then set_col "fits" (map Num fv) (Lmer.data (self w))
         else Lmer.data (self w).
Proof.
  unfold Lmer.add_fits. intros H.
  step H fv wa Hf. apply call_ok in Hf. destruct Hf as (Hf & ->).
  step H u0 wb Hu. apply update_ok in Hu. subst wb.
  step H m wc Hm. inversion Hm; subst wc m; clear Hm.
  cbn [self Lmer.data Lmer.set_fits] in H.
  exists fv. split; [exact Hf |].
  destruct (Nat.eqb _ _).
  - apply update_ok in H. subst w1. cbn. auto.
  - inversion H; subst. cbn. auto.
Qed.

Lemma Lmer_summary_ok
  (w w1 : World (REnv.rng R) (Lmer.t (REnv.robj R))) (s : Table) :
  Lmer.summary R w = (Ok s, w1) ->
  self w1 = self w
  /\ exists tb, Lmer.coefs (self w) = Some tb /\ s = round_table tb.
Proof.
  intros H.
  set (P := fun m : Lmer.t (REnv.robj R) => m = self w).
  assert (Hs : self w1 = self w).
  { assert (Hk : always (keeps P) (Lmer.summary R)) by lmer_keeps P.
    apply (keeps_run P _ _ _ _ Hk H). reflexivity. }
  split; [exact Hs |].
  unfold Lmer.summary in H.
  step H m wa Hm. inversion Hm; subst wa m; clear Hm.
  destruct (negb (Lmer.fitted (self w))); [discriminate |].
  repeat (let u := fresh "u" in
          let v := fresh "v" in
          let Hv := fresh "Hv" in
          step H u v Hv).
  destruct (Lmer.coefs (self w)) as [tb |]; [| discriminate].
  inversion H. eauto.
Qed.

(** A fit that returns went through every step. *)
Lemma Lmer_fit_ok (a : Lmer.fit_args)
  (w w' : World (REnv.rng R) (Lmer.t (REnv.robj R))) r :
  Lmer.fit R a w = (Ok r, w') ->
  exists dat w1 obj wa wb df perms tb fv,
    Lmer.prepare_data R a
      {| self := Lmer.set_params (Lmer.permute a) (Lmer.conf_int a)
                   (Lmer.REML a) (self w);
         gen := gen w; log := log w |} = (Ok dat, w1)
    /\ Lmer.r_fit R (Lmer.family (self w)) (Lmer.formula (self w)) dat
         (Lmer.REML a) = Some obj
    /\ Lmer.family (self wa) = Lmer.family (self w)
    /\ Lmer.estimates R a obj wa = (Ok df, wb)
    /\ Lmer.inference_columns (Lmer.conf_int a) (Lmer.permute a)
         (Lmer.family (self w)) perms df = Ok tb
    /\ Lmer.coefs (self w') = Some tb
    /\ Lmer.fitted (self w') = true
    /\ Lmer.model_obj (self w') = Some obj
    /\ Lmer.sig_type (self w') = Some (lmer_sig_label a)
    /\ Lmer._permute (self w') = Some (Lmer.permute a)
    /\ Lmer._conf_int (self w') = Some (Lmer.conf_int a)
    /\ Lmer._REML (self w') = Some (Lmer.REML a)
    /\ Lmer.factors (self w') = Lmer.factors (self w1)
    /\ Lmer.warnings (self w')
       = match REnv.optinfo_warnings R obj ++ REnv.optinfo_messages R obj
         with
         | [] => []
         | ws => Lmer.warnings (self w1) ++ ws
         end
    /\ Lmer.resid (self w') = Lmer.resid (self w)
    /\ (Lmer.resid (self w) = None ->
        Lmer.data (self w')
        = let d := set_col "residuals"
                     (repeat NaN (nrows (Lmer.data (self w))))
                     (Lmer.data (self w)) in
          if Nat.eqb (List.length fv) (nrows (Lmer.data (self w)))
          then set_col "fits" (map Num fv) d else d)
    /\ REnv.fitted R obj = Some fv
    /\ Lmer.fits (self w') = Some fv
    /\ r = if Lmer.summarize a then Some (round_table tb) else None.
Proof.
  intros H. unfold Lmer.fit in H.
  step H u0 w0 H0. apply update_ok in H0. subst w0.
  step H dat w1 Hprep.
  destruct (Lmer_prepare_data_ok _ _ _ _ Hprep)
    as (Hin1 & _ & Hp1 & Hc1 & Hr1 & _).
  cbn [self Lmer.set_params Lmer.family Lmer.formula Lmer.resid Lmer.data
       Lmer._permute Lmer._conf_int Lmer._REML] in Hin1, Hp1, Hc1, Hr1.
  set (P := lmer_inputs (self w)).
  assert (HP1 : P (self w1)) by exact Hin1.
  step H u1 w2 Hdesc. rewrite Lmer_describe_inference_run in Hdesc.
  inversion Hdesc; subst u1 w2; clear Hdesc.
  (* what the rest of the call keeps of the arguments *)
  set (Q := fun m : Lmer.t (REnv.robj R) =>
              Lmer.sig_type m = Some (lmer_sig_label a)
              /\ Lmer._permute m = Some (Lmer.permute a)
              /\ Lmer._conf_int m = Some (Lmer.conf_int a)
              /\ Lmer._REML m = Some (Lmer.REML a)
              /\ Lmer.factors m = Lmer.factors (self w1)).
  assert (HQ : Q (self w')).
  { match type of H with
    | ?m ?w0 = _ =>
        assert (Hk : always (keeps Q) m) by lmer_keeps Q;
        apply (keeps_run Q _ _ _ _ Hk H)
    end.
    cbn. repeat split; assumption. }
  destruct HQ as (Hsig & Hpm & Hci & Hreml & Hfac).
  step H obj w3 Hfit.
  assert (HP3 : P (self w3)).
  { destruct (Lmer_fit_in_r_ok _ _ _ _ _ Hfit) as (_ & ->). exact HP1. }
  destruct (Lmer_fit_in_r_ok _ _ _ _ _ Hfit) as (Hrfit & Hself3).
  cbn [self Lmer.set_sig_type Lmer.family Lmer.formula] in Hrfit.
  destruct HP1 as (Hfam1 & Hform1 & Hres1 & Hdat1).
  rewrite Hfam1, Hform1 in Hrfit.
  set (Qo := fun m : Lmer.t (REnv.robj R) => Lmer.model_obj m = Some obj).
  assert (Hobj : Qo (self w')).
  { match type of H with
    | ?m ?w0 = _ =>
        assert (Hk : always (keeps Qo) m) by lmer_keeps Qo;
        apply (keeps_run Qo _ _ _ _ Hk H)
    end.
    unfold Qo. rewrite Hself3. reflexivity. }
  step H u2 w4 Hann. carry P Hann HP3 HP4.
  step H u3 w5 Hsum. carry P Hsum HP4 HP5.
  step H u4 w6 Hwarn. carry P Hwarn HP5 HP6.
  assert (Hw6 : Lmer.warnings (self w6)
                = match REnv.optinfo_warnings R obj
                        ++ REnv.optinfo_messages R obj with
                  | [] => []
                  | ws => Lmer.warnings (self w1) ++ ws
                  end).
  { rewrite (Lmer_store_warnings_ok _ _ _ _ _ Hwarn).
    set (Qw := fun m : Lmer.t (REnv.robj R) =>
                 Lmer.warnings m = Lmer.warnings (self w1)).
    assert (Hw3 : Qw (self w3)) by (unfold Qw; rewrite Hself3; reflexivity).
    carry Qw Hann Hw3 Hw4. carry Qw Hsum Hw4 Hw5.
    unfold Qw in Hw5. rewrite Hw5. reflexivity. }
  set (Qw := fun m : Lmer.t (REnv.robj R) =>
               Lmer.warnings m = Lmer.warnings (self w6)).
  assert (Hwarns : Qw (self w')).
  { match type of H with
    | ?m ?w0 = _ =>
        assert (Hk : always (keeps Qw) m) by lmer_keeps Qw;
        apply (keeps_run Qw _ _ _ _ Hk H)
    end.
    reflexivity. }
  step H df w7 Hest. carry P Hest HP6 HP7.
  step H perms w8 Hperm. carry P Hperm HP7 HP8.
  step H m w9 Hm. inversion Hm; subst w9 m; clear Hm.
  step H tb w10 Htb. apply lift_ok in Htb. destruct Htb as (Htb & ->).
  step H u5 w11 Hst.
  assert (Hself11 : self w11
                    = Lmer.set_fitted true (Lmer.set_coefs tb (self w8))).
  { unfold Lmer.store_coefs in Hst.
    step Hst u wx Hu. apply update_ok in Hu. subst wx.
    apply update_ok in Hst. subst w11. reflexivity. }
  set (Qc := fun m : Lmer.t (REnv.robj R) =>
               Lmer.coefs m = Some tb /\ Lmer.fitted m = true).
  assert (Hcoefs : Qc (self w')).
  { match type of H with
    | ?m ?w0 = _ =>
        assert (Hk : always (keeps Qc) m) by lmer_keeps Qc;
        apply (keeps_run Qc _ _ _ _ Hk H)
    end.
    unfold Qc. rewrite Hself11. split; reflexivity. }
  assert (HP11 : P (self w11)) by (rewrite Hself11; exact HP8).
  step H u6 w12 Hre. carry P Hre HP11 HP12.
  step H u7 w13 Hcc. carry P Hcc HP12 HP13.
  step H u8 w14 Hcd. carry P Hcd HP13 HP14.
  step H u9 w15 Hsd. carry P Hsd HP14 HP15.
  step H u10 w16 Har.
  destruct (Lmer_add_residuals_ok _ _ _ Har) as (Hres16 & Hn16 & Hdat16).
  step H u11 w17 Haf.
  destruct (Lmer_add_fits_ok _ _ _ _ Haf)
    as (fv & Hfv & Hfits17 & Hres17 & Hdat17).
  assert (Hend : self w' = self w17
                 /\ r = if Lmer.summarize a then Some (round_table tb)
                        else None).
  { destruct (Lmer.summarize a).
    - step H s w18 Hs. apply Lmer_summary_ok in Hs.
      destruct Hs as (Hself & tb' & Htb' & ->).
      inversion H; subst. split; [exact Hself |].
      destruct Hcoefs as (Hco & _). rewrite Hself, Htb' in Hco.
      inversion Hco. reflexivity.
    - inversion H; subst. split; reflexivity. }
  destruct Hend as (Hself' & Hr).
  destruct HP6 as (Hfam6 & _).
  destruct HP8 as (Hfam8 & _).
  destruct HP15 as (_ & _ & Hres15 & Hdat15).
  exists dat, w1, obj, w6, w7, df, perms, tb, fv.
  rewrite Hfam8 in Htb.
  split; [exact Hprep |]. split; [exact Hrfit |]. split; [exact Hfam6 |].
  split; [exact Hest |]. split; [exact Htb |].
  split; [apply Hcoefs |]. split; [apply Hcoefs |]. split; [exact Hobj |].
  split; [exact Hsig |]. split; [exact Hpm |]. split; [exact Hci |].
  split; [exact Hreml |]. split; [exact Hfac |].
  split; [unfold Qw in Hwarns; rewrite Hwarns; exact Hw6 |].
  rewrite Hself'.
  split; [rewrite Hres17, Hres16; exact Hres15 |].
  split.
  { intros Hnone. rewrite Hdat17, Hn16.
    rewrite Hdat16 by (rewrite Hres15; exact Hnone).
    rewrite Hdat15. reflexivity. }
  split; [exact Hfv |]. split; [exact Hfits17 | exact Hr].
Qed.

End LmerReturns.

(** * What a call of [Lmer.fit] leaves *)

Lemma has_col_drop_cols (name : string) (names : list string)
  (df : DataFrame) :
  In name names -> has_col name (drop_cols names df) = false.
Proof.
  intros Hin. unfold has_col, columns, drop_cols.
  induction df as [| [k c] rest IH]; cbn; [reflexivity |].
  destruct (existsb (fun n => (n =? k)%string) names) eqn:Hex; cbn.
  - exact IH.
  - rewrite IH. destruct (k =? name)%string eqn:Hk; [| reflexivity].
    apply String.eqb_eq in Hk. subst k.
    assert (Ht : existsb (fun n => (n =? name)%string) names = true).
    { apply existsb_exists. exists name. split; [exact Hin |].
      apply String.eqb_refl. }
    rewrite Ht in Hex. discriminate.
Qed.

Lemma has_col_drop_cols_other (name : string) (names : list string)
  (df : DataFrame) :
  has_col name df = false -> has_col name (drop_cols names df) = false.
Proof.
  unfold has_col, columns, drop_cols.
  induction df as [| [k c] rest IH]; cbn; [reflexivity |].
  destruct (k =? name)%string eqn:Hk; cbn; [discriminate |].
  intros H. destruct (negb _); cbn; [rewrite Hk |]; auto.
Qed.

Lemma get_col_drop_cols_other (name : string) (names : list string)
  (df : DataFrame) :
  ~ In name names ->
  get_col name (drop_cols names df) = get_col name df.
Proof.
  intros Hnot. unfold drop_cols.
  induction df as [| [k c] rest IH]; cbn; [reflexivity |].
  destruct (existsb (fun n => (n =? k)%string) names) eqn:Hex; cbn.
  - destruct (k =? name)%string eqn:Hk; [| exact IH].
    apply String.eqb_eq in Hk. subst k.
    apply existsb_exists in Hex. destruct Hex as (n & Hn & He).
    apply String.eqb_eq in He. subst n. contradiction.
  - destruct (k =? name)%string; [reflexivity | exact IH].
Qed.

(** The marker of each pair of bounds that are numbers. *)
Lemma interval_markers (lo hi marks : column) :
  LmQueries.for_all Lmer.interval_marker (combine lo hi) = Ok marks ->
  forall (i : nat) (l h : Q),
    nth_error lo i = Some (Num l) ->
    nth_error hi i = Some (Num h) ->
    nth_error marks i
    = Some (Str (if Qlt_le_dec 0 (l * h) then "*" else EmptyString)).
Proof.
  revert hi marks. induction lo as [| x lo IH]; intros hi marks H i l h Hl Hh.
  - destruct i; discriminate.
  - destruct hi as [| y hi]; [destruct i; discriminate |].
    cbn [combine LmQueries.for_all] in H.
    destruct (Lmer.interval_marker (x, y)) as [m | e] eqn:Hm;
      [| discriminate].
    destruct (LmQueries.for_all Lmer.interval_marker (combine lo hi))
      as [ms | e] eqn:Hms; [| discriminate].
    inversion H; subst marks; clear H.
    destruct i as [| i]; cbn in Hl, Hh |- *.
    + inversion Hl; subst x. inversion Hh; subst y.
      cbn in Hm. inversion Hm. reflexivity.
    + apply (IH hi ms Hms i l h Hl Hh).
Qed.

(** The marks of bootstrapped intervals replace the p-values, the
    degrees of freedom and the stars. *)
Lemma bootstrap_marks_ok (df tb : Table) :
  Lmer.bootstrap_marks df = Ok tb ->
  index tb = index df
  /\ has_col "P-val" (cols tb) = false
  /\ has_col "DF" (cols tb) = false
  /\ exists lo hi marks,
       get_col "2.5_ci" (cols df) = Some lo
       /\ get_col "97.5_ci" (cols df) = Some hi
       /\ get_col "2.5_ci" (cols tb) = Some lo
       /\ get_col "97.5_ci" (cols tb) = Some hi
       /\ LmQueries.for_all Lmer.interval_marker (combine lo hi) = Ok marks
       /\ get_col "Sig" (cols tb) = Some marks.
Proof.
  unfold Lmer.bootstrap_marks.
  destruct (negb _); [discriminate |]. cbv zeta.
  set (dropped := drop_cols ["P-val"; "Sig"]%string (cols df)).
  set (kept := if has_col "DF" dropped then drop_cols ["DF"%string] dropped
               else dropped).
  assert (Hp : has_col "P-val" kept = false).
  { unfold kept. destruct (has_col "DF" dropped).
    - apply has_col_drop_cols_other. apply has_col_drop_cols. cbn. auto.
    - apply has_col_drop_cols. cbn. auto. }
  assert (Hd : has_col "DF" kept = false).
  { unfold kept. destruct (has_col "DF" dropped) eqn:Hdf.
    - apply has_col_drop_cols. cbn. auto.
    - exact Hdf. }
  assert (Hg : forall n, n <> "P-val"%string -> n <> "Sig"%string ->
                         n <> "DF"%string ->
                         get_col n kept = get_col n (cols df)).
  { intros n H1 H2 H3. unfold kept, dropped.
    destruct (has_col "DF" _).
    - rewrite get_col_drop_cols_other by (cbn; intuition congruence).
      apply get_col_drop_cols_other. cbn. intuition congruence.
    - apply get_col_drop_cols_other. cbn. intuition congruence. }
  destruct (get_col "2.5_ci" kept) as [lo |] eqn:Hlo; [| discriminate].
  destruct (get_col "97.5_ci" kept) as [hi |] eqn:Hhi; [| discriminate].
  destruct (LmQueries.for_all _ _) as [marks | e] eqn:Hm; [| discriminate].
  intros H. inversion H; subst tb; clear H. cbn [index cols].
  split; [reflexivity |].
  split; [rewrite has_col_set_col_other by discriminate; exact Hp |].
  split; [rewrite has_col_set_col_other by discriminate; exact Hd |].
  exists lo, hi, marks.
  rewrite <- (Hg "2.5_ci"%string), <- (Hg "97.5_ci"%string)
    by discriminate.
  rewrite !get_col_set_col_other by discriminate.
  rewrite get_col_set_col_same. repeat split; assumption.
Qed.

Lemma mark_significance_ok (df tb : Table) :
  Lmer.mark_significance df = Ok tb ->
  index tb = index df
  /\ forall name, name <> "Sig"%string ->
                  get_col name (cols tb) = get_col name (cols df).
Proof.
  unfold Lmer.mark_significance.
  destruct (get_col "P-val" (cols df)) as [c |].
  - destruct (Lmer.stars_of c) as [s | e]; [| discriminate].
    intros H; inversion H; subst; cbn. split; [reflexivity |].
    intros name Hne. apply get_col_set_col_other, Hne.
  - destruct (get_col "Perm-P-val" (cols df)) as [c |].
    + destruct (Lmer.stars_of c) as [s | e]; [| discriminate].
      intros H; inversion H; subst; cbn. split; [reflexivity |].
      intros name Hne. apply get_col_set_col_other, Hne.
    + intros H; inversion H. auto.
Qed.

(** With bootstrapped intervals and [permute=None], the table has no
    p-values: lines 570-577. *)
Lemma inference_columns_boot (family : string) (perms : list (list Q))
  (df tb : Table) :
  Lmer.inference_columns "boot" None family perms df = Ok tb ->
  index tb = index df
  /\ has_col "P-val" (cols tb) = false
  /\ has_col "DF" (cols tb) = false
  /\ exists lo hi marks,
       get_col "2.5_ci" (cols df) = Some lo
       /\ get_col "97.5_ci" (cols df) = Some hi
       /\ get_col "2.5_ci" (cols tb) = Some lo
       /\ get_col "97.5_ci" (cols tb) = Some hi
       /\ LmQueries.for_all Lmer.interval_marker (combine lo hi) = Ok marks
       /\ get_col "Sig" (cols tb) = Some marks.
Proof.
  unfold Lmer.inference_columns.
  destruct (Lmer.mark_significance df) as [df2 | e] eqn:Hm; [| discriminate].
  change (("boot" =? "boot")%string) with true. cbv iota.
  destruct (Lmer.bootstrap_marks df2) as [df3 | e] eqn:Hb; [| discriminate].
  cbn [truthy_int]. intros H. inversion H; subst df3; clear H.
  apply bootstrap_marks_ok in Hb.
  destruct Hb as (Hi & Hp & Hd & lo & hi & marks & Hlo & Hhi & Hlo' & Hhi'
                  & Hmk & Hs).
  destruct (mark_significance_ok _ _ Hm) as (Hidx & Hcols).
  rewrite Hcols in Hlo, Hhi by discriminate.
  rewrite Hidx in Hi.
  split; [exact Hi |]. split; [exact Hp |]. split; [exact Hd |].
  exists lo, hi, marks. repeat split; assumption.
Qed.



Section LmerProperties.

Variable R : REnv.t.

(** Ranks without a group to rank within are refused. *)
Lemma Lmer_prepare_data_needs_group (a : Lmer.fit_args)
  (w w1 : World (REnv.rng R) (Lmer.t (REnv.robj R))) dat :
  Lmer.rank a = true ->
  truthy_str (Lmer.rank_group a) = false ->
  Lmer.prepare_data R a w = (Ok dat, w1) ->
  False.
Proof.
  intros Hrank Hgroup H. unfold Lmer.prepare_data in H.
  step H dat0 wa Hd. rewrite Hrank, Hgroup in H. discriminate.
Qed.

(** The warnings the preparation of the data adds. *)
Lemma Lmer_prepare_data_warnings (a : Lmer.fit_args)
  (w w1 : World (REnv.rng R) (Lmer.t (REnv.robj R))) dat :
  Lmer.prepare_data R a w = (Ok dat, w1) ->
  Lmer.warnings (self w1) = Lmer.warnings (self w) ++ lmer_rank_warnings a.
Proof.
  intros H. unfold Lmer.prepare_data in H.
  step H dat0 wa Hd.
  set (P := fun m : Lmer.t (REnv.robj R) =>
              Lmer.warnings m = Lmer.warnings (self w)).
  assert (HP : P (self w)) by reflexivity.
  carry P Hd HP Hwa. unfold P in Hwa. clear Hd.
  unfold lmer_rank_warnings.
  destruct (Lmer.rank a).
  - destruct (negb (truthy_str (Lmer.rank_group a))); [discriminate |].
    step H m wb Hm. inversion Hm; subst wb m; clear Hm.
    step H ranked wc Hrk. apply call_ok in Hrk. destruct Hrk as (_ & ->).
    step H u wd Hwarn.
    inversion H; subst dat w1; clear H.
    destruct (Lmer.arg_factors a) as [[| f fs] |].
    + inversion Hwarn; subst. rewrite app_nil_r. exact Hwa.
    + cbn [andb].
      destruct (negb (Lmer.same_set _ _)).
      * rewrite Lmer_warn_run in Hwarn. inversion Hwarn; subst. cbn.
        rewrite Hwa. reflexivity.
      * inversion Hwarn; subst. rewrite app_nil_r. exact Hwa.
    + inversion Hwarn; subst. rewrite app_nil_r. exact Hwa.
  - inversion H; subst dat0 w1; clear H.
    destruct (Lmer.arg_factors a) as [[| f fs] |]; cbn [andb];
      rewrite app_nil_r; exact Hwa.
Qed.

(** Whatever happens, [fit] leaves the family, the formula and the mark
    of ranked data of the model alone. *)
Lemma Lmer_fit_keeps_description (a : Lmer.fit_args) (fam form : string)
  (rk : bool) :
  always (keeps (fun m : Lmer.t (REnv.robj R) =>
                   Lmer.family m = fam /\ Lmer.formula m = form
                   /\ Lmer.ranked_data m = rk))
    (Lmer.fit R a).
Proof.
  set (P := fun m : Lmer.t (REnv.robj R) =>
              Lmer.family m = fam /\ Lmer.formula m = form
              /\ Lmer.ranked_data m = rk).
  lmer_keeps P.
Qed.


End LmerProperties.

(** X24.  [Lmer.fit] with [rank=True] and no [rank_group] never returns.
    Without factors it raises the [ValueError] that asks for
    [rank_group], having saved [permute], [conf_int] and [REML] on the
    model and done nothing else: nothing is printed, warned about or
    drawn. *)
Theorem Lmer_fit_rank_needs_group (R : REnv.t) (a : Lmer.fit_args)
  (w : World (REnv.rng R) (Lmer.t (REnv.robj R))) :
  Lmer.rank a = true ->
  truthy_str (Lmer.rank_group a) = false ->
  (forall r, fst (Lmer.fit R a w) <> Ok r)
  /\ (Lmer.truthy_factors (Lmer.arg_factors a) = false ->
      Lmer.fit R a w
      = (Raise (ValueError "rank_group must be provided if rank is True"),
         {| self := Lmer.set_params (Lmer.permute a) (Lmer.conf_int a)
                      (Lmer.REML a) (self w);
            gen := gen w; log := log w |})).
Proof.
  intros Hrank Hgroup. split.
  - intros r Hok.
    destruct (Lmer.fit R a w) as [res w'] eqn:Hfit. cbn in Hok. subst res.
    apply Lmer_fit_ok in Hfit.
    destruct Hfit as (dat & w1 & obj & wa & wb & df & perms & tb & fv
                      & Hprep & _).
    exact (Lmer_prepare_data_needs_group R a _ _ _ Hrank Hgroup Hprep).
  - intros Hfac. unfold Lmer.fit, Lmer.prepare_data.
    rewrite Hrank, Hgroup.
    destruct (Lmer.arg_factors a) as [[| f fs] |]; try discriminate;
      reflexivity.
Qed.

Lemma Lmer_fit_rank_needs_group_witness :
  (forall r, fst (Lmer.fit Sample.renv Sample.lmer_rank_only
                    (Sample.lmer_world "gaussian")) <> Ok r)
  /\ (Lmer.truthy_factors (Lmer.arg_factors Sample.lmer_rank_only) = false ->
      Lmer.fit Sample.renv Sample.lmer_rank_only
        (Sample.lmer_world "gaussian")
      = (Raise (ValueError "rank_group must be provided if rank is True"),
         {| self := Lmer.set_params (Lmer.permute Sample.lmer_rank_only)
                      (Lmer.conf_int Sample.lmer_rank_only)
                      (Lmer.REML Sample.lmer_rank_only)
                      (self (Sample.lmer_world "gaussian"));
            gen := gen (Sample.lmer_world "gaussian");
            log := log (Sample.lmer_world "gaussian") |})).
Proof.
  apply (Lmer_fit_rank_needs_group Sample.renv Sample.lmer_rank_only
           (Sample.lmer_world "gaussian")); reflexivity.
Defined.

(** X25.  An [Lmer.fit] that returns has marked the model as fitted and
    saved [permute], [conf_int] and [REML] on it; the type of the
    inference it records is [bootstrapped] whenever [conf_int] is
    ["boot"], also when permutations were asked for, else [permutation]
    with their number, else [parametric].  The family, the formula and
    the mark of ranked data are as before.  The call returns [None]
    without [summarize], and with it the coefficients rounded to three
    decimals. *)
Theorem Lmer_fit_records_its_settings (R : REnv.t) (a : Lmer.fit_args)
  (w : World (REnv.rng R) (Lmer.t (REnv.robj R))) (r : option Table) :
  fst (Lmer.fit R a w) = Ok r ->
  Lmer.fitted (self (snd (Lmer.fit R a w))) = true
  /\ Lmer._permute (self (snd (Lmer.fit R a w))) = Some (Lmer.permute a)
  /\ Lmer._conf_int (self (snd (Lmer.fit R a w))) = Some (Lmer.conf_int a)
  /\ Lmer._REML (self (snd (Lmer.fit R a w))) = Some (Lmer.REML a)
  /\ Lmer.sig_type (self (snd (Lmer.fit R a w))) = Some (lmer_sig_label a)
  /\ ((Lmer.conf_int a =? "boot")%string = true ->
      Lmer.sig_type (self (snd (Lmer.fit R a w)))
      = Some "bootstrapped"%string)
  /\ Lmer.family (self (snd (Lmer.fit R a w))) = Lmer.family (self w)
  /\ Lmer.formula (self (snd (Lmer.fit R a w))) = Lmer.formula (self w)
  /\ Lmer.ranked_data (self (snd (Lmer.fit R a w)))
     = Lmer.ranked_data (self w)
  /\ exists tb,
       Lmer.coefs (self (snd (Lmer.fit R a w))) = Some tb
       /\ r = if Lmer.summarize a then Some (round_table tb) else None.
Proof.
  intros Hok.
  pose proof (Lmer_fit_keeps_description R a (Lmer.family (self w))
                (Lmer.formula (self w)) (Lmer.ranked_data (self w)) w)
    as Hkeep.
  destruct (Lmer.fit R a w) as [res w'] eqn:Hfit. cbn in Hok. subst res.
  cbn [snd] in *.
  destruct Hkeep as (Hfam & Hform & Hrk); [auto |].
  apply Lmer_fit_ok in Hfit.
  destruct Hfit as (dat & w1 & obj & wa & wb & df & perms & tb & fv & _ & _
                    & _ & _ & _ & Hco & Hfitted & _ & Hsig & Hpm & Hci
                    & Hreml & _ & _ & _ & _ & _ & _ & Hr).
  split; [exact Hfitted |]. split; [exact Hpm |]. split; [exact Hci |].
  split; [exact Hreml |]. split; [exact Hsig |].
  split.
  { intros Hboot. rewrite Hsig. unfold lmer_sig_label. rewrite Hboot.
    reflexivity. }
  split; [exact Hfam |]. split; [exact Hform |]. split; [exact Hrk |].
  exists tb. split; assumption.
Qed.

Lemma Lmer_fit_records_its_settings_witness :
  Lmer.fitted (self (snd (Lmer.fit Sample.renv Sample.lmer_boot
                            (Sample.lmer_world "gaussian")))) = true
  /\ Lmer._permute (self (snd (Lmer.fit Sample.renv Sample.lmer_boot
                                 (Sample.lmer_world "gaussian"))))
     = Some (Lmer.permute Sample.lmer_boot)
  /\ Lmer._conf_int (self (snd (Lmer.fit Sample.renv Sample.lmer_boot
                                  (Sample.lmer_world "gaussian"))))
     = Some (Lmer.conf_int Sample.lmer_boot)
  /\ Lmer._REML (self (snd (Lmer.fit Sample.renv Sample.lmer_boot
                              (Sample.lmer_world "gaussian"))))
     = Some (Lmer.REML Sample.lmer_boot)
  /\ Lmer.sig_type (self (snd (Lmer.fit Sample.renv Sample.lmer_boot
                                 (Sample.lmer_world "gaussian"))))
     = Some (lmer_sig_label Sample.lmer_boot)
  /\ ((Lmer.conf_int Sample.lmer_boot =? "boot")%string = true ->
      Lmer.sig_type (self (snd (Lmer.fit Sample.renv Sample.lmer_boot
                                  (Sample.lmer_world "gaussian"))))
      = Some "bootstrapped"%string)
  /\ Lmer.family (self (snd (Lmer.fit Sample.renv Sample.lmer_boot
                               (Sample.lmer_world "gaussian"))))
     = Lmer.family (self (Sample.lmer_world "gaussian"))
  /\ Lmer.formula (self (snd (Lmer.fit Sample.renv Sample.lmer_boot
                                (Sample.lmer_world "gaussian"))))
     = Lmer.formula (self (Sample.lmer_world "gaussian"))
  /\ Lmer.ranked_data (self (snd (Lmer.fit Sample.renv Sample.lmer_boot
                                    (Sample.lmer_world "gaussian"))))
     = Lmer.ranked_data (self (Sample.lmer_world "gaussian"))
  /\ exists tb,
       Lmer.coefs (self (snd (Lmer.fit Sample.renv Sample.lmer_boot
                                (Sample.lmer_world "gaussian")))) = Some tb
       /\ None = if Lmer.summarize Sample.lmer_boot
                 then Some (round_table tb) else None.
Proof.
  apply (Lmer_fit_records_its_settings Sample.renv Sample.lmer_boot
           (Sample.lmer_world "gaussian") None).
  vm_compute. reflexivity.
Defined.



(** X27.  With [conf_int="boot"] and [permute=None], the table of an
    [Lmer.fit] that returns has no column [P-val] and no column [DF];
    it has the bounds [2.5_ci] and [97.5_ci], and its column [Sig] has
    an entry for each pair of bounds: for bounds that are numbers, ["*"]
    when their product is positive - the interval leaves zero out - and
    the empty string otherwise. *)
Theorem Lmer_fit_boot_marks (R : REnv.t) (a : Lmer.fit_args)
  (w : World (REnv.rng R) (Lmer.t (REnv.robj R))) (r : option Table) :
  fst (Lmer.fit R a w) = Ok r ->
  Lmer.conf_int a = "boot"%string ->
  Lmer.permute a = None ->
  exists tb lo hi marks,
    Lmer.coefs (self (snd (Lmer.fit R a w))) = Some tb
    /\ has_col "P-val" (cols tb) = false
    /\ has_col "DF" (cols tb) = false
    /\ get_col "2.5_ci" (cols tb) = Some lo
    /\ get_col "97.5_ci" (cols tb) = Some hi
    /\ get_col "Sig" (cols tb) = Some marks
    /\ List.length marks = List.length (combine lo hi)
    /\ forall (i : nat) (l h : Q),
         nth_error lo i = Some (Num l) ->
         nth_error hi i = Some (Num h) ->
         nth_error marks i
         = Some (Str (if Qlt_le_dec 0 (l * h) then "*" else EmptyString)).
Proof.
  intros Hok Hboot Hperm.
  destruct (Lmer.fit R a w) as [res w'] eqn:Hfit. cbn in Hok. subst res.
  cbn [snd] in *.
  apply Lmer_fit_ok in Hfit.
  destruct Hfit as (dat & w1 & obj & wa & wb & df & perms & tb & fv & _ & _
                    & _ & _ & Htb & Hco & _).
  rewrite Hboot, Hperm in Htb.
  apply inference_columns_boot in Htb.
  destruct Htb as (_ & Hp & Hd & lo & hi & marks & _ & _ & Hlo & Hhi & Hmk
                   & Hs).
  exists tb, lo, hi, marks.
  split; [exact Hco |]. split; [exact Hp |]. split; [exact Hd |].
  split; [exact Hlo |]. split; [exact Hhi |]. split; [exact Hs |].
  split; [apply (for_all_length _ _ _ Hmk) |].
  apply interval_markers, Hmk.
Qed.

Lemma Lmer_fit_boot_marks_witness :
  exists tb lo hi marks,
    Lmer.coefs (self (snd (Lmer.fit Sample.renv Sample.lmer_boot
                             (Sample.lmer_world "gaussian")))) = Some tb
    /\ has_col "P-val" (cols tb) = false
    /\ has_col "DF" (cols tb) = false
    /\ get_col "2.5_ci" (cols tb) = Some lo
    /\ get_col "97.5_ci" (cols tb) = Some hi
    /\ get_col "Sig" (cols tb) = Some marks
    /\ List.length marks = List.length (combine lo hi)
    /\ forall (i : nat) (l h : Q),
         nth_error lo i = Some (Num l) ->
         nth_error hi i = Some (Num h) ->
         nth_error marks i
         = Some (Str (if Qlt_le_dec 0 (l * h) then "*" else EmptyString)).
Proof.
  apply (Lmer_fit_boot_marks Sample.renv Sample.lmer_boot
           (Sample.lmer_world "gaussian") None);
    [vm_compute; reflexivity | reflexivity | reflexivity].
Defined.

(** X28.  The warnings of the model after an [Lmer.fit] that returns.
    When R has neither warnings nor messages about the fit, the list is
    empty: the warnings of earlier fits and the warning about ranks and
    factors this call may have appended are gone.  When R has some, the
    list is the one the model had, then the warning about ranks and
    factors if this call gave it, then the warnings and the messages of
    R, in this order. *)
Theorem Lmer_fit_warnings (R : REnv.t) (a : Lmer.fit_args)
  (w : World (REnv.rng R) (Lmer.t (REnv.robj R))) (r : option Table) :
  fst (Lmer.fit R a w) = Ok r ->
  exists obj,
    Lmer.model_obj (self (snd (Lmer.fit R a w))) = Some obj
    /\ Lmer.warnings (self (snd (Lmer.fit R a w)))
       = match REnv.optinfo_warnings R obj ++ REnv.optinfo_messages R obj
         with
         | [] => []
         | said => Lmer.warnings (self w) ++ lmer_rank_warnings a ++ said
         end.
Proof.
  intros Hok.
  destruct (Lmer.fit R a w) as [res w'] eqn:Hfit. cbn in Hok. subst res.
  cbn [snd] in *.
  apply Lmer_fit_ok in Hfit.
  destruct Hfit as (dat & w1 & obj & wa & wb & df & perms & tb & fv & Hprep
                    & _ & _ & _ & _ & _ & _ & Hobj & _ & _ & _ & _ & _
                    & Hwarn & _).
  exists obj. split; [exact Hobj |].
  rewrite Hwarn. apply Lmer_prepare_data_warnings in Hprep.
  cbn [self Lmer.set_params Lmer.warnings] in Hprep. rewrite Hprep.
  destruct (REnv.optinfo_warnings R obj ++ REnv.optinfo_messages R obj);
    [reflexivity |].
  rewrite <- app_assoc. reflexivity.
Qed.

Lemma Lmer_fit_warnings_witness :
  exists obj,
    Lmer.model_obj (self (snd (Lmer.fit Sample.renv
                                 Sample.lmer_ranked_factors
                                 (Sample.lmer_world "gaussian")))) = Some obj
    /\ Lmer.warnings (self (snd (Lmer.fit Sample.renv
                                   Sample.lmer_ranked_factors
                                   (Sample.lmer_world "gaussian"))))
       = match REnv.optinfo_warnings Sample.renv obj
               ++ REnv.optinfo_messages Sample.renv obj
         with
         | [] => []
         | said =>
             Lmer.warnings (self (Sample.lmer_world "gaussian"))
             ++ lmer_rank_warnings Sample.lmer_ranked_factors ++ said
         end.
Proof.
  apply (Lmer_fit_warnings Sample.renv Sample.lmer_ranked_factors
           (Sample.lmer_world "gaussian") None).
  vm_compute. reflexivity.
Defined.

(** X29.  [Lmer.fit] never computes residuals.  For a model made by
    [Lmer(formula, data, family)], a fit that returns leaves the
    attribute [resid] at [None] and puts a column [residuals] of missing
    values in the data; [fits] holds the fitted values of R, which are
    also the column [fits] of the data when there is one for each row.
    The data are otherwise the data the model was made with. *)
Theorem Lmer_fit_residuals_are_missing (R : REnv.t) (a : Lmer.fit_args)
  (formula0 : string) (data0 : DataFrame) (family0 : string)
  (m0 : Lmer.t (REnv.robj R)) (g : REnv.rng R) (l : list event)
  (r : option Table) :
  Lmer.init formula0 data0 family0 = Ok m0 ->
  fst (Lmer.fit R a {| self := m0; gen := g; log := l |}) = Ok r ->
  exists obj fv,
    Lmer.model_obj
      (self (snd (Lmer.fit R a {| self := m0; gen := g; log := l |})))
    = Some obj
    /\ REnv.fitted R obj = Some fv
    /\ Lmer.fits
         (self (snd (Lmer.fit R a {| self := m0; gen := g; log := l |})))
       = Some fv
    /\ Lmer.resid
         (self (snd (Lmer.fit R a {| self := m0; gen := g; log := l |})))
       = None
    /\ Lmer.data
         (self (snd (Lmer.fit R a {| self := m0; gen := g; log := l |})))
       = let d := set_col "residuals" (repeat NaN (nrows data0)) data0 in
         if Nat.eqb (List.length fv) (nrows data0)
         then set_col "fits" (map Num fv) d else d.
Proof.
  intros Hinit Hok.
  assert (Hm0 : Lmer.resid m0 = None /\ Lmer.data m0 = data0).
  { unfold Lmer.init in Hinit.
    destruct (negb _); [discriminate |].
    inversion Hinit. split; reflexivity. }
  destruct Hm0 as (Hres0 & Hdata0).
  destruct (Lmer.fit R a _) as [res w'] eqn:Hfit. cbn in Hok. subst res.
  cbn [snd] in *.
  apply Lmer_fit_ok in Hfit. cbn [self] in Hfit.
  destruct Hfit as (dat & w1 & obj & wa & wb & df & perms & tb & fv & _ & _
                    & _ & _ & _ & _ & _ & Hobj & _ & _ & _ & _ & _ & _
                    & Hres & Hdata & Hfv & Hfits & _).
  exists obj, fv.
  split; [exact Hobj |]. split; [exact Hfv |]. split; [exact Hfits |].
  split; [rewrite Hres; exact Hres0 |].
  rewrite (Hdata Hres0), Hdata0. reflexivity.
Qed.

Lemma Lmer_fit_residuals_are_missing_witness :
  exists obj fv,
    Lmer.model_obj
      (self (snd (Lmer.fit Sample.renv Sample.lmer_quiet
                    {| self := Sample.new_lmer "gaussian"; gen := 1;
                       log := [] |})))
    = Some obj
    /\ REnv.fitted Sample.renv obj = Some fv
    /\ Lmer.fits
         (self (snd (Lmer.fit Sample.renv Sample.lmer_quiet
                       {| self := Sample.new_lmer "gaussian"; gen := 1;
                          log := [] |})))
       = Some fv
    /\ Lmer.resid
         (self (snd (Lmer.fit Sample.renv Sample.lmer_quiet
                       {| self := Sample.new_lmer "gaussian"; gen := 1;
                          log := [] |})))
       = None
    /\ Lmer.data
         (self (snd (Lmer.fit Sample.renv Sample.lmer_quiet
                       {| self := Sample.new_lmer "gaussian"; gen := 1;
                          log := [] |})))
       = let d := set_col "residuals"
                    (repeat NaN (nrows Sample.observations))
                    Sample.observations in
         if Nat.eqb (List.length fv) (nrows Sample.observations)
         then set_col "fits" (map Num fv) d else d.
Proof.
  apply (Lmer_fit_residuals_are_missing Sample.renv Sample.lmer_quiet
           "Y ~ X + (1|site)" Sample.observations "gaussian"
           (Sample.new_lmer "gaussian") 1 [] None);
    [vm_compute; reflexivity | vm_compute; reflexivity].
Defined.

(** X30.  With [rank=True], an [Lmer.fit] that returns has fitted R on
    the ranks of the data of the model as [to_ranks_by_group] makes them
    from [rank_group], the formula and [rank_exclude_cols]: the frame
    with the factors that [_make_factors] built is not what R is given,
    although the factors are recorded on the model.  The model is not
    marked as holding ranked data. *)
Theorem Lmer_fit_ranks_the_data (R : REnv.t) (a : Lmer.fit_args)
  (w : World (REnv.rng R) (Lmer.t (REnv.robj R))) (r : option Table) :
  fst (Lmer.fit R a w) = Ok r ->
  Lmer.rank a = true ->
  exists ranked obj,
    REnv.to_ranks_by_group R (Lmer.data (self w)) (Lmer.rank_group a)
      (Lmer.formula (self w)) (Lmer.rank_exclude_cols a) = Some ranked
    /\ Lmer.r_fit R (Lmer.family (self w)) (Lmer.formula (self w))
         (REnv.as_rdata R ranked) (Lmer.REML a) = Some obj
    /\ Lmer.model_obj (self (snd (Lmer.fit R a w))) = Some obj
    /\ (Lmer.truthy_factors (Lmer.arg_factors a) = true ->
        Lmer.factors (self (snd (Lmer.fit R a w))) = Lmer.arg_factors a)
    /\ Lmer.ranked_data (self (snd (Lmer.fit R a w)))
       = Lmer.ranked_data (self w).
Proof.
  intros Hok Hrank.
  pose proof (Lmer_fit_keeps_description R a (Lmer.family (self w))
                (Lmer.formula (self w)) (Lmer.ranked_data (self w)) w)
    as Hkeep.
  destruct (Lmer.fit R a w) as [res w'] eqn:Hfit. cbn in Hok. subst res.
  cbn [snd] in *.
  destruct Hkeep as (_ & _ & Hrk); [auto |].
  apply Lmer_fit_ok in Hfit.
  destruct Hfit as (dat & w1 & obj & wa & wb & df & perms & tb & fv & Hprep
                    & Hrfit & _ & _ & _ & _ & _ & Hobj & _ & _ & _ & _
                    & Hfac & _).
  apply Lmer_prepare_data_ok in Hprep.
  destruct Hprep as (_ & _ & _ & _ & _ & _ & Hfac1 & Hranked).
  destruct (Hranked Hrank) as (ranked & Hrk1 & ->).
  cbn [self Lmer.set_params Lmer.data Lmer.formula] in Hrk1.
  exists ranked, obj.
  split; [exact Hrk1 |]. split; [exact Hrfit |]. split; [exact Hobj |].
  split; [| exact Hrk].
  intros Ht. rewrite Hfac. apply Hfac1, Ht.
Qed.

Lemma Lmer_fit_ranks_the_data_witness :
  exists ranked obj,
    REnv.to_ranks_by_group Sample.renv
      (Lmer.data (self (Sample.lmer_world "gaussian")))
      (Lmer.rank_group Sample.lmer_ranked_factors)
      (Lmer.formula (self (Sample.lmer_world "gaussian")))
      (Lmer.rank_exclude_cols Sample.lmer_ranked_factors) = Some ranked
    /\ Lmer.r_fit Sample.renv
         (Lmer.family (self (Sample.lmer_world "gaussian")))
         (Lmer.formula (self (Sample.lmer_world "gaussian")))
         (REnv.as_rdata Sample.renv ranked)
         (Lmer.REML Sample.lmer_ranked_factors) = Some obj
    /\ Lmer.model_obj
         (self (snd (Lmer.fit Sample.renv Sample.lmer_ranked_factors
                       (Sample.lmer_world "gaussian")))) = Some obj
    /\ (Lmer.truthy_factors (Lmer.arg_factors Sample.lmer_ranked_factors)
        = true ->
        Lmer.factors
          (self (snd (Lmer.fit Sample.renv Sample.lmer_ranked_factors
                        (Sample.lmer_world "gaussian"))))
        = Lmer.arg_factors Sample.lmer_ranked_factors)
    /\ Lmer.ranked_data
         (self (snd (Lmer.fit Sample.renv Sample.lmer_ranked_factors
                       (Sample.lmer_world "gaussian"))))
       = Lmer.ranked_data (self (Sample.lmer_world "gaussian")).
Proof.
  apply (Lmer_fit_ranks_the_data Sample.renv Sample.lmer_ranked_factors
           (Sample.lmer_world "gaussian") None);
    [vm_compute; reflexivity | reflexivity].
Defined.
